(** * A shallow embedding of the VariBAD / hypernetwork meta-RL code base

    The development follows the Python sources:
    - [environments/navigation/gridworld.py]  (module [GridNavi]),
    - [environments/wrappers.py]              (modules [VariBadWrapper], [TimeLimitMask]),
    - [utils/helpers.py]                      (module [Helpers]),
    - [metalearner.py]                        (module [MetaLearner]).

    Python objects are records, methods are computations in a state-and-exception
    monad, [dict]s are [gmap]s, numpy vectors are lists of rationals.  Floating
    point numbers are idealised as rationals ([Q]); integers are [Z]. *)

From Stdlib Require Import ZArith QArith Qround Lia Lqa Bool List.
From stdpp Require Import base tactics option list gmap strings.

Open Scope Z_scope.

(** ** Python preliminaries *)

Module Py.

(** The exception classes the modelled code raises or catches. *)
Inductive exn : Type :=
| AssertionError
| AttributeError
| IndexError
| NotImplementedError
| RuntimeError
| TypeError
| ValueError.

Global Instance exn_eq_dec : EqDecision exn.
Proof. solve_decision. Defined.

(** Outcome of a method call on an object whose state has type [S]: either it
    returns a value, or it raises.  In both cases the mutations performed so
    far on the object persist, so both carry the object's state. *)
Inductive result (S A : Type) : Type :=
| Ok (s : S) (a : A)
| Raise (s : S) (e : exn).
Global Arguments Ok {S A} s a.
Global Arguments Raise {S A} s e.

Definition state_of {S A} (r : result S A) : S :=
  match r with Ok s _ => s | Raise s _ => s end.

Definition value_of {S A} (r : result S A) : option A :=
  match r with Ok _ a => Some a | Raise _ _ => None end.

Definition raised {S A} (r : result S A) : option exn :=
  match r with Ok _ _ => None | Raise _ e => Some e end.

(** A method: a state transformer that may raise. *)
Definition M (S A : Type) : Type := S → result S A.

Definition ret {S A} (a : A) : M S A := λ s, Ok s a.

Definition bind {S A B} (m : M S A) (k : A → M S B) : M S B :=
  λ s, match m s with
       | Ok s' a => k a s'
       | Raise s' e => Raise s' e
       end.

Definition raise {S A} (e : exn) : M S A := λ s, Raise s e.

Definition get {S} : M S S := λ s, Ok s s.
Definition gets {S A} (f : S → A) : M S A := λ s, Ok s (f s).
Definition modify {S} (f : S → S) : M S unit := λ s, Ok (f s) tt.

(** [assert c] *)
Definition assert {S} (c : bool) : M S unit :=
  if c then ret tt else raise AssertionError.

(** [try: m  except e: h] *)
Definition try_except {S A} (m : M S A) (e : exn) (h : M S A) : M S A :=
  λ s, match m s with
       | Ok s' a => Ok s' a
       | Raise s' e' => if decide (e' = e) then h s' else Raise s' e'
       end.

(** Running a method of a component stored inside a larger object. *)
Definition lift {S T A} (proj : T → S) (upd : S → T → T) (m : M S A) : M T A :=
  λ t, match m (proj t) with
       | Ok s a => Ok (upd s t) a
       | Raise s e => Raise (upd s t) e
       end.

(** [for x in xs: body x] *)
Fixpoint for_each {S A} (xs : list A) (body : A → M S unit) : M S unit :=
  match xs with
  | [] => ret tt
  | x :: xs' => bind (body x) (λ _, for_each xs' body)
  end.

(** [l.remove(x)]: drops the first occurrence, [ValueError] when absent. *)
Fixpoint list_remove `{EqDecision A} (x : A) (l : list A) : option (list A) :=
  match l with
  | [] => None
  | y :: l' => if decide (x = y) then Some l'
               else cons y <$> list_remove x l'
  end.

(** [range(start, stop, step)] for a positive or negative step; a zero step is
    a [ValueError] and is handled by the callers. *)
Definition range3 (start stop step : Z) : list Z :=
  let n := if 0 <? step then (stop - start + step - 1) / step
           else (start - stop - step - 1) / (- step) in
  (λ i : nat, start + Z.of_nat i * step) <$> seq 0 (Z.to_nat n).

Definition range (n : Z) : list Z := range3 0 n 1.

(** [itertools.product(xs, repeat=2)] *)
Definition product2 {A} (xs : list A) : list (A * A) :=
  x ← xs; y ← xs; [(x, y)].

(** Python's builtin [sum] over a float vector: a left fold from 0. *)
Definition sum (l : list Q) : Q := fold_left Qplus l 0%Q.

(** [np.ceil] on one entry. *)
Definition ceil (x : Q) : Q := inject_Z (Qceiling x).

End Py.

Import Py.

(** The methods form a monad; stdpp's [x ← m; k] and [m; k] are used for
    sequencing. *)
Global Instance M_ret {S} : MRet (Py.M S) := λ A, @Py.ret S A.
Global Instance M_bind {S} : MBind (Py.M S) := λ A B k m, @Py.bind S A B m k.

(** ** Gym vocabulary shared by the environments and the wrappers *)

Module Gym.

(** Values stored in an [info] dict. *)
Inductive value : Type :=
| VBool (b : bool)
| VInt (z : Z)
| VVec (v : list Q).

(** An observation is a numpy vector. *)
Definition observation : Type := list Q.

(** The [info] dict returned by [step]. *)
Abbreviation info_dict := (gmap string value).

(** What [env.step] returns: [(obs, reward, done, info)]. *)
Definition step_result : Type := observation * Q * bool * info_dict.

End Gym.

Import Gym.

(** ** environments/navigation/gridworld.py *)

Module GridNavi.

Abbreviation pos := (Z * Z)%type.

Definition pos_to_obs (p : pos) : observation := [inject_Z p.1; inject_Z p.2].

Record t : Type := mk {
  num_cells : Z;
  num_states : Z;
  new_state_r : option Q;
  distance_reward : bool;
  show_goal_at_start : bool;
  _max_episode_steps : Z;
  step_count : Z;
  hall_with_door_every : option Z;
  stuck : bool;
  task_dim : Z;
  belief_dim : Z;
  starting_state : option pos;
  possible_goals : list pos;
  goals_unchecked : gset pos;
  num_tasks : Z;
  _env_state : pos;
  _goal : pos;
  _belief_state : list Q;
  (** Python's module-level [random] generator: the raw draws still to come
      and how many were consumed. *)
  rand_src : nat → nat;
  rand_pos : nat
}.

Definition set_step_count (v : Z) (g : t) : t :=
  mk g.(num_cells) g.(num_states) g.(new_state_r) g.(distance_reward)
     g.(show_goal_at_start) g.(_max_episode_steps) v g.(hall_with_door_every)
     g.(stuck) g.(task_dim) g.(belief_dim) g.(starting_state) g.(possible_goals)
     g.(goals_unchecked) g.(num_tasks) g.(_env_state) g.(_goal) g.(_belief_state)
     g.(rand_src) g.(rand_pos).

Definition set_possible_goals (v : list pos) (g : t) : t :=
  mk g.(num_cells) g.(num_states) g.(new_state_r) g.(distance_reward)
     g.(show_goal_at_start) g.(_max_episode_steps) g.(step_count) g.(hall_with_door_every)
     g.(stuck) g.(task_dim) g.(belief_dim) g.(starting_state) v
     g.(goals_unchecked) g.(num_tasks) g.(_env_state) g.(_goal) g.(_belief_state)
     g.(rand_src) g.(rand_pos).

Definition set_goals_unchecked (v : gset pos) (g : t) : t :=
  mk g.(num_cells) g.(num_states) g.(new_state_r) g.(distance_reward)
     g.(show_goal_at_start) g.(_max_episode_steps) g.(step_count) g.(hall_with_door_every)
     g.(stuck) g.(task_dim) g.(belief_dim) g.(starting_state) g.(possible_goals)
     v g.(num_tasks) g.(_env_state) g.(_goal) g.(_belief_state)
     g.(rand_src) g.(rand_pos).

Definition set_env_state (v : pos) (g : t) : t :=
  mk g.(num_cells) g.(num_states) g.(new_state_r) g.(distance_reward)
     g.(show_goal_at_start) g.(_max_episode_steps) g.(step_count) g.(hall_with_door_every)
     g.(stuck) g.(task_dim) g.(belief_dim) g.(starting_state) g.(possible_goals)
     g.(goals_unchecked) g.(num_tasks) v g.(_goal) g.(_belief_state)
     g.(rand_src) g.(rand_pos).

Definition set_goal (v : pos) (g : t) : t :=
  mk g.(num_cells) g.(num_states) g.(new_state_r) g.(distance_reward)
     g.(show_goal_at_start) g.(_max_episode_steps) g.(step_count) g.(hall_with_door_every)
     g.(stuck) g.(task_dim) g.(belief_dim) g.(starting_state) g.(possible_goals)
     g.(goals_unchecked) g.(num_tasks) g.(_env_state) v g.(_belief_state)
     g.(rand_src) g.(rand_pos).

Definition set_belief_state (v : list Q) (g : t) : t :=
  mk g.(num_cells) g.(num_states) g.(new_state_r) g.(distance_reward)
     g.(show_goal_at_start) g.(_max_episode_steps) g.(step_count) g.(hall_with_door_every)
     g.(stuck) g.(task_dim) g.(belief_dim) g.(starting_state) g.(possible_goals)
     g.(goals_unchecked) g.(num_tasks) g.(_env_state) g.(_goal) v
     g.(rand_src) g.(rand_pos).

Definition set_rand_pos (v : nat) (g : t) : t :=
  mk g.(num_cells) g.(num_states) g.(new_state_r) g.(distance_reward)
     g.(show_goal_at_start) g.(_max_episode_steps) g.(step_count) g.(hall_with_door_every)
     g.(stuck) g.(task_dim) g.(belief_dim) g.(starting_state) g.(possible_goals)
     g.(goals_unchecked) g.(num_tasks) g.(_env_state) g.(_goal) g.(_belief_state)
     g.(rand_src) v.

(** [random.choice(seq)]: a uniformly drawn element, [IndexError] on an empty
    sequence.  The raw draw is reduced modulo the length. *)
Definition random_choice {A} (seq : list A) : M t A :=
  λ g, match seq !! (g.(rand_src) g.(rand_pos) `mod` length seq)%nat with
       | Some x => Ok (set_rand_pos (S g.(rand_pos)) g) x
       | None => Raise g IndexError
       end.

(** Indexing one axis of a torch tensor of extent [n]: negative indices count
    from the end, anything else out of range is an [IndexError]. *)
Definition wrap_index (n i : Z) : option Z :=
  if (0 <=? i) && (i <? n) then Some i
  else if (- n <=? i) && (i <? 0) then Some (i + n)
  else None.

(** [task_to_id]: [mat[goals[0], goals[1]]] where [mat] is
    [arange(num_cells ** 2).reshape((num_cells, num_cells))]. *)
Definition task_to_id (goals : pos) : M t Z :=
  n ← gets num_cells;
  if n <? 0 then raise RuntimeError
  else match wrap_index n goals.1, wrap_index n goals.2 with
       | Some i, Some j => ret (i * n + j)
       | _, _ => raise IndexError
       end.

Definition _reset_belief : M t (list Q) :=
  n ← gets num_cells;
  modify (set_belief_state (replicate (Z.to_nat (n ^ 2)) 0%Q));;
  pgs ← gets possible_goals;
  for_each pgs (λ pg,
    idx ← task_to_id pg;
    modify (λ g, set_belief_state
      (<[Z.to_nat idx := (1 / inject_Z (Z.of_nat (length pgs)))%Q]> g.(_belief_state)) g));;
  gets _belief_state.

Definition reset_task (task : option pos) : M t pos :=
  match task with
  | None =>
      pgs ← gets possible_goals;
      goal ← random_choice pgs;
      modify (set_goal goal)
  | Some task => modify (set_goal task)
  end;;
  _reset_belief;;
  modify (λ g, set_goals_unchecked (list_to_set g.(possible_goals)) g);;
  gets _goal.

Definition update_belief (state : pos) (action : Z) : M t (list Q) :=
  goal ← gets _goal;
  let on_goal := (state.1 =? goal.1) && (state.2 =? goal.2) in
  (if (action =? 5) || on_goal then
     (* hint *)
     pgs ← gets possible_goals;
     match list_remove goal pgs with
     | None => raise ValueError
     | Some possible_goals =>
         i ← random_choice (Py.range (Z.of_nat (length possible_goals)));
         match possible_goals !! Z.to_nat i with
         | None => raise IndexError
         | Some wrong_hint =>
             modify (λ g, set_belief_state ((λ x, x * 0)%Q <$> g.(_belief_state)) g);;
             ig ← task_to_id goal;
             modify (λ g, set_belief_state (<[Z.to_nat ig := 0.5%Q]> g.(_belief_state)) g);;
             iw ← task_to_id wrong_hint;
             modify (λ g, set_belief_state (<[Z.to_nat iw := 0.5%Q]> g.(_belief_state)) g)
         end
     end
   else
     i ← task_to_id state;
     modify (λ g, set_belief_state (<[Z.to_nat i := 0%Q]> g.(_belief_state)) g);;
     modify (λ g, set_belief_state (Py.ceil <$> g.(_belief_state)) g);;
     modify (λ g, let s := Py.sum g.(_belief_state) in
                  set_belief_state ((λ x, x / s)%Q <$> g.(_belief_state)) g));;
  gets _belief_state.

Definition get_task : M t pos := gets _goal.

Definition get_belief : M t (list Q) := gets _belief_state.

Definition reset : M t observation :=
  modify (set_step_count 0);;
  start ← gets starting_state;
  match start with
  | None =>
      pgs ← gets possible_goals;
      s ← random_choice pgs;
      modify (set_env_state s)
  | Some s => modify (set_env_state s)
  end;;
  s ← gets _env_state;
  ret (pos_to_obs s).

(** Moving the agent between states. *)
Definition state_transition (action : Z) : M t pos :=
  g ← get;
  let '(x, y) := g.(_env_state) in
  let n := g.(num_cells) in
  if bool_decide (g.(hall_with_door_every) ≠ None) && (y =? 1)
     && (g.(stuck) || negb (action =? 3))
  then ret (x, y)
  else
    (if action =? 1 then
       match g.(hall_with_door_every) with
       | None => modify (set_env_state (x, Z.min (y + 1) (n - 1)))
       | Some _ =>
           if bool_decide ((x, y + 1) ∈ g.(possible_goals))
           then modify (set_env_state (x, y + 1))
           else ret tt
       end
     else if action =? 2 then modify (set_env_state (Z.min (x + 1) (n - 1), y))
     else if action =? 3 then modify (set_env_state (x, Z.max (y - 1) 0))
     else if action =? 4 then modify (set_env_state (Z.max (x - 1) 0, y))
     else ret tt);;
    gets _env_state.

(** [spaces.Discrete(5).contains(action)] *)
Definition action_space_contains (action : Z) : bool :=
  (0 <=? action) && (action <? 5).

Definition compute_reward (checked_potential_goal : bool) (g : t) : Q :=
  let '(x, y) := g.(_env_state) in
  let '(gx, gy) := g.(_goal) in
  if (x =? gx) && (y =? gy) then 1%Q
  else match g.(new_state_r) with
       | Some r => if checked_potential_goal then r
                   else if g.(distance_reward)
                        then (inject_Z (- Z.abs (x - gx) - Z.abs (y - gy)) / inject_Z g.(num_cells))%Q
                        else (-0.1)%Q
       | None => if g.(distance_reward)
                 then (inject_Z (- Z.abs (x - gx) - Z.abs (y - gy)) / inject_Z g.(num_cells))%Q
                 else (-0.1)%Q
       end.

Definition step (action : Z) : M t step_result :=
  Py.assert (action_space_contains action);;
  (* perform state transition *)
  state ← state_transition action;
  (* keep track of potential goals checked *)
  r ← gets new_state_r;
  checked_potential_goal ←
    (if r is Some _ then
       unchecked ← gets goals_unchecked;
       if bool_decide (state ∈ unchecked)
       then modify (set_goals_unchecked (unchecked ∖ {[state]}));; ret true
       else ret false
     else ret false);
  (* check if maximum step limit is reached *)
  modify (λ g, set_step_count (g.(step_count) + 1) g);;
  g ← get;
  let done := bool_decide (g.(_max_episode_steps) ≤ g.(step_count)) in
  (* compute reward *)
  let reward := compute_reward checked_potential_goal g in
  (* update ground-truth belief *)
  update_belief g.(_env_state) action;;
  task ← get_task;
  task_id ← task_to_id task;
  belief ← get_belief;
  let info : info_dict :=
    <["task" := VVec (pos_to_obs task)]>
      (<["task_id" := VInt task_id]> (<["belief" := VVec belief]> ∅)) in
  g ← get;
  state ←
    (if g.(show_goal_at_start) then
       start ← gets starting_state;
       match start with
       | None => raise AssertionError
       | Some s =>
           e ← gets _env_state;
           if (e.1 =? s.1) && (e.2 =? s.2) then gets _goal else gets _env_state
       end
     else gets _env_state);
  ret (pos_to_obs state, reward, done, info).

(** The goals on the perimeter of the grid, minus the start. *)
Definition ring_goals (num_cells : Z) (s : pos) : list pos :=
  let perimeter : gset pos :=
    foldl (λ acc offset, acc ∪ {[ (0, offset) ]} ∪ {[ (num_cells - 1, offset) ]}
                             ∪ {[ (offset, num_cells - 1) ]} ∪ {[ (offset, 0) ]})
          ∅ (Py.range num_cells) in
  elements (if bool_decide (s ∈ perimeter) then perimeter ∖ {[ s ]} else perimeter).

(** Goals can be anywhere except on the start and immediately around it. *)
Definition open_goals (num_cells : Z) (start : option pos) : list pos :=
  let all := Py.product2 (Py.range num_cells) in
  match start with
  | None => all
  | Some (sx, sy) =>
      foldl (λ goals pos, default goals (list_remove pos goals)) all
            (x_offset ← [-1; 0; 1]; y_offset ← [-1; 0; 1]; [(sx + x_offset, sy + y_offset)])
  end.

(** The constructor.  [rand] is the state of Python's [random] module. *)
Definition __init__ (num_cells num_steps : Z) (starting_state : option pos)
    (ring : bool) (hall_with_door_every : option Z) (new_state_r : option Q)
    (stuck distance_reward show_goal_at_start : bool)
    (rand : nat → nat) (rand_consumed : nat) : result t unit :=
  let self (goals : list pos) : t :=
    mk num_cells (num_cells ^ 2) new_state_r distance_reward show_goal_at_start
       num_steps 0 hall_with_door_every stuck 2 (num_cells ^ 2) starting_state
       goals (list_to_set goals) (num_cells ^ 2) (0, 0) (0, 0) [] rand rand_consumed in
  let finish : M t unit :=
    (* reset the environment state *)
    (match starting_state with
     | None => pgs ← gets possible_goals; s ← random_choice pgs; modify (set_env_state s)
     | Some s => modify (set_env_state s)
     end);;
    (* reset the goal *)
    reset_task None;;
    (* reset the belief *)
    _reset_belief;;
    ret tt in
  let unbuilt := self [] in
  if bool_decide (starting_state = None) && (ring || bool_decide (hall_with_door_every ≠ None))
  then Raise unbuilt AssertionError
  else if ring then
    match hall_with_door_every, starting_state with
    | Some _, _ => Raise unbuilt AssertionError
    | None, Some s => finish (self (ring_goals num_cells s))
    | None, None => Raise unbuilt AssertionError
    end
  else
    match hall_with_door_every, starting_state with
    | Some h, Some s =>
        if negb (s.2 =? 0) then Raise unbuilt AssertionError
        else if h =? 0 then Raise unbuilt ValueError
        else finish (self ((λ offset, (offset, 1)) <$> Py.range3 h num_cells h))
    | Some h, None => Raise unbuilt AssertionError
    | None, _ => finish (self (open_goals num_cells starting_state))
    end.

End GridNavi.

(** ** gridworld.py: task ids and one-hot codes *)

Module GridNaviTensor.
Import GridNavi.

(** [x.long()]: a float to an integer, rounding towards zero. *)
Definition long (x : Q) : Z := Qnum x ÷ Z.pos (Qden x).

(** A batch of positions: a tensor of shape [(B, 2)]. *)
Definition positions : Type := list (Q * Q).

(** [torch.arange(0, num_cells ** 2).long().reshape((num_cells, num_cells))] *)
Definition mat (n : Z) : list (list Z) :=
  (λ i, (λ j, i * n + j) <$> Py.range n) <$> Py.range n.

(** [task_to_id] on a batch of goals: [mat[goals[:, 0], goals[:, 1]]], one
    class per row. *)
Definition task_to_id (goals : positions) : M t (list Z) :=
  n ← gets num_cells;
  if n <? 0 then raise RuntimeError
  else
    match mapM (λ goal : Q * Q,
                  i ← wrap_index n (long goal.1);
                  j ← wrap_index n (long goal.2);
                  row ← mat n !! Z.to_nat i;
                  row !! Z.to_nat j) goals with
    | Some classes => ret classes
    | None => raise IndexError
    end.

(** [np.where(c == mat)]: the row and column indices of the matching entries,
    in row-major order. *)
Definition where_eq (c : Z) (m : list (list Z)) : list (nat * nat) :=
  mjoin (imap (λ i row, mjoin (imap (λ j x, if decide (c = x) then [(i, j)] else []) row)) m).

Definition id_to_task (classes : list Z) : M t positions :=
  n ← gets num_cells;
  if n <? 0 then raise RuntimeError
  else
    (* goals[i] = (pos[0][0], pos[1][0]) *)
    match mapM (λ c, head (where_eq c (mat n))) classes with
    | Some goals =>
        ret ((λ p : nat * nat, (inject_Z (Z.of_nat p.1), inject_Z (Z.of_nat p.2))) <$> goals)
    | None => raise IndexError
    end.

(** [y_onehot.zero_(); y_onehot.scatter_(1, cl, 1)] on one row. *)
Definition scatter_one (nb_digits : Z) (c : Z) : option (list Q) :=
  if (0 <=? c) && (c <? nb_digits)
  then Some (<[Z.to_nat c := 1%Q]> (replicate (Z.to_nat nb_digits) 0%Q))
  else None.

Definition goal_to_onehot_id (pos : positions) : M t (list (list Q)) :=
  cl ← task_to_id pos;
  n ← gets num_cells;
  let nb_digits := n ^ 2 in
  match mapM (scatter_one nb_digits) cl with
  | Some y_onehot => ret y_onehot
  | None => raise RuntimeError
  end.

(** [row.argmax()]: the index of the first maximal entry; a row without
    entries has none. *)
Fixpoint argmax_from (best : Q) (best_i i : nat) (row : list Q) : nat :=
  match row with
  | [] => best_i
  | x :: row' =>
      if Qle_bool x best then argmax_from best best_i (S i) row'
      else argmax_from x i (S i) row'
  end.

Definition argmax (row : list Q) : option nat :=
  match row with
  | [] => None
  | x :: row' => Some (argmax_from x 0 1 row')
  end.

(** [p.argmax(dim=1)] followed by [id_to_task]. *)
Definition onehot_to_goal (p : list (list Q)) : M t positions :=
  match mapM argmax p with
  | Some classes => id_to_task (Z.of_nat <$> classes)
  | None => raise IndexError
  end.

(** [pos] is a list of tensors or one tensor. *)
Definition onehot_id_to_goal (pos : list (list (list Q)) + list (list Q))
  : M t (list positions + positions) :=
  match pos with
  | inl ps =>
      foldr (λ p acc, goal ← onehot_to_goal p; goals ← acc; ret (goal :: goals))
            (ret []) ps ≫= λ goals, ret (inl goals)
  | inr p => goal ← onehot_to_goal p; ret (inr goal)
  end.

End GridNaviTensor.

(** ** The environment collaborator interface

    What the wrappers call on the wrapped [env] object.  [E] is the state of
    that object (including everything it wraps), [A] the action type and [T]
    the task type.  A missing attribute is [None] (Python raises
    [AttributeError] on access). *)

Module Env.

(** How [reset_task] is called: [reset_task()] or [reset_task(task)], where
    [task] may itself be Python's [None]. *)
Inductive task_call (T : Type) : Type :=
| NoArg
| Arg (task : option T).
Global Arguments NoArg {T}.
Global Arguments Arg {T} task.

(** Observation spaces, as far as the wrapper inspects them. *)
Inductive space : Type :=
| Box (shape : list Z) (low high : list Q)
| OtherSpace.

Record ops (E A T : Type) : Type := mk_ops {
  step : A → M E step_result;
  reset : M E observation;
  unwrapped_reset : M E observation;
  reset_task : task_call T → M E unit;
  observation_space : E → space;
  _max_episode_steps : E → option Z;
  unwrapped_max_episode_steps : E → option Z;
  set_unwrapped_max_episode_steps : Z → E → E;
  max_path_length : E → option Z;
  curr_path_length : E → option Z;
  _elapsed_steps : E → option Z
}.
Global Arguments mk_ops {E A T}.
Global Arguments step {E A T}.
Global Arguments reset {E A T}.
Global Arguments unwrapped_reset {E A T}.
Global Arguments reset_task {E A T}.
Global Arguments observation_space {E A T}.
Global Arguments _max_episode_steps {E A T}.
Global Arguments unwrapped_max_episode_steps {E A T}.
Global Arguments set_unwrapped_max_episode_steps {E A T}.
Global Arguments max_path_length {E A T}.
Global Arguments curr_path_length {E A T}.
Global Arguments _elapsed_steps {E A T}.

(** Reading an attribute inside a method. *)
Definition getattr {E X} (attr : E → option X) : M E X :=
  λ e, match attr e with
       | Some x => Ok e x
       | None => Raise e AttributeError
       end.

End Env.

(** [GridNavi] as such a collaborator (the bare environment: [env.unwrapped]
    is the environment itself, and it has neither [max_path_length],
    [curr_path_length] nor [_elapsed_steps]). *)
Definition GridNavi_ops : Env.ops GridNavi.t Z GridNavi.pos :=
  Env.mk_ops
    GridNavi.step
    GridNavi.reset
    GridNavi.reset
    (λ c, match c with
          | Env.NoArg => GridNavi.reset_task None
          | Env.Arg task => GridNavi.reset_task task
          end;; mret tt)
    (λ g, match g.(GridNavi.hall_with_door_every) with
          | None => Env.Box [2] [0%Q; 0%Q]
                      [inject_Z (g.(GridNavi.num_cells) - 1); inject_Z (g.(GridNavi.num_cells) - 1)]
          | Some _ => Env.Box [2] [0%Q; 0%Q] [inject_Z (g.(GridNavi.num_cells) - 1); 1%Q]
          end)
    (λ g, Some g.(GridNavi._max_episode_steps))
    (λ g, Some g.(GridNavi._max_episode_steps))
    (λ _ g, g)
    (λ _, None)
    (λ _, None)
    (λ _, None).

(** ** environments/wrappers.py *)

Module TimeLimitMask.

Section TimeLimitMask.
Context {E A T : Type} (env : Env.ops E A T).

Definition step (action : A) : M E step_result :=
  '(obs, rew, done, info) ← env.(Env.step) action;
  bad ← (if done : bool then
           m ← Env.getattr env.(Env._max_episode_steps);
           e ← Env.getattr env.(Env._elapsed_steps);
           mret (m =? e)
         else mret false);
  let info : info_dict := if bad : bool then <["bad_transition" := VBool true]> info else info in
  mret (obs, rew, done, info).

Definition reset : M E observation := env.(Env.reset).

(** The wrapper object seen as an environment again; every other attribute is
    forwarded to the wrapped environment by [__getattr__]. *)
Definition ops : Env.ops E A T :=
  Env.mk_ops step reset env.(Env.unwrapped_reset) env.(Env.reset_task)
    env.(Env.observation_space) env.(Env._max_episode_steps)
    env.(Env.unwrapped_max_episode_steps) env.(Env.set_unwrapped_max_episode_steps)
    env.(Env.max_path_length) env.(Env.curr_path_length) env.(Env._elapsed_steps).

End TimeLimitMask.

End TimeLimitMask.

Module VariBadWrapper.

(** Calls made on the wrapped environment (ghost history, used to count the
    resets a [step] performs). *)
Inductive env_call : Type :=
| CallStep
| CallReset
| CallUnwrappedReset
| CallResetTask.

Global Instance env_call_eq_dec : EqDecision env_call.
Proof. solve_decision. Defined.

Record t (E : Type) : Type := mk {
  env : E;
  env_type : string;
  add_done_info : bool;
  observation_space : Env.space;
  episodes_per_task : Z;
  episode_count : Z;
  step_count_bamdp : Z;
  horizon_bamdp : Z;
  done_mdp : bool;
  calls : list env_call
}.
Global Arguments mk {E}.
Global Arguments env {E}.
Global Arguments env_type {E}.
Global Arguments add_done_info {E}.
Global Arguments observation_space {E}.
Global Arguments episodes_per_task {E}.
Global Arguments episode_count {E}.
Global Arguments step_count_bamdp {E}.
Global Arguments horizon_bamdp {E}.
Global Arguments done_mdp {E}.
Global Arguments calls {E}.

Section VariBadWrapper.
Context {E A T : Type} (ops : Env.ops E A T).

Definition set_env (v : E) (w : t E) : t E :=
  mk v w.(env_type) w.(add_done_info) w.(observation_space) w.(episodes_per_task)
     w.(episode_count) w.(step_count_bamdp) w.(horizon_bamdp) w.(done_mdp) w.(calls).

Definition set_episode_count (v : Z) (w : t E) : t E :=
  mk w.(env) w.(env_type) w.(add_done_info) w.(observation_space) w.(episodes_per_task)
     v w.(step_count_bamdp) w.(horizon_bamdp) w.(done_mdp) w.(calls).

Definition set_step_count_bamdp (v : Z) (w : t E) : t E :=
  mk w.(env) w.(env_type) w.(add_done_info) w.(observation_space) w.(episodes_per_task)
     w.(episode_count) v w.(horizon_bamdp) w.(done_mdp) w.(calls).

Definition set_done_mdp (v : bool) (w : t E) : t E :=
  mk w.(env) w.(env_type) w.(add_done_info) w.(observation_space) w.(episodes_per_task)
     w.(episode_count) w.(step_count_bamdp) w.(horizon_bamdp) v w.(calls).

Definition log_call (c : env_call) (w : t E) : t E :=
  mk w.(env) w.(env_type) w.(add_done_info) w.(observation_space) w.(episodes_per_task)
     w.(episode_count) w.(step_count_bamdp) w.(horizon_bamdp) w.(done_mdp) (w.(calls) ++ [c]).

(** [self.env.<method>(...)]: runs the method on the wrapped environment. *)
Definition call_env {X} (c : env_call) (m : M E X) : M (t E) X :=
  modify (log_call c);; Py.lift env set_env m.

(** Reading [self.env.<attr>]. *)
Definition env_attr {X} (attr : E → option X) : M (t E) X :=
  Py.lift env set_env (Env.getattr attr).

(** [np.concatenate((state, [x]))] *)
Definition concatenate (state : observation) (x : Q) : observation := state ++ [x].

(** [float(b)] *)
Definition float_of_bool (b : bool) : Q := if b then 1%Q else 0%Q.

(** The constructor.  The defaults injected for [task_dim], [belief_dim],
    [get_belief] and [num_states] do not influence any of the methods below and
    are left out. *)
Definition __init__ (env0 : E) (episodes_per_task : Z) (env_type : string)
  : result (t E) unit :=
  let unbuilt e := mk e env_type false (ops.(Env.observation_space) e) 0 0 0 0 true [] in
  (* make sure we can call these attributes even if the orig env does not have them *)
  match
    (if ops.(Env.unwrapped_max_episode_steps) env0 is None
     then option_map (λ l, ops.(Env.set_unwrapped_max_episode_steps) l env0)
                     (ops.(Env.max_path_length) env0)
     else Some env0)
  with
  | None => Raise (unbuilt env0) AttributeError
  | Some e =>
      let add_done_info := bool_decide (1 < episodes_per_task) in
      let space :=
        if add_done_info then
          match ops.(Env.observation_space) e with
          | Env.Box shape low high =>
              if bool_decide (1 < Z.of_nat (length shape)) then inr ValueError
              else if bool_decide (length shape = 0%nat) then inr TypeError
              else inl (Env.Box [Z.of_nat (length low) + 1] (low ++ [0%Q]) (high ++ [1%Q]))
          | Env.OtherSpace => inr NotImplementedError
          end
        else inl (ops.(Env.observation_space) e) in
      match space with
      | inr err => Raise (unbuilt e) err
      | inl space =>
          (* calculate horizon length H^+ *)
          let steps :=
            match ops.(Env._max_episode_steps) e with
            | Some m => Some m
            | None => ops.(Env.unwrapped_max_episode_steps) e
            end in
          match steps with
          | None => Raise (unbuilt e) AttributeError
          | Some m =>
              let horizon_bamdp := episodes_per_task * m in
              (* add dummy timesteps in-between episodes for resetting the MDP *)
              let horizon_bamdp := horizon_bamdp + (episodes_per_task - 1) in
              Ok (mk e env_type add_done_info space episodes_per_task 0 0
                     horizon_bamdp true []) tt
          end
      end
  end.

(** Resets the BAMDP. *)
Definition reset (task : option T) : M (t E) observation :=
  (* meta-world cannot take task spec *)
  Py.try_except (call_env CallResetTask (ops.(Env.reset_task) (Env.Arg task)))
                TypeError
                (call_env CallResetTask (ops.(Env.reset_task) Env.NoArg));;
  (* normal reset *)
  state ← Py.try_except (call_env CallReset ops.(Env.reset))
                        AttributeError
                        (call_env CallUnwrappedReset ops.(Env.unwrapped_reset));
  modify (set_episode_count 0);;
  modify (set_step_count_bamdp 0);;
  modify (set_done_mdp false);;
  w ← get;
  mret (if w.(add_done_info) then concatenate state 0%Q else state).

(** Resets the underlying MDP only (not the task). *)
Definition reset_mdp : M (t E) observation :=
  state ← call_env CallReset ops.(Env.reset);
  w ← get;
  let state := if w.(add_done_info) then concatenate state 0%Q else state in
  modify (set_done_mdp false);;
  mret state.

(** [state[-1] = x] *)
Definition set_last (x : Q) (state : observation) : option observation :=
  match state with
  | [] => None
  | _ => Some (<[Nat.pred (length state) := x]> state)
  end.

Definition step (action : A) : M (t E) step_result :=
  (* do normal environment step in MDP *)
  '(state, reward, done, info) ← call_env CallStep (ops.(Env.step) action);
  modify (set_done_mdp done);;
  w ← get;
  info ←
    (if bool_decide (w.(env_type) = "metaworld") then
       m ← env_attr ops.(Env._max_episode_steps);
       c ← env_attr ops.(Env.curr_path_length);
       if m =? c
       then modify (set_done_mdp true);; mret (<["bad_transition" := VBool true]> (info : info_dict))
       else mret info
     else mret info);
  w ← get;
  let info : info_dict := <["done_mdp" := VBool w.(done_mdp)]> info in
  let state := if w.(add_done_info)
               then concatenate state (float_of_bool w.(done_mdp)) else state in
  modify (λ w, set_step_count_bamdp (w.(step_count_bamdp) + 1) w);;
  (* only say "done" when we collected enough episodes in this task *)
  (if w.(done_mdp) then modify (λ w, set_episode_count (w.(episode_count) + 1) w) else mret tt);;
  w ← get;
  let done_bamdp := w.(done_mdp) && bool_decide (w.(episode_count) = w.(episodes_per_task)) in
  if w.(done_mdp) && negb done_bamdp then
    if bool_decide (w.(env_type) = "Maze") then
      let info : info_dict := <["term_state" := VVec state]> info in
      state ← reset_mdp;
      state ← (if w.(add_done_info)
               then match set_last 1%Q state with
                    | Some s => mret s
                    | None => Py.raise IndexError
                    end
               else mret state);
      let info : info_dict := <["start_state" := VVec state]> info in
      mret (state, reward, done_bamdp, info)
    else
      start ← reset_mdp;
      let info : info_dict := <["start_state" := VVec start]> info in
      mret (state, reward, done_bamdp, info)
  else mret (state, reward, done_bamdp, info).

End VariBadWrapper.

End VariBadWrapper.

(** ** The task-inference encoder *)

Module Encoder.

(** Modelled from the spec: the encoder class (models/encoder.py) is missing
    from the sources.  Per the spec's contract it owns a prior hidden state,
    maps a batch of transitions and hidden states to
    [(latent_sample, latent_mean, latent_logvar, new_hidden_state)], and
    [reset_hidden] replaces the hidden state of exactly the workers whose done
    entry is true by the prior.  The network itself is a black box
    ([forward]); [H] is one worker's hidden state, and a latent tensor (of
    shape [(num_processes, latent_dim)]) is the list of its rows, one per
    worker. *)
Record t (H A : Type) : Type := mk {
  prior_hidden : H;
  forward : list A → list observation → list Q → list observation → list H →
            option bool → list (list Q) * list (list Q) * list (list Q) * list H
}.
Global Arguments mk {H A}.
Global Arguments prior_hidden {H A}.
Global Arguments forward {H A}.

(** Modelled from the spec: "for every worker whose done_mask entry is true,
    replace that worker's hidden-state slice with the prior hidden state;
    others pass through unchanged". *)
Definition reset_hidden {H A} (encoder : t H A) (hidden_state : list H) (done : list bool)
  : list H :=
  zip_with (λ h (d : bool), if d then encoder.(prior_hidden) else h) hidden_state done.

End Encoder.

(** ** utils/helpers.py *)

Module Helpers.

(** The fields of the online policy storage that [recompute_embeddings] reads
    and writes; the first index is the rollout step, the tensors of one step
    are batched over the workers. *)
Record OnlineStorage (H A : Type) : Type := mk_storage {
  latent_samples : list (list (list Q));
  latent_mean : list (list (list Q));
  latent_logvar : list (list (list Q));
  hidden_states : list (list H);
  actions : list (list A);
  next_state : list (list observation);
  rewards_raw : list (list Q);
  prev_state : list (list observation);
  done : list (list bool)
}.
Global Arguments mk_storage {H A}.
Global Arguments latent_samples {H A}.
Global Arguments latent_mean {H A}.
Global Arguments latent_logvar {H A}.
Global Arguments hidden_states {H A}.
Global Arguments actions {H A}.
Global Arguments next_state {H A}.
Global Arguments rewards_raw {H A}.
Global Arguments prev_state {H A}.
Global Arguments done {H A}.

(** What the process shows to its user. *)
Inductive diagnostic : Type :=
| Warn (message : string)
| PdbSetTrace.

(** The state [recompute_embeddings] acts on: the storage object and the
    diagnostics emitted so far. *)
Record proc (H A : Type) : Type := mk_proc {
  policy_storage : OnlineStorage H A;
  emitted : list diagnostic
}.
Global Arguments mk_proc {H A}.
Global Arguments policy_storage {H A}.
Global Arguments emitted {H A}.

Section Helpers.
Context {H A : Type}.

Definition update_encoding (encoder : Encoder.t H A) (next_obs : list observation)
    (action : list A) (reward : list Q) (prev_obs : list observation)
    (done : option (list bool)) (hidden_state : list H)
  : list (list Q) * list (list Q) * list (list Q) * list H :=
  (* reset hidden state of the recurrent net when we reset the task *)
  let hidden_state :=
    match done with
    | Some done => Encoder.reset_hidden encoder hidden_state done
    | None => hidden_state
    end in
  encoder.(Encoder.forward) action next_obs reward prev_obs hidden_state None.

(** [x[i:i + 1]]: slicing never raises. *)
Definition slice1 {X} (x : list (list X)) (i : nat) : list X := default [] (x !! i).

(** [x[i]] *)
Definition index {S X} (x : list X) (i : nat) : M S X :=
  match x !! i with
  | Some v => mret v
  | None => Py.raise IndexError
  end.

(** All rows have the width of the first one. *)
Definition same_width (rows : list (list Q)) : bool :=
  match rows with
  | [] => true
  | r :: rows' => forallb (λ r' : list Q, Nat.eqb (length r') (length r)) rows'
  end.

(** [torch.cat(tensors)] of rank-2 tensors, along dimension 0: the rows of all
    the tensors.  The list must not be empty and the tensors must agree on
    the width of their rows; a tensor without rows does not record its width,
    so widths are compared where there are rows. *)
Definition cat {S} (tensors : list (list (list Q))) : M S (list (list Q)) :=
  if bool_decide (tensors = []) then Py.raise RuntimeError
  else if same_width (concat tensors) then mret (concat tensors)
  else Py.raise RuntimeError.

(** An element-wise binary operation along one dimension under torch's
    broadcasting rule: the sizes are equal, or one of them is 1 and that
    operand is stretched; [None] when the sizes cannot be broadcast. *)
Definition broadcast {X Y} (f : X → X → option Y) (a b : list X) : option (list Y) :=
  if bool_decide (length a = length b) then mapM (λ p : X * X, f p.1 p.2) (zip a b)
  else match a, b with
       | [x], _ => mapM (f x) b
       | _, [y] => mapM (λ x, f x y) a
       | _, _ => None
       end.

(** [a - b] on two rank-2 tensors, both dimensions broadcast. *)
Definition sub (a b : list (list Q)) : option (list (list Q)) :=
  broadcast (broadcast (λ x y : Q, Some (x - y)%Q)) a b.

(** [(torch.cat(a) - torch.cat(b)).sum()]; tensors that cannot be concatenated
    or broadcast against each other raise [RuntimeError]. *)
Definition cat_diff_sum {S} (a b : list (list (list Q))) : M S Q :=
  a ← cat a;
  b ← cat b;
  match sub a b with
  | Some diff => mret (Py.sum (concat diff))
  | None => Py.raise RuntimeError
  end.

Definition emit (d : diagnostic) : M (proc H A) unit :=
  modify (λ p, mk_proc p.(policy_storage) (p.(emitted) ++ [d])).

(** The loop over the experience: one encoder step per rollout step,
    accumulating the recomputed latents ([detach] only cuts the gradient graph
    and leaves the values alone). *)
Fixpoint recompute_loop (encoder : Encoder.t H A) (sample : bool) (st : OnlineStorage H A)
    (steps : list nat) (h : list H)
    (acc : list (list (list Q)) * list (list (list Q)) * list (list (list Q)))
  : M (proc H A) (list (list (list Q)) * list (list (list Q)) * list (list (list Q))) :=
  match steps with
  | [] => mret acc
  | i :: steps' =>
      (* reset hidden state of the GRU when we reset the task *)
      d ← index st.(done) (i + 1);
      let h := Encoder.reset_hidden encoder h d in
      let '(ts, tm, tl, h) :=
        encoder.(Encoder.forward) (slice1 st.(actions) i) (slice1 st.(next_state) i)
                 (slice1 st.(rewards_raw) i) (slice1 st.(prev_state) i) h (Some sample) in
      let '(latent_sample, latent_mean, latent_logvar) := acc in
      recompute_loop encoder sample st steps' h
        (latent_sample ++ [ts], latent_mean ++ [tm], latent_logvar ++ [tl])
  end.

Definition recompute_embeddings (encoder : Encoder.t H A) (sample : bool)
    (update_idx : Z) (detach_every : option Z) : M (proc H A) unit :=
  p ← get;
  let st := p.(policy_storage) in
  (* get the prior *)
  s0 ← index st.(latent_samples) 0;
  m0 ← index st.(latent_mean) 0;
  l0 ← index st.(latent_logvar) 0;
  (* loop through experience and update hidden state *)
  h ← index st.(hidden_states) 0;
  '(latent_sample, latent_mean', latent_logvar') ←
    recompute_loop encoder sample st (seq 0 (length st.(actions))) h ([s0], [m0], [l0]);
  (if update_idx =? 0 then
     Py.try_except
       (dm ← cat_diff_sum st.(latent_mean) latent_mean';
        Py.assert (Qeq_bool dm 0);;
        dl ← cat_diff_sum st.(latent_logvar) latent_logvar';
        Py.assert (Qeq_bool dl 0))
       AssertionError
       (emit (Warn "You are not recomputing the embeddings correctly!");;
        emit PdbSetTrace)
   else mret tt);;
  modify (λ p, mk_proc
    (mk_storage latent_sample latent_mean' latent_logvar' st.(hidden_states) st.(actions)
                st.(next_state) st.(rewards_raw) st.(prev_state) st.(done))
    p.(emitted)).

End Helpers.

End Helpers.

(** ** utils/helpers.py: running statistics *)

Module RunningMeanStd.

(** The statistics are tensors updated entry by entry; [t] holds one entry of
    [mean] and [var] together with the count.  An entry that torch would turn
    into [nan] or [inf] (a division by a zero count, the moments of a batch
    that is too small) has no rational value: the operations return [None]
    there. *)
Record t : Type := mk {
  mean : Q;
  var : Q;
  count : Q
}.

(** [len(x)] as a float *)
Definition rows (x : list Q) : Q := inject_Z (Z.of_nat (length x)).

(** [x.mean(dim=0)] on one column *)
Definition tensor_mean (x : list Q) : option Q :=
  if bool_decide (x = []) then None else Some (Py.sum x / rows x)%Q.

(** [x.var(dim=0)] on one column: torch's default is the unbiased estimate *)
Definition tensor_var (x : list Q) : option Q :=
  m ← tensor_mean x;
  if bool_decide (length x ≤ 1)%nat then None
  else Some (Py.sum ((λ v, (v - m) ^ 2)%Q <$> x) / (rows x - 1))%Q.

Definition update_mean_var_count_from_moments
    (mean var count batch_mean batch_var batch_count : Q) : option (Q * Q * Q) :=
  let delta := (batch_mean - mean)%Q in
  let tot_count := (count + batch_count)%Q in
  if Qeq_bool tot_count 0 then None
  else
    let new_mean := (mean + delta * batch_count / tot_count)%Q in
    let m_a := (var * count)%Q in
    let m_b := (batch_var * batch_count)%Q in
    let M2 := (m_a + m_b + delta ^ 2 * count * batch_count / tot_count)%Q in
    let new_var := (M2 / tot_count)%Q in
    let new_count := tot_count in
    Some (new_mean, new_var, new_count).

Definition __init__ (epsilon : Q) : t := mk 0 1 epsilon.

Definition update_from_moments (batch_mean batch_var batch_count : Q) (self : t) : option t :=
  '(mean, var, count) ←
    update_mean_var_count_from_moments self.(mean) self.(var) self.(count)
                                       batch_mean batch_var batch_count;
  Some (mk mean var count).

Definition update (x : list Q) (self : t) : option t :=
  batch_mean ← tensor_mean x;
  batch_var ← tensor_var x;
  let batch_count := rows x in
  update_from_moments batch_mean batch_var batch_count self.

End RunningMeanStd.

(** ** utils/helpers.py: [clip] *)

Module Clip.

(** Tensors of rank 0 and rank 1. *)
Inductive tensor (X : Type) : Type :=
| Scalar (x : X)
| Vector (xs : list X).
Global Arguments Scalar {X} x.
Global Arguments Vector {X} xs.

(** An element-wise binary operation under torch's broadcasting rules: a
    scalar or a vector of length 1 is stretched to the other operand's shape;
    [None] when the shapes cannot be broadcast (a [RuntimeError]). *)
Definition broadcast {X Y Z} (f : X → Y → Z) (a : tensor X) (b : tensor Y)
  : option (tensor Z) :=
  match a, b with
  | Scalar x, Scalar y => Some (Scalar (f x y))
  | Scalar x, Vector ys => Some (Vector (f x <$> ys))
  | Vector xs, Scalar y => Some (Vector ((λ x, f x y) <$> xs))
  | Vector xs, Vector ys =>
      if bool_decide (length xs = length ys) then Some (Vector (zip_with f xs ys))
      else match xs, ys with
           | [x], _ => Some (Vector (f x <$> ys))
           | _, [y] => Some (Vector ((λ x, f x y) <$> xs))
           | _, _ => None
           end
  end.

(** [torch.all] *)
Definition all (c : tensor bool) : bool :=
  match c with
  | Scalar b => b
  | Vector bs => forallb id bs
  end.

(** [torch.min(a, b)] and [torch.max(a, b)] on one entry *)
Definition min (x y : Q) : Q := if Qle_bool x y then x else y.
Definition max (x y : Q) : Q := if Qle_bool x y then y else x.

Definition clip (value low high : tensor Q) : exn + tensor Q :=
  match broadcast Qle_bool low high with
  | None => inl RuntimeError
  | Some c =>
      if all c then
        match broadcast min value high with
        | None => inl RuntimeError
        | Some m =>
            match broadcast max m low with
            | None => inl RuntimeError
            | Some clipped_value => inr clipped_value
            end
        end
      else inl AssertionError
  end.

End Clip.

(** ** utils/helpers.py: the learning-rate schedule and the policy's latent *)

Module Schedule.

(** The float entries of one of the optimizer's [param_groups]. *)
Abbreviation param_group := (gmap string Q).

(** What the float division can raise. *)
Inductive error : Type :=
| ZeroDivisionError.

(** Decreases the learning rate linearly. *)
Definition update_linear_schedule (optimizer : list param_group)
    (epoch total_num_epochs : Z) (initial_lr : Q) : error + list param_group :=
  if total_num_epochs =? 0 then inl ZeroDivisionError
  else
    let lr := (initial_lr - (initial_lr * (inject_Z epoch / inject_Z total_num_epochs)))%Q in
    inr ((λ param_group : param_group, <["lr" := lr]> param_group) <$> optimizer).

End Schedule.

Module Latent.

(** A batch of latent vectors (rank 2), or one vector after [squeeze(0)]. *)
Inductive latent : Type :=
| Batch (rows : list (list Q))
| Single (row : list Q).

(** [F.relu] on one entry *)
Definition relu (x : Q) : Q := if Qle_bool x 0 then 0%Q else x.

(** [F.relu(x)]: [None] is not a tensor. *)
Definition F_relu (x : option (list (list Q))) : exn + option (list (list Q)) :=
  match x with
  | None => inl TypeError
  | Some rows => inr (Some ((λ row : list Q, relu <$> row) <$> rows))
  end.

(** [torch.cat((a, b), dim=-1)] of two rank-2 tensors *)
Definition cat_last (a b : option (list (list Q))) : exn + list (list Q) :=
  match a, b with
  | Some a, Some b =>
      if bool_decide (length a = length b) then inr (zip_with app a b)
      else inl RuntimeError
  | _, _ => inl TypeError
  end.

(** [latent.squeeze(0)] for a batch of one row *)
Definition squeeze (x : list (list Q)) : latent :=
  match x with
  | [row] => Single row
  | _ => Batch x
  end.

Definition get_latent_for_policy (add_nonlinearity_to_latent sample_embeddings : bool)
    (latent_sample latent_mean latent_logvar : option (list (list Q)))
  : exn + option latent :=
  match latent_sample, latent_mean, latent_logvar with
  | None, None, None => inr None
  | _, _, _ =>
      match
        (if add_nonlinearity_to_latent then
           match F_relu latent_sample with
           | inl e => inl e
           | inr latent_sample =>
               match F_relu latent_mean with
               | inl e => inl e
               | inr latent_mean =>
                   match F_relu latent_logvar with
                   | inl e => inl e
                   | inr latent_logvar => inr (latent_sample, latent_mean, latent_logvar)
                   end
               end
           end
         else inr (latent_sample, latent_mean, latent_logvar))
      with
      | inl e => inl e
      | inr (latent_sample, latent_mean, latent_logvar) =>
          match
            (if sample_embeddings then
               match latent_sample with
               | Some latent => inr latent
               | None => inl AttributeError
               end
             else cat_last latent_mean latent_logvar)
          with
          | inl e => inl e
          | inr latent => inr (Some (squeeze latent))
          end
      end
  end.

End Latent.

(** ** The vectorised runner *)

Module VecEnv.

Section VecEnv.
Context {E A T : Type} (ops : Env.ops E A T).

(** Modelled from the spec: the vectorised environment classes
    (environments/env_utils/vec_env) are missing from the sources.  Per the
    spec the runner steps every worker with its own action and returns the
    results in worker order; a worker that signals BAMDP-done is not reset by
    this layer. *)
Fixpoint step (actions : list A) : M (list (VariBadWrapper.t E)) (list step_result) :=
  λ workers,
    match workers, actions with
    | w :: workers', a :: actions' =>
        match VariBadWrapper.step ops a w with
        | Ok w' r =>
            match step actions' workers' with
            | Ok ws rs => Ok (w' :: ws) (r :: rs)
            | Raise ws e => Raise (w' :: ws) e
            end
        | Raise w' e => Raise (w' :: workers') e
        end
    | _, _ => Ok workers []
    end.

(** Modelled from the spec: [reset(index=i)] restarts only worker [i] (with
    no task argument) while the others continue their episode. *)
Definition reset_index (i : nat) : M (list (VariBadWrapper.t E)) observation :=
  λ workers,
    match workers !! i with
    | Some w =>
        match VariBadWrapper.reset ops None w with
        | Ok w' o => Ok (<[i := w']> workers) o
        | Raise w' e => Raise (<[i := w']> workers) e
        end
    | None => Raise workers IndexError
    end.

(** Modelled from the spec: [reset()] restarts every worker, in worker
    order. *)
Fixpoint reset_all : M (list (VariBadWrapper.t E)) (list observation) :=
  λ workers,
    match workers with
    | w :: workers' =>
        match VariBadWrapper.reset ops None w with
        | Ok w' o =>
            match reset_all workers' with
            | Ok ws os => Ok (w' :: ws) (o :: os)
            | Raise ws e => Raise (w' :: ws) e
            end
        | Raise w' e => Raise (w' :: workers') e
        end
    | [] => Ok [] []
    end.

End VecEnv.

End VecEnv.

(** ** metalearner.py: the rollout part of the training loop *)

Module MetaLearner.

(** The arguments of one [policy_storage.insert] call that the loop computes
    from the environment step. *)
Record inserted (H A : Type) : Type := mk_inserted {
  ins_state : list observation;
  ins_actions : list A;
  ins_rewards_raw : list Q;
  ins_masks : list Q;
  ins_bad_masks : list Q;
  ins_done : list bool;
  ins_hidden_states : list H;
  ins_latent_sample : list (list Q);
  ins_latent_mean : list (list Q);
  ins_latent_logvar : list (list Q)
}.
Global Arguments mk_inserted {H A}.
Global Arguments ins_state {H A}.
Global Arguments ins_actions {H A}.
Global Arguments ins_rewards_raw {H A}.
Global Arguments ins_masks {H A}.
Global Arguments ins_bad_masks {H A}.
Global Arguments ins_done {H A}.
Global Arguments ins_hidden_states {H A}.
Global Arguments ins_latent_sample {H A}.
Global Arguments ins_latent_mean {H A}.
Global Arguments ins_latent_logvar {H A}.

(** The variables of [train] that live across rollout steps. *)
Record t (E H A : Type) : Type := mk {
  envs : list (VariBadWrapper.t E);
  prev_state : list observation;
  latent_sample : list (list Q);
  latent_mean : list (list Q);
  latent_logvar : list (list Q);
  hidden_state : list H;
  inserts : list (inserted H A);
  frames : Z
}.
Global Arguments mk {E H A}.
Global Arguments envs {E H A}.
Global Arguments prev_state {E H A}.
Global Arguments latent_sample {E H A}.
Global Arguments latent_mean {E H A}.
Global Arguments latent_logvar {E H A}.
Global Arguments hidden_state {E H A}.
Global Arguments inserts {E H A}.
Global Arguments frames {E H A}.

(** [masks_done]: the mask for episode ends. *)
Definition masks_done (done : list bool) : list Q :=
  (λ done_ : bool, if done_ then 0%Q else 1%Q) <$> done.

(** [bad_masks]: 0.0 where the info dict has the key ['bad_transition']. *)
Definition bad_masks (infos : list info_dict) : list Q :=
  (λ info : info_dict, if bool_decide (is_Some (info !! "bad_transition")) then 0%Q else 1%Q)
    <$> infos.

(** [np.argwhere(done).flatten()] *)
Definition done_indices (done : list bool) : list nat :=
  filter (λ i, done !! i = Some true) (seq 0 (length done)).

Section MetaLearner.
Context {E H A T : Type} (ops : Env.ops E A T) (encoder : Encoder.t H A).
(** The policy is a black box choosing the workers' actions from the previous
    state and the current latent. *)
Context (select_action : list observation → list (list Q) → list (list Q) → list (list Q)
                        → list A).
Context (num_processes : nat).

Definition set_envs (v : list (VariBadWrapper.t E)) (s : t E H A) : t E H A :=
  mk v s.(prev_state) s.(latent_sample) s.(latent_mean) s.(latent_logvar)
     s.(hidden_state) s.(inserts) s.(frames).

(** [utl.reset_env]: resets all workers, or only the ones given by
    [indices]. *)
Definition reset_env (indices : option (list nat)) (state : option (list observation))
  : M (list (VariBadWrapper.t E)) (list observation) :=
  (* [isinstance(indices[0], bool)] needs a first index *)
  match indices with
  | Some [] => Py.raise IndexError
  | _ => mret tt
  end;;
  if bool_decide (indices = None ∨ length (default [] indices) = num_processes)
  then VecEnv.reset_all ops
  else
    match state with
    | None => Py.raise AssertionError
    | Some state =>
        foldl (λ (acc : M (list (VariBadWrapper.t E)) (list observation)) i,
                 state ← acc;
                 o ← VecEnv.reset_index ops i;
                 mret (<[i := o]> state))
              (mret state) (default [] indices)
    end.

(** One iteration of the rollout loop of [train]. *)
Definition rollout_step : M (t E H A) unit :=
  s ← get;
  (* sample actions from policy *)
  let action := select_action s.(prev_state) s.(latent_sample) s.(latent_mean)
                              s.(latent_logvar) in
  (* take step in the environment *)
  results ← Py.lift envs set_envs (VecEnv.step ops action);
  let next_state := (λ r : step_result, r.1.1.1) <$> results in
  let rew_raw := (λ r : step_result, r.1.1.2) <$> results in
  let done := (λ r : step_result, r.1.2) <$> results in
  let infos := (λ r : step_result, r.2) <$> results in
  (* create mask for episode ends *)
  let masks_done := masks_done done in
  (* bad_mask is true if episode ended because time limit was reached *)
  let bad_masks := bad_masks infos in
  (* compute next embedding (for next loop and/or value prediction bootstrap) *)
  let '(latent_sample, latent_mean, latent_logvar, hidden_state) :=
    Helpers.update_encoding encoder next_state action rew_raw s.(prev_state)
                            (Some done) s.(hidden_state) in
  (* reset environments that are done *)
  let done_indices := done_indices done in
  next_state ←
    (if bool_decide (0 < length done_indices)%nat
     then Py.lift envs set_envs (reset_env (Some done_indices) (Some next_state))
     else mret next_state);
  (* add experience to policy buffer *)
  modify (λ s, mk s.(envs) next_state latent_sample latent_mean latent_logvar hidden_state
                  (s.(inserts) ++ [mk_inserted next_state action rew_raw masks_done bad_masks
                                               done hidden_state latent_sample latent_mean
                                               latent_logvar])
                  (s.(frames) + Z.of_nat num_processes)).

(** [for step in range(policy_num_steps)] *)
Fixpoint rollout (policy_num_steps : nat) : M (t E H A) unit :=
  match policy_num_steps with
  | O => mret tt
  | S n => rollout_step;; rollout n
  end.

End MetaLearner.

End MetaLearner.

(** * Specification vocabulary *)

Module GridSpec.
Import GridNavi.

(** A cell of the [n] x [n] grid. *)
Definition in_grid (n : Z) (p : pos) : Prop := 0 ≤ p.1 < n ∧ 0 ≤ p.2 < n.

(** The index of a cell in the belief vector. *)
Definition cell_id (n : Z) (p : pos) : nat := Z.to_nat (p.1 * n + p.2).

(** A probability vector: element-wise non-negative and summing to one. *)
Definition is_distribution (b : list Q) : Prop :=
  Forall (λ x, 0 <= x)%Q b ∧ (Py.sum b == 1)%Q.

(** The belief vector written by the loop of [_reset_belief]. *)
Definition fill (n : Z) (v : Q) (b : list Q) (l : list pos) : list Q :=
  foldl (λ b p, <[cell_id n p := v]> b) b l.

(** The belief written by the hint branch of [update_belief]. *)
Definition hint_belief (n : Z) (goal wrong_hint : pos) (b : list Q) : list Q :=
  <[cell_id n wrong_hint := 0.5%Q]> (<[cell_id n goal := 0.5%Q]> ((λ x, x * 0)%Q <$> b)).

(** The belief written by the other branch: zero the agent's cell, round up,
    renormalise. *)
Definition renormalised_belief (n : Z) (state : pos) (b : list Q) : list Q :=
  let c := Py.ceil <$> <[cell_id n state := 0%Q]> b in
  (λ x, x / Py.sum c)%Q <$> c.

(** The state invariant of a grid environment. *)
Record Inv (g : t) : Prop := mk_Inv {
  inv_goals_in_grid : Forall (in_grid g.(num_cells)) g.(possible_goals);
  inv_goals_nodup : NoDup g.(possible_goals);
  inv_goal : g.(_goal) ∈ g.(possible_goals);
  inv_state : in_grid g.(num_cells) g.(_env_state);
  inv_start : ∀ s, g.(starting_state) = Some s → in_grid g.(num_cells) s;
  inv_length : length g.(_belief_state) = Z.to_nat (g.(num_cells) ^ 2);
  inv_belief : is_distribution g.(_belief_state);
  inv_goal_mass : ∃ x, g.(_belief_state) !! cell_id g.(num_cells) g.(_goal) = Some x ∧ (0 < x)%Q
}.

(** The environments the program can be in: built by the constructor with a
    start inside the grid (or a random start), then driven through
    [reset_task] (sampling the task, or with a task of the task space),
    [reset] and [step].  A call that raises leaves the object in the state it
    had reached. *)
Inductive reachable : t → Prop :=
| reach_init num_cells num_steps start ring hall new_state_r stuck distance_reward
             show_goal_at_start rand consumed g :
    __init__ num_cells num_steps start ring hall new_state_r stuck distance_reward
             show_goal_at_start rand consumed = Ok g tt →
    (∀ s, start = Some s → in_grid num_cells s) →
    reachable g
| reach_reset_task g task :
    reachable g →
    (∀ p, task = Some p → p ∈ g.(possible_goals)) →
    reachable (state_of (reset_task task g))
| reach_reset g :
    reachable g →
    reachable (state_of (reset g))
| reach_step g action :
    reachable g →
    reachable (state_of (step action g)).

(** The default grid of the constructor: 5 x 5 cells, 15 steps, start (0,0),
    no ring, no hallway, no reward shaping. *)
Definition default_grid (rand : nat → nat) : result t unit :=
  __init__ 5 15 (Some (0, 0)) false None None false false false rand 0.

(** The toy scenario: the default grid with the goal fixed at (3,3). *)
Definition toy_grid (rand : nat → nat) : result t pos :=
  match default_grid rand with
  | Ok g _ => reset_task (Some (3, 3)) g
  | Raise g e => Raise g e
  end.

(** The goals the hint of the toy scenario can name besides the true one. *)
Definition wrong_goals : list pos :=
  default [] (list_remove (3, 3) (open_goals 5 (Some (0, 0)))).

(** The fields fixed by the constructor. *)
Definition same_config (g g' : t) : Prop :=
  g'.(num_cells) = g.(num_cells) ∧ g'.(new_state_r) = g.(new_state_r) ∧
  g'.(distance_reward) = g.(distance_reward) ∧
  g'.(show_goal_at_start) = g.(show_goal_at_start) ∧
  g'.(_max_episode_steps) = g.(_max_episode_steps) ∧
  g'.(hall_with_door_every) = g.(hall_with_door_every) ∧ g'.(stuck) = g.(stuck) ∧
  g'.(starting_state) = g.(starting_state) ∧ g'.(possible_goals) = g.(possible_goals) ∧
  g'.(rand_src) = g.(rand_src).

(** [n] steps with the given actions; stops at the first call that raises. *)
Fixpoint run (actions : list Z) (g : t) : result t (list step_result) :=
  match actions with
  | [] => Ok g []
  | a :: actions' =>
      match step a g with
      | Ok g' r =>
          match run actions' g' with
          | Ok g'' rs => Ok g'' (r :: rs)
          | Raise g'' e => Raise g'' e
          end
      | Raise g' e => Raise g' e
      end
  end.

End GridSpec.

Module WrapperSpec.
Import VariBadWrapper.

(** What one [step] of the wrapper showed: the inner done flag it recorded
    under ['done_mdp'], the BAMDP done flag it returned, the inner resets it
    performed on the wrapped environment, and the ['start_state'] entry of
    the info dict. *)
Record event : Type := mk_event {
  inner_done : bool;
  done_bamdp : bool;
  auto_resets : nat;
  start_state : option value
}.

(** The calls made on the wrapped environment between two states of the
    wrapper. *)
Definition calls_during {E} (w w' : t E) : list env_call :=
  drop (length w.(calls)) w'.(calls).

Definition observe {E} (w w' : t E) (res : step_result) : event :=
  mk_event (if res.2 !! "done_mdp" is Some (VBool b) then b else false)
           res.1.2
           (length (filter (λ c, c = CallReset) (calls_during w w')))
           (res.2 !! "start_state").

Section WrapperSpec.
Context {E A T : Type} (ops : Env.ops E A T).

(** Stepping the wrapper with a list of actions, recording what each step
    showed; stops at the first call that raises. *)
Fixpoint run (actions : list A) (w : t E) : result (t E) (list event) :=
  match actions with
  | [] => Ok w []
  | a :: actions' =>
      match step ops a w with
      | Ok w' res =>
          match run actions' w' with
          | Ok w'' evs => Ok w'' (observe w w' res :: evs)
          | Raise w'' e => Raise w'' e
          end
      | Raise w' e => Raise w' e
      end
  end.

(** A BAMDP episode: the steps after a [reset] up to and including the first
    one that reports BAMDP-done. *)
Definition bamdp_episode (evs : list event) : Prop :=
  ∃ before last, evs = before ++ [last] ∧
                 Forall (λ ev, ev.(done_bamdp) = false) before ∧
                 last.(done_bamdp) = true.

(** The number of inner-done events among [evs]. *)
Definition inner_dones (evs : list event) : nat :=
  length (filter (λ ev, ev.(inner_done) = true) evs).

End WrapperSpec.

(** The environment [helpers.make_env] builds for Meta-World ML1: its
    [reset_task] is replaced by a lambda without parameters, so calling it
    with a task raises [TypeError]. *)
Definition without_task_parameter {E A T} (ops : Env.ops E A T) : Env.ops E A T :=
  Env.mk_ops ops.(Env.step) ops.(Env.reset) ops.(Env.unwrapped_reset)
    (λ c, match c with
          | Env.NoArg => ops.(Env.reset_task) Env.NoArg
          | Env.Arg _ => Py.raise TypeError
          end)
    ops.(Env.observation_space) ops.(Env._max_episode_steps)
    ops.(Env.unwrapped_max_episode_steps) ops.(Env.set_unwrapped_max_episode_steps)
    ops.(Env.max_path_length) ops.(Env.curr_path_length) ops.(Env._elapsed_steps).

End WrapperSpec.

Module TimeLimitSpec.

(** The time-limit test of [TimeLimitMask.step], on the environment after its
    step. *)
Definition truncated {E A T} (env : Env.ops E A T) (done : bool) (e : E) : bool :=
  done && match env.(Env._max_episode_steps) e, env.(Env._elapsed_steps) e with
          | Some m, Some el => m =? el
          | _, _ => false
          end.

(** A grid environment under gym's [TimeLimit], as the registered grid
    environments are built: [_elapsed_steps] counts the steps since the last
    reset, like the environment's own [step_count]. *)
Definition GridNavi_time_limit_ops : Env.ops GridNavi.t Z GridNavi.pos :=
  Env.mk_ops GridNavi_ops.(Env.step) GridNavi_ops.(Env.reset)
    GridNavi_ops.(Env.unwrapped_reset) GridNavi_ops.(Env.reset_task)
    GridNavi_ops.(Env.observation_space) GridNavi_ops.(Env._max_episode_steps)
    GridNavi_ops.(Env.unwrapped_max_episode_steps)
    GridNavi_ops.(Env.set_unwrapped_max_episode_steps)
    GridNavi_ops.(Env.max_path_length) GridNavi_ops.(Env.curr_path_length)
    (λ g, Some g.(GridNavi.step_count)).

End TimeLimitSpec.

Module LoopSpec.

(** The hidden state [update_encoding] hands to the encoder. *)
Definition encoder_input {H A} (encoder : Encoder.t H A) (done : option (list bool))
    (hidden_state : list H) : list H :=
  match done with
  | Some done => Encoder.reset_hidden encoder hidden_state done
  | None => hidden_state
  end.

(** The BAMDP done flags of a batch of step results, as the loop passes them
    to [update_encoding]. *)
Definition done_flags (results : list step_result) : list bool :=
  (λ r : step_result, r.1.2) <$> results.

(** The inner done flag a step result carries under ['done_mdp']. *)
Definition inner_done_of (r : step_result) : bool :=
  if r.2 !! "done_mdp" is Some (VBool b) then b else false.

(** A reset of the hidden state at every inner-episode or BAMDP boundary of
    the rollout step taken from [s]. *)
Definition reset_at_every_boundary {E H A T} (ops : Env.ops E A T) (encoder : Encoder.t H A)
    (select_action : list observation → list (list Q) → list (list Q) → list (list Q)
                     → list A)
    (s : MetaLearner.t E H A) : Prop :=
  ∀ envs' results,
    VecEnv.step ops (select_action s.(MetaLearner.prev_state) s.(MetaLearner.latent_sample)
                                   s.(MetaLearner.latent_mean) s.(MetaLearner.latent_logvar))
                s.(MetaLearner.envs) = Ok envs' results →
    ∀ (i : nat) r, results !! i = Some r →
      inner_done_of r = true ∨ r.1.2 = true →
      encoder_input encoder (Some (done_flags results)) s.(MetaLearner.hidden_state) !! i
      = Some encoder.(Encoder.prior_hidden).

(** An encoder whose hidden state counts the transitions encoded since the
    last reset. *)
Definition counting_encoder : Encoder.t nat Z :=
  Encoder.mk 0%nat (λ _ _ _ _ hidden _, ([], [], [], S <$> hidden)).

(** One worker on a grid with one-step episodes and two episodes per task,
    after its first reset, with three transitions encoded so far. *)
Definition two_episode_worker : MetaLearner.t GridNavi.t nat Z :=
  let g := state_of (GridNavi.__init__ 5 1 (Some (0, 0)) false None None false false false
                                        (λ i, i) 0) in
  let w0 := state_of (VariBadWrapper.__init__ GridNavi_ops g 2 "gym") in
  let r := VariBadWrapper.reset GridNavi_ops None w0 in
  MetaLearner.mk [state_of r] [default [] (value_of r)] [] [] [] [3%nat] [] 0.

End LoopSpec.

Module RecomputeSpec.

(** An encoder that answers every step, for its one worker, with the latent
    mean [2; 1] and a zero log-variance. *)
Definition swapping_encoder : Encoder.t unit Z :=
  Encoder.mk tt (λ _ _ _ _ hidden _, ([[0; 0]%Q], [[2; 1]%Q], [[0; 0]%Q], hidden)).

(** A one-step rollout window of one worker whose online latent mean of the
    step was [means]. *)
Definition one_step_storage (means : list Q) : Helpers.OnlineStorage unit Z :=
  Helpers.mk_storage [[[0; 0]%Q]; [[0; 0]%Q]] [[[0; 0]%Q]; [means]] [[[0; 0]%Q]; [[0; 0]%Q]]
                     [[tt]; [tt]] [[0]] [[[0; 0]%Q]] [[0%Q]] [[[0; 0]%Q]; [[0; 0]%Q]]
                     [[false]; [false]].

(** The same window when the storage holds only the prior of the latent mean,
    a tensor of one row, against which the two recomputed rows are
    broadcast. *)
Definition prior_only_storage : Helpers.OnlineStorage unit Z :=
  Helpers.mk_storage [[[0; 0]%Q]] [[[0; 0]%Q]] [[[0; 0]%Q]]
                     [[tt]; [tt]] [[0]] [[[0; 0]%Q]] [[0%Q]] [[[0; 0]%Q]; [[0; 0]%Q]]
                     [[false]; [false]].

End RecomputeSpec.

Module BoundarySpec.
Import VariBadWrapper WrapperSpec.

(** One call of [step]: the action, the wrapper before and after the call,
    and what the call returned. *)
Record transition (E A : Type) : Type := mk_transition {
  tr_action : A;
  tr_before : t E;
  tr_after : t E;
  tr_result : step_result
}.
Global Arguments mk_transition {E A}.
Global Arguments tr_action {E A}.
Global Arguments tr_before {E A}.
Global Arguments tr_after {E A}.
Global Arguments tr_result {E A}.

Section BoundarySpec.
Context {E A T : Type} (ops : Env.ops E A T).

(** Stepping the wrapper with a list of actions, recording every call; stops
    at the first call that raises. *)
Fixpoint trace (actions : list A) (w : t E) : result (t E) (list (transition E A)) :=
  match actions with
  | [] => Ok w []
  | a :: actions' =>
      match step ops a w with
      | Ok w' res =>
          match trace actions' w' with
          | Ok w'' ts => Ok w'' (mk_transition a w w' res :: ts)
          | Raise w'' e => Raise w'' e
          end
      | Raise w' e => Raise w' e
      end
  end.

(** What the calls of a trace showed. *)
Definition events (ts : list (transition E A)) : list event :=
  (λ tr, observe tr.(tr_before) tr.(tr_after) tr.(tr_result)) <$> ts.

End BoundarySpec.

End BoundarySpec.

Module MaskSpec.
Import TimeLimitSpec LoopSpec.

(** Modelled from the spec: the return computation of the policy storage
    ([compute_returns]) is missing from the sources.  Per the spec "a rollout
    step flagged bad_transition=True (time-limit truncation) must not be
    treated as a true terminal state when computing bootstrapped returns,
    whereas a true terminal step with bad_transition absent must zero out the
    bootstrap": a recorded step zeroes the bootstrap when its mask says done
    (0.0) and its bad mask does not flag it (not 0.0). *)
Definition zeroes_bootstrap (mask bad_mask : Q) : bool :=
  Qeq_bool mask 0 && negb (Qeq_bool bad_mask 0).

(** One worker on a grid under the time-limit mask, with one-step episodes and
    one episode per task, after its first reset. *)
Definition time_limit_worker : MetaLearner.t GridNavi.t nat Z :=
  let g := state_of (GridNavi.__init__ 5 1 (Some (0, 0)) false None None false false false
                                        (λ i, i) 0) in
  let ops := TimeLimitMask.ops GridNavi_time_limit_ops in
  let w0 := state_of (VariBadWrapper.__init__ ops g 1 "gym") in
  let r := VariBadWrapper.reset ops None w0 in
  MetaLearner.mk [state_of r] [default [] (value_of r)] [] [] [] [0%nat] [] 0.

End MaskSpec.

(** ** Vocabulary of the further properties *)

Module GridFrameSpec.
Import GridNavi GridSpec.

(** A method keeps a relation between the state before and the state it
    leaves behind, whether it returns or raises. *)
Definition keeps {X} (R : t → t → Prop) (m : M t X) : Prop :=
  ∀ g, R g (state_of (m g)).

(** What no method but the constructor and [reset_task] changes: the
    configuration and the task; potential goals are only ever ticked off. *)
Record same_task (g g' : t) : Prop := mk_same_task {
  st_config : same_config g g';
  st_goal : g'.(_goal) = g.(_goal);
  st_unchecked : g'.(goals_unchecked) ⊆ g.(goals_unchecked)
}.

(** The same, and the agent has not moved. *)
Definition same_place (g g' : t) : Prop :=
  same_task g g' ∧ g'.(_env_state) = g.(_env_state).

End GridFrameSpec.

Module GridLayoutSpec.
Import GridNavi GridSpec.

(** The configuration is the same and the agent has not moved (the task may
    have changed). *)
Definition same_layout (g g' : t) : Prop :=
  same_config g g' ∧ g'.(_env_state) = g.(_env_state).

End GridLayoutSpec.

Module HallwaySpec.
Import GridNavi GridSpec.

(** The hallway layout: doors are the cells [(offset, 1)], the start lies in
    the hall, and the agent is in the hall or in a door. *)
Definition hall_inv (g : t) : Prop :=
  (∀ p, p ∈ g.(possible_goals) → p.2 = 1) ∧
  (∃ s, g.(starting_state) = Some s ∧ s.2 = 0) ∧
  (g.(_env_state).2 = 0 ∨ g.(_env_state) ∈ g.(possible_goals)).

End HallwaySpec.

Module GridStepSpec.
Import GridNavi.

(** Only the belief and the random source's position differ. *)
Definition only_belief (g g' : t) : Prop :=
  ∃ k b, g' = set_rand_pos k (set_belief_state b g).

(** The state [step] hands to [update_belief]: the agent moved to [s], the
    cell ticked off if potential goals are tracked, the step counted. *)
Definition checked_potential_goal (s : pos) (g : t) : bool :=
  bool_decide (is_Some g.(new_state_r) ∧ s ∈ g.(goals_unchecked)).

Definition moved (s : pos) (g : t) : t :=
  set_step_count (g.(step_count) + 1)
    (set_goals_unchecked
       (if checked_potential_goal s g then g.(goals_unchecked) ∖ {[s]}
        else g.(goals_unchecked))
       (set_env_state s g)).

(** The info dict built by [step]. *)
Definition step_info (task_id : Z) (g : t) : info_dict :=
  <["task" := VVec (pos_to_obs g.(_goal))]>
    (<["task_id" := VInt task_id]> (<["belief" := VVec g.(_belief_state)]> ∅)).

End GridStepSpec.

Module GridPlaySpec.
Import GridNavi.

(** A stretch of one task: steps ([Some action]) and resets ([None]), without
    [reset_task]; a call that raises leaves the state it had reached. *)
Fixpoint play (calls : list (option Z)) (g : t) : t :=
  match calls with
  | [] => g
  | Some action :: calls' => play calls' (state_of (step action g))
  | None :: calls' => play calls' (state_of (reset g))
  end.

End GridPlaySpec.

Module BeliefSpec.

(** Cell [i] is still a candidate for the goal: it is not the agent's cell
    [here] and the belief gives it a positive probability. *)
Definition still_possible (here : nat) (b : list Q) (i : nat) : bool :=
  bool_decide (i ≠ here) &&
  match b !! i with
  | Some x => negb (Qle_bool x 0)
  | None => false
  end.

(** The number of candidates. *)
Definition candidates (here : nat) (b : list Q) : nat :=
  length (filter (λ i, still_possible here b i = true) (seq 0 (length b))).

End BeliefSpec.

Module TensorSpec.
Import GridNavi GridNaviTensor.

(** Integer positions as the float tensor the methods exchange. *)
Definition to_float (ps : list pos) : positions :=
  (λ p : pos, (inject_Z p.1, inject_Z p.2)) <$> ps.

End TensorSpec.

Module SpaceSpec.
Import VariBadWrapper.

(** [space.contains(obs)] for a box: the shape and the bounds. *)
Definition contains (space : Env.space) (obs : observation) : Prop :=
  match space with
  | Env.Box shape low high =>
      shape = [Z.of_nat (length obs)] ∧ Forall2 Qle low obs ∧ Forall2 Qle obs high
  | Env.OtherSpace => False
  end.

(** A wrapper as the constructor built [w0], around a grid environment of the
    same configuration in a state the program can be in. *)
Definition built_like (w0 w : t GridNavi.t) : Prop :=
  w.(observation_space) = w0.(observation_space) ∧
  w.(add_done_info) = w0.(add_done_info) ∧
  GridSpec.same_config w0.(env) w.(env) ∧ GridSpec.reachable w.(env).

End SpaceSpec.

Module MetaWorldSpec.

(** An environment reduced to its path counter, as the Meta-World branch of
    the wrapper reads it: it never reports done itself, [curr_path_length] is
    the number of steps since the last reset and [max_path_length] the
    limit. *)
Definition path_counter_ops (limit : Z) : Env.ops Z unit unit :=
  Env.mk_ops
    (λ _ c, Ok (c + 1) ([inject_Z (c + 1)], 0%Q, false, ∅))
    (λ _, Ok 0 [0%Q])
    (λ _, Ok 0 [0%Q])
    (λ _ c, Ok c tt)
    (λ _, Env.OtherSpace)
    (λ _, Some limit)
    (λ _, Some limit)
    (λ _ c, c)
    (λ _, Some limit)
    (λ c, Some c)
    (λ _, None).

End MetaWorldSpec.

Module MomentsSpec.
Import RunningMeanStd.

(** The mean and the (population) variance of a sample. *)
Definition average (l : list Q) : Q := (Py.sum l / rows l)%Q.

Definition variance (l : list Q) : Q :=
  (Py.sum ((λ v, (v - average l) ^ 2)%Q <$> l) / rows l)%Q.

(** A sequence of [update] calls. *)
Fixpoint updates (batches : list (list Q)) (self : t) : option t :=
  match batches with
  | [] => Some self
  | x :: batches' => self' ← update x self; updates batches' self'
  end.

End MomentsSpec.

Module ClipSpec.
Import Clip.

(** The entry of a bound that is compared with entry [i] of the value. *)
Definition entry (t : tensor Q) (i : nat) : option Q :=
  match t with
  | Scalar x => Some x
  | Vector xs => xs !! i
  end.

(** The regular cases of the docstring: a bound is a scalar or has the
    value's shape. *)
Definition regular (n : nat) (t : tensor Q) : Prop :=
  match t with
  | Scalar _ => True
  | Vector xs => length xs = n
  end.

End ClipSpec.

Module LatentSpec.
Import Latent.

(** The rows of a latent, whatever its rank. *)
Definition rows_of (l : latent) : list (list Q) :=
  match l with
  | Batch rows => rows
  | Single row => [row]
  end.

(** A rank-2 tensor of shape [(n, d)]. *)
Definition has_shape (n d : nat) (x : list (list Q)) : Prop :=
  length x = n ∧ Forall (λ row, length row = d) x.

End LatentSpec.

(** * Properties *)

(** ** Sums of rational vectors *)

Section Sums.

Lemma fold_left_Qplus_acc (l : list Q) (a : Q) :
  (fold_left Qplus l a == a + fold_left Qplus l 0)%Q.
Proof.
  revert a. induction l as [|x l IH]; intros a; simpl.
  - ring.
  - rewrite (IH (a + x)%Q), (IH (0 + x)%Q). ring.
Qed.

Lemma sum_nil : (Py.sum [] == 0)%Q.
Proof. reflexivity. Qed.

Lemma sum_cons (x : Q) (l : list Q) : (Py.sum (x :: l) == x + Py.sum l)%Q.
Proof. unfold Py.sum. simpl. rewrite fold_left_Qplus_acc. ring. Qed.

Lemma sum_nonneg (l : list Q) : Forall (λ x, 0 <= x)%Q l → (0 <= Py.sum l)%Q.
Proof.
  induction 1 as [|x l Hx _ IH].
  - rewrite sum_nil. apply Qle_refl.
  - rewrite sum_cons. replace 0%Q with (0 + 0)%Q by reflexivity. by apply Qplus_le_compat.
Qed.

Lemma sum_ge_entry (l : list Q) (i : nat) (x : Q) :
  Forall (λ x, 0 <= x)%Q l → l !! i = Some x → (x <= Py.sum l)%Q.
Proof.
  intros Hl. revert i. induction Hl as [|y l Hy Hl IH]; intros i Hi; [done|].
  rewrite sum_cons. destruct i as [|i]; simpl in Hi.
  - injection Hi as ->. rewrite <- (Qplus_0_r x) at 1.
    apply Qplus_le_compat; [apply Qle_refl | by apply sum_nonneg].
  - rewrite <- (Qplus_0_l x). apply Qplus_le_compat; [done | by eapply IH].
Qed.

Lemma sum_insert (l : list Q) (i : nat) (x v : Q) :
  l !! i = Some x → (Py.sum (<[i := v]> l) == Py.sum l - x + v)%Q.
Proof.
  revert i. induction l as [|y l IH]; intros i Hi; [done|].
  destruct i as [|i]; simpl in *.
  - injection Hi as ->. rewrite !sum_cons. ring.
  - rewrite !sum_cons, (IH i Hi). ring.
Qed.

Lemma sum_replicate_0 (n : nat) : (Py.sum (replicate n 0%Q) == 0)%Q.
Proof. induction n as [|n IH]; simpl; [done|]. rewrite sum_cons, IH. ring. Qed.

Lemma sum_scale_0 (l : list Q) : (Py.sum ((λ x, x * 0)%Q <$> l) == 0)%Q.
Proof. induction l as [|x l IH]; simpl; [done|]. rewrite sum_cons, IH. ring. Qed.

Lemma sum_div (l : list Q) (s : Q) :
  (Py.sum ((λ x, x / s)%Q <$> l) == Py.sum l / s)%Q.
Proof.
  induction l as [|x l IH]; simpl.
  - rewrite sum_nil. unfold Qdiv. ring.
  - rewrite !sum_cons, IH. unfold Qdiv. ring.
Qed.

Lemma ceil_nonneg (x : Q) : (0 <= x)%Q → (0 <= Py.ceil x)%Q.
Proof. intros Hx. eapply Qle_trans; [exact Hx | apply Qle_ceiling]. Qed.

Lemma ceil_pos (x : Q) : (0 < x)%Q → (0 < Py.ceil x)%Q.
Proof. intros Hx. eapply Qlt_le_trans; [exact Hx | apply Qle_ceiling]. Qed.

End Sums.

(** ** Reasoning about methods *)

Ltac unfold_py :=
  unfold mbind, M_bind, mret, M_ret, Py.bind, Py.ret, Py.gets, Py.get,
         Py.modify, Py.raise, Py.assert in *.

Ltac py_simpl := repeat (unfold_py; cbv beta iota).

(** ** The grid world *)

Module GridFacts.
Import GridNavi GridSpec.

Lemma wrap_index_in_range (n i : Z) : 0 ≤ i < n → wrap_index n i = Some i.
Proof.
  intros Hi. unfold wrap_index.
  destruct (0 <=? i) eqn:H1; [|lia]. destruct (i <? n) eqn:H2; [done | lia].
Qed.

Lemma task_to_id_in_grid (g : t) (p : pos) :
  in_grid g.(num_cells) p →
  task_to_id p g = Ok g (p.1 * g.(num_cells) + p.2).
Proof.
  intros [Hx Hy]. unfold task_to_id. unfold_py.
  destruct (num_cells g <? 0) eqn:Hn; [lia|].
  by rewrite !wrap_index_in_range.
Qed.

Lemma cell_id_lt (n : Z) (p : pos) :
  in_grid n p → (cell_id n p < Z.to_nat (n ^ 2))%nat.
Proof. intros [Hx Hy]. unfold cell_id. nia. Qed.

Lemma cell_id_inj (n : Z) (p q : pos) :
  in_grid n p → in_grid n q → cell_id n p = cell_id n q → p = q.
Proof.
  destruct p as [x y], q as [x' y']. unfold in_grid, cell_id. simpl.
  intros [Hx Hy] [Hx' Hy'] Heq.
  assert (x * n + y = x' * n + y') as Heq' by nia.
  assert (x = x') by nia. subst. f_equal. lia.
Qed.

Lemma list_remove_None `{EqDecision X} (x : X) (l : list X) :
  list_remove x l = None ↔ x ∉ l.
Proof.
  induction l as [|y l IH]; simpl.
  - split; [intros _; apply not_elem_of_nil | done].
  - destruct (decide (x = y)) as [->|Hne].
    + split; [done | intros Hn; exfalso; apply Hn; left].
    + rewrite not_elem_of_cons. destruct (list_remove x l); simpl.
      * split; [done|]. intros [_ Hn]. by apply IH in Hn.
      * split; [|done]. intros _. split; [done | by apply IH].
Qed.

Lemma list_remove_Some `{EqDecision X} (x : X) (l l' : list X) :
  list_remove x l = Some l' →
  x ∈ l ∧ length l = S (length l') ∧ (∀ y, y ∈ l' → y ∈ l) ∧
  (NoDup l → NoDup l' ∧ ∀ y, y ∈ l' ↔ y ∈ l ∧ y ≠ x).
Proof.
  revert l'. induction l as [|y l IH]; intros l'; simpl; [done|].
  destruct (decide (x = y)) as [->|Hne].
  - intros [= ->]. split_and!; [left | done | by right |].
    intros [Hy Hl]%NoDup_cons. split; [done|]. intros z. rewrite elem_of_cons.
    split; [intros Hz; split; [by right | by intros ->] | by intros [[->|?] ?]].
  - destruct (list_remove x l) as [r|] eqn:Hr; simpl; [|done].
    intros [= <-]. destruct (IH r eq_refl) as (Hin & Hlen & Hsub & Hnd).
    split_and!; [by right | simpl; lia | |].
    + intros z [->|Hz]%elem_of_cons; [left | right; by apply Hsub].
    + intros [Hy Hl]%NoDup_cons. destruct (Hnd Hl) as [Hr' Hiff]. split.
      * apply NoDup_cons. split; [|done]. intros Hyr. by apply Hiff in Hyr as [? _].
      * intros z. rewrite !elem_of_cons, Hiff. split.
        -- intros [->|[? ?]]; [split; [by left | by intros ->] | split; [by right | done]].
        -- intros [[->|?] ?]; [by left | by right].
Qed.

Lemma range_lookup (n : nat) (i : nat) :
  (i < n)%nat → Py.range (Z.of_nat n) !! i = Some (Z.of_nat i).
Proof.
  intros Hi. unfold Py.range, Py.range3. simpl.
  rewrite Z.sub_0_r, Z.add_simpl_r, Z.div_1_r, Nat2Z.id.
  rewrite list_lookup_fmap, lookup_seq_lt by done. simpl. f_equal. lia.
Qed.

Lemma range_length (n : nat) : length (Py.range (Z.of_nat n)) = n.
Proof.
  unfold Py.range, Py.range3. simpl.
  rewrite Z.sub_0_r, Z.add_simpl_r, Z.div_1_r, Nat2Z.id.
  by rewrite length_fmap, length_seq.
Qed.

Lemma random_choice_Some {X} (l : list X) (g : t) :
  l ≠ [] →
  ∃ x, x ∈ l ∧ l !! (g.(rand_src) g.(rand_pos) `mod` length l)%nat = Some x ∧
       random_choice l g = Ok (set_rand_pos (S g.(rand_pos)) g) x.
Proof.
  intros Hl. unfold random_choice.
  assert (g.(rand_src) g.(rand_pos) `mod` length l < length l)%nat as Hlt.
  { apply Nat.mod_upper_bound. destruct l; [done | simpl; lia]. }
  apply lookup_lt_is_Some_2 in Hlt as [x Hx]. exists x. rewrite Hx.
  split_and!; [by eapply list_elem_of_lookup_2 | done | done].
Qed.

Lemma random_choice_nil {X} (g : t) : random_choice (@nil X) g = Raise g IndexError.
Proof. unfold random_choice. by rewrite lookup_nil. Qed.

Lemma reset_loop (l : list pos) (v : Q) (g : t) :
  Forall (in_grid g.(num_cells)) l →
  for_each l (λ pg, idx ← task_to_id pg;
                modify (λ g, set_belief_state (<[Z.to_nat idx := v]> g.(_belief_state)) g)) g
  = Ok (set_belief_state (fill g.(num_cells) v g.(_belief_state) l) g) tt.
Proof.
  intros Hl. revert g Hl. induction l as [|p l IH]; intros g Hl.
  - by destruct g.
  - apply Forall_cons in Hl as [Hp Hl]. simpl. unfold_py.
    rewrite task_to_id_in_grid by done. 
    rewrite IH by done. done.
Qed.

Lemma fill_length n v b l : length (fill n v b l) = length b.
Proof.
  revert b. induction l as [|p l IH]; intros b; simpl; [done|].
  by rewrite IH, length_insert.
Qed.

Lemma fill_lookup_other n v b l (k : nat) :
  (∀ q, q ∈ l → cell_id n q ≠ k) → fill n v b l !! k = b !! k.
Proof.
  revert b. induction l as [|p l IH]; intros b Hk; simpl; [done|].
  rewrite IH by (intros q Hq; apply Hk; by right).
  apply list_lookup_insert_ne, Hk. left.
Qed.

Lemma fill_nonneg n v b l :
  (0 <= v)%Q → Forall (λ x, 0 <= x)%Q b → Forall (λ x, 0 <= x)%Q (fill n v b l).
Proof.
  intros Hv. revert b. induction l as [|p l IH]; intros b Hb; simpl; [done|].
  apply IH. by apply Forall_insert.
Qed.

Lemma fill_spec n v b l :
  Forall (in_grid n) l → NoDup l →
  length b = Z.to_nat (n ^ 2) →
  (∀ p, p ∈ l → b !! cell_id n p = Some 0%Q) →
  (∀ p, p ∈ l → fill n v b l !! cell_id n p = Some v) ∧
  (Py.sum (fill n v b l) == Py.sum b + inject_Z (Z.of_nat (length l)) * v)%Q.
Proof.
  intros Hl Hnd. revert b. induction Hnd as [|p l Hp Hnd IH]; intros b Hlen Hz.
  - split; [by intros p ?%elem_of_nil | simpl; ring].
  - apply Forall_cons in Hl as [Hpg Hl]. simpl.
    assert (∀ q, q ∈ l → cell_id n q ≠ cell_id n p) as Hne.
    { intros q Hq Heq. apply cell_id_inj in Heq; [by subst | | done].
      by eapply Forall_forall in Hl. }
    destruct (IH Hl (<[cell_id n p := v]> b)) as [Hlk Hsum].
    { by rewrite length_insert. }
    { intros q Hq. rewrite list_lookup_insert_ne by (by apply not_eq_sym, Hne).
      apply Hz. by right. }
    split.
    + intros q [->|Hq]%elem_of_cons; [|by apply Hlk].
      rewrite fill_lookup_other by done.
      apply list_lookup_insert_eq. rewrite Hlen. by apply cell_id_lt.
    + rewrite Hsum, (sum_insert b _ 0%Q) by (apply Hz; left).
      rewrite Nat2Z.inj_succ, <- Z.add_1_r, inject_Z_plus. ring.
Qed.

Lemma reset_belief_eq (g : t) :
  Forall (in_grid g.(num_cells)) g.(possible_goals) →
  let b := fill g.(num_cells) (1 / inject_Z (Z.of_nat (length g.(possible_goals))))%Q
             (replicate (Z.to_nat (g.(num_cells) ^ 2)) 0%Q) g.(possible_goals) in
  _reset_belief g = Ok (set_belief_state b g) b.
Proof.
  intros Hl b.
  pose proof (reset_loop g.(possible_goals)
                (1 / inject_Z (Z.of_nat (length g.(possible_goals))))%Q
                (set_belief_state (replicate (Z.to_nat (g.(num_cells) ^ 2)) 0%Q) g) Hl) as Hloop.
  unfold _reset_belief. unfold_py. simpl in *. by rewrite Hloop.
Qed.

Lemma reset_belief_distribution (n : Z) (l : list pos) (p : pos) :
  Forall (in_grid n) l → NoDup l → p ∈ l →
  let v := (1 / inject_Z (Z.of_nat (length l)))%Q in
  let b := fill n v (replicate (Z.to_nat (n ^ 2)) 0%Q) l in
  length b = Z.to_nat (n ^ 2) ∧ is_distribution b ∧
  (b !! cell_id n p = Some v ∧ 0 < v)%Q.
Proof.
  intros Hl Hnd Hp v b.
  assert (0 < length l)%nat as Hlen by (destruct l; [by apply elem_of_nil in Hp | simpl; lia]).
  assert (0 < inject_Z (Z.of_nat (length l)))%Q as Hpos.
  { change 0%Q with (inject_Z 0). rewrite <- Zlt_Qlt. lia. }
  assert (0 < v)%Q as Hv.
  { unfold v. apply Qlt_shift_div_l; [done|]. by rewrite Qmult_0_l. }
  destruct (fill_spec n v (replicate (Z.to_nat (n ^ 2)) 0%Q) l Hl Hnd) as [Hlk Hsum].
  { by rewrite length_replicate. }
  { intros q Hq. apply lookup_replicate_2. apply cell_id_lt. by eapply Forall_forall in Hl. }
  unfold is_distribution. split_and!.
  - unfold b. by rewrite fill_length, length_replicate.
  - apply fill_nonneg; [by apply Qlt_le_weak|]. by apply Forall_replicate.
  - fold b in Hsum. rewrite Hsum, sum_replicate_0. unfold v. field.
    intros Heq. rewrite Heq in Hpos. by apply Qlt_irrefl in Hpos.
  - by apply Hlk.
  - done.
Qed.

Lemma update_belief_hint_eq (g : t) (state : pos) (action : Z) (rest : list pos) :
  (action =? 5) || ((state.1 =? g.(_goal).1) && (state.2 =? g.(_goal).2)) = true →
  list_remove g.(_goal) g.(possible_goals) = Some rest →
  rest ≠ [] →
  Forall (in_grid g.(num_cells)) g.(possible_goals) →
  ∃ w, rest !! (g.(rand_src) g.(rand_pos) `mod` length rest)%nat = Some w ∧
       let b := hint_belief g.(num_cells) g.(_goal) w g.(_belief_state) in
       update_belief state action g
       = Ok (set_rand_pos (S g.(rand_pos)) (set_belief_state b g)) b.
Proof.
  intros Hc Hrm Hne Hgrid.
  destruct (list_remove_Some _ _ _ Hrm) as (Hgoal & Hlen & Hsub & _).
  assert (g.(rand_src) g.(rand_pos) `mod` length rest < length rest)%nat as Hlt.
  { apply Nat.mod_upper_bound. destruct rest; [done | simpl; lia]. }
  destruct (lookup_lt_is_Some_2 _ _ Hlt) as [w Hw]. exists w. split; [done|].
  assert (in_grid g.(num_cells) g.(_goal)) as Hg by (by eapply Forall_forall in Hgrid).
  assert (in_grid g.(num_cells) w) as Hwg.
  { eapply Forall_forall in Hgrid; [done|]. eapply Hsub, list_elem_of_lookup_2, Hw. }
  pose proof (task_to_id_in_grid) as Hid.
  unfold update_belief, random_choice. unfold_py. cbv beta.
  rewrite Hc, Hrm, range_length, range_lookup by done. simpl.
  rewrite Nat2Z.id, Hw.
  rewrite Hid by done. simpl. rewrite Hid by done. simpl.
  done.
Qed.

Lemma update_belief_else_eq (g : t) (state : pos) (action : Z) :
  (action =? 5) || ((state.1 =? g.(_goal).1) && (state.2 =? g.(_goal).2)) = false →
  in_grid g.(num_cells) state →
  let b := renormalised_belief g.(num_cells) state g.(_belief_state) in
  update_belief state action g = Ok (set_belief_state b g) b.
Proof.
  intros Hc Hs. pose proof (task_to_id_in_grid g state Hs) as Hid.
  unfold update_belief. unfold_py. simpl. rewrite Hc, Hid. done.
Qed.

Lemma hint_belief_distribution (n : Z) (goal w : pos) (b : list Q) :
  in_grid n goal → in_grid n w → goal ≠ w → length b = Z.to_nat (n ^ 2) →
  let b' := hint_belief n goal w b in
  length b' = length b ∧ is_distribution b' ∧
  b' !! cell_id n goal = Some 0.5%Q ∧ b' !! cell_id n w = Some 0.5%Q ∧
  (∀ k x, k ≠ cell_id n goal → k ≠ cell_id n w → b' !! k = Some x → (x == 0)%Q).
Proof.
  intros Hg Hw Hne Hlen b'. unfold b', hint_belief.
  assert (cell_id n goal ≠ cell_id n w) as Hid by (intros ?%cell_id_inj; done).
  pose proof (cell_id_lt n goal Hg) as Hlg. pose proof (cell_id_lt n w Hw) as Hlw.
  set (z := (λ x, x * 0)%Q <$> b).
  assert (length z = length b) as Hz by apply length_fmap.
  assert (∀ k x, z !! k = Some x → (x == 0)%Q) as Hz0.
  { intros k x. unfold z. rewrite list_lookup_fmap.
    destruct (b !! k); simpl; [|done]. intros [= <-]. ring. }
  assert (Forall (λ x, 0 <= x)%Q z) as Hznn.
  { apply Forall_lookup. intros k x Hx. rewrite (Hz0 k x Hx). apply Qle_refl. }
  destruct (lookup_lt_is_Some_2 z (cell_id n goal)) as [xg Hxg]; [lia|].
  destruct (lookup_lt_is_Some_2 z (cell_id n w)) as [xw Hxw]; [lia|].
  split_and!.
  - by rewrite !length_insert.
  - split.
    + apply Forall_insert; [apply Forall_insert; [done|]|]; done.
    + rewrite (sum_insert _ _ xw) by (by rewrite list_lookup_insert_ne).
      rewrite (sum_insert _ _ xg) by done.
      rewrite (Hz0 _ _ Hxg), (Hz0 _ _ Hxw). unfold z. rewrite sum_scale_0. reflexivity.
  - rewrite list_lookup_insert_ne by done. apply list_lookup_insert_eq. lia.
  - apply list_lookup_insert_eq. rewrite length_insert. lia.
  - intros k x Hkg Hkw. rewrite !list_lookup_insert_ne by done. apply Hz0.
Qed.

Lemma renormalised_belief_distribution (n : Z) (state goal : pos) (b : list Q) (x : Q) :
  in_grid n state → in_grid n goal → state ≠ goal →
  Forall (λ x, 0 <= x)%Q b → b !! cell_id n goal = Some x → (0 < x)%Q →
  let c := Py.ceil <$> <[cell_id n state := 0%Q]> b in
  let b' := renormalised_belief n state b in
  (0 < Py.sum c)%Q ∧ length b' = length b ∧ is_distribution b' ∧
  ∃ y, b' !! cell_id n goal = Some y ∧ (0 < y)%Q.
Proof.
  intros Hs Hg Hne Hb Hx Hpos c b'.
  assert (cell_id n state ≠ cell_id n goal) as Hid by (intros ?%cell_id_inj; done).
  assert (Forall (λ x, 0 <= x)%Q c) as Hc.
  { unfold c. apply Forall_fmap. apply Forall_insert; [|done].
    eapply Forall_impl; [exact Hb|]. intros y Hy. by apply ceil_nonneg. }
  assert (c !! cell_id n goal = Some (Py.ceil x)) as Hcg.
  { unfold c. by rewrite list_lookup_fmap, list_lookup_insert_ne, Hx. }
  assert (0 < Py.sum c)%Q as Hsum.
  { eapply Qlt_le_trans; [apply (ceil_pos x Hpos)|]. by eapply sum_ge_entry. }
  assert (~ Py.sum c == 0)%Q as Hnz.
  { intros Heq. rewrite Heq in Hsum. by apply Qlt_irrefl in Hsum. }
  split_and!.
  - done.
  - unfold b', renormalised_belief. fold c. unfold c.
    by rewrite !length_fmap, length_insert.
  - unfold b', renormalised_belief. fold c. split.
    + apply Forall_fmap. eapply Forall_impl; [exact Hc|]. simpl. intros y Hy.
      apply Qle_shift_div_l; [done|]. by rewrite Qmult_0_l.
    + rewrite sum_div. by field.
  - exists (Py.ceil x / Py.sum c)%Q. split.
    + unfold b', renormalised_belief. fold c. by rewrite list_lookup_fmap, Hcg.
    + apply Qlt_shift_div_l; [done|]. rewrite Qmult_0_l. by apply ceil_pos.
Qed.

Lemma state_transition_eq (action : Z) (g : t) :
  in_grid g.(num_cells) g.(_env_state) →
  Forall (in_grid g.(num_cells)) g.(possible_goals) →
  ∃ s, state_transition action g = Ok (set_env_state s g) s ∧ in_grid g.(num_cells) s.
Proof.
  intros Hs Hg. destruct g as [n ? ? ? ? ? ? hall stk ? ? ? pgs ? ? [x y] ? ? ? ?].
  unfold in_grid in *. simpl in *. unfold state_transition. unfold_py. simpl.
  destruct (bool_decide (hall ≠ None) && (y =? 1) && (stk || negb (action =? 3))).
  { exists (x, y). split; [done | simpl; lia]. }
  destruct (action =? 1).
  { destruct hall.
    - destruct (bool_decide_reflect ((x, y + 1) ∈ pgs)) as [Hin|_]; simpl.
      + exists (x, y + 1). split; [done|]. by eapply Forall_forall in Hg.
      + exists (x, y). split; [done | simpl; lia].
    - simpl. eexists. split; [done | simpl; lia]. }
  destruct (action =? 2); [simpl; eexists; split; [done | simpl; lia]|].
  destruct (action =? 3); [simpl; eexists; split; [done | simpl; lia]|].
  destruct (action =? 4); [simpl; eexists; split; [done | simpl; lia]|].
  simpl. exists (x, y). split; [done | simpl; lia].
Qed.

(** Fields the invariant depends on, apart from the belief. *)
Lemma Inv_ext (g g' : t) :
  Inv g →
  g'.(num_cells) = g.(num_cells) →
  g'.(possible_goals) = g.(possible_goals) →
  g'.(_goal) = g.(_goal) →
  g'.(starting_state) = g.(starting_state) →
  in_grid g.(num_cells) g'.(_env_state) →
  g'.(_belief_state) = g.(_belief_state) →
  Inv g'.
Proof.
  intros [] Hn Hp Hg Hs He Hb. split; rewrite ?Hn, ?Hp, ?Hg, ?Hs, ?Hb; done.
Qed.

Lemma update_belief_Inv (state : pos) (action : Z) (g : t) :
  Inv g → in_grid g.(num_cells) state →
  Inv (state_of (update_belief state action g)).
Proof.
  intros HI Hs. pose proof HI as [Hgrid Hnd Hgoal Hst Hstart Hlen Hdist [x [Hx Hpos]]].
  assert (in_grid g.(num_cells) g.(_goal)) as Hg by (by eapply Forall_forall in Hgrid).
  destruct ((action =? 5) || ((state.1 =? g.(_goal).1) && (state.2 =? g.(_goal).2))) eqn:Hc.
  - destruct (list_remove g.(_goal) g.(possible_goals)) as [rest|] eqn:Hrm.
    + destruct (decide (rest = [])) as [->|Hne].
      * assert (update_belief state action g = Raise g IndexError) as ->; [|done].
        unfold update_belief, random_choice. unfold_py. cbv beta. by rewrite Hc, Hrm.
      * destruct (update_belief_hint_eq g state action rest Hc Hrm Hne Hgrid) as (w & Hw & ->).
        simpl. destruct (list_remove_Some _ _ _ Hrm) as (_ & _ & Hsub & Hnd').
        destruct (Hnd' Hnd) as [_ Hiff].
        assert (w ∈ rest) as Hwr by (by eapply list_elem_of_lookup_2).
        apply Hiff in Hwr as [Hwp Hwne].
        assert (in_grid g.(num_cells) w) as Hwg by (by eapply Forall_forall in Hgrid).
        destruct (hint_belief_distribution g.(num_cells) g.(_goal) w g.(_belief_state))
          as (Hl' & Hd' & Hg' & _); [done | done | done | done |].
        split; simpl; try done; [congruence|].
        exists 0.5%Q. split; [done | reflexivity].
    + assert (update_belief state action g = Raise g ValueError) as ->; [|done].
      unfold update_belief. unfold_py. cbv beta. by rewrite Hc, Hrm.
  - rewrite update_belief_else_eq by done. simpl.
    assert (state ≠ g.(_goal)) as Hne.
    { intros ->. rewrite !Z.eqb_refl, orb_true_r in Hc. done. }
    destruct (renormalised_belief_distribution g.(num_cells) state g.(_goal) g.(_belief_state) x)
      as (_ & Hl' & Hd' & Hg'); [done | done | done | apply Hdist | done | done |].
    split; simpl; try done. congruence.
Qed.

(** What a returning [step] did, in terms of the state before. *)
Lemma step_inv (action : Z) (g g' : t) (res : step_result) :
  Inv g →
  step action g = Ok g' res →
  ∃ s chk,
    state_transition action g = Ok (set_env_state s g) s ∧
    action_space_contains action = true ∧
    g'.(_env_state) = s ∧
    g'.(num_cells) = g.(num_cells) ∧ g'.(possible_goals) = g.(possible_goals) ∧
    g'.(_goal) = g.(_goal) ∧ g'.(starting_state) = g.(starting_state) ∧
    g'.(new_state_r) = g.(new_state_r) ∧ g'.(distance_reward) = g.(distance_reward) ∧
    g'.(_max_episode_steps) = g.(_max_episode_steps) ∧
    g'.(step_count) = g.(step_count) + 1 ∧
    g'.(rand_src) = g.(rand_src) ∧
    g'.(show_goal_at_start) = g.(show_goal_at_start) ∧
    (g.(show_goal_at_start) = false → res.1.1.1 = pos_to_obs s) ∧
    res.1.1.2 = compute_reward chk g' ∧
    res.1.2 = bool_decide (g.(_max_episode_steps) ≤ g.(step_count) + 1) ∧
    res.2 !! "belief" = Some (VVec g'.(_belief_state)) ∧
    (if (action =? 5) || ((s.1 =? g.(_goal).1) && (s.2 =? g.(_goal).2))
     then ∃ rest w, list_remove g.(_goal) g.(possible_goals) = Some rest ∧
                    rest !! (g.(rand_src) g.(rand_pos) `mod` length rest)%nat = Some w ∧
                    g'.(_belief_state) = hint_belief g.(num_cells) g.(_goal) w g.(_belief_state)
     else g'.(_belief_state) = renormalised_belief g.(num_cells) s g.(_belief_state)).
Proof.
  intros HI. pose proof HI as [Hgrid Hnd Hgoal Hst Hstart Hlen Hdist Hmass].
  assert (in_grid g.(num_cells) g.(_goal)) as Hg by (by eapply Forall_forall in Hgrid).
  destruct (state_transition_eq action g Hst Hgrid) as (s & Hs & Hsg).
  unfold step. py_simpl. destruct (action_space_contains action) eqn:Ha; [|done].
  py_simpl. rewrite Hs. cbv beta iota.
  set (chk := match new_state_r (set_env_state s g) with Some _ => _ | None => _ end).
  assert (∃ gu c, chk (set_env_state s g) = Ok (set_goals_unchecked gu (set_env_state s g)) c)
    as (gu & c & ->).
  { unfold chk. clear. destruct g as [? ? r ? ? ? ? ? ? ? ? ? ? gu ? ? ? ? ? ?]. simpl.
    destruct r; [destruct (bool_decide _)|]; eexists _, _; reflexivity. }
  clear chk. simpl.
  set (g3 := set_step_count _ _).
  destruct (update_belief s action g3) as [g4 b|g4 e] eqn:Hub; [|done].
  assert (g4.(_env_state) = s ∧ g4.(num_cells) = g.(num_cells) ∧
          g4.(possible_goals) = g.(possible_goals) ∧ g4.(_goal) = g.(_goal) ∧
          g4.(starting_state) = g.(starting_state) ∧
          g4.(new_state_r) = g.(new_state_r) ∧ g4.(distance_reward) = g.(distance_reward) ∧
          g4.(_max_episode_steps) = g.(_max_episode_steps) ∧
          g4.(step_count) = g.(step_count) + 1 ∧ g4.(rand_src) = g.(rand_src) ∧
          g4.(show_goal_at_start) = g.(show_goal_at_start) ∧
          (if (action =? 5) || ((s.1 =? g.(_goal).1) && (s.2 =? g.(_goal).2))
           then ∃ rest w, list_remove g.(_goal) g.(possible_goals) = Some rest ∧
                    rest !! (g.(rand_src) g.(rand_pos) `mod` length rest)%nat = Some w ∧
                    g4.(_belief_state) = hint_belief g.(num_cells) g.(_goal) w g.(_belief_state)
           else g4.(_belief_state) = renormalised_belief g.(num_cells) s g.(_belief_state)))
    as (He & Hn & Hp & Hgl & Hss & Hr & Hd & Hm & Hsc & Hrs & Hsh & Hbel).
  { destruct ((action =? 5) || ((s.1 =? g.(_goal).1) && (s.2 =? g.(_goal).2))) eqn:Hc.
    - destruct (list_remove g.(_goal) g.(possible_goals)) as [rest|] eqn:Hrm.
      + destruct (decide (rest = [])) as [->|Hne].
        * exfalso. revert Hub. unfold update_belief, random_choice. py_simpl.
          change (_goal g3) with (_goal g). rewrite Hc. py_simpl.
          change (possible_goals g3) with (possible_goals g). by rewrite Hrm.
        * destruct (update_belief_hint_eq g3 s action rest Hc Hrm Hne Hgrid) as (w & Hw & Heq).
          rewrite Heq in Hub. injection Hub as <- <-. simpl. split_and!; try done.
          by exists rest, w.
      + exfalso. revert Hub. unfold update_belief. py_simpl.
        change (_goal g3) with (_goal g). rewrite Hc. py_simpl.
        change (possible_goals g3) with (possible_goals g). by rewrite Hrm.
    - rewrite (update_belief_else_eq g3 s action Hc Hsg) in Hub.
      injection Hub as <- <-. simpl. split_and!; done. }
  unfold get_task, get_belief. py_simpl.
  rewrite task_to_id_in_grid by (by rewrite Hn, Hgl). cbv beta iota.
  intros Hres. exists s, c.
  assert (compute_reward c g3 = compute_reward c g4) as Hrew.
  { unfold compute_reward. rewrite He, Hgl, Hr, Hd, Hn. done. }
  rewrite Hsh in Hres. destruct (show_goal_at_start g) eqn:Hshow.
  - destruct (starting_state g4) eqn:Hst4; [|done]. py_simpl.
    destruct (((_env_state g4).1 =? p.1) && ((_env_state g4).2 =? p.2));
      injection Hres as <- <-; simpl; split_and!; try done; congruence.
  - py_simpl. injection Hres as <- <-. simpl. split_and!; try done; congruence.
Qed.

Lemma step_Inv (action : Z) (g : t) : Inv g → Inv (state_of (step action g)).
Proof.
  intros HI. pose proof HI as [Hgrid Hnd Hgoal Hst Hstart Hlen Hdist Hmass].
  destruct (state_transition_eq action g Hst Hgrid) as (s & Hs & Hsg).
  unfold step. py_simpl. destruct (action_space_contains action) eqn:Ha; [|done].
  py_simpl. rewrite Hs. cbv beta iota.
  set (chk := match new_state_r (set_env_state s g) with Some _ => _ | None => _ end).
  assert (∃ gu c, chk (set_env_state s g) = Ok (set_goals_unchecked gu (set_env_state s g)) c)
    as (gu & c & ->).
  { unfold chk. clear. destruct g as [? ? r ? ? ? ? ? ? ? ? ? ? gu ? ? ? ? ? ?]. simpl.
    destruct r; [destruct (bool_decide _)|]; eexists _, _; reflexivity. }
  clear chk. simpl.
  set (g3 := set_step_count _ _).
  assert (Inv g3) as HI3 by (by apply (Inv_ext g)).
  pose proof (update_belief_Inv s action g3 HI3 Hsg) as HI4.
  destruct (update_belief s action g3) as [g4 b|g4 e]; [|done]. simpl in HI4.
  unfold get_task, get_belief. py_simpl.
  rewrite task_to_id_in_grid.
  2:{ destruct HI4 as [Hgrid4 _ Hgoal4 _ _ _ _ _]. by eapply Forall_forall in Hgrid4. }
  cbv beta iota.
  destruct (show_goal_at_start g4); [|done].
  destruct (starting_state g4); [|done]. py_simpl.
  by destruct (((_env_state g4).1 =? p.1) && ((_env_state g4).2 =? p.2)).
Qed.

Lemma step_returns (action : Z) (g : t) :
  Inv g →
  action_space_contains action = true →
  (2 ≤ length g.(possible_goals))%nat →
  (g.(show_goal_at_start) = true → g.(starting_state) ≠ None) →
  ∃ g' res, step action g = Ok g' res.
Proof.
  intros HI Ha Hlen2 Hshow. pose proof HI as [Hgrid Hnd Hgoal Hst Hstart Hlen Hdist Hmass].
  destruct (state_transition_eq action g Hst Hgrid) as (s & Hs & Hsg).
  unfold step. py_simpl. rewrite Ha.
  py_simpl. rewrite Hs. cbv beta iota.
  set (chk := match new_state_r (set_env_state s g) with Some _ => _ | None => _ end).
  assert (∃ gu c, chk (set_env_state s g) = Ok (set_goals_unchecked gu (set_env_state s g)) c)
    as (gu & c & ->).
  { unfold chk. clear. destruct g as [? ? r ? ? ? ? ? ? ? ? ? ? gu ? ? ? ? ? ?]. simpl.
    destruct r; [destruct (bool_decide _)|]; eexists _, _; reflexivity. }
  clear chk. simpl.
  set (g3 := set_step_count _ _).
  assert (Inv g3) as HI3 by (by apply (Inv_ext g)).
  pose proof (update_belief_Inv s action g3 HI3 Hsg) as HI4.
  assert (∃ g4 b, update_belief s action g3 = Ok g4 b ∧
                  g4.(show_goal_at_start) = g.(show_goal_at_start) ∧
                  g4.(starting_state) = g.(starting_state)) as (g4 & b & Hub & Hsh & Hss).
  { destruct ((action =? 5) || ((s.1 =? g.(_goal).1) && (s.2 =? g.(_goal).2))) eqn:Hc.
    - destruct (list_remove g.(_goal) g.(possible_goals)) as [rest|] eqn:Hrm.
      + destruct (list_remove_Some _ _ _ Hrm) as (_ & Hl & _).
        assert (rest ≠ []) as Hne by (intros ->; simpl in Hl; lia).
        destruct (update_belief_hint_eq g3 s action rest Hc Hrm Hne Hgrid) as (w & Hw & Heq).
        eexists _, _. split; [exact Heq | done].
      + by apply list_remove_None in Hrm.
    - eexists _, _. split; [by apply (update_belief_else_eq g3 s action Hc Hsg) | done]. }
  rewrite Hub in HI4 |- *. simpl in HI4.
  unfold get_task, get_belief. py_simpl.
  rewrite task_to_id_in_grid.
  2:{ destruct HI4 as [Hgrid4 _ Hgoal4 _ _ _ _ _]. by eapply Forall_forall in Hgrid4. }
  cbv beta iota. rewrite Hsh.
  destruct (show_goal_at_start g) eqn:Hsg'; [|by eexists _, _].
  cbv beta iota. rewrite Hss.
  destruct (starting_state g) eqn:Hst'; [|by destruct Hshow]. py_simpl.
  destruct (((_env_state g4).1 =? p.1) && ((_env_state g4).2 =? p.2)); by eexists _, _.
Qed.

Lemma reset_Inv (g : t) : Inv g → Inv (state_of (reset g)).
Proof.
  intros HI. pose proof HI as [Hgrid Hnd Hgoal Hst Hstart Hlen Hdist Hmass].
  unfold reset. py_simpl. simpl.
  destruct (starting_state g) as [s|] eqn:Hs; py_simpl.
  - apply (Inv_ext g); try done. simpl. by apply Hstart.
  - simpl. destruct (decide (g.(possible_goals) = [])) as [Hnil|Hne].
    + rewrite Hnil, random_choice_nil. by apply (Inv_ext g).
    + destruct (random_choice_Some g.(possible_goals) (set_step_count 0 g) Hne)
        as (x & Hx & _ & ->).
      simpl. apply (Inv_ext g); try done. simpl. by eapply Forall_forall in Hgrid.
Qed.

Lemma reset_task_Inv (task : option pos) (g : t) :
  Forall (in_grid g.(num_cells)) g.(possible_goals) →
  NoDup g.(possible_goals) →
  in_grid g.(num_cells) g.(_env_state) →
  (∀ s, g.(starting_state) = Some s → in_grid g.(num_cells) s) →
  (∀ p, task = Some p → p ∈ g.(possible_goals)) →
  ∀ g' goal, reset_task task g = Ok g' goal → Inv g'.
Proof.
  intros Hgrid Hnd Hst Hstart Htask g' goal.
  assert (∀ g1 p, p ∈ g.(possible_goals) →
            g1.(num_cells) = g.(num_cells) → g1.(possible_goals) = g.(possible_goals) →
            g1.(_env_state) = g.(_env_state) → g1.(starting_state) = g.(starting_state) →
            g1.(_goal) = p →
            (_reset_belief;;
             modify (λ g, set_goals_unchecked (list_to_set g.(possible_goals)) g);;
             gets _goal) g1 = Ok g' goal → Inv g') as Hmain.
  { intros g1 p Hp Hn Hpg He Hs Hgl. py_simpl.
    rewrite reset_belief_eq by (by rewrite Hn, Hpg). cbv beta iota. simpl.
    intros [= <- <-].
    destruct (reset_belief_distribution g.(num_cells) g.(possible_goals) p Hgrid Hnd Hp)
      as (Hl' & Hd' & Hm' & Hv'). rewrite Hn, Hpg.
    split; simpl; rewrite ?Hn, ?Hpg, ?He, ?Hs, ?Hgl; try done. eauto. }
  unfold reset_task. destruct task as [p|].
  - py_simpl. intros Heq. apply (Hmain (set_goal p g) p); try done. by apply Htask.
  - py_simpl. simpl. destruct (decide (g.(possible_goals) = [])) as [Hnil|Hne].
    + by rewrite Hnil, random_choice_nil.
    + destruct (random_choice_Some g.(possible_goals) g Hne) as (x & Hx & _ & ->).
      cbv beta iota. intros Heq.
      by apply (Hmain (set_goal x (set_rand_pos (S (rand_pos g)) g)) x).
Qed.

Lemma range3_elem (start stop step x : Z) :
  x ∈ Py.range3 start stop step →
  ∃ i : nat, x = start + Z.of_nat i * step ∧
             if 0 <? step then x < stop else step = 0 ∨ stop < x.
Proof.
  unfold Py.range3. intros (i & -> & Hi)%list_elem_of_fmap. exists i. split; [done|].
  apply elem_of_seq in Hi. destruct (0 <? step) eqn:Hs.
  - apply Z.ltb_lt in Hs.
    assert (Z.of_nat i < (stop - start + step - 1) / step) as Hlt by lia.
    assert (step * (Z.of_nat i + 1) ≤ stop - start + step - 1); [|lia].
    transitivity (step * ((stop - start + step - 1) / step)).
    + apply Z.mul_le_mono_nonneg_l; lia.
    + apply Z.mul_div_le. lia.
  - apply Z.ltb_ge in Hs. destruct (decide (step = 0)) as [|Hne]; [by left | right].
    assert (Z.of_nat i < (start - stop - step - 1) / - step) as Hlt by lia.
    assert (- step * (Z.of_nat i + 1) ≤ start - stop - step - 1); [|lia].
    transitivity (- step * ((start - stop - step - 1) / - step)).
    + apply Z.mul_le_mono_nonneg_l; lia.
    + apply Z.mul_div_le. lia.
Qed.

Lemma range3_NoDup (start stop step : Z) : step ≠ 0 → NoDup (Py.range3 start stop step).
Proof.
  intros Hs. unfold Py.range3. apply NoDup_fmap_2_strong; [|apply NoDup_seq].
  intros i j _ _ Heq. nia.
Qed.

Lemma range_elem (n x : Z) : x ∈ Py.range n → 0 ≤ x < n.
Proof. intros (i & -> & Hi)%range3_elem. simpl in Hi. lia. Qed.

Lemma range_NoDup (n : Z) : NoDup (Py.range n).
Proof. by apply range3_NoDup. Qed.

Lemma product2_range_in_grid (n : Z) : Forall (in_grid n) (Py.product2 (Py.range n)).
Proof.
  apply Forall_forall. intros [x y]. unfold Py.product2.
  intros (x' & (y' & Hxy & Hy)%list_elem_of_bind & Hx)%list_elem_of_bind.
  apply list_elem_of_singleton in Hxy as [= -> ->].
  split; simpl; by apply range_elem.
Qed.

Lemma product2_NoDup {X} (xs : list X) : NoDup xs → NoDup (Py.product2 xs).
Proof.
  intros Hxs. unfold Py.product2. apply NoDup_bind; [| |done].
  - intros x1 x2 [a b] _ _ (y1 & H1 & _)%list_elem_of_bind (y2 & H2 & _)%list_elem_of_bind.
    apply list_elem_of_singleton in H1, H2. congruence.
  - intros x _. apply NoDup_bind; [| |done].
    + intros y1 y2 [a b] _ _ H1 H2. apply list_elem_of_singleton in H1, H2. congruence.
    + intros y _. apply NoDup_singleton.
Qed.

Lemma remove_if_present_keeps `{EqDecision X} (P : X → Prop) (x : X) (l : list X) :
  Forall P l ∧ NoDup l →
  Forall P (default l (list_remove x l)) ∧ NoDup (default l (list_remove x l)).
Proof.
  intros [HP Hnd]. destruct (list_remove x l) as [l'|] eqn:Hrm; simpl; [|done].
  destruct (list_remove_Some _ _ _ Hrm) as (_ & _ & Hsub & Hnd'). split.
  - apply Forall_forall. intros y Hy. eapply Forall_forall in HP; [done|]. by apply Hsub.
  - by apply Hnd'.
Qed.

Lemma open_goals_ok (n : Z) (start : option pos) :
  Forall (in_grid n) (open_goals n start) ∧ NoDup (open_goals n start).
Proof.
  assert (Forall (in_grid n) (Py.product2 (Py.range n)) ∧ NoDup (Py.product2 (Py.range n)))
    as Hall by (split; [apply product2_range_in_grid | apply product2_NoDup, range_NoDup]).
  unfold open_goals. destruct start as [[sx sy]|]; [|done].
  generalize (x_offset ← [-1; 0; 1]; y_offset ← [-1; 0; 1]; [(sx + x_offset, sy + y_offset)]).
  intros around. revert Hall. generalize (Py.product2 (Py.range n)).
  induction around as [|p around IH]; intros l Hl; simpl; [done|].
  by apply IH, remove_if_present_keeps.
Qed.

Lemma ring_goals_ok (n : Z) (s : pos) :
  Forall (in_grid n) (ring_goals n s) ∧ NoDup (ring_goals n s).
Proof.
  unfold ring_goals. split; [|apply NoDup_elements].
  assert (∀ (offs : list Z) (acc : gset pos),
            (∀ o, o ∈ offs → 0 ≤ o < n) → (∀ p, p ∈ acc → in_grid n p) →
            ∀ p, p ∈ foldl (λ acc offset, acc ∪ {[ (0, offset) ]} ∪ {[ (n - 1, offset) ]}
                             ∪ {[ (offset, n - 1) ]} ∪ {[ (offset, 0) ]}) acc offs →
                 in_grid n p) as Hfold.
  { induction offs as [|o offs IH]; intros acc Ho Hacc p; simpl; [by apply Hacc|].
    apply IH; [intros o' Ho'; apply Ho; by right|].
    assert (0 ≤ o < n) as Hon by (apply Ho; left).
    intros q. rewrite !elem_of_union, !elem_of_singleton.
    intros [[[[Hq| ->]| ->]| ->]| ->]; [by apply Hacc|..]; unfold in_grid; simpl; lia. }
  apply Forall_forall. intros p Hp. apply elem_of_elements in Hp.
  apply (Hfold (Py.range n) ∅); [apply range_elem | by intros q Hq%not_elem_of_empty |].
  destruct (bool_decide _); [by apply elem_of_difference in Hp as [? _] | done].
Qed.

Lemma hall_goals_ok (n h : Z) :
  h ≠ 0 → 0 ≤ n →
  let goals := (λ offset, (offset, 1)) <$> Py.range3 h n h in
  Forall (in_grid n) goals ∧ NoDup goals.
Proof.
  intros Hh Hn goals. split.
  - apply Forall_forall. intros p (o & -> & Ho)%list_elem_of_fmap.
    apply range3_elem in Ho as (i & -> & Hi).
    destruct (0 <? h) eqn:Hpos; unfold in_grid; simpl.
    + apply Z.ltb_lt in Hpos. nia.
    + apply Z.ltb_ge in Hpos. destruct Hi as [|Hi]; [done|]. nia.
  - apply NoDup_fmap_2_strong; [|by apply range3_NoDup]. by intros ?? _ _ [= ->].
Qed.

Lemma reset_belief_negative (g : t) :
  g.(num_cells) < 0 → g.(possible_goals) ≠ [] →
  ∃ g', _reset_belief g = Raise g' RuntimeError.
Proof.
  intros Hn Hne. unfold _reset_belief. py_simpl. simpl.
  destruct (possible_goals g) as [|p l]; [done|]. simpl. unfold task_to_id. py_simpl. simpl.
  destruct (num_cells g <? 0) eqn:Hlt; [by eexists | lia].
Qed.

Lemma reset_task_returns (task : option pos) (g : t) :
  Forall (in_grid g.(num_cells)) g.(possible_goals) →
  g.(possible_goals) ≠ [] →
  ∃ g' goal, reset_task task g = Ok g' goal.
Proof.
  intros Hgrid Hne. unfold reset_task. destruct task as [p|]; py_simpl.
  - rewrite reset_belief_eq by done. by eexists _, _.
  - simpl. destruct (random_choice_Some g.(possible_goals) g Hne) as (x & Hx & _ & ->).
    cbv beta iota. rewrite reset_belief_eq by done. by eexists _, _.
Qed.

Lemma reset_task_Inv' (task : option pos) (g : t) :
  Inv g → (∀ p, task = Some p → p ∈ g.(possible_goals)) →
  Inv (state_of (reset_task task g)).
Proof.
  intros HI Htask. pose proof HI as [Hgrid Hnd Hgoal Hst Hstart Hlen Hdist Hmass].
  destruct (reset_task_returns task g Hgrid) as (g' & goal & Heq).
  { intros Hnil. rewrite Hnil in Hgoal. by apply elem_of_nil in Hgoal. }
  rewrite Heq. simpl. by eapply reset_task_Inv.
Qed.

(** The tail of the constructor: place the agent, draw the goal, reset the
    belief. *)
Lemma finish_Inv (g0 g : t) :
  (0 ≤ g0.(num_cells) → Forall (in_grid g0.(num_cells)) g0.(possible_goals)) →
  NoDup g0.(possible_goals) →
  (∀ s, g0.(starting_state) = Some s → in_grid g0.(num_cells) s) →
  (match g0.(starting_state) with
   | None => pgs ← gets possible_goals; s ← random_choice pgs; modify (set_env_state s)
   | Some s => modify (set_env_state s)
   end;; reset_task None;; _reset_belief;; mret tt) g0 = Ok g tt →
  Inv g.
Proof.
  intros Hgrid Hnd Hstart.
  assert (∀ g1, g1.(num_cells) = g0.(num_cells) → g1.(possible_goals) = g0.(possible_goals) →
                g1.(starting_state) = g0.(starting_state) →
                (0 ≤ g0.(num_cells) → in_grid g0.(num_cells) g1.(_env_state)) →
                (reset_task None;; _reset_belief;; mret tt) g1 = Ok g tt → Inv g) as Hmain.
  { intros g1 Hn Hp Hs He. py_simpl.
    destruct (decide (g0.(num_cells) < 0)) as [Hneg|Hnn].
    - unfold reset_task. py_simpl. simpl.
      destruct (decide (g1.(possible_goals) = [])) as [Hnil|Hne].
      + by rewrite Hnil, random_choice_nil.
      + destruct (random_choice_Some g1.(possible_goals) g1 Hne) as (x & Hx & _ & ->).
        cbv beta iota.
        destruct (reset_belief_negative (set_goal x (set_rand_pos (S (rand_pos g1)) g1)))
          as [g' ->]; [simpl; lia | done | done].
    - assert (0 ≤ g0.(num_cells)) as Hn0 by lia.
      destruct (reset_task None g1) as [g2 goal|] eqn:Hrt; [|done].
      apply reset_task_Inv in Hrt; rewrite ?Hn, ?Hp, ?Hs; auto; [|done].
      pose proof Hrt as [Hgrid2 Hnd2 Hgoal2 Hst2 Hstart2 Hlen2 Hdist2 Hmass2].
      rewrite reset_belief_eq by done. cbv beta iota. intros [= <-].
      destruct (reset_belief_distribution g2.(num_cells) g2.(possible_goals) g2.(_goal))
        as (Hl' & Hd' & Hm' & Hv'); [done..|].
      split; simpl; try done. eauto. }
  destruct (starting_state g0) as [s|] eqn:Hs; py_simpl.
  - intros Heq. apply (Hmain (set_env_state s g0)); try done. simpl. auto.
  - simpl. destruct (decide (g0.(possible_goals) = [])) as [Hnil|Hne].
    + by rewrite Hnil, random_choice_nil.
    + destruct (random_choice_Some g0.(possible_goals) g0 Hne) as (x & Hx & _ & ->).
      cbv beta iota. intros Heq.
      apply (Hmain (set_env_state x (set_rand_pos (S (rand_pos g0)) g0))); try done.
      simpl. intros Hn0. specialize (Hgrid Hn0). by eapply Forall_forall in Hgrid.
Qed.

Lemma init_Inv num_cells num_steps start ring hall new_state_r stuck distance_reward
    show_goal_at_start rand consumed (g : t) :
  __init__ num_cells num_steps start ring hall new_state_r stuck distance_reward
           show_goal_at_start rand consumed = Ok g tt →
  (∀ s, start = Some s → in_grid num_cells s) →
  Inv g.
Proof.
  intros Hinit Hstart. unfold __init__ in Hinit.
  destruct (bool_decide (start = None) && (ring || bool_decide (hall ≠ None))); [done|].
  assert (∀ goals,
            (0 ≤ num_cells → Forall (in_grid num_cells) goals) → NoDup goals →
            ∀ g0, g0 = mk num_cells (num_cells ^ 2) new_state_r distance_reward
                          show_goal_at_start num_steps 0 hall stuck 2 (num_cells ^ 2) start
                          goals (list_to_set goals) (num_cells ^ 2) (0, 0) (0, 0) []
                          rand consumed →
            (match start with
             | None => pgs ← gets possible_goals; s ← random_choice pgs; modify (set_env_state s)
             | Some s => modify (set_env_state s)
             end;; reset_task None;; _reset_belief;; mret tt) g0 = Ok g tt →
            Inv g) as Hfinish.
  { intros goals Hgrid Hnd g0 Heq Hfin.
    apply (finish_Inv g0 g); subst g0; [exact Hgrid | exact Hnd | exact Hstart | exact Hfin]. }
  destruct ring.
  - destruct hall; [done|]. destruct start as [s|]; [|done].
    eapply (Hfinish (ring_goals num_cells s)); [intros _| |reflexivity|exact Hinit];
      apply ring_goals_ok.
  - destruct hall as [h|].
    + destruct start as [s|]; [|done].
      destruct (negb (s.2 =? 0)); [done|]. destruct (h =? 0) eqn:Hh; [done|].
      apply Z.eqb_neq in Hh.
      eapply (Hfinish ((λ offset, (offset, 1)) <$> Py.range3 h num_cells h));
        [intros Hn| |reflexivity|exact Hinit].
      * by apply hall_goals_ok.
      * apply NoDup_fmap_2_strong; [|by apply range3_NoDup]. by intros ?? _ _ [= ->].
    + eapply (Hfinish (open_goals num_cells start)); [intros _| |reflexivity|exact Hinit];
        apply open_goals_ok.
Qed.

Lemma reachable_Inv (g : t) : reachable g → Inv g.
Proof.
  induction 1 as [???????????? Hinit Hstart | g task _ IH Htask | g _ IH | g action _ IH].
  - by eapply init_Inv.
  - by apply reset_task_Inv'.
  - by apply reset_Inv.
  - by apply step_Inv.
Qed.

Lemma update_belief_hint_inv (g g' : t) (state : pos) (action : Z) (b : list Q) :
  Inv g →
  (action =? 5) || ((state.1 =? g.(_goal).1) && (state.2 =? g.(_goal).2)) = true →
  update_belief state action g = Ok g' b →
  ∃ rest w, list_remove g.(_goal) g.(possible_goals) = Some rest ∧
            rest !! (g.(rand_src) g.(rand_pos) `mod` length rest)%nat = Some w ∧
            w ∈ g.(possible_goals) ∧ w ≠ g.(_goal) ∧
            b = hint_belief g.(num_cells) g.(_goal) w g.(_belief_state) ∧
            g'.(_belief_state) = b.
Proof.
  intros [Hgrid Hnd Hgoal _ _ _ _ _] Hc Hub.
  destruct (list_remove g.(_goal) g.(possible_goals)) as [rest|] eqn:Hrm.
  - destruct (decide (rest = [])) as [->|Hne].
    + exfalso. revert Hub. unfold update_belief, random_choice. py_simpl.
      by rewrite Hc, Hrm.
    + destruct (update_belief_hint_eq g state action rest Hc Hrm Hne Hgrid) as (w & Hw & Heq).
      rewrite Heq in Hub. injection Hub as <- <-.
      destruct (list_remove_Some _ _ _ Hrm) as (_ & _ & _ & Hnd').
      destruct (Hnd' Hnd) as [_ Hiff].
      assert (w ∈ rest) as [Hwp Hwne]%Hiff by (by eapply list_elem_of_lookup_2).
      by exists rest, w.
  - exfalso. revert Hub. unfold update_belief. py_simpl. by rewrite Hc, Hrm.
Qed.

(** C4: at every step of the grid environment the ground-truth belief returned
    by [get_belief] is element-wise non-negative and sums to one.  It holds in
    every reachable state, after [_reset_belief], after the hint branch of
    [update_belief] (which leaves two masses of 0.5) and after the branch that
    zeroes the agent's cell and renormalises. *)
Theorem belief_is_always_a_distribution (g : t) :
  reachable g →
  (∃ b, get_belief g = Ok g b ∧ is_distribution b) ∧
  (∃ g' b, _reset_belief g = Ok g' b ∧ g'.(_belief_state) = b ∧ is_distribution b) ∧
  (∀ state action, in_grid g.(num_cells) state →
     is_distribution (state_of (update_belief state action g)).(_belief_state) ∧
     ∀ g' b, update_belief state action g = Ok g' b →
       g'.(_belief_state) = b ∧ is_distribution b ∧
       if (action =? 5) || ((state.1 =? g.(_goal).1) && (state.2 =? g.(_goal).2))
       then ∃ w, w ∈ g.(possible_goals) ∧ w ≠ g.(_goal) ∧
                 b !! cell_id g.(num_cells) g.(_goal) = Some 0.5%Q ∧
                 b !! cell_id g.(num_cells) w = Some 0.5%Q ∧
                 ∀ k x, k ≠ cell_id g.(num_cells) g.(_goal) → k ≠ cell_id g.(num_cells) w →
                        b !! k = Some x → (x == 0)%Q
       else b = renormalised_belief g.(num_cells) state g.(_belief_state)) ∧
  (∀ action, is_distribution (state_of (step action g)).(_belief_state)).
Proof.
  intros HI%reachable_Inv.
  pose proof HI as [Hgrid Hnd Hgoal Hst Hstart Hlen Hdist Hmass].
  assert (in_grid g.(num_cells) g.(_goal)) as Hg by (by eapply Forall_forall in Hgrid).
  split_and!.
  - exists g.(_belief_state). by split.
  - rewrite reset_belief_eq by done. eexists _, _. split_and!; [done..|].
    by destruct (reset_belief_distribution g.(num_cells) g.(possible_goals) g.(_goal))
      as (_ & ? & _).
  - intros state action Hs.
    pose proof (update_belief_Inv state action g HI Hs) as HI'. split; [apply HI'|].
    intros g' b Hub. rewrite Hub in HI'. simpl in HI'.
    destruct ((action =? 5) || ((state.1 =? g.(_goal).1) && (state.2 =? g.(_goal).2))) eqn:Hc.
    + destruct (update_belief_hint_inv g g' state action b HI Hc Hub)
        as (rest & w & _ & _ & Hw & Hne & Hb & Hb').
      split_and!; [done | rewrite <- Hb'; apply HI' |].
      exists w. rewrite Hb.
      assert (in_grid g.(num_cells) w) as Hwg by (by eapply Forall_forall in Hgrid).
      destruct (hint_belief_distribution g.(num_cells) g.(_goal) w g.(_belief_state))
        as (_ & _ & ? & ? & ?); done.
    + rewrite update_belief_else_eq in Hub by done. injection Hub as <- <-.
      split_and!; [done | apply HI' | done].
  - intros action. apply step_Inv, HI.
Qed.

(** A reachable state on which the theorem is exercised: the default grid. *)
Lemma belief_is_always_a_distribution_witness :
  let g := state_of (default_grid (λ i, i)) in
  reachable g ∧
  ∃ b, get_belief g = Ok g b ∧ is_distribution b.
Proof.
  assert (reachable (state_of (default_grid (λ i, i)))) as Hr.
  { eapply (reach_init 5 15 (Some (0, 0)) false None None false false false (λ i, i) 0%nat).
    - vm_compute. reflexivity.
    - intros s [= <-]. unfold in_grid. simpl. lia. }
  split; [exact Hr|].
  exact (proj1 (belief_is_always_a_distribution _ Hr)).
Defined.

(** C9: the renormalisation of the non-hint branch of [update_belief] never
    divides by zero.  The agent's cell differs from the goal's (on the goal the
    hint branch runs instead), so the goal's entry survives the zeroing and the
    sum of the rounded vector is strictly positive; this holds for a direct
    call in a reachable state and for the call made inside [step]. *)
Theorem renormalisation_never_divides_by_zero (g : t) :
  reachable g →
  (∀ state action,
     in_grid g.(num_cells) state →
     (action =? 5) || ((state.1 =? g.(_goal).1) && (state.2 =? g.(_goal).2)) = false →
     let zeroed := <[cell_id g.(num_cells) state := 0%Q]> g.(_belief_state) in
     cell_id g.(num_cells) state ≠ cell_id g.(num_cells) g.(_goal) ∧
     (∃ x, zeroed !! cell_id g.(num_cells) g.(_goal) = Some x ∧ (0 < x)%Q) ∧
     (0 < Py.sum (Py.ceil <$> zeroed))%Q ∧
     ∃ g', update_belief state action g
           = Ok g' ((λ x, x / Py.sum (Py.ceil <$> zeroed))%Q <$> (Py.ceil <$> zeroed))) ∧
  (∀ state action,
     (state.1 =? g.(_goal).1) && (state.2 =? g.(_goal).2) = true →
     (action =? 5) || ((state.1 =? g.(_goal).1) && (state.2 =? g.(_goal).2)) = true) ∧
  (∀ action g' res,
     step action g = Ok g' res →
     let s := g'.(_env_state) in
     (action =? 5) || ((s.1 =? g.(_goal).1) && (s.2 =? g.(_goal).2)) = false →
     let zeroed := <[cell_id g.(num_cells) s := 0%Q]> g.(_belief_state) in
     (0 < Py.sum (Py.ceil <$> zeroed))%Q ∧
     g'.(_belief_state) = (λ x, x / Py.sum (Py.ceil <$> zeroed))%Q <$> (Py.ceil <$> zeroed)).
Proof.
  intros HI%reachable_Inv.
  pose proof HI as [Hgrid Hnd Hgoal Hst Hstart Hlen Hdist [x [Hx Hpos]]].
  assert (in_grid g.(num_cells) g.(_goal)) as Hg by (by eapply Forall_forall in Hgrid).
  assert (∀ state action,
     in_grid g.(num_cells) state →
     (action =? 5) || ((state.1 =? g.(_goal).1) && (state.2 =? g.(_goal).2)) = false →
     state ≠ g.(_goal)) as Hne.
  { intros state action _ Hc ->. by rewrite !Z.eqb_refl, orb_true_r in Hc. }
  split_and!.
  - intros state action Hs Hc zeroed. specialize (Hne state action Hs Hc).
    assert (cell_id g.(num_cells) state ≠ cell_id g.(num_cells) g.(_goal)) as Hid
      by (by intros ?%cell_id_inj).
    destruct (renormalised_belief_distribution g.(num_cells) state g.(_goal) g.(_belief_state) x)
      as (Hsum & _); [done | done | done | apply Hdist | done | done |].
    split_and!; [done | | done |].
    + exists x. unfold zeroed. by rewrite list_lookup_insert_ne.
    + rewrite update_belief_else_eq by done. by eexists.
  - intros state action ->. apply orb_true_r.
  - intros action g' res Hstep s Hc zeroed.
    destruct (step_inv action g g' res HI Hstep)
      as (s' & chk & Hst' & _ & Hs' & _ & _ & _ & _ & _ & _ & _ & _ & _ & _ & _ & _ & _ & _ & Hb).
    destruct (state_transition_eq action g Hst Hgrid) as (s'' & Hst'' & Hsg).
    rewrite Hst'' in Hst'. injection Hst' as _ <-.
    fold s in Hs'. subst s''. rewrite Hc in Hb.
    specialize (Hne s action Hsg Hc).
    destruct (renormalised_belief_distribution g.(num_cells) s g.(_goal) g.(_belief_state) x)
      as (Hsum & _); [done | done | done | apply Hdist | done | done |].
    split; done.
Qed.

Lemma renormalisation_never_divides_by_zero_witness :
  let g := state_of (default_grid (λ i, i)) in
  reachable g ∧
  (0 < Py.sum (Py.ceil <$> <[cell_id g.(num_cells) (1, 0)%Z := 0%Q]> g.(_belief_state)))%Q.
Proof.
  assert (reachable (state_of (default_grid (λ i, i)))) as Hr.
  { eapply (reach_init 5 15 (Some (0, 0)) false None None false false false (λ i, i) 0%nat).
    - vm_compute. reflexivity.
    - intros s [= <-]. unfold in_grid. simpl. lia. }
  split; [exact Hr|].
  refine (proj1 (proj2 (proj2
    (proj1 (renormalisation_never_divides_by_zero _ Hr) (1, 0) 2 _ _)))).
  - vm_compute. repeat split; discriminate.
  - vm_compute. reflexivity.
Defined.

Lemma reset_task_spec (task : option pos) (g : t) :
  Forall (in_grid g.(num_cells)) g.(possible_goals) →
  g.(possible_goals) ≠ [] →
  ∃ g' goal, reset_task task g = Ok g' goal ∧ g'.(_goal) = goal ∧
             (∀ p, task = Some p → goal = p) ∧ same_config g g' ∧
             g'.(_env_state) = g.(_env_state) ∧ g'.(step_count) = g.(step_count).
Proof.
  intros Hgrid Hne. unfold reset_task. destruct task as [p|]; py_simpl.
  - rewrite reset_belief_eq by done. eexists _, _. split; [done|]. simpl.
    split_and!; try done. by intros ? [= ->].
  - simpl. destruct (random_choice_Some g.(possible_goals) g Hne) as (x & Hx & _ & ->).
    cbv beta iota. rewrite reset_belief_eq by done. eexists _, _. split; [done|]. simpl.
    split_and!; done.
Qed.

Lemma grid_reset_spec (g : t) :
  Inv g →
  ∃ g1 o, reset g = Ok g1 o ∧ g1.(step_count) = 0 ∧ same_config g g1 ∧
          g1.(_goal) = g.(_goal) ∧ Inv g1.
Proof.
  intros HI. pose proof (reset_Inv g HI) as HI1.
  pose proof HI as [Hgrid Hnd Hgoal Hst Hstart Hlen Hdist Hmass].
  revert HI1. unfold reset. py_simpl. simpl.
  destruct (starting_state g) as [s|] eqn:Hs; py_simpl.
  - intros HI1. eexists _, _. split; [done|]. simpl. split_and!; done.
  - simpl. destruct (random_choice_Some g.(possible_goals) (set_step_count 0 g))
      as (x & Hx & _ & ->).
    { intros Hnil. rewrite Hnil in Hgoal. by apply elem_of_nil in Hgoal. }
    simpl. intros HI1. eexists _, _. split; [done|]. simpl. split_and!; done.
Qed.

Lemma default_grid_spec (rand : nat → nat) :
  ∃ g, default_grid rand = Ok g tt ∧
       g.(num_cells) = 5 ∧ g.(_max_episode_steps) = 15 ∧
       g.(possible_goals) = open_goals 5 (Some (0, 0)) ∧
       g.(new_state_r) = None ∧ g.(distance_reward) = false ∧
       g.(show_goal_at_start) = false ∧ g.(starting_state) = Some (0, 0) ∧
       g.(_env_state) = (0, 0) ∧ g.(step_count) = 0 ∧ g.(rand_src) = rand.
Proof.
  unfold default_grid, __init__. cbn [bool_decide decide_rel andb orb negb].
  destruct (bool_decide (Some (0, 0) = None)) eqn:Hb; [by apply bool_decide_eq_true in Hb|].
  cbn [andb]. py_simpl.
  set (g0 := set_env_state (0, 0) _).
  assert (Forall (in_grid g0.(num_cells)) g0.(possible_goals)) as Hgrid by apply open_goals_ok.
  assert (g0.(possible_goals) ≠ []) as Hne by (by vm_compute).
  destruct (reset_task_spec None g0 Hgrid Hne)
    as (g2 & goal & -> & _ & _ & (Hn & ? & ? & ? & ? & ? & ? & ? & Hp & ?) & ? & ?).
  cbv beta iota.
  rewrite reset_belief_eq by (by rewrite Hn, Hp). cbv beta iota.
  eexists. split; [done|]. subst g0. simpl in *. split_and!; congruence.
Qed.

Lemma reachable_default_grid (rand : nat → nat) (g : t) :
  default_grid rand = Ok g tt → reachable g.
Proof.
  intros Hg. eapply reach_init; [exact Hg|].
  intros s [= <-]. unfold in_grid. simpl. lia.
Qed.

Lemma toy_grid_spec (rand : nat → nat) :
  ∃ g, toy_grid rand = Ok g (3, 3) ∧ reachable g ∧
       g.(num_cells) = 5 ∧ g.(_max_episode_steps) = 15 ∧
       g.(possible_goals) = open_goals 5 (Some (0, 0)) ∧
       g.(new_state_r) = None ∧ g.(distance_reward) = false ∧
       g.(show_goal_at_start) = false ∧ g.(starting_state) = Some (0, 0) ∧
       g.(_env_state) = (0, 0) ∧ g.(_goal) = (3, 3) ∧ g.(step_count) = 0 ∧
       g.(rand_src) = rand.
Proof.
  destruct (default_grid_spec rand)
    as (g0 & Hg0 & Hn & Hm & Hp & Hr & Hd & Hsh & Hs & He & Hc & Hrs).
  pose proof (reachable_default_grid rand g0 Hg0) as Hreach.
  pose proof (reachable_Inv g0 Hreach) as [Hgrid _ Hgoal _ _ _ _ _].
  destruct (reset_task_spec (Some (3, 3)) g0 Hgrid)
    as (g & goal & Heq & Hgl & Htask & (? & ? & ? & ? & ? & ? & ? & ? & ? & ?) & ? & ?).
  { intros Hnil. rewrite Hnil in Hgoal. by apply elem_of_nil in Hgoal. }
  rewrite (Htask _ eq_refl) in *. exists g. unfold toy_grid. rewrite Hg0.
  split; [done|]. split.
  - pose proof (reach_reset_task g0 (Some (3, 3)) Hreach) as Hr'. rewrite Heq in Hr'.
    apply Hr'. intros p [= <-]. rewrite Hp. vm_compute.
    repeat (first [apply list_elem_of_here | apply list_elem_of_further]).
  - split_and!; congruence.
Qed.

Lemma compute_reward_on_goal (chk : bool) (g : t) :
  g.(_env_state) = g.(_goal) → compute_reward chk g = 1%Q.
Proof.
  unfold compute_reward. intros ->. destruct (_goal g) as [gx gy].
  by rewrite !Z.eqb_refl.
Qed.

Lemma compute_reward_off_goal (chk : bool) (g : t) :
  g.(_env_state) ≠ g.(_goal) → g.(new_state_r) = None → g.(distance_reward) = false →
  compute_reward chk g = (-0.1)%Q.
Proof.
  unfold compute_reward. intros Hne -> ->.
  destruct (_env_state g) as [x y], (_goal g) as [gx gy].
  destruct (x =? gx) eqn:Hx; [|done]. destruct (y =? gy) eqn:Hy; [|done].
  apply Z.eqb_eq in Hx, Hy. by subst.
Qed.

(** The [done] flags along a run started with the step counter at [k]. *)
Lemma run_done (actions : list Z) (g g' : t) (results : list step_result) :
  Inv g → run actions g = Ok g' results →
  length results = length actions ∧
  ∀ (i : nat) res, results !! i = Some res →
    res.1.2 = bool_decide (g.(_max_episode_steps) ≤ g.(step_count) + Z.of_nat i + 1).
Proof.
  revert g results. induction actions as [|a actions IH]; intros g results HI; simpl.
  - intros [= <- <-]. split; [done|]. intros i res Hi. by rewrite lookup_nil in Hi.
  - destruct (step a g) as [g1 r|] eqn:Hstep; [|done].
    destruct (run actions g1) as [g2 rs|] eqn:Hrun; [|done]. intros [= <- <-].
    pose proof (step_Inv a g HI) as HI1. rewrite Hstep in HI1. simpl in HI1.
    destruct (step_inv a g g1 r HI Hstep)
      as (s & chk & _ & _ & _ & _ & _ & _ & _ & _ & _ & Hm & Hc & _ & _ & _ & _ & Hd & _).
    destruct (IH g1 rs HI1 Hrun) as [Hlen Hrs]. split; [simpl; by rewrite Hlen|].
    intros [|i] res; simpl.
    + intros [= <-]. rewrite Hd. apply bool_decide_ext. lia.
    + intros Hi. rewrite (Hrs i res Hi), Hm, Hc. apply bool_decide_ext. lia.
Qed.

Lemma run_returns (actions : list Z) (g : t) :
  Inv g →
  Forall (λ a, action_space_contains a = true) actions →
  (2 ≤ length g.(possible_goals))%nat →
  (g.(show_goal_at_start) = true → g.(starting_state) ≠ None) →
  ∃ g' results, run actions g = Ok g' results.
Proof.
  intros HI Hacts. revert g HI. induction Hacts as [|a actions Ha _ IH]; intros g HI Hlen Hshow.
  - by eexists _, _.
  - simpl. destruct (step_returns a g HI Ha Hlen Hshow) as (g1 & r & Hstep). rewrite Hstep.
    pose proof (step_Inv a g HI) as HI1. rewrite Hstep in HI1. simpl in HI1.
    destruct (step_inv a g g1 r HI Hstep)
      as (s & chk & _ & _ & _ & _ & Hp & _ & Hs & _ & _ & _ & _ & _ & Hsh & _).
    destruct (IH g1 HI1) as (g2 & rs & ->); [by rewrite Hp | by rewrite Hsh, Hs |].
    by eexists _, _.
Qed.

(** C10: [step] returns [done = True] exactly when the incremented step counter
    has reached [_max_episode_steps].  Reaching the goal gives reward 1.0 but
    does not end the episode: after [reset] the [i]-th step (counting from 1)
    reports [done] iff [_max_episode_steps <= i], so the episode runs for
    exactly [_max_episode_steps] steps. *)
Theorem done_exactly_at_the_step_limit (g : t) :
  reachable g →
  (∀ action g' res,
     step action g = Ok g' res →
     res.1.2 = bool_decide (g.(_max_episode_steps) ≤ g.(step_count) + 1) ∧
     g'.(step_count) = g.(step_count) + 1 ∧
     g'.(_max_episode_steps) = g.(_max_episode_steps) ∧
     (g'.(_env_state) = g'.(_goal) → res.1.1.2 = 1%Q)) ∧
  (∃ g1 o, reset g = Ok g1 o ∧ g1.(step_count) = 0 ∧
     (∀ actions g' results,
        run actions g1 = Ok g' results →
        length results = length actions ∧
        ∀ (i : nat) res, results !! i = Some res →
          res.1.2 = bool_decide (g.(_max_episode_steps) ≤ Z.of_nat i + 1) ∧
          (Z.of_nat i + 1 < g.(_max_episode_steps) → res.1.2 = false) ∧
          (Z.of_nat i + 1 = g.(_max_episode_steps) → res.1.2 = true)) ∧
     (∀ actions,
        Forall (λ a, action_space_contains a = true) actions →
        (2 ≤ length g.(possible_goals))%nat →
        (g.(show_goal_at_start) = true → g.(starting_state) ≠ None) →
        ∃ g' results, run actions g1 = Ok g' results)).
Proof.
  intros HI%reachable_Inv. split.
  - intros action g' res Hstep.
    destruct (step_inv action g g' res HI Hstep)
      as (s & chk & _ & _ & _ & _ & _ & _ & _ & _ & _ & Hm & Hc & _ & _ & _ & Hr & Hd & _).
    split_and!; try done. intros He. rewrite Hr. by apply compute_reward_on_goal.
  - destruct (grid_reset_spec g HI)
      as (g1 & o & Hreset & Hc & (_ & _ & _ & Hsh & Hm & _ & _ & Hs & Hp & _) & _ & HI1).
    exists g1, o. split_and!; [done | done | |].
    + intros actions g' results Hrun.
      destruct (run_done actions g1 g' results HI1 Hrun) as [Hlen Hrs]. split; [done|].
      intros i res Hi.
      assert (res.1.2 = bool_decide (g.(_max_episode_steps) ≤ Z.of_nat i + 1)) as Hd.
      { rewrite (Hrs i res Hi), Hm, Hc. apply bool_decide_ext. lia. }
      rewrite Hd. split_and!; [done | |].
      * intros Hlt. apply bool_decide_eq_false. lia.
      * intros Heq. apply bool_decide_eq_true. lia.
    + intros actions Hacts Hlen Hshow. apply run_returns; [done | done | by rewrite Hp |].
      by rewrite Hsh, Hs.
Qed.

Lemma done_exactly_at_the_step_limit_witness :
  let g := state_of (default_grid (λ i, i)) in
  reachable g ∧
  ∀ action g' res,
    step action g = Ok g' res →
    res.1.2 = bool_decide (g.(_max_episode_steps) ≤ g.(step_count) + 1) ∧
    g'.(step_count) = g.(step_count) + 1 ∧
    g'.(_max_episode_steps) = g.(_max_episode_steps) ∧
    (g'.(_env_state) = g'.(_goal) → res.1.1.2 = 1%Q).
Proof.
  assert (reachable (state_of (default_grid (λ i, i)))) as Hr.
  { eapply (reach_init 5 15 (Some (0, 0)) false None None false false false (λ i, i) 0%nat).
    - vm_compute. reflexivity.
    - intros s [= <-]. vm_compute. repeat split; discriminate. }
  split; [exact Hr|].
  exact (proj1 (done_exactly_at_the_step_limit _ Hr)).
Defined.

Lemma wrong_goals_spec :
  list_remove (3, 3) (open_goals 5 (Some (0, 0))) = Some wrong_goals ∧
  NoDup wrong_goals ∧ length wrong_goals = 20%nat ∧
  ∀ w, w ∈ wrong_goals ↔ w ∈ open_goals 5 (Some (0, 0)) ∧ w ≠ (3, 3).
Proof.
  assert (list_remove (3, 3) (open_goals 5 (Some (0, 0))) = Some wrong_goals) as Hrm
    by (vm_compute; reflexivity).
  destruct (list_remove_Some _ _ _ Hrm) as (_ & _ & _ & Hnd).
  destruct (Hnd (proj2 (open_goals_ok 5 (Some (0, 0))))) as [Hnd' Hiff].
  split_and!; [done | done | by vm_compute | done].
Qed.

(** One step of the toy scenario. *)
Lemma toy_step (action : Z) (g g' : t) (res : step_result) :
  Inv g → g.(num_cells) = 5 → g.(_goal) = (3, 3) →
  g.(possible_goals) = open_goals 5 (Some (0, 0)) →
  g.(new_state_r) = None → g.(distance_reward) = false → g.(show_goal_at_start) = false →
  step action g = Ok g' res →
  (Inv g' ∧ g'.(num_cells) = 5 ∧ g'.(_goal) = (3, 3) ∧
   g'.(possible_goals) = open_goals 5 (Some (0, 0)) ∧
   g'.(new_state_r) = None ∧ g'.(distance_reward) = false ∧
   g'.(show_goal_at_start) = false ∧ g'.(rand_src) = g.(rand_src)) ∧
  ∃ p, res.1.1.1 = pos_to_obs p ∧ in_grid 5 p ∧
    (p = (3, 3) →
       res.1.1.2 = 1%Q ∧
       ∃ b w k, res.2 !! "belief" = Some (VVec b) ∧
                wrong_goals !! (g.(rand_src) k `mod` 20)%nat = Some w ∧
                is_distribution b ∧
                b !! 18%nat = Some 0.5%Q ∧ b !! cell_id 5 w = Some 0.5%Q ∧
                ∀ j x, j ≠ 18%nat → j ≠ cell_id 5 w → b !! j = Some x → (x == 0)%Q) ∧
    (p ≠ (3, 3) → res.1.1.2 = (-0.1)%Q).
Proof.
  intros HI Hn Hgl Hp Hr Hd Hsh Hstep.
  pose proof (step_Inv action g HI) as HI'. rewrite Hstep in HI'. simpl in HI'.
  pose proof HI as [Hgrid _ _ Hst _ Hlen _ _].
  destruct (step_inv action g g' res HI Hstep)
    as (s & chk & Hst' & _ & He' & Hn' & Hp' & Hgl' & _ & Hr' & Hd' & _ & _ & Hrs' & Hsh'
        & Hobs & Hrew & _ & Hinfo & Hbel).
  destruct (state_transition_eq action g Hst Hgrid) as (s' & Hst'' & Hsg).
  rewrite Hst'' in Hst'. injection Hst' as _ ->.
  split; [split_and!; congruence|].
  exists s. split_and!; [by apply Hobs | by rewrite <- Hn |..].
  - intros ->. split.
    + rewrite Hrew. apply compute_reward_on_goal. congruence.
    + rewrite Hgl in Hbel. simpl in Hbel. rewrite orb_true_r in Hbel.
      destruct Hbel as (rest & w & Hrm & Hw & Hb).
      destruct wrong_goals_spec as (Hrm' & _ & Hlen' & Hiff).
      rewrite Hp, Hrm' in Hrm. injection Hrm as <-. rewrite Hlen' in Hw.
      assert (w ∈ wrong_goals) as [Hwp Hwne]%Hiff by (by eapply list_elem_of_lookup_2).
      assert (in_grid 5 w) as Hwg.
      { pose proof (proj1 (open_goals_ok 5 (Some (0, 0)))) as Hall.
        by eapply Forall_forall in Hall. }
      exists g'.(_belief_state), w, g.(rand_pos). rewrite Hb, Hn.
      destruct (hint_belief_distribution 5 (3, 3) w g.(_belief_state))
        as (_ & Hdist & Hg18 & Hgw & Hoth); [by vm_compute; repeat split | done | done | |].
      { by rewrite Hlen, Hn. }
      split_and!; try done. by rewrite Hinfo, Hb, Hn.
  - intros Hne. rewrite Hrew. apply compute_reward_off_goal; congruence.
Qed.

(** The toy scenario on the bare environment: rewards and beliefs of every
    run of the default 5x5 grid with the goal fixed at (3,3). *)
Lemma toy_grid_run (rand : nat → nat) :
  ∃ g, toy_grid rand = Ok g (3, 3) ∧
    g.(num_cells) = 5 ∧ g.(_max_episode_steps) = 15 ∧
    g.(starting_state) = Some (0, 0) ∧ g.(_env_state) = (0, 0) ∧ g.(_goal) = (3, 3) ∧
    g.(new_state_r) = None ∧ g.(distance_reward) = false ∧
    (∀ actions,
       Forall (λ a, action_space_contains a = true) actions →
       ∃ g' results, run actions g = Ok g' results ∧ length results = length actions) ∧
    (∀ actions g' results,
       run actions g = Ok g' results →
       ∀ (i : nat) res, results !! i = Some res →
         res.1.2 = bool_decide (15 ≤ Z.of_nat i + 1) ∧
         ∃ p, res.1.1.1 = pos_to_obs p ∧ in_grid 5 p ∧
           (p = (3, 3) →
              res.1.1.2 = 1%Q ∧
              ∃ b w k, res.2 !! "belief" = Some (VVec b) ∧
                       wrong_goals !! (rand k `mod` 20)%nat = Some w ∧
                       is_distribution b ∧
                       b !! 18%nat = Some 0.5%Q ∧ b !! cell_id 5 w = Some 0.5%Q ∧
                       ∀ j x, j ≠ 18%nat → j ≠ cell_id 5 w → b !! j = Some x → (x == 0)%Q) ∧
           (p ≠ (3, 3) → res.1.1.2 = (-0.1)%Q)) ∧
    NoDup wrong_goals ∧ length wrong_goals = 20%nat ∧
    (∀ w, w ∈ wrong_goals ↔ w ∈ g.(possible_goals) ∧ w ≠ (3, 3)).
Proof.
  destruct (toy_grid_spec rand)
    as (g & Hg & Hreach & Hn & Hm & Hp & Hr & Hd & Hsh & Hs & He & Hgl & Hc & Hrs).
  pose proof (reachable_Inv g Hreach) as HI.
  exists g. split_and!; try done.
  - intros actions Hacts.
    destruct (run_returns actions g HI Hacts) as (g' & results & Hrun).
    { rewrite Hp. vm_compute. lia. }
    { by rewrite Hsh. }
    exists g', results. split; [done|]. by destruct (run_done actions g g' results HI Hrun).
  - intros actions g' results Hrun i res Hi. split.
    { destruct (run_done actions g g' results HI Hrun) as [_ Hdone].
      rewrite (Hdone i res Hi), Hm, Hc. apply bool_decide_ext. lia. }
    clear Hs He Hc Hm Hg Hreach. subst rand.
    revert g g' results i HI Hn Hp Hr Hd Hsh Hgl Hrun Hi.
    induction actions as [|a actions IH]; intros g g' results i HI Hn Hp Hr Hd Hsh Hgl;
      cbn [run].
    + intros [= <- <-] Hi. by rewrite lookup_nil in Hi.
    + destruct (step a g) as [g1 r|] eqn:Hstep; [|done].
      destruct (run actions g1) as [g2 rs|] eqn:Hrun; [|done]. intros [= <- <-].
      destruct (toy_step a g g1 r HI Hn Hgl Hp Hr Hd Hsh Hstep)
        as [(HI1 & Hn1 & Hgl1 & Hp1 & Hr1 & Hd1 & Hsh1 & Hrs1) Hres].
      destruct i as [|i].
      * intros Hi. change (Some r = Some res) in Hi. by injection Hi as <-.
      * intros Hi. change (rs !! i = Some res) in Hi.
        rewrite <- Hrs1. exact (IH g1 g2 rs i HI1 Hn1 Hp1 Hr1 Hd1 Hsh1 Hgl1 Hrun Hi).
  - exact (proj1 (proj2 wrong_goals_spec)).
  - intros w. rewrite Hp. exact (proj2 (proj2 (proj2 wrong_goals_spec)) w).
Qed.

End GridFacts.

(** ** The BAMDP wrapper *)

Module WrapperFacts.
Import VariBadWrapper WrapperSpec.

Section WrapperFacts.
Context {E A T : Type} (ops : Env.ops E A T).

(** What a returning [step] did. *)
Lemma step_spec (action : A) (w w' : t E) (res : step_result) :
  step ops action w = Ok w' res →
  ∃ d : bool,
    res.2 !! "done_mdp" = Some (VBool d) ∧
    res.1.2 = d && bool_decide (w.(episode_count) + 1 = w.(episodes_per_task)) ∧
    w'.(episodes_per_task) = w.(episodes_per_task) ∧
    w'.(episode_count) = (if d then w.(episode_count) + 1 else w.(episode_count)) ∧
    w'.(step_count_bamdp) = w.(step_count_bamdp) + 1 ∧
    w'.(env_type) = w.(env_type) ∧ w'.(add_done_info) = w.(add_done_info) ∧
    w'.(horizon_bamdp) = w.(horizon_bamdp) ∧
    if d && negb (bool_decide (w.(episode_count) + 1 = w.(episodes_per_task)))
    then w'.(calls) = w.(calls) ++ [CallStep; CallReset] ∧
         ∃ e o start, ops.(Env.reset) e = Ok w'.(env) o ∧
                      res.2 !! "start_state" = Some (VVec start) ∧
                      w'.(done_mdp) = false
    else w'.(calls) = w.(calls) ++ [CallStep] ∧ w'.(done_mdp) = d.
Proof.
  unfold step, reset_mdp, call_env, env_attr, Py.lift, Env.getattr. py_simpl.
  destruct w as [e ty adi sp K c n h dm cs]. simpl.
  destruct (Env.step ops action e) as [e1 [[[state reward] dn] info]|]; [|done].
  simpl.
  match goal with
  | |- match ?blk ?s0 with _ => _ end = _ → _ =>
      assert (∀ s' a, blk s0 = Ok s' a →
                ∃ d, s' = mk e1 ty adi sp K c n h d (cs ++ [CallStep])) as Hblk
  end.
  { intros s' a. destruct (bool_decide (ty = "metaworld")); [|intros [= <- <-]; by eexists].
    simpl. destruct (Env._max_episode_steps ops e1); [|done]. simpl.
    destruct (Env.curr_path_length ops e1); [|done]. simpl.
    destruct (_ =? _); intros [= <- <-]; by eexists. }
  match goal with
  | |- match ?blk ?s0 with _ => _ end = _ → _ =>
      destruct (blk s0) as [s' a|] eqn:Hb; [|done]
  end.
  destruct (Hblk s' a eq_refl) as [d ->]. clear Hblk Hb. simpl.
  intros Heq. exists d. revert Heq. destruct d; simpl.
  - destruct (bool_decide_reflect (c + 1 = K)) as [HK|HK]; simpl.
    + intros [= <- <-]. simpl. rewrite lookup_insert_eq. split_and!; done.
    + destruct (bool_decide (ty = "Maze")); simpl.
      * destruct (Env.reset ops e1) as [e2 o|] eqn:Hreset; [|done]. simpl.
        destruct adi; simpl.
        -- destruct (set_last 1 (concatenate o 0)); [|done].
           intros [= <- <-]. simpl.
           rewrite lookup_insert_eq, !lookup_insert_ne, lookup_insert_eq by done.
           rewrite <- (assoc_L (++)). split_and!; try done. by eexists e1, o, _.
        -- intros [= <- <-]. simpl.
           rewrite lookup_insert_eq, !lookup_insert_ne, lookup_insert_eq by done.
           rewrite <- (assoc_L (++)). split_and!; try done. by eexists e1, o, _.
      * destruct (Env.reset ops e1) as [e2 o|] eqn:Hreset; [|done]. simpl.
        intros [= <- <-]. simpl.
        rewrite lookup_insert_eq, !lookup_insert_ne, lookup_insert_eq by done.
        rewrite <- (assoc_L (++)). split_and!; try done. by eexists e1, o, _.
  - intros [= <- <-]. simpl. rewrite lookup_insert_eq. split_and!; done.
Qed.

Lemma observe_spec (action : A) (w w' : t E) (res : step_result) :
  step ops action w = Ok w' res →
  ∃ d : bool,
    let final := bool_decide (w.(episode_count) + 1 = w.(episodes_per_task)) in
    observe w w' res
    = mk_event d (d && final) (if d && negb final then 1 else 0) (res.2 !! "start_state") ∧
    (d && negb final = true → is_Some (res.2 !! "start_state")) ∧
    w'.(episodes_per_task) = w.(episodes_per_task) ∧
    w'.(episode_count) = (if d then w.(episode_count) + 1 else w.(episode_count)).
Proof.
  intros (d & Hinfo & Hdone & HK & Hc & _ & _ & _ & _ & Hcalls)%step_spec. exists d.
  unfold observe, calls_during. rewrite Hinfo, Hdone. simpl.
  destruct (d && negb (bool_decide (episode_count w + 1 = episodes_per_task w))) eqn:Hcase.
  - destruct Hcalls as (-> & e & o & start & _ & Hstart & _).
    rewrite drop_app_length. split_and!; [done | by rewrite Hstart | done | done].
  - destruct Hcalls as (-> & _). rewrite drop_app_length. split_and!; done.
Qed.

Lemma inner_dones_cons (ev : event) (evs : list event) :
  inner_dones (ev :: evs) = ((if ev.(inner_done) then 1 else 0) + inner_dones evs)%nat.
Proof.
  unfold inner_dones. rewrite filter_cons. destruct (inner_done ev); by case_decide.
Qed.

Lemma inner_dones_app (evs1 evs2 : list event) :
  inner_dones (evs1 ++ evs2) = (inner_dones evs1 + inner_dones evs2)%nat.
Proof. unfold inner_dones. by rewrite filter_app, length_app. Qed.

Lemma inner_dones_take (n : nat) (evs : list event) :
  (inner_dones (take n evs) ≤ inner_dones evs)%nat.
Proof. rewrite <- (take_drop n evs) at 2. rewrite inner_dones_app. lia. Qed.

(** The events of a run that started with the episode counter at [c]. *)
Lemma run_spec (actions : list A) (w w' : t E) (evs : list event) :
  run ops actions w = Ok w' evs →
  w'.(episodes_per_task) = w.(episodes_per_task) ∧
  w'.(episode_count) = w.(episode_count) + Z.of_nat (inner_dones evs) ∧
  ∀ (i : nat) ev, evs !! i = Some ev →
    ev.(done_bamdp)
    = ev.(inner_done) &&
      bool_decide (w.(episode_count) + Z.of_nat (inner_dones (take (S i) evs))
                   = w.(episodes_per_task)) ∧
    ev.(auto_resets) = (if ev.(inner_done) && negb ev.(done_bamdp) then 1 else 0)%nat ∧
    (ev.(inner_done) && negb ev.(done_bamdp) = true → is_Some ev.(start_state)).
Proof.
  revert w evs. induction actions as [|a actions IH]; intros w evs; cbn [run].
  - intros [= <- <-]. split_and!; [done | change (inner_dones []) with 0%nat; lia |]. intros i ev Hi.
    by rewrite lookup_nil in Hi.
  - destruct (step ops a w) as [w1 res|] eqn:Hstep; [|done].
    destruct (run ops actions w1) as [w2 evs'|] eqn:Hrun; [|done]. intros [= <- <-].
    destruct (observe_spec a w w1 res Hstep) as (d & Hobs & Hstart & HK1 & Hc1).
    destruct (IH w1 evs' Hrun) as (HK2 & Hc2 & Hevs). rewrite Hobs.
    split_and!.
    + congruence.
    + rewrite Hc2, Hc1, inner_dones_cons. simpl. destruct d; lia.
    + intros [|i] ev Hi.
      * cbn [lookup list_lookup] in Hi. injection Hi as <-.
        cbn [take]. rewrite inner_dones_cons, take_0. change (inner_dones []) with 0%nat.
        simpl. destruct d; simpl; [|done]. split_and!; done.
      * change (evs' !! i = Some ev) in Hi.
        destruct (Hevs i ev Hi) as (Hd & Hr & Hs). split_and!; [|done|done].
        rewrite Hd, HK1, Hc1. f_equal. apply bool_decide_ext.
        cbn [take]. rewrite inner_dones_cons. simpl. destruct d; lia.
Qed.

Lemma wrapper_reset_spec (task : option T) (w w' : t E) (o : observation) :
  reset ops task w = Ok w' o →
  w'.(episode_count) = 0 ∧ w'.(step_count_bamdp) = 0 ∧ w'.(done_mdp) = false ∧
  w'.(episodes_per_task) = w.(episodes_per_task) ∧
  w'.(horizon_bamdp) = w.(horizon_bamdp).
Proof.
  unfold reset, Py.try_except, call_env, Py.lift. py_simpl.
  destruct w as [e ty adi sp K c n h dm cs]. simpl.
  destruct (Env.reset_task ops (Env.Arg task) e) as [e1 []|e1 err]; simpl.
  - destruct (Env.reset ops e1) as [e2 o2|e2 err2]; simpl.
    + by intros [= <- <-].
    + case_decide; [|done]. simpl.
      destruct (Env.unwrapped_reset ops e2); simpl; [|done]. by intros [= <- <-].
  - case_decide; [|done]. simpl.
    destruct (Env.reset_task ops Env.NoArg e1) as [e1' []|]; simpl; [|done].
    destruct (Env.reset ops e1') as [e2 o2|e2 err2]; simpl.
    + by intros [= <- <-].
    + case_decide; [|done]. simpl.
      destruct (Env.unwrapped_reset ops e2); simpl; [|done]. by intros [= <- <-].
Qed.

Lemma sum_auto_resets (evs : list event) :
  Forall (λ ev, ev.(done_bamdp) = false ∧
                ev.(auto_resets) = (if ev.(inner_done) && negb ev.(done_bamdp) then 1 else 0)%nat)
         evs →
  sum_list_with auto_resets evs = inner_dones evs.
Proof.
  induction 1 as [|ev evs [Hd Hr] _ IH]; [done|].
  rewrite inner_dones_cons. cbn [sum_list_with].
  rewrite IH, Hr, Hd. by destruct (inner_done ev).
Qed.

(** The boundaries of a BAMDP episode, counted on the events of a run: with
    [episodes_per_task = K] there are exactly [K] inner-done events, the
    first [K-1] return [done_bamdp = False] with one [reset] in the history
    of calls, the [K]-th is the last step and returns [done_bamdp = True]
    with none. *)
Lemma boundary_counting (task : option T) (w0 w w' : t E) (o : observation)
    (actions : list A) (evs : list event) :
  reset ops task w0 = Ok w o →
  run ops actions w = Ok w' evs →
  bamdp_episode evs →
  let K := w0.(episodes_per_task) in
  Z.of_nat (inner_dones evs) = K ∧
  (∀ (i : nat) ev, evs !! i = Some ev → ev.(inner_done) = true →
     if bool_decide (Z.of_nat (inner_dones (take (S i) evs)) < K)
     then ev.(done_bamdp) = false ∧ ev.(auto_resets) = 1%nat ∧ is_Some ev.(start_state)
     else ev.(done_bamdp) = true ∧ ev.(auto_resets) = 0%nat ∧ S i = length evs) ∧
  (∀ (i : nat) ev, evs !! i = Some ev → ev.(inner_done) = false →
     ev.(done_bamdp) = false ∧ ev.(auto_resets) = 0%nat) ∧
  Z.of_nat (sum_list_with auto_resets evs) = K - 1.
Proof.
  intros (Hc0 & _ & _ & HK0 & _)%wrapper_reset_spec Hrun (before & last & -> & Hbefore & Hlast) K.
  destruct (run_spec actions w w' _ Hrun) as (_ & _ & Hevs).
  rewrite Hc0, HK0 in Hevs. fold K in Hevs.
  assert (last.(inner_done) = true ∧ Z.of_nat (inner_dones (before ++ [last])) = K)
    as [Hinner Hcount].
  { destruct (Hevs (length before) last) as (Hd & _).
    { by rewrite lookup_app_r, Nat.sub_diag. }
    rewrite Hlast in Hd. symmetry in Hd. apply andb_true_iff in Hd as [Hi Hk].
    apply bool_decide_eq_true in Hk. split; [done|].
    rewrite take_ge in Hk by (rewrite length_app; simpl; lia). lia. }
  split_and!.
  - done.
  - intros i ev Hi Hin. destruct (Hevs i ev Hi) as (Hd & Hr & Hs).
    rewrite Hin in Hd, Hr, Hs. cbn [andb] in Hd, Hr, Hs.
    pose proof (inner_dones_take (S i) (before ++ [last])) as Hle.
    destruct (decide (Z.of_nat (inner_dones (take (S i) (before ++ [last]))) < K))
      as [Hlt|Hge]; [rewrite (bool_decide_eq_true_2 _ Hlt) | rewrite (bool_decide_eq_false_2 _ Hge)].
    + rewrite bool_decide_eq_false_2 in Hd by lia. rewrite Hd in Hr, Hs.
      split_and!; [done | done | by apply Hs].
    + rewrite bool_decide_eq_true_2 in Hd by lia. rewrite Hd in Hr.
      split_and!; [done | done |].
      rewrite length_app. simpl. apply lookup_lt_Some in Hi as Hlen.
      rewrite length_app in Hlen. simpl in Hlen.
      destruct (decide (i < length before)%nat) as [Hib|]; [|lia].
      rewrite lookup_app_l in Hi by done.
      eapply Forall_lookup_1 in Hbefore; [|done]. simpl in Hbefore. congruence.
  - intros i ev Hi Hin. destruct (Hevs i ev Hi) as (Hd & Hr & _).
    rewrite Hin in Hd, Hr. by rewrite Hd in Hr |- *.
  - rewrite sum_list_with_app. cbn [sum_list_with].
    destruct (Hevs (length before) last) as (_ & Hr & _).
    { by rewrite lookup_app_r, Nat.sub_diag. }
    rewrite Hr, Hinner, Hlast. simpl. rewrite sum_auto_resets.
    + rewrite inner_dones_app, inner_dones_cons, Hinner in Hcount.
      change (inner_dones []) with 0%nat in Hcount. lia.
    + apply Forall_lookup. intros i ev Hi.
      pose proof (Forall_lookup_1 _ _ _ _ Hbefore Hi) as Hd. simpl in Hd.
      destruct (Hevs i ev) as (_ & Hr' & _); [|done].
      rewrite lookup_app_l; [done|]. by eapply lookup_lt_Some.
Qed.

(** With one episode per task the wrapper is transparent during the episode:
    it returns the inner step's observation, reward and done flag and only adds
    ['done_mdp'] to the info dict. *)
Lemma single_episode_step (action : A) (w w' : t E) (res : step_result) :
  w.(episodes_per_task) = 1 → w.(episode_count) = 0 →
  w.(add_done_info) = false → w.(env_type) ≠ "metaworld" →
  step ops action w = Ok w' res →
  ∃ info, ops.(Env.step) action w.(env) = Ok w'.(env) (res.1.1.1, res.1.1.2, res.1.2, info) ∧
          res.2 = <["done_mdp" := VBool res.1.2]> info.
Proof.
  unfold step, reset_mdp, call_env, env_attr, Py.lift, Env.getattr. py_simpl.
  destruct w as [e ty adi sp K c n h dm cs]. simpl. intros -> -> -> Hty.
  destruct (Env.step ops action e) as [e1 [[[state reward] dn] info]|]; [|done].
  simpl. rewrite bool_decide_eq_false_2 by done. simpl.
  destruct dn; simpl; intros [= <- <-]; by exists info.
Qed.

(** C7: the BAMDP horizon computed by the constructor is [episodes_per_task]
    times the environment's [_max_episode_steps] (read from the wrapped
    environment, else from the unwrapped one), plus [episodes_per_task - 1]
    extra transitions for the inner resets. *)
Theorem horizon_bamdp_formula (env0 : E) (K : Z) (ty : string) (w : t E) :
  __init__ ops env0 K ty = Ok w tt →
  ∃ m, match ops.(Env._max_episode_steps) w.(env) with
       | Some m => Some m
       | None => ops.(Env.unwrapped_max_episode_steps) w.(env)
       end = Some m ∧
       w.(horizon_bamdp) = K * m + (K - 1) ∧
       w.(episodes_per_task) = K ∧ w.(episode_count) = 0 ∧
       w.(add_done_info) = bool_decide (1 < K).
Proof.
  unfold __init__.
  destruct (match Env.unwrapped_max_episode_steps ops env0 with
            | Some _ => Some env0
            | None => _
            end) as [e|]; [|done].
  destruct (if bool_decide (1 < K) then _ else _) as [space|err]; [|done].
  destruct (match Env._max_episode_steps ops e with
            | Some m => Some m
            | None => _
            end) as [m|] eqn:Hm; [|done].
  intros [= <-]. exists m. simpl. by rewrite Hm.
Qed.

(** C8: when the wrapped environment's [reset_task] raises [TypeError] on the
    task argument, [reset] retries it without argument and goes on with the
    normal reset, which then completes; any other exception of [reset_task]
    propagates to the caller. *)
Theorem reset_retries_without_task (task : option T) (w : t E) :
  (∀ e1, ops.(Env.reset_task) (Env.Arg task) w.(env) = Raise e1 TypeError →
     (∀ e2 e3 o,
        ops.(Env.reset_task) Env.NoArg e1 = Ok e2 tt →
        ops.(Env.reset) e2 = Ok e3 o →
        ∃ w', reset ops task w
              = Ok w' (if w.(add_done_info) then concatenate o 0%Q else o) ∧
              w'.(env) = e3 ∧ w'.(episode_count) = 0 ∧ w'.(step_count_bamdp) = 0 ∧
              w'.(done_mdp) = false ∧
              w'.(calls) = w.(calls) ++ [CallResetTask; CallResetTask; CallReset]) ∧
     (∀ e2 err,
        ops.(Env.reset_task) Env.NoArg e1 = Raise e2 err →
        ∃ w', reset ops task w = Raise w' err ∧ w'.(env) = e2)) ∧
  (∀ e1 err,
     ops.(Env.reset_task) (Env.Arg task) w.(env) = Raise e1 err →
     err ≠ TypeError →
     ∃ w', reset ops task w = Raise w' err ∧ w'.(env) = e1 ∧
           w'.(calls) = w.(calls) ++ [CallResetTask]).
Proof.
  unfold reset, Py.try_except, call_env, Py.lift. py_simpl.
  destruct w as [e ty adi sp K c n h dm cs]. simpl. split.
  - intros e1 ->. simpl. split.
    + intros e2 e3 o -> . simpl. intros ->. simpl. eexists. split; [done|]. simpl.
      rewrite <- !(assoc_L (++)). split_and!; done.
    + intros e2 err ->. simpl. by eexists.
  - intros e1 err -> Herr. simpl. rewrite decide_False by done. by eexists.
Qed.

End WrapperFacts.
End WrapperFacts.

Module WrapperWitnesses.
Import VariBadWrapper WrapperSpec WrapperFacts.

Lemma horizon_bamdp_formula_witness :
  let g := state_of (GridSpec.default_grid (λ i, i)) in
  let r := VariBadWrapper.__init__ GridNavi_ops g 3 "gym" in
  let w := state_of r in
  r = Ok w tt ∧
  ∃ m, match GridNavi_ops.(Env._max_episode_steps) w.(env) with
       | Some m => Some m
       | None => GridNavi_ops.(Env.unwrapped_max_episode_steps) w.(env)
       end = Some m ∧
       w.(horizon_bamdp) = 3 * m + (3 - 1) ∧
       w.(episodes_per_task) = 3 ∧ w.(episode_count) = 0 ∧
       w.(add_done_info) = bool_decide (1 < 3).
Proof.
  intros g r w.
  assert (r = Ok w tt) as Hinit by (vm_compute; reflexivity).
  split; [exact Hinit|].
  exact (horizon_bamdp_formula GridNavi_ops g 3 "gym" w Hinit).
Defined.

Lemma reset_retries_without_task_witness :
  let ops := without_task_parameter GridNavi_ops in
  let g := state_of (GridSpec.default_grid (λ i, i)) in
  let w := state_of (VariBadWrapper.__init__ ops g 1 "metaworld") in
  let e2 := state_of (ops.(Env.reset_task) Env.NoArg w.(env)) in
  let r3 := ops.(Env.reset) e2 in
  ops.(Env.reset_task) (Env.Arg (Some (3, 3))) w.(env) = Raise w.(env) TypeError ∧
  ops.(Env.reset_task) Env.NoArg w.(env) = Ok e2 tt ∧
  ops.(Env.reset) e2 = Ok (state_of r3) (default [] (value_of r3)) ∧
  ∃ w', reset ops (Some (3, 3)) w
        = Ok w' (if w.(add_done_info) then concatenate (default [] (value_of r3)) 0%Q
                 else default [] (value_of r3)) ∧
        w'.(env) = state_of r3 ∧ w'.(episode_count) = 0 ∧ w'.(step_count_bamdp) = 0 ∧
        w'.(done_mdp) = false ∧
        w'.(calls) = w.(calls) ++ [CallResetTask; CallResetTask; CallReset].
Proof.
  intros ops g w e2 r3.
  assert (ops.(Env.reset_task) (Env.Arg (Some (3, 3))) w.(env) = Raise w.(env) TypeError)
    as H1 by reflexivity.
  assert (ops.(Env.reset_task) Env.NoArg w.(env) = Ok e2 tt) as H2
    by (vm_compute; reflexivity).
  assert (ops.(Env.reset) e2 = Ok (state_of r3) (default [] (value_of r3))) as H3
    by (vm_compute; reflexivity).
  split_and!; [exact H1 | exact H2 | exact H3 |].
  exact (proj1 (proj1 (reset_retries_without_task ops (Some (3, 3)) w) w.(env) H1)
               e2 (state_of r3) (default [] (value_of r3)) H2 H3).
Defined.

End WrapperWitnesses.

(** ** The inner resets of a BAMDP episode *)

Module BoundaryFacts.
Import VariBadWrapper WrapperSpec WrapperFacts BoundarySpec.

Section BoundaryFacts.
Context {E A T : Type} (ops : Env.ops E A T).

(** A returning [step] of the wrapper against the wrapped environment's own
    [step] and [reset]: [d] is the done flag the wrapper records.  At an
    inner boundary that is not the last one the environment the wrapper holds
    afterwards is the one [reset] left, and ['start_state'] is that reset's
    observation. *)
Lemma step_boundary (action : A) (w w' : t E) (res : step_result) :
  step ops action w = Ok w' res →
  ∃ e1 inner (d : bool),
    ops.(Env.step) action w.(env) = Ok e1 inner ∧
    (w.(env_type) ≠ "metaworld" → d = inner.1.2) ∧
    res.1.1.2 = inner.1.1.2 ∧
    res.2 !! "done_mdp" = Some (VBool d) ∧
    let final := bool_decide (w.(episode_count) + 1 = w.(episodes_per_task)) in
    res.1.2 = d && final ∧
    if d && negb final
    then w'.(calls) = w.(calls) ++ [CallStep; CallReset] ∧
         w'.(done_mdp) = false ∧
         ∃ o, ops.(Env.reset) e1 = Ok w'.(env) o ∧
              let maze := bool_decide (w.(env_type) = "Maze") in
              let start := if w.(add_done_info)
                           then o ++ [if maze then 1%Q else 0%Q] else o in
              res.2 !! "start_state" = Some (VVec start) ∧
              res.1.1.1 = (if maze then start
                           else if w.(add_done_info) then inner.1.1.1 ++ [1%Q]
                                else inner.1.1.1) ∧
              res.2 !! "term_state"
              = (if maze
                 then Some (VVec (if w.(add_done_info) then inner.1.1.1 ++ [1%Q]
                                  else inner.1.1.1))
                 else inner.2 !! "term_state")
    else w'.(calls) = w.(calls) ++ [CallStep] ∧
         w'.(done_mdp) = d ∧ w'.(env) = e1 ∧
         res.2 !! "start_state" = inner.2 !! "start_state" ∧
         res.1.1.1 = (if w.(add_done_info) then inner.1.1.1 ++ [float_of_bool d]
                      else inner.1.1.1).
Proof.
  unfold step, reset_mdp, call_env, env_attr, Py.lift, Env.getattr. py_simpl.
  destruct w as [e ty adi sp K c n h dm cs]. simpl.
  destruct (Env.step ops action e) as [e1 [[[state reward] dn] info]|]; [|done].
  simpl.
  match goal with
  | |- match ?blk ?s0 with _ => _ end = _ → _ =>
      assert (∀ s' info', blk s0 = Ok s' info' →
                ∃ d, s' = mk e1 ty adi sp K c n h d (cs ++ [CallStep]) ∧
                  (∀ k, k ≠ "bad_transition" → info' !! k = info !! k) ∧
                  (ty ≠ "metaworld" → d = dn)) as Hblk
  end.
  { intros s' info'. destruct (bool_decide_reflect (ty = "metaworld")) as [Hty|Hty];
      [|intros [= <- <-]; by eexists].
    simpl. destruct (Env._max_episode_steps ops e1) as [m|]; [|done]. simpl.
    destruct (Env.curr_path_length ops e1) as [cp|]; [|done]. simpl.
    destruct (m =? cp) eqn:Hm; intros [= <- <-]; eexists; (split; [done|]); split;
      try done.
    intros k Hk. by rewrite lookup_insert_ne. }
  match goal with
  | |- match ?blk ?s0 with _ => _ end = _ → _ =>
      destruct (blk s0) as [s' info'|] eqn:Hb; [|done]
  end.
  destruct (Hblk s' info' eq_refl) as (d & -> & Hinfo & Hd). clear Hblk Hb. simpl.
  intros Heq. exists e1, (state, reward, dn, info), d. split; [done|]. split; [done|].
  revert Heq. destruct d; simpl.
  - destruct (bool_decide_reflect (c + 1 = K)) as [HK|HK]; simpl.
    + intros [= <- <-]. simpl. rewrite lookup_insert_eq, lookup_insert_ne by done.
      rewrite Hinfo by done. rewrite <- ?(assoc_L (++)); split_and!; done.
    + destruct (bool_decide (ty = "Maze")); simpl.
      * destruct (Env.reset ops e1) as [e2 o|] eqn:Hreset; [|done]. simpl.
        destruct adi; simpl.
        -- unfold concatenate.
           assert (set_last 1 (o ++ [0%Q]) = Some (o ++ [1%Q])) as ->.
           { unfold set_last. destruct o as [|a o]; [done|].
             cbn [app length Nat.pred]. f_equal.
             replace (length (o ++ [0%Q])) with (S (length o + 0))
               by (rewrite length_app; simpl; lia).
             cbn [insert list_insert]. f_equal. apply (insert_app_r o [0%Q] 0 1%Q). }
           simpl. intros [= <- <-]. simpl.
           rewrite !lookup_insert_ne, !lookup_insert_eq by done.
           rewrite lookup_insert_ne, lookup_insert_eq by done.
           rewrite <- ?(assoc_L (++)). split_and!; try done. by exists o.
        -- intros [= <- <-]. simpl.
           rewrite !lookup_insert_ne, !lookup_insert_eq by done.
           rewrite lookup_insert_ne, lookup_insert_eq by done.
           rewrite <- ?(assoc_L (++)). split_and!; try done. by exists o.
      * destruct (Env.reset ops e1) as [e2 o|] eqn:Hreset; [|done]. simpl.
        intros [= <- <-]. simpl.
        rewrite !lookup_insert_ne, !lookup_insert_eq by done.
        rewrite <- ?(assoc_L (++)). split_and!; try done. exists o.
        rewrite !lookup_insert_ne by done. rewrite Hinfo by done.
        unfold concatenate. by destruct adi.
  - intros [= <- <-]. simpl. rewrite lookup_insert_eq, lookup_insert_ne by done.
    rewrite Hinfo by done. rewrite <- ?(assoc_L (++)); split_and!; done.
Qed.

Lemma trace_run (actions : list A) (w w' : t E) (ts : list (transition E A)) :
  trace ops actions w = Ok w' ts → run ops actions w = Ok w' (events ts).
Proof.
  revert w ts. induction actions as [|a actions IH]; intros w ts; cbn [trace run].
  - by intros [= <- <-].
  - destruct (step ops a w) as [w1 res|]; [|done].
    destruct (trace ops actions w1) as [w2 ts'|] eqn:Htr; [|done].
    intros [= <- <-]. by rewrite (IH w1 ts' Htr).
Qed.

(** The calls of a trace are the wrapper's steps, each starting from the
    state the one before it left. *)
Lemma trace_steps (actions : list A) (w w' : t E) (ts : list (transition E A)) :
  trace ops actions w = Ok w' ts →
  (∀ tr, ts !! 0%nat = Some tr → tr.(tr_before) = w) ∧
  (∀ (i : nat) tr tr', ts !! i = Some tr → ts !! S i = Some tr' →
     tr'.(tr_before) = tr.(tr_after)) ∧
  (∀ (i : nat) tr, ts !! i = Some tr →
     actions !! i = Some tr.(tr_action) ∧
     step ops tr.(tr_action) tr.(tr_before) = Ok tr.(tr_after) tr.(tr_result)) ∧
  length ts = length actions.
Proof.
  revert w ts. induction actions as [|a actions IH]; intros w ts; cbn [trace].
  - intros [= <- <-]. by split_and!.
  - destruct (step ops a w) as [w1 res|] eqn:Hstep; [|done].
    destruct (trace ops actions w1) as [w2 ts'|] eqn:Htr; [|done].
    intros [= <- <-]. destruct (IH w1 ts' Htr) as (Hhead & Hchain & Hsteps & Hlen).
    split_and!.
    + by intros tr [= <-].
    + intros [|i] tr tr'; cbn.
      * intros [= <-] Htr'. by rewrite (Hhead _ Htr').
      * apply Hchain.
    + intros [|i] tr; cbn.
      * by intros [= <-].
      * apply Hsteps.
    + cbn. by rewrite Hlen.
Qed.

(** C1: a BAMDP episode run through the wrapper with [episodes_per_task = K]
    contains exactly [K] inner-done events.  At each of the first [K - 1] of
    them [step] returns [done_bamdp = False] and performs exactly one
    automatic inner reset: it calls the wrapped environment's [step] and then
    its [reset], the environment the wrapper holds afterwards is the one that
    reset left, [done_mdp] is cleared, and the reset's observation (with the
    done-flag entry when [add_done_info] is set) is attached to the info dict
    under ['start_state'].  At the [K]-th, which is the last step of the
    episode, [step] returns [done_bamdp = True] and performs no reset: the
    environment is the one the inner step left and no ['start_state'] is
    attached.  A step without inner done performs no reset either, so the
    automatic resets of the episode number [K - 1]. *)
Theorem inner_resets_at_episode_boundaries (task : option T) (w0 w w' : t E)
    (o : observation) (actions : list A) (ts : list (transition E A)) :
  reset ops task w0 = Ok w o →
  trace ops actions w = Ok w' ts →
  bamdp_episode (events ts) →
  let K := w0.(episodes_per_task) in
  Z.of_nat (inner_dones (events ts)) = K ∧
  Z.of_nat (sum_list_with auto_resets (events ts)) = K - 1 ∧
  (∀ tr, ts !! 0%nat = Some tr → tr.(tr_before) = w) ∧
  (∀ (i : nat) tr tr', ts !! i = Some tr → ts !! S i = Some tr' →
     tr'.(tr_before) = tr.(tr_after)) ∧
  ∀ (i : nat) tr, ts !! i = Some tr →
    let wb := tr.(tr_before) in
    let wa := tr.(tr_after) in
    let res := tr.(tr_result) in
    step ops tr.(tr_action) wb = Ok wa res ∧
    ∃ e1 inner (d : bool),
      ops.(Env.step) tr.(tr_action) wb.(env) = Ok e1 inner ∧
      (wb.(env_type) ≠ "metaworld" → d = inner.1.2) ∧
      res.2 !! "done_mdp" = Some (VBool d) ∧
      if d && bool_decide (Z.of_nat (inner_dones (take (S i) (events ts))) < K)
      then res.1.2 = false ∧
           calls_during wb wa = [CallStep; CallReset] ∧
           wa.(done_mdp) = false ∧
           ∃ o', ops.(Env.reset) e1 = Ok wa.(env) o' ∧
                 res.2 !! "start_state"
                 = Some (VVec (if wb.(add_done_info)
                               then o' ++ [if bool_decide (wb.(env_type) = "Maze")
                                           then 1%Q else 0%Q]
                               else o'))
      else res.1.2 = d ∧ (d = true → S i = length ts) ∧
           calls_during wb wa = [CallStep] ∧
           wa.(env) = e1 ∧ wa.(done_mdp) = d ∧
           res.2 !! "start_state" = inner.2 !! "start_state".
Proof.
  intros Hreset Htrace Hep K.
  pose proof (trace_run _ _ _ _ Htrace) as Hrun.
  destruct (boundary_counting ops task w0 w w' o actions _ Hreset Hrun Hep)
    as (Hcount & Hdone & _ & Hsum).
  destruct (trace_steps _ _ _ _ Htrace) as (Hhead & Hchain & Hsteps & _).
  split; [exact Hcount|]. split; [exact Hsum|]. split; [exact Hhead|].
  split; [exact Hchain|].
  intros i tr Hi wb wa res. destruct (Hsteps i tr Hi) as [_ Hstep]. split; [exact Hstep|].
  destruct (step_boundary _ _ _ _ Hstep)
    as (e1 & inner & d & Hinner & Hd & _ & Hinfo & Hbamdp & Hcase).
  exists e1, inner, d. split; [exact Hinner|]. split; [exact Hd|]. split; [exact Hinfo|].
  assert (events ts !! i = Some (observe wb wa res)) as Hev.
  { unfold events. by rewrite list_lookup_fmap, Hi. }
  assert (∀ l, calls wa = calls wb ++ l → calls_during wb wa = l) as Hcalls.
  { intros l Hl. unfold calls_during. rewrite Hl. apply drop_app_length. }
  fold wb wa res in Hinfo, Hbamdp, Hcase, Hinner.
  destruct d; cbn [andb] in *.
  - specialize (Hdone i _ Hev). unfold observe in Hdone at 1. cbn [inner_done] in Hdone.
    rewrite Hinfo in Hdone. specialize (Hdone eq_refl). fold K in Hdone.
    destruct (bool_decide (Z.of_nat (inner_dones (take (S i) (events ts))) < K)).
    + destruct Hdone as (Hfalse & _). cbn [observe done_bamdp] in Hfalse.
      rewrite Hfalse in Hbamdp. rewrite <- Hbamdp in Hcase. cbn [negb] in Hcase.
      destruct Hcase as (Hc & Hdm & o' & Hres & Hstart & _).
      split_and!; [done | by apply Hcalls | done |]. by exists o'.
    + destruct Hdone as (Htrue & _ & Hlast). cbn [observe done_bamdp] in Htrue.
      rewrite Htrue in Hbamdp. rewrite <- Hbamdp in Hcase. cbn [negb] in Hcase.
      destruct Hcase as (Hc & Hdm & He & Hstart & _).
      unfold events in Hlast. rewrite length_fmap in Hlast.
      split_and!; [done | done | by apply Hcalls | done | done | done].
  - destruct Hcase as (Hc & Hdm & He & Hstart & _).
    split_and!; [done | done | by apply Hcalls | done | done | done].
Qed.

End BoundaryFacts.
End BoundaryFacts.

Module BoundaryWitnesses.
Import VariBadWrapper WrapperSpec BoundarySpec BoundaryFacts.

Lemma inner_resets_at_episode_boundaries_witness :
  let g := state_of (GridNavi.__init__ 5 1 (Some (2, 2)) false None None false false false
                                        (λ i, i) 0) in
  let w0 := state_of (VariBadWrapper.__init__ GridNavi_ops g 2 "gym") in
  let w := state_of (reset GridNavi_ops None w0) in
  let rr := trace GridNavi_ops [2; 2] w in
  let ts := default [] (value_of rr) in
  let e1 := state_of (GridNavi.step 2 w.(env)) in
  e1.(GridNavi._env_state) = (3, 2) ∧
  (∃ tr, ts !! 0%nat = Some tr ∧ tr.(tr_before) = w ∧
         GridNavi.reset e1 = Ok tr.(tr_after).(env) [2; 2]%Q ∧
         tr.(tr_result).2 !! "start_state" = Some (VVec [2; 2; 0]%Q)) ∧
  bamdp_episode (events ts) ∧
  Z.of_nat (inner_dones (events ts)) = 2 ∧
  Z.of_nat (sum_list_with auto_resets (events ts)) = 1 ∧
  ∀ (i : nat) tr, ts !! i = Some tr →
    ∃ e1 inner (d : bool),
      GridNavi.step tr.(tr_action) tr.(tr_before).(env) = Ok e1 inner ∧
      if d && bool_decide (Z.of_nat (inner_dones (take (S i) (events ts))) < 2)
      then tr.(tr_result).1.2 = false ∧
           ∃ o', GridNavi.reset e1 = Ok tr.(tr_after).(env) o'
      else tr.(tr_result).1.2 = d ∧ tr.(tr_after).(env) = e1.
Proof.
  intros g w0 w rr ts e1.
  assert (reset GridNavi_ops None w0 = Ok w [2; 2; 0]%Q) as Hreset
    by (vm_compute; reflexivity).
  assert (trace GridNavi_ops [2; 2] w = Ok (state_of rr) ts) as Htrace
    by (vm_compute; reflexivity).
  assert (bamdp_episode (events ts)) as Hep.
  { exists (take 1 (events ts)),
           (default (mk_event false false 0 None) (events ts !! 1%nat)).
    split; [vm_compute; reflexivity|].
    split; [vm_compute; repeat constructor | vm_compute; reflexivity]. }
  pose proof (inner_resets_at_episode_boundaries GridNavi_ops None w0 _ _ _ [2; 2] ts
                Hreset Htrace Hep) as (Hcount & Hsum & _ & _ & Hsteps).
  split; [vm_compute; reflexivity|].
  split.
  { exists (default (mk_transition 0 w0 w0 ([], 0%Q, false, ∅)) (ts !! 0%nat)).
    split_and!; vm_compute; reflexivity. }
  split; [exact Hep|]. split; [exact Hcount|]. split; [exact Hsum|].
  intros i tr Hi.
  destruct (Hsteps i tr Hi) as (_ & e1' & inner & d & Hinner & _ & _ & Hcase).
  exists e1', inner, d. split; [exact Hinner|].
  destruct (d && _).
  - destruct Hcase as (Hf & _ & _ & o' & Hres & _).
    split; [exact Hf|]. exists o'. exact Hres.
  - destruct Hcase as (Hd & _ & _ & He & _). split; [exact Hd | exact He].
Defined.

End BoundaryWitnesses.

(** ** The toy grid end to end *)

Module ToyScenario.
Import GridNavi GridSpec.

(** C6: in the default 5x5 grid with start (0,0), the goal fixed at (3,3) and a
    15-step horizon, every step that leaves the agent on the goal yields reward
    exactly 1.0 and a belief with mass 0.5 on the true goal and 0.5 on one wrong
    goal, drawn by a uniform index into the 20 wrong goals; every other step
    yields reward -0.1 (no [new_state_r], no [distance_reward]).  With
    [episodes_per_task = 1] the BAMDP wrapper returns the environment's
    observation, reward and done flag as they are. *)
Theorem toy_grid_rewards_and_hint (rand : nat → nat) :
  ∃ g, toy_grid rand = Ok g (3, 3) ∧
    g.(num_cells) = 5 ∧ g.(_max_episode_steps) = 15 ∧
    g.(starting_state) = Some (0, 0) ∧ g.(_env_state) = (0, 0) ∧ g.(_goal) = (3, 3) ∧
    g.(new_state_r) = None ∧ g.(distance_reward) = false ∧
    (∀ actions,
       Forall (λ a, action_space_contains a = true) actions →
       ∃ g' results, run actions g = Ok g' results ∧ length results = length actions) ∧
    (∀ actions g' results,
       run actions g = Ok g' results →
       ∀ (i : nat) res, results !! i = Some res →
         res.1.2 = bool_decide (15 ≤ Z.of_nat i + 1) ∧
         ∃ p, res.1.1.1 = pos_to_obs p ∧ in_grid 5 p ∧
           (p = (3, 3) →
              res.1.1.2 = 1%Q ∧
              ∃ b w k, res.2 !! "belief" = Some (VVec b) ∧
                       wrong_goals !! (rand k `mod` 20)%nat = Some w ∧
                       is_distribution b ∧
                       b !! 18%nat = Some 0.5%Q ∧ b !! cell_id 5 w = Some 0.5%Q ∧
                       ∀ j x, j ≠ 18%nat → j ≠ cell_id 5 w → b !! j = Some x → (x == 0)%Q) ∧
           (p ≠ (3, 3) → res.1.1.2 = (-0.1)%Q)) ∧
    NoDup wrong_goals ∧ length wrong_goals = 20%nat ∧
    (∀ w, w ∈ wrong_goals ↔ w ∈ g.(possible_goals) ∧ w ≠ (3, 3)) ∧
    (∀ (w w' : VariBadWrapper.t GridNavi.t) action res,
       w.(VariBadWrapper.episodes_per_task) = 1 → w.(VariBadWrapper.episode_count) = 0 →
       w.(VariBadWrapper.add_done_info) = false →
       w.(VariBadWrapper.env_type) ≠ "metaworld" →
       VariBadWrapper.step GridNavi_ops action w = Ok w' res →
       ∃ info, GridNavi.step action w.(VariBadWrapper.env)
               = Ok w'.(VariBadWrapper.env) (res.1.1.1, res.1.1.2, res.1.2, info) ∧
               res.2 = <["done_mdp" := VBool res.1.2]> info).
Proof.
  destruct (GridFacts.toy_grid_run rand)
    as (g & Hg & Hn & Hm & Hs & He & Hgl & Hr & Hd & Htotal & Hrun & Hnd & Hlen & Hiff).
  exists g. split_and!; try assumption.
  intros w w' action res HK Hc Hadi Hty Hstep.
  exact (WrapperFacts.single_episode_step GridNavi_ops action w w' res HK Hc Hadi Hty Hstep).
Qed.

End ToyScenario.

(** ** The time-limit mask and the loop's masks *)

Module TimeLimitFacts.
Import TimeLimitSpec.

Section TimeLimitFacts.
Context {E A T : Type} (env : Env.ops E A T).

Lemma mask_step_spec (action : A) (e e' : E) (res : step_result) :
  TimeLimitMask.step env action e = Ok e' res →
  ∃ info, env.(Env.step) action e = Ok e' (res.1.1.1, res.1.1.2, res.1.2, info) ∧
          res.2 = if truncated env res.1.2 e' then <["bad_transition" := VBool true]> info
                  else info.
Proof.
  unfold TimeLimitMask.step, truncated, Env.getattr. py_simpl.
  destruct (Env.step env action e) as [e1 [[[obs rew] dn] info]|]; [|done].
  destruct dn; py_simpl.
  - destruct (Env._max_episode_steps env e1) as [m|] eqn:Hmax; [|done].
    destruct (Env._elapsed_steps env e1) as [el|] eqn:Hel; [|done].
    destruct (m =? el) eqn:Hm; intros [= <- <-]; exists info; simpl;
      by rewrite Hmax, Hel, Hm.
  - intros [= <- <-]. by exists info.
Qed.

(** The wrapper hands the inner step's reward and info entries through; it
    only writes the keys ['done_mdp'], ['term_state'] and ['start_state']. *)
Lemma wrapper_passes_info (ops : Env.ops E A T) (action : A)
    (w w' : VariBadWrapper.t E) (res : step_result) :
  VariBadWrapper.step ops action w = Ok w' res →
  w.(VariBadWrapper.env_type) ≠ "metaworld" →
  ∃ e1 inner, ops.(Env.step) action w.(VariBadWrapper.env) = Ok e1 inner ∧
              res.1.1.2 = inner.1.1.2 ∧
              (res.1.2 = true → inner.1.2 = true) ∧
              res.2 !! "done_mdp" = Some (VBool inner.1.2) ∧
              ∀ k, k ≠ "done_mdp" → k ≠ "term_state" → k ≠ "start_state" →
                   res.2 !! k = inner.2 !! k.
Proof.
  unfold VariBadWrapper.step, VariBadWrapper.reset_mdp, VariBadWrapper.call_env,
    VariBadWrapper.env_attr, Py.lift, Env.getattr. py_simpl.
  destruct w as [e ty adi sp K c n h dm cs]. simpl. intros Hstep Hty. revert Hstep.
  destruct (Env.step ops action e) as [e1 [[[state reward] dn] info]|]; [|done].
  simpl. rewrite bool_decide_eq_false_2 by done. simpl.
  intros Hstep. exists e1, (state, reward, dn, info). split; [done|]. simpl.
  revert Hstep. destruct dn; simpl.
  - destruct (bool_decide (c + 1 = K)); simpl.
    + intros [= <- <-]. simpl. rewrite lookup_insert_eq. split_and!; try done.
      intros k ? _ _. by rewrite lookup_insert_ne.
    + destruct (bool_decide (ty = "Maze")); simpl.
      * destruct (Env.reset ops e1) as [e2 o|]; [|done]. simpl.
        destruct adi; simpl.
        -- destruct (VariBadWrapper.set_last 1 (VariBadWrapper.concatenate o 0)); [|done].
           intros [= <- <-]. simpl.
           rewrite !lookup_insert_ne, lookup_insert_eq by done. split_and!; try done.
           intros k ? ? ?. by rewrite !lookup_insert_ne.
        -- intros [= <- <-]. simpl.
           rewrite !lookup_insert_ne, lookup_insert_eq by done. split_and!; try done.
           intros k ? ? ?. by rewrite !lookup_insert_ne.
      * destruct (Env.reset ops e1) as [e2 o|]; [|done]. simpl.
        intros [= <- <-]. simpl.
        rewrite !lookup_insert_ne, lookup_insert_eq by done. split_and!; try done.
        intros k ? ? ?. by rewrite !lookup_insert_ne.
  - intros [= <- <-]. simpl. rewrite lookup_insert_eq. split_and!; try done.
    intros k ? _ _. by rewrite lookup_insert_ne.
Qed.

End TimeLimitFacts.
End TimeLimitFacts.

(** ** The rollout loop and the encoder's hidden state *)

Module LoopFacts.
Import LoopSpec.

Section LoopFacts.
Context {E H A T : Type} (ops : Env.ops E A T) (encoder : Encoder.t H A).
Context (select_action : list observation → list (list Q) → list (list Q) → list (list Q)
                        → list A).
Context (num_processes : nat).

Lemma reset_hidden_lookup (hidden_state : list H) (done : list bool) (i : nat) (h : H) (d : bool) :
  hidden_state !! i = Some h → done !! i = Some d →
  Encoder.reset_hidden encoder hidden_state done !! i
  = Some (if d then encoder.(Encoder.prior_hidden) else h).
Proof.
  intros Hh Hd. unfold Encoder.reset_hidden. rewrite lookup_zip_with, Hh. simpl.
  by rewrite Hd.
Qed.

(** The vectorised step runs the wrapper's [step] of every worker with the
    action of that worker. *)
Lemma vec_step_lookup (actions : list A) (workers workers' : list (VariBadWrapper.t E))
    (results : list step_result) (i : nat) (r : step_result) :
  VecEnv.step ops actions workers = Ok workers' results →
  results !! i = Some r →
  ∃ w a w', workers !! i = Some w ∧ actions !! i = Some a ∧
            VariBadWrapper.step ops a w = Ok w' r ∧ workers' !! i = Some w'.
Proof.
  revert workers workers' results i.
  induction actions as [|a actions IH]; intros workers workers' results i; simpl.
  - destruct workers; intros [= <- <-] Hi; by rewrite lookup_nil in Hi.
  - destruct workers as [|w workers]; [intros [= <- <-] Hi; by rewrite lookup_nil in Hi|].
    destruct (VariBadWrapper.step ops a w) as [w1 r1|] eqn:Hstep; [|done].
    destruct (VecEnv.step ops actions workers) as [ws rs|] eqn:Hrest; [|done].
    intros [= <- <-]. destruct i as [|i]; simpl.
    + intros [= <-]. by exists w, a, w1.
    + intros Hi. by apply (IH workers ws rs i).
Qed.

(** What a returning rollout step did to the hidden state. *)
Lemma rollout_step_hidden (s s' : MetaLearner.t E H A) :
  MetaLearner.rollout_step ops encoder select_action num_processes s = Ok s' tt →
  let action := select_action s.(MetaLearner.prev_state) s.(MetaLearner.latent_sample)
                              s.(MetaLearner.latent_mean) s.(MetaLearner.latent_logvar) in
  ∃ envs' results,
    VecEnv.step ops action s.(MetaLearner.envs) = Ok envs' results ∧
    s'.(MetaLearner.hidden_state)
    = (encoder.(Encoder.forward) action ((λ r : step_result, r.1.1.1) <$> results)
         ((λ r : step_result, r.1.1.2) <$> results) s.(MetaLearner.prev_state)
         (encoder_input encoder (Some (done_flags results)) s.(MetaLearner.hidden_state))
         None).2.
Proof.
  unfold MetaLearner.rollout_step, Py.lift, Helpers.update_encoding. py_simpl.
  destruct (VecEnv.step ops _ (MetaLearner.envs s)) as [envs' results|]; [|done].
  intros Hs. exists envs', results. split; [done|]. revert Hs.
  unfold encoder_input, done_flags.
  destruct (Encoder.forward encoder _ _ _ _ _ _) as [[[ls lm] ll] h'].
  destruct (bool_decide _).
  - destruct (MetaLearner.reset_env _ _ _ _ _) as [envs'' next|]; [|done].
    by intros [= <-].
  - by intros [= <-].
Qed.

(** C2, as the code has it: in every rollout step the hidden state handed to
    the encoder is, for every worker, the prior state when the flag passed to
    [update_encoding] is set, and the state carried over from the previous
    step otherwise.  The flag is the wrapper's BAMDP done flag: it is set when
    an inner episode ends and it was the last one of the task, so an
    inner-episode boundary that does not end the BAMDP episode does not reset
    the hidden state, and with one episode per task every inner boundary
    does. *)
Theorem hidden_state_reset_at_bamdp_boundaries (s s' : MetaLearner.t E H A) :
  MetaLearner.rollout_step ops encoder select_action num_processes s = Ok s' tt →
  let action := select_action s.(MetaLearner.prev_state) s.(MetaLearner.latent_sample)
                              s.(MetaLearner.latent_mean) s.(MetaLearner.latent_logvar) in
  ∃ envs' results,
    VecEnv.step ops action s.(MetaLearner.envs) = Ok envs' results ∧
    let fed := encoder_input encoder (Some (done_flags results)) s.(MetaLearner.hidden_state) in
    s'.(MetaLearner.hidden_state)
    = (encoder.(Encoder.forward) action ((λ r : step_result, r.1.1.1) <$> results)
         ((λ r : step_result, r.1.1.2) <$> results) s.(MetaLearner.prev_state) fed None).2 ∧
    ∀ (i : nat) (r : step_result) (h : H),
      results !! i = Some r → s.(MetaLearner.hidden_state) !! i = Some h →
      fed !! i = Some (if r.1.2 then encoder.(Encoder.prior_hidden) else h) ∧
      ∃ w, s.(MetaLearner.envs) !! i = Some w ∧
           r.1.2 = inner_done_of r &&
                   bool_decide (w.(VariBadWrapper.episode_count) + 1
                                = w.(VariBadWrapper.episodes_per_task)) ∧
           (inner_done_of r = true →
            w.(VariBadWrapper.episode_count) + 1 ≠ w.(VariBadWrapper.episodes_per_task) →
            fed !! i = Some h).
Proof.
  intros Hs action. destruct (rollout_step_hidden s s' Hs) as (envs' & results & Hvec & Hh).
  exists envs', results. split; [exact Hvec|]. intros fed. split; [exact Hh|].
  intros i r h Hr Hhid.
  assert (fed !! i = Some (if r.1.2 then encoder.(Encoder.prior_hidden) else h)) as Hfed.
  { unfold fed, encoder_input. apply reset_hidden_lookup; [done|].
    unfold done_flags. by rewrite list_lookup_fmap, Hr. }
  split; [exact Hfed|].
  destruct (vec_step_lookup _ _ _ _ i r Hvec Hr) as (w & a & w' & Hw & _ & Hstep & _).
  exists w. split; [done|].
  destruct (WrapperFacts.step_spec ops a w w' r Hstep) as (d & Hinfo & Hdone & _).
  assert (inner_done_of r = d) as Hd by (unfold inner_done_of; by rewrite Hinfo).
  rewrite Hd. split; [done|].
  intros -> Hne. rewrite Hfed, Hdone. by rewrite bool_decide_eq_false_2.
Qed.

End LoopFacts.
End LoopFacts.

Module LoopWitnesses.
Import LoopSpec LoopFacts.

(** C2 as the spec words it fails: the worker's first one-step episode ends
    (an inner boundary, not the last episode of the task), the flag passed to
    [update_encoding] is false and the hidden state 3 is handed to the encoder
    instead of the prior 0. *)
Lemma inner_boundary_does_not_reset_hidden :
  ¬ reset_at_every_boundary GridNavi_ops counting_encoder (λ _ _ _ _, [0])
                            two_episode_worker.
Proof.
  intros Hc.
  set (rv := VecEnv.step GridNavi_ops [0] two_episode_worker.(MetaLearner.envs)).
  assert (rv = Ok (state_of rv) (default [] (value_of rv))) as Heq
    by (vm_compute; reflexivity).
  set (r := default (([] : observation), 0%Q, false, (∅ : info_dict))
                    (default [] (value_of rv) !! 0%nat)).
  assert (default [] (value_of rv) !! 0%nat = Some r) as Hr by (vm_compute; reflexivity).
  assert (inner_done_of r = true) as Hin by (vm_compute; reflexivity).
  specialize (Hc _ _ Heq 0%nat r Hr (or_introl Hin)).
  vm_compute in Hc. discriminate Hc.
Qed.

Lemma hidden_state_reset_at_bamdp_boundaries_witness :
  let s := two_episode_worker in
  let sel : list observation → list (list Q) → list (list Q) → list (list Q) → list Z :=
    λ _ _ _ _, [0] in
  let r := MetaLearner.rollout_step GridNavi_ops counting_encoder sel 1 s in
  r = Ok (state_of r) tt ∧
  ∃ envs' results,
    VecEnv.step GridNavi_ops [0] s.(MetaLearner.envs) = Ok envs' results ∧
    (state_of r).(MetaLearner.hidden_state)
    = (counting_encoder.(Encoder.forward) [0] ((λ r : step_result, r.1.1.1) <$> results)
         ((λ r : step_result, r.1.1.2) <$> results) s.(MetaLearner.prev_state)
         (encoder_input counting_encoder (Some (done_flags results))
                        s.(MetaLearner.hidden_state)) None).2.
Proof.
  intros s sel r.
  assert (r = Ok (state_of r) tt) as Hstep by (vm_compute; reflexivity).
  split; [exact Hstep|].
  destruct (hidden_state_reset_at_bamdp_boundaries GridNavi_ops counting_encoder sel 1
              s (state_of r) Hstep) as (envs' & results & Hvec & Hh & _).
  exists envs', results. split; [exact Hvec | exact Hh].
Defined.

End LoopWitnesses.

(** ** The masks the rollout loop records *)

Module MaskFacts.
Import TimeLimitSpec LoopSpec TimeLimitFacts LoopFacts MaskSpec.

Section MaskFacts.
Context {E H A T : Type} (env : Env.ops E A T) (encoder : Encoder.t H A).
Context (select_action : list observation → list (list Q) → list (list Q) → list (list Q)
                        → list A).
Context (num_processes : nat).

(** What a returning rollout step hands to [policy_storage.insert]: the masks
    computed from the results of the environment step. *)
Lemma rollout_step_inserts (ops : Env.ops E A T) (s s' : MetaLearner.t E H A) :
  MetaLearner.rollout_step ops encoder select_action num_processes s = Ok s' tt →
  let action := select_action s.(MetaLearner.prev_state) s.(MetaLearner.latent_sample)
                              s.(MetaLearner.latent_mean) s.(MetaLearner.latent_logvar) in
  ∃ envs' results ins,
    VecEnv.step ops action s.(MetaLearner.envs) = Ok envs' results ∧
    s'.(MetaLearner.inserts) = s.(MetaLearner.inserts) ++ [ins] ∧
    ins.(MetaLearner.ins_actions) = action ∧
    ins.(MetaLearner.ins_rewards_raw) = (λ r : step_result, r.1.1.2) <$> results ∧
    ins.(MetaLearner.ins_done) = (λ r : step_result, r.1.2) <$> results ∧
    ins.(MetaLearner.ins_masks)
    = MetaLearner.masks_done ((λ r : step_result, r.1.2) <$> results) ∧
    ins.(MetaLearner.ins_bad_masks)
    = MetaLearner.bad_masks ((λ r : step_result, r.2) <$> results) ∧
    s'.(MetaLearner.frames) = s.(MetaLearner.frames) + Z.of_nat num_processes.
Proof.
  unfold MetaLearner.rollout_step, Py.lift, Helpers.update_encoding. py_simpl.
  destruct (VecEnv.step ops _ (MetaLearner.envs s)) as [envs' results|]; [|done].
  intros Hs. exists envs', results. revert Hs.
  destruct (Encoder.forward encoder _ _ _ _ _ _) as [[[ls lm] ll] h'].
  destruct (bool_decide _).
  - destruct (MetaLearner.reset_env _ _ _ _ _) as [envs'' next|]; [|done].
    intros [= <-]. eexists. split; [done|]. cbn. by split_and!.
  - intros [= <-]. eexists. split; [done|]. cbn. by split_and!.
Qed.

(** C5: a step whose episode ended by hitting the step limit is marked with
    [info['bad_transition'] = True]: [TimeLimitMask.step] adds the key exactly
    when [done] holds and the elapsed steps equal the maximum.  A returning
    rollout step of the training loop hands one record to the policy storage
    in which, for every worker, [masks] is 0.0 exactly when the worker's step
    returned done and [bad_masks] is 0.0 exactly when the step of the worker's
    environment was cut by the time limit, and 1.0 otherwise.  So a
    truncation and a true termination leave different records: read as the
    spec asks the return computation to, the record zeroes the bootstrap
    exactly for a done step that was not cut by the time limit. *)
Theorem time_limit_steps_are_recorded_as_bad (s s' : MetaLearner.t E H A) :
  (∀ action e e' res,
     TimeLimitMask.step env action e = Ok e' res →
     ∃ info, env.(Env.step) action e = Ok e' (res.1.1.1, res.1.1.2, res.1.2, info) ∧
       res.2 = (if truncated env res.1.2 e' then <["bad_transition" := VBool true]> info
                else info)) ∧
  (MetaLearner.rollout_step (TimeLimitMask.ops env) encoder select_action num_processes s
   = Ok s' tt →
   let action := select_action s.(MetaLearner.prev_state) s.(MetaLearner.latent_sample)
                               s.(MetaLearner.latent_mean) s.(MetaLearner.latent_logvar) in
   ∃ envs' results ins,
     VecEnv.step (TimeLimitMask.ops env) action s.(MetaLearner.envs) = Ok envs' results ∧
     s'.(MetaLearner.inserts) = s.(MetaLearner.inserts) ++ [ins] ∧
     length ins.(MetaLearner.ins_masks) = length results ∧
     length ins.(MetaLearner.ins_bad_masks) = length results ∧
     ∀ (i : nat) (r : step_result), results !! i = Some r →
       ∃ w a mask bad_mask,
         s.(MetaLearner.envs) !! i = Some w ∧ action !! i = Some a ∧
         ins.(MetaLearner.ins_done) !! i = Some r.1.2 ∧
         ins.(MetaLearner.ins_masks) !! i = Some mask ∧
         ins.(MetaLearner.ins_bad_masks) !! i = Some bad_mask ∧
         mask = (if r.1.2 then 0%Q else 1%Q) ∧
         bad_mask = (if r.2 !! "bad_transition" is Some _ then 0%Q else 1%Q) ∧
         (w.(VariBadWrapper.env_type) ≠ "metaworld" →
          ∃ e1 obs rew done info,
            env.(Env.step) a w.(VariBadWrapper.env) = Ok e1 (obs, rew, done, info) ∧
            (r.1.2 = true → done = true) ∧
            (info !! "bad_transition" = None →
             bad_mask = (if truncated env done e1 then 0%Q else 1%Q) ∧
             zeroes_bootstrap mask bad_mask = r.1.2 && negb (truncated env done e1)))).
Proof.
  split.
  - intros action e e' res. apply mask_step_spec.
  - intros Hs action.
    destruct (rollout_step_inserts _ s s' Hs)
      as (envs' & results & ins & Hvec & Hins & _ & _ & Hdone & Hmasks & Hbad & _).
    exists envs', results, ins. split; [exact Hvec|]. split; [exact Hins|].
    split; [rewrite Hmasks; unfold MetaLearner.masks_done; by rewrite !length_fmap|].
    split; [rewrite Hbad; unfold MetaLearner.bad_masks; by rewrite !length_fmap|].
    intros i r Hr.
    destruct (vec_step_lookup _ _ _ _ _ i r Hvec Hr) as (w & a & w' & Hw & Ha & Hstep & _).
    exists w, a, (if r.1.2 then 0%Q else 1%Q),
           (if r.2 !! "bad_transition" is Some _ then 0%Q else 1%Q).
    split; [exact Hw|]. split; [exact Ha|].
    split; [by rewrite Hdone, list_lookup_fmap, Hr|].
    split.
    { rewrite Hmasks. unfold MetaLearner.masks_done.
      by rewrite !list_lookup_fmap, Hr. }
    split.
    { rewrite Hbad. unfold MetaLearner.bad_masks. rewrite !list_lookup_fmap, Hr.
      cbn. f_equal. destruct (r.2 !! "bad_transition").
      - by rewrite bool_decide_eq_true_2.
      - rewrite bool_decide_eq_false_2; [done|]. by intros [? ?]. }
    split; [done|]. split; [done|].
    intros Hty.
    destruct (wrapper_passes_info _ a w w' r Hstep Hty)
      as (e1 & [[[obs rew] dn] info'] & Hinner & _ & Hd & _ & Hpass).
    apply mask_step_spec in Hinner as (info & Hinner & Hinfo). cbn in *.
    exists e1, obs, rew, dn, info. split; [exact Hinner|]. split; [exact Hd|].
    intros Hnone. rewrite Hpass, Hinfo by done.
    destruct (truncated env dn e1) eqn:Htr.
    + rewrite lookup_insert_eq. split; [done|]. by destruct (r.1.2).
    + rewrite Hnone. split; [done|]. by destruct (r.1.2).
Qed.

End MaskFacts.
End MaskFacts.

Module MaskWitnesses.
Import TimeLimitSpec LoopSpec MaskSpec MaskFacts.

Lemma time_limit_steps_are_recorded_as_bad_witness :
  let env := GridNavi_time_limit_ops in
  let s := time_limit_worker in
  let sel : list observation → list (list Q) → list (list Q) → list (list Q) → list Z :=
    λ _ _ _ _, [0] in
  let r := MetaLearner.rollout_step (TimeLimitMask.ops env) counting_encoder sel 1 s in
  r = Ok (state_of r) tt ∧
  (MetaLearner.ins_bad_masks <$> (state_of r).(MetaLearner.inserts)) = [[0%Q]] ∧
  (MetaLearner.ins_masks <$> (state_of r).(MetaLearner.inserts)) = [[0%Q]] ∧
  ∃ envs' results ins,
    VecEnv.step (TimeLimitMask.ops env) [0] s.(MetaLearner.envs) = Ok envs' results ∧
    (state_of r).(MetaLearner.inserts) = s.(MetaLearner.inserts) ++ [ins] ∧
    length ins.(MetaLearner.ins_bad_masks) = length results.
Proof.
  intros env s sel r.
  assert (r = Ok (state_of r) tt) as Hstep by (vm_compute; reflexivity).
  split; [exact Hstep|].
  split; [vm_compute; reflexivity|]. split; [vm_compute; reflexivity|].
  destruct (proj2 (time_limit_steps_are_recorded_as_bad env counting_encoder sel 1
                     s (state_of r)) Hstep)
    as (envs' & results & ins & Hvec & Hins & _ & Hlen & _).
  exists envs', results, ins. split; [exact Hvec|]. split; [exact Hins | exact Hlen].
Defined.

End MaskWitnesses.

(** ** Recomputing the embeddings *)

Module RecomputeFacts.
Import RecomputeSpec.

(** C3 at an input where the recomputed latent means [2; 1] disagree with the
    means [1; 2] collected online: the differences cancel in the sum the code
    tests, so [recompute_embeddings] emits neither the warning nor the
    debugger break and overwrites the stored means. *)
Lemma cancelling_mismatch_is_not_flagged :
  let p := Helpers.mk_proc (one_step_storage [1; 2]%Q) [] in
  let r := Helpers.recompute_embeddings swapping_encoder false 0 None p in
  r = Ok (state_of r) tt ∧
  (state_of r).(Helpers.emitted) = [] ∧
  p.(Helpers.policy_storage).(Helpers.latent_mean) !! 1%nat = Some [[1; 2]%Q] ∧
  (state_of r).(Helpers.policy_storage).(Helpers.latent_mean) !! 1%nat = Some [[2; 1]%Q] ∧
  ¬ (1 == 2)%Q.
Proof.
  intros p r. split_and!; [vm_compute; reflexivity..|]. by intros Heq.
Qed.

(** A mismatch whose differences do not cancel is flagged: the warning, then
    the debugger break. *)
Lemma plain_mismatch_is_flagged :
  let p := Helpers.mk_proc (one_step_storage [1; 1]%Q) [] in
  let r := Helpers.recompute_embeddings swapping_encoder false 0 None p in
  r = Ok (state_of r) tt ∧
  (state_of r).(Helpers.emitted)
  = [Helpers.Warn "You are not recomputing the embeddings correctly!"; Helpers.PdbSetTrace].
Proof.
  intros p r. split; vm_compute; reflexivity.
Qed.

(** A stored sequence of another length than the recomputed one is no error
    of the subtraction when torch can broadcast the two: the one stored row
    [0; 0] is subtracted from both recomputed rows, the sum is not 0, and the
    call returns after the warning and the debugger break. *)
Lemma broadcast_mismatch_is_flagged :
  let p := Helpers.mk_proc prior_only_storage [] in
  let r := Helpers.recompute_embeddings swapping_encoder false 0 None p in
  r = Ok (state_of r) tt ∧
  (state_of r).(Helpers.emitted)
  = [Helpers.Warn "You are not recomputing the embeddings correctly!"; Helpers.PdbSetTrace] ∧
  (state_of r).(Helpers.policy_storage).(Helpers.latent_mean) = [[[0; 0]%Q]; [[2; 1]%Q]].
Proof.
  intros p r. split_and!; vm_compute; reflexivity.
Qed.

(** With a non-zero [update_idx] nothing is compared. *)
Lemma later_updates_are_not_checked :
  let p := Helpers.mk_proc (one_step_storage [1; 1]%Q) [] in
  let r := Helpers.recompute_embeddings swapping_encoder false 1 None p in
  r = Ok (state_of r) tt ∧ (state_of r).(Helpers.emitted) = [].
Proof.
  intros p r. split; vm_compute; reflexivity.
Qed.

End RecomputeFacts.

(** ** The grid world: moves, layouts and edge cases *)

Module GridFrame.
Import GridNavi GridSpec GridFacts.
Export GridFrameSpec.

Section keeps.
Context (R : t → t → Prop) `{!Reflexive R, !Transitive R}.

Lemma keeps_bind {X Y} (m : M t X) (k : X → M t Y) :
  keeps R m → (∀ x, keeps R (k x)) → keeps R (m ≫= k).
Proof.
  intros Hm Hk g. specialize (Hm g). unfold mbind, M_bind, Py.bind.
  destruct (m g) as [g1 x|g1 e]; simpl in *; [|done].
  etrans; [exact Hm | apply Hk].
Qed.

Lemma keeps_ret {X} (x : X) : keeps R (mret x).
Proof. intros g. simpl. reflexivity. Qed.

Lemma keeps_raise {X} (e : exn) : keeps R (@Py.raise t X e).
Proof. intros g. simpl. reflexivity. Qed.

Lemma keeps_gets {X} (f : t → X) : keeps R (Py.gets f).
Proof. intros g. simpl. reflexivity. Qed.

Lemma keeps_get : keeps R Py.get.
Proof. intros g. simpl. reflexivity. Qed.

Lemma keeps_assert (c : bool) : keeps R (Py.assert c).
Proof. destruct c; [apply (keeps_ret tt) | apply keeps_raise]. Qed.

Lemma keeps_modify (f : t → t) : (∀ g, R g (f g)) → keeps R (Py.modify f).
Proof. intros Hf g. apply Hf. Qed.

Lemma keeps_for_each {X} (xs : list X) (body : X → M t unit) :
  (∀ x, keeps R (body x)) → keeps R (for_each xs body).
Proof.
  intros Hb. induction xs as [|x xs IH]; simpl; [apply (keeps_ret tt)|].
  apply (keeps_bind (body x)); [apply Hb | intros _; apply IH].
Qed.

Lemma keeps_random_choice {X} (l : list X) :
  (∀ g, R g (set_rand_pos (S g.(rand_pos)) g)) → keeps R (random_choice l).
Proof.
  intros Hr g. unfold random_choice. destruct (l !! _); simpl; [apply Hr | reflexivity].
Qed.

End keeps.

Ltac keeps_step :=
  first
  [ apply keeps_bind; [tc_solve | | intros ?]
  | apply keeps_ret; tc_solve
  | apply keeps_raise; tc_solve
  | apply keeps_gets; tc_solve
  | apply keeps_get; tc_solve
  | apply keeps_assert; tc_solve
  | apply keeps_for_each; [tc_solve | tc_solve | intros ?]
  | match goal with
    | |- keeps _ (if ?b then _ else _) => destruct b
    | |- keeps _ (match ?x with _ => _ end) => destruct x
    end ].

Global Instance same_task_refl : Reflexive same_task.
Proof. intros g. by split; [repeat split| |]. Qed.

Global Instance same_task_trans : Transitive same_task.
Proof.
  intros g1 g2 g3 [(?&?&?&?&?&?&?&?&?&?) ? ?] [(?&?&?&?&?&?&?&?&?&?) ? ?].
  split; [repeat split; congruence | congruence | by etrans].
Qed.

Global Instance same_place_refl : Reflexive same_place.
Proof. intros g. split; reflexivity. Qed.

Global Instance same_place_trans : Transitive same_place.
Proof. intros g1 g2 g3 [? ?] [? ?]. split; [by etrans | congruence]. Qed.

Lemma keeps_task_to_id (R : t → t → Prop) `{!Reflexive R, !Transitive R} (p : pos) :
  keeps R (task_to_id p).
Proof. unfold task_to_id. repeat keeps_step. Qed.

Lemma update_belief_same_place (state : pos) (action : Z) :
  keeps same_place (update_belief state action).
Proof.
  unfold update_belief.
  repeat first
    [ apply keeps_task_to_id; tc_solve
    | apply keeps_random_choice; [tc_solve | by intros []]
    | apply keeps_modify; by intros []
    | keeps_step ].
Qed.

Lemma state_of_bind {X Y} (m : M t X) (k : X → M t Y) (g : t) :
  state_of ((m ≫= k) g)
  = match m g with Ok g1 x => state_of (k x g1) | Raise g1 _ => g1 end.
Proof. unfold mbind, M_bind, Py.bind. by destruct (m g). Qed.

(** [state_transition] always returns, and only moves the agent. *)
Lemma state_transition_total (action : Z) (g : t) :
  ∃ s, state_transition action g = Ok (set_env_state s g) s.
Proof.
  destruct g as [n ? ? ? ? ? ? hall stk ? ? ? pgs ? ? [x y] ? ? ? ?].
  unfold state_transition. unfold_py. simpl.
  destruct (bool_decide (hall ≠ None) && (y =? 1) && (stk || negb (action =? 3)));
    [by eexists|].
  destruct (action =? 1).
  { destruct hall; [destruct (bool_decide _)|]; simpl; by eexists. }
  destruct (action =? 2); [simpl; by eexists|].
  destruct (action =? 3); [simpl; by eexists|].
  destruct (action =? 4); simpl; by eexists.
Qed.

Lemma step_invalid (action : Z) (g : t) :
  action_space_contains action = false → step action g = Raise g AssertionError.
Proof. intros Ha. unfold step. unfold_py. by rewrite Ha. Qed.

(** After the move, [step] leaves the agent where it is, whatever else
    happens. *)
Lemma step_rest_same_place (action : Z) (g : t) :
  action_space_contains action = true →
  same_place (state_of (state_transition action g)) (state_of (step action g)).
Proof.
  intros Ha. unfold step. rewrite state_of_bind. unfold Py.assert at 1. rewrite Ha.
  cbn [Py.ret]. rewrite state_of_bind.
  destruct (state_transition_total action g) as [s ->]. cbn [state_of].
  generalize (set_env_state s g). clear g. intros g. revert g.
  match goal with |- ∀ g, same_place g (state_of (?m g)) => change (keeps same_place m) end.
  unfold get_task, get_belief.
  apply keeps_bind; [tc_solve | apply keeps_gets; tc_solve | intros r].
  apply keeps_bind; [tc_solve | | intros chk].
  { destruct r; [|apply (keeps_ret _ false)].
    intros g. unfold_py. destruct (bool_decide _); simpl; [|reflexivity].
    destruct g. split; [split; [repeat split| |]|]; simpl; try done.
    by intros x [? _]%elem_of_difference. }
  repeat first
    [ apply keeps_task_to_id; tc_solve
    | apply update_belief_same_place
    | apply keeps_modify; by intros []
    | keeps_step ].
Qed.


Lemma step_same_task (action : Z) : keeps same_task (step action).
Proof.
  intros g. destruct (action_space_contains action) eqn:Ha.
  - destruct (step_rest_same_place action g Ha) as [Hrest _].
    etrans; [|exact Hrest]. destruct (state_transition_total action g) as [s ->].
    by destruct g.
  - rewrite step_invalid by done. reflexivity.
Qed.

(** Where the agent is after [step], whether it returned or raised. *)
Lemma step_position (action : Z) (g : t) :
  (state_of (step action g)).(_env_state)
  = if action_space_contains action
    then (state_of (state_transition action g)).(_env_state)
    else g.(_env_state).
Proof.
  destruct (action_space_contains action) eqn:Ha.
  - by destruct (step_rest_same_place action g Ha) as [_ ->].
  - by rewrite step_invalid.
Qed.

Lemma state_transition_near (action : Z) (g : t) :
  in_grid g.(num_cells) g.(_env_state) →
  let p := g.(_env_state) in
  let p' := (state_of (state_transition action g)).(_env_state) in
  Z.abs (p'.1 - p.1) + Z.abs (p'.2 - p.2) ≤ 1 ∧ (action = 0 → p' = p).
Proof.
  destruct g as [n ? ? ? ? ? ? hall stk ? ? ? pgs ? ? [x y] ? ? ? ?].
  unfold in_grid, state_transition. unfold_py. simpl. intros [Hx Hy].
  destruct (bool_decide (hall ≠ None) && (y =? 1) && (stk || negb (action =? 3)));
    [simpl; split; [lia | done]|].
  destruct (action =? 1) eqn:H1.
  { apply Z.eqb_eq in H1. subst.
    destruct hall; [destruct (bool_decide _)|]; simpl; split; (lia || done). }
  destruct (action =? 2) eqn:H2;
    [apply Z.eqb_eq in H2; subst; simpl; split; (lia || done)|].
  destruct (action =? 3) eqn:H3;
    [apply Z.eqb_eq in H3; subst; simpl; split; (lia || done)|].
  destruct (action =? 4) eqn:H4;
    [apply Z.eqb_eq in H4; subst; simpl; split; (lia || done)|].
  simpl. split; [lia | done].
Qed.

End GridFrame.

Module GridMoves.
Import GridNavi GridSpec GridFacts GridFrame.

(** X1: One step moves the agent by at most one cell and never out of the grid;
    the no-op action and a rejected action leave it in place.  This holds for
    the state the call leaves behind, whether it returned or raised. *)
Theorem agent_moves_at_most_one_cell (g : t) (action : Z) :
  reachable g →
  let p := g.(_env_state) in
  let p' := (state_of (step action g)).(_env_state) in
  in_grid g.(num_cells) p' ∧
  Z.abs (p'.1 - p.1) + Z.abs (p'.2 - p.2) ≤ 1 ∧
  (action = 0 → p' = p) ∧
  (action_space_contains action = false → p' = p).
Proof.
  intros HI%reachable_Inv p p'.
  pose proof (step_Inv action g HI) as [_ _ _ Hst' _ _ _ _].
  destruct (step_same_task action g) as [(Hn & _) _ _].
  pose proof HI as [_ _ _ Hst _ _ _ _].
  destruct (state_transition_near action g Hst) as [Hd H0].
  subst p p'. rewrite Hn in Hst'. rewrite step_position in *.
  destruct (action_space_contains action); split_and!; try done; lia.
Qed.

Lemma agent_moves_at_most_one_cell_witness :
  let g := state_of (default_grid (λ i, i)) in
  reachable g ∧
  in_grid g.(num_cells) (state_of (step 2 g)).(_env_state).
Proof.
  assert (reachable (state_of (default_grid (λ i, i)))) as Hr.
  { eapply (reach_init 5 15 (Some (0, 0)) false None None false false false (λ i, i) 0%nat).
    - vm_compute. reflexivity.
    - intros s [= <-]. vm_compute. repeat split; discriminate. }
  split; [exact Hr|].
  exact (proj1 (agent_moves_at_most_one_cell _ 2 Hr)).
Defined.

End GridMoves.

Module HallwayFacts.
Import GridNavi GridSpec GridFacts GridFrame.

Lemma state_transition_in_door (action : Z) (g : t) :
  g.(hall_with_door_every) ≠ None → g.(_env_state).2 = 1 →
  (state_of (state_transition action g)).(_env_state)
  = if g.(stuck) || negb (action =? 3) then g.(_env_state) else (g.(_env_state).1, 0).
Proof.
  destruct g as [n ? ? ? ? ? ? hall stk ? ? ? pgs ? ? [x y] ? ? ? ?]. simpl.
  intros Hh ->. unfold state_transition. unfold_py. simpl.
  rewrite bool_decide_eq_true_2 by done. simpl.
  destruct (stk || negb (action =? 3)) eqn:Hc; [done|].
  apply orb_false_iff in Hc as [_ Ha]. apply negb_false_iff, Z.eqb_eq in Ha. by subst.
Qed.

Lemma run_cons_state (a : Z) (actions : list Z) (g : t) :
  state_of (run (a :: actions) g)
  = match step a g with
    | Ok g' _ => state_of (run actions g')
    | Raise g' _ => g'
    end.
Proof. cbn [run]. destruct (step a g); [|done]. by destruct (run actions _). Qed.

(** X2: In a hallway, a door cell (second coordinate 1) can only be left
    downwards, back into the hall, and not at all when [stuck] is set: then no
    sequence of steps moves the agent any more. *)
Theorem doors_of_the_hallway (g : t) :
  g.(hall_with_door_every) ≠ None → g.(_env_state).2 = 1 →
  (g.(stuck) = true →
   ∀ actions, (state_of (run actions g)).(_env_state) = g.(_env_state)) ∧
  (g.(stuck) = false →
   ∀ action, (state_of (step action g)).(_env_state)
             = if action =? 3 then (g.(_env_state).1, 0) else g.(_env_state)).
Proof.
  intros Hh Hy. split.
  - intros Hs actions. revert g Hh Hy Hs.
    induction actions as [|a actions IH]; intros g Hh Hy Hs; [done|].
    rewrite run_cons_state.
    pose proof (step_position a g) as Hp.
    rewrite state_transition_in_door, Hs in Hp by done. simpl in Hp.
    assert ((state_of (step a g)).(_env_state) = g.(_env_state)) as Hp'
      by (by destruct (action_space_contains a)).
    destruct (step_same_task a g) as [(_ & _ & _ & _ & _ & Hh' & Hs' & _) _ _].
    destruct (step a g) as [g1 r|g1 e]; simpl in *; [|done].
    rewrite IH; [done | congruence..].
  - intros Hs action. rewrite step_position, state_transition_in_door, Hs by done.
    simpl. destruct (action =? 3) eqn:Ha; simpl.
    + apply Z.eqb_eq in Ha. by subst.
    + by destruct (action_space_contains action).
Qed.

Lemma doors_of_the_hallway_witness :
  let g0 := state_of (__init__ 5 15 (Some (0, 0)) false (Some 2) None true false false
                               (λ i, i) 0) in
  let g := state_of (run [2; 2; 1] g0) in
  g.(_env_state) = (2, 1) ∧ g.(stuck) = true ∧
  (state_of (run [3; 4; 2; 1; 0; 3] g)).(_env_state) = g.(_env_state).
Proof.
  intros g0 g.
  assert (g.(hall_with_door_every) ≠ None) as Hh by (vm_compute; discriminate).
  assert (g.(_env_state).2 = 1) as Hy by (vm_compute; reflexivity).
  assert (g.(stuck) = true) as Hs by (vm_compute; reflexivity).
  split_and!; [vm_compute; reflexivity | exact Hs |].
  exact (proj1 (doors_of_the_hallway g Hh Hy) Hs [3; 4; 2; 1; 0; 3]).
Defined.

End HallwayFacts.

Module GridLayout.
Import GridNavi GridSpec GridFacts GridFrame.
Export GridLayoutSpec.

Global Instance same_layout_refl : Reflexive same_layout.
Proof. intros g. by repeat split. Qed.

Global Instance same_layout_trans : Transitive same_layout.
Proof.
  intros g1 g2 g3 [(?&?&?&?&?&?&?&?&?&?) ?] [(?&?&?&?&?&?&?&?&?&?) ?].
  split; [repeat split; congruence | congruence].
Qed.

Lemma reset_belief_same_layout : keeps same_layout _reset_belief.
Proof.
  unfold _reset_belief.
  repeat first
    [ apply keeps_task_to_id; tc_solve
    | apply keeps_modify; by intros []
    | keeps_step ].
Qed.

Lemma reset_task_same_layout (task : option pos) : keeps same_layout (reset_task task).
Proof.
  unfold reset_task.
  repeat first
    [ apply reset_belief_same_layout
    | apply keeps_random_choice; [tc_solve | by intros []]
    | apply keeps_modify; by intros []
    | keeps_step ].
Qed.

Lemma reset_same_config (g : t) :
  same_config g (state_of (reset g)) ∧
  (state_of (reset g)).(_goal) = g.(_goal) ∧
  (state_of (reset g)).(_belief_state) = g.(_belief_state) ∧
  (state_of (reset g)).(goals_unchecked) = g.(goals_unchecked) ∧
  match g.(starting_state) with
  | Some s => (state_of (reset g)).(_env_state) = s
  | None => (state_of (reset g)).(_env_state) ∈ g.(possible_goals) ∨
            (state_of (reset g)).(_env_state) = g.(_env_state)
  end.
Proof.
  unfold reset. unfold_py. simpl. destruct (starting_state g) as [s|] eqn:Hs; simpl.
  - by repeat split.
  - unfold random_choice. simpl.
    destruct (possible_goals g !! _) as [x|] eqn:Hx; simpl.
    + repeat split; try done. left. by eapply list_elem_of_lookup_2.
    + repeat split; try done. by right.
Qed.

(** The tail of the constructor keeps the configuration it was given and
    leaves the agent on the start (a possible goal when the start is
    random). *)
Lemma finish_layout (g0 g : t) :
  (match g0.(starting_state) with
   | None => pgs ← gets possible_goals; s ← random_choice pgs; modify (set_env_state s)
   | Some s => modify (set_env_state s)
   end;; reset_task None;; _reset_belief;; mret tt) g0 = Ok g tt →
  same_config g0 g ∧
  match g0.(starting_state) with
  | Some s => g.(_env_state) = s
  | None => g.(_env_state) ∈ g0.(possible_goals)
  end.
Proof.
  assert (keeps same_layout (reset_task None;; _reset_belief;; mret tt)) as Hrest.
  { repeat first [apply reset_task_same_layout | apply reset_belief_same_layout | keeps_step]. }
  intros Hfin. pose proof (f_equal state_of Hfin) as Hst. rewrite state_of_bind in Hst.
  simpl in Hst. revert Hfin Hst.
  destruct (starting_state g0) as [s|] eqn:Hs.
  - unfold_py. cbn beta iota. intros _ Hst.
    destruct (Hrest (set_env_state s g0)) as [Hc He]. unfold_py. rewrite Hst in Hc, He.
    split; [by destruct g0 | done].
  - unfold_py. unfold random_choice. cbn beta iota.
    destruct (possible_goals g0 !! _) as [x|] eqn:Hx; [|done]. cbn beta iota.
    intros _ Hst.
    destruct (Hrest (set_env_state x (set_rand_pos (S (rand_pos g0)) g0))) as [Hc He].
    unfold_py. rewrite Hst in Hc, He.
    split; [by destruct g0 | rewrite He; by eapply list_elem_of_lookup_2].
Qed.

(** What a returning constructor built. *)
Lemma init_layout (n steps : Z) (start : option pos) (ring : bool) (hall : option Z)
    (r : option Q) (stk dr sg : bool) (rand : nat → nat) (consumed : nat) (g : t) :
  __init__ n steps start ring hall r stk dr sg rand consumed = Ok g tt →
  g.(num_cells) = n ∧ g.(_max_episode_steps) = steps ∧
  g.(starting_state) = start ∧ g.(hall_with_door_every) = hall ∧
  g.(new_state_r) = r ∧ g.(stuck) = stk ∧
  g.(distance_reward) = dr ∧ g.(show_goal_at_start) = sg ∧
  g.(rand_src) = rand ∧
  g.(possible_goals)
  = (if ring then ring_goals n (default (0, 0) start)
     else match hall with
          | Some h => (λ offset, (offset, 1)) <$> Py.range3 h n h
          | None => open_goals n start
          end) ∧
  (ring = true ∨ hall ≠ None → ∃ s, start = Some s) ∧
  (hall ≠ None → ∃ s, start = Some s ∧ s.2 = 0) ∧
  match start with
  | Some s => g.(_env_state) = s
  | None => g.(_env_state) ∈ g.(possible_goals)
  end.
Proof.
  intros Hinit. unfold __init__ in Hinit.
  assert (∀ goals g0,
            g0 = mk n (n ^ 2) r dr sg steps 0 hall stk 2 (n ^ 2) start
                    goals (list_to_set goals) (n ^ 2) (0, 0) (0, 0) [] rand consumed →
            (match start with
             | None => pgs ← gets possible_goals; s ← random_choice pgs; modify (set_env_state s)
             | Some s => modify (set_env_state s)
             end;; reset_task None;; _reset_belief;; mret tt) g0 = Ok g tt →
            g.(num_cells) = n ∧ g.(_max_episode_steps) = steps ∧
            g.(starting_state) = start ∧ g.(hall_with_door_every) = hall ∧
            g.(new_state_r) = r ∧ g.(stuck) = stk ∧
            g.(distance_reward) = dr ∧ g.(show_goal_at_start) = sg ∧
            g.(rand_src) = rand ∧ g.(possible_goals) = goals ∧
            match start with
            | Some s => g.(_env_state) = s
            | None => g.(_env_state) ∈ g.(possible_goals)
            end) as Hfinish.
  { intros goals g0 Heq Hfin.
    destruct (finish_layout g0 g) as [(?&?&?&?&?&?&?&Hs&Hp&?) He];
      [subst g0; exact Hfin|].
    subst g0. simpl in *. split_and!; try done. rewrite Hp. exact He. }
  destruct (bool_decide (start = None) && (ring || bool_decide (hall ≠ None))) eqn:Hc;
    [done|].
  destruct ring.
  - destruct hall; [done|]. destruct start as [s|]; [|done].
    destruct (Hfinish _ _ eq_refl Hinit) as (?&?&?&?&?&?&?&?&?&?&?).
    split_and!; try done; by eexists.
  - destruct hall as [h|].
    + destruct start as [s|]; [|done].
      destruct (negb (s.2 =? 0)) eqn:Hs2; [done|]. destruct (h =? 0) eqn:Hh; [done|].
      apply negb_false_iff, Z.eqb_eq in Hs2.
      destruct (Hfinish _ _ eq_refl Hinit) as (?&?&?&?&?&?&?&?&?&?&?).
      split_and!; try done; by eexists.
    + destruct (Hfinish _ _ eq_refl Hinit) as (?&?&?&?&?&?&?&?&?&?&?).
      split_and!; try done; by intros [|].
Qed.

End GridLayout.

Module HallwayInvariant.
Import GridNavi GridSpec GridFacts GridFrame GridLayout.
Export HallwaySpec.

Lemma state_transition_hall (action : Z) (g : t) :
  g.(hall_with_door_every) ≠ None →
  (∀ p, p ∈ g.(possible_goals) → p.2 = 1) →
  g.(_env_state).2 = 0 ∨ g.(_env_state) ∈ g.(possible_goals) →
  let p' := (state_of (state_transition action g)).(_env_state) in
  p'.2 = 0 ∨ p' ∈ g.(possible_goals).
Proof.
  destruct g as [n ? ? ? ? ? ? hall stk ? ? ? pgs ? ? [x y] ? ? ? ?]. simpl.
  intros Hh Hdoors Hp. unfold state_transition. unfold_py. simpl.
  rewrite bool_decide_eq_true_2 by done. simpl.
  destruct (y =? 1) eqn:Hy; simpl.
  - apply Z.eqb_eq in Hy. subst.
    destruct (stk || negb (action =? 3)) eqn:Hc; [done|].
    apply orb_false_iff in Hc as [_ Ha]. apply negb_false_iff, Z.eqb_eq in Ha. subst.
    simpl. by left.
  - assert (y = 0) as ->.
    { destruct Hp as [?|Hin]; [done|]. apply Hdoors in Hin. simpl in Hin.
      apply Z.eqb_neq in Hy. done. }
    destruct (action =? 1).
    { destruct hall; [|done]. destruct (bool_decide_reflect ((x, 0 + 1) ∈ pgs)); simpl;
        [by right | by left]. }
    destruct (action =? 2); [by left|].
    destruct (action =? 3); [by left|].
    destruct (action =? 4); by left.
Qed.

Lemma reachable_hall_inv (g : t) :
  reachable g → g.(hall_with_door_every) ≠ None → hall_inv g.
Proof.
  induction 1 as [n steps start ring hall r stk dr sg rand c g Hinit Hstart
                 | g task _ IH Htask | g _ IH | g action _ IH]; intros Hh.
  - destruct (init_layout _ _ _ _ _ _ _ _ _ _ _ _ Hinit)
      as (_ & _ & Hs & Hhall & _ & _ & _ & _ & _ & Hp & _ & Hst & He).
    rewrite Hhall in Hh. destruct (Hst Hh) as (s & -> & Hs0).
    assert (ring = false) as ->.
    { unfold __init__ in Hinit. destruct ring; [|done].
      destruct (bool_decide _ && _); [done|]. by destruct hall. }
    destruct hall as [h|]; [|done]. split_and!.
    + intros p. rewrite Hp. by intros (o & -> & _)%list_elem_of_fmap.
    + by exists s.
    + left. by rewrite He.
  - destruct (reset_task_same_layout task g) as [(_&_&_&_&_&Hh'&_&Hs&Hp&_) He].
    rewrite Hh' in Hh. destruct (IH Hh) as (Hd & Hst & Hpos).
    split_and!; rewrite ?Hp, ?Hs, ?He; done.
  - destruct (reset_same_config g) as ((_&_&_&_&_&Hh'&_&Hs&Hp&_) & _ & _ & _ & He).
    rewrite Hh' in Hh. destruct (IH Hh) as (Hd & (s & Hst & Hs0) & Hpos).
    rewrite Hst in He. split_and!; rewrite ?Hp, ?Hs, ?He; [done | by exists s | by left].
  - destruct (step_same_task action g) as [(_&_&_&_&_&Hh'&_&Hs&Hp&_) _ _].
    rewrite Hh' in Hh. destruct (IH Hh) as (Hd & Hst & Hpos).
    split_and!; rewrite ?Hp, ?Hs; [done | done |].
    rewrite step_position. destruct (action_space_contains action); [|done].
    by apply state_transition_hall.
Qed.

(** X3: In a hallway the agent is always either in the hall row or inside a door,
    and every door it can be in is one of the possible goals. *)
Theorem hallway_agent_is_in_hall_or_door (g : t) :
  reachable g → g.(hall_with_door_every) ≠ None →
  (g.(_env_state).2 = 0 ∨ g.(_env_state).2 = 1 ∧ g.(_env_state) ∈ g.(possible_goals)) ∧
  0 ≤ g.(_env_state).1 < g.(num_cells).
Proof.
  intros Hr Hh. destruct (reachable_hall_inv g Hr Hh) as (Hd & _ & Hpos).
  pose proof (reachable_Inv g Hr) as [_ _ _ [Hx _] _ _ _ _]. split; [|done].
  destruct Hpos as [?|Hin]; [by left | right]. split; [by apply Hd | done].
Qed.

Lemma hallway_agent_is_in_hall_or_door_witness :
  let g0 := state_of (__init__ 5 15 (Some (0, 0)) false (Some 2) None false false false
                               (λ i, i) 0) in
  let g := state_of (step 1 (state_of (step 2 (state_of (step 2 g0))))) in
  reachable g ∧ g.(_env_state) = (2, 1) ∧
  (g.(_env_state).2 = 0 ∨ g.(_env_state).2 = 1 ∧ g.(_env_state) ∈ g.(possible_goals)).
Proof.
  intros g0 g.
  assert (reachable g) as Hr.
  { do 3 apply reach_step.
    eapply (reach_init 5 15 (Some (0, 0)) false (Some 2) None false false false (λ i, i) 0%nat).
    - vm_compute. reflexivity.
    - intros s [= <-]. vm_compute. repeat split; discriminate. }
  assert (g.(hall_with_door_every) ≠ None) as Hh by (vm_compute; discriminate).
  split_and!; [exact Hr | vm_compute; reflexivity |].
  exact (proj1 (hallway_agent_is_in_hall_or_door g Hr Hh)).
Defined.

End HallwayInvariant.

Module GridStepFacts.
Import GridNavi GridSpec GridFacts GridFrame GridLayout GridStepSpec.

Global Instance only_belief_refl : Reflexive only_belief.
Proof. intros g. exists g.(rand_pos), g.(_belief_state). by destruct g. Qed.

Global Instance only_belief_trans : Transitive only_belief.
Proof. intros g1 g2 g3 (k & b & ->) (k' & b' & ->). by exists k', b'. Qed.

Lemma update_belief_only_belief (state : pos) (action : Z) :
  keeps only_belief (update_belief state action).
Proof.
  unfold update_belief.
  repeat first
    [ apply keeps_task_to_id; tc_solve
    | apply keeps_random_choice; [tc_solve | intros g; destruct g; eexists _, _; unfold set_rand_pos, set_belief_state; simpl; reflexivity]
    | apply keeps_modify; intros g; destruct g; eexists _, _; unfold set_rand_pos, set_belief_state; simpl; reflexivity
    | keeps_step ].
Qed.

Lemma task_to_id_state (p : pos) (g : t) : state_of (task_to_id p g) = g.
Proof.
  unfold task_to_id. unfold_py. destruct (_ <? 0); [done|].
  destruct (wrap_index _ _); [|done]. by destruct (wrap_index _ _).
Qed.

(** [step] in terms of [update_belief] and [task_to_id]. *)
Lemma step_unfold (action : Z) (g : t) (s : pos) :
  action_space_contains action = true →
  state_transition action g = Ok (set_env_state s g) s →
  let g3 := moved s g in
  let reward := compute_reward (checked_potential_goal s g) g3 in
  let dn := bool_decide (g.(_max_episode_steps) ≤ g.(step_count) + 1) in
  step action g =
  match update_belief s action g3 with
  | Raise g4 e => Raise g4 e
  | Ok g4 _ =>
      match task_to_id g4.(_goal) g4 with
      | Raise g5 e => Raise g5 e
      | Ok _ task_id =>
          if g4.(show_goal_at_start) then
            match g4.(starting_state) with
            | None => Raise g4 AssertionError
            | Some st =>
                Ok g4 (pos_to_obs (if (g4.(_env_state).1 =? st.1) && (g4.(_env_state).2 =? st.2)
                                   then g4.(_goal) else g4.(_env_state)),
                       reward, dn, step_info task_id g4)
            end
          else Ok g4 (pos_to_obs g4.(_env_state), reward, dn, step_info task_id g4)
      end
  end.
Proof.
  intros Ha Hs g3 reward dn. unfold step. py_simpl. rewrite Ha. py_simpl. rewrite Hs.
  cbv beta iota.
  set (chkm := match new_state_r (set_env_state s g) with Some _ => _ | None => _ end).
  assert (chkm (set_env_state s g)
          = Ok (set_goals_unchecked
                  (if checked_potential_goal s g then g.(goals_unchecked) ∖ {[s]}
                   else g.(goals_unchecked)) (set_env_state s g))
               (checked_potential_goal s g)) as ->.
  { unfold chkm, checked_potential_goal. clear.
    destruct g as [? ? r ? ? ? ? ? ? ? ? ? ? gu ? ? ? ? ? ?].
    change (new_state_r (set_env_state s _)) with r. cbn [new_state_r goals_unchecked].
    destruct r as [r|].
    - py_simpl. cbn [goals_unchecked set_env_state].
      destruct (decide (s ∈ gu)) as [Hin|Hin].
      + rewrite (bool_decide_eq_true_2 (s ∈ gu)) by done.
        rewrite (bool_decide_eq_true_2 (_ ∧ _)) by (split; [by eexists | done]). done.
      + rewrite (bool_decide_eq_false_2 (s ∈ gu)) by done.
        rewrite (bool_decide_eq_false_2 (_ ∧ _)) by (by intros [_ ?]). done.
    - rewrite bool_decide_eq_false_2 by (by intros [[] _]). done. }
  clear chkm. cbv beta iota.
  match goal with
  | |- match update_belief ?a action ?b with _ => _ end = _ =>
      change a with s; change b with g3
  end.
  change (compute_reward _ _) with reward.
  change (bool_decide (_max_episode_steps g3 ≤ step_count g3)) with dn.
  destruct (update_belief s action g3) as [g4 b|g4 e]; [|done]. cbv beta iota.
  unfold get_task, get_belief. py_simpl.
  pose proof (task_to_id_state g4.(_goal) g4) as Hid.
  destruct (task_to_id (_goal g4) g4) as [g5 id|g5 e]; [|done]. simpl in Hid. subst g5.
  cbv beta iota. destruct (show_goal_at_start g4); [|done].
  destruct (starting_state g4) as [st|]; [|done]. py_simpl.
  by destruct ((_env_state g4).1 =? st.1), ((_env_state g4).2 =? st.2).
Qed.

End GridStepFacts.

Module GridEdgeFacts.
Import GridNavi GridSpec GridFacts GridFrame GridLayout GridStepSpec GridStepFacts GridPlaySpec.

Lemma step_valid (action : Z) (g g' : t) (res : step_result) :
  step action g = Ok g' res → action_space_contains action = true.
Proof.
  intros Hstep. destruct (action_space_contains action) eqn:Ha; [done|].
  by rewrite step_invalid in Hstep.
Qed.

(** What a returning [step] leaves behind. *)
Lemma step_Ok_moved (action : Z) (g g' : t) (res : step_result) :
  step action g = Ok g' res →
  ∃ s k b, state_transition action g = Ok (set_env_state s g) s ∧
           g' = set_rand_pos k (set_belief_state b (moved s g)) ∧
           res.1.1.2 = compute_reward (checked_potential_goal s g) (moved s g) ∧
           res.1.2 = bool_decide (g.(_max_episode_steps) ≤ g.(step_count) + 1).
Proof.
  intros Hstep. pose proof (step_valid _ _ _ _ Hstep) as Ha.
  destruct (state_transition_total action g) as [s Hs]. exists s.
  rewrite (step_unfold action g s Ha Hs) in Hstep.
  pose proof (update_belief_only_belief s action (moved s g)) as Hob.
  destruct (update_belief s action (moved s g)) as [g4 b4|]; [|done].
  destruct Hob as (k & b & Hg4). simpl in Hg4. exists k, b.
  destruct (task_to_id _ g4); [|done].
  destruct (show_goal_at_start g4).
  - destruct (starting_state g4); [|done]. injection Hstep as <- <-. by subst.
  - injection Hstep as <- <-. by subst.
Qed.

Lemma play_unchecked (calls : list (option Z)) (g : t) :
  (play calls g).(goals_unchecked) ⊆ g.(goals_unchecked).
Proof.
  revert g. induction calls as [|[a|] calls IH]; intros g; cbn [play]; [done|..].
  - etrans; [apply IH|]. apply step_same_task.
  - etrans; [apply IH|]. by destruct (reset_same_config g) as (_ & _ & _ & -> & _).
Qed.

(** X4: With [new_state_r] set, a step that ends on a cell still in
    [goals_unchecked] ticks it off; off the goal that step earns
    [new_state_r], and the cell is never put back by later steps and resets of
    the same task, so a later visit earns the plain reward. *)
Theorem exploration_bonus_is_paid_once (g g' : t) (action : Z) (res : step_result) (r : Q) :
  g.(new_state_r) = Some r →
  step action g = Ok g' res →
  let s := g'.(_env_state) in
  g'.(goals_unchecked) = g.(goals_unchecked) ∖ {[s]} ∧
  (s ∈ g.(goals_unchecked) → s ≠ g.(_goal) → res.1.1.2 = r) ∧
  (s ∉ g.(goals_unchecked) → res.1.1.2 = compute_reward false g') ∧
  ∀ calls, s ∉ (play calls g').(goals_unchecked).
Proof.
  intros Hr (s' & k & b & _ & -> & Hrew & _)%step_Ok_moved. cbn.
  assert (checked_potential_goal s' g = bool_decide (s' ∈ goals_unchecked g)) as Hchk.
  { unfold checked_potential_goal. rewrite Hr. apply bool_decide_ext.
    split; [by intros [_ ?] | intros ?; split; [by eexists | done]]. }
  rewrite Hchk in *.
  assert ((if bool_decide (s' ∈ goals_unchecked g)
           then goals_unchecked g ∖ {[s']} else goals_unchecked g)
          = goals_unchecked g ∖ {[s']}) as Hgu.
  { destruct (bool_decide_reflect (s' ∈ goals_unchecked g)) as [Hin|Hin]; [done|].
    apply set_eq. intros x. rewrite elem_of_difference, elem_of_singleton.
    split; [intros Hx; split; [done | by intros ->] | by intros [? _]]. }
  split_and!.
  - exact Hgu.
  - intros Hin Hne. rewrite Hrew, bool_decide_eq_true_2 by done.
    unfold compute_reward. cbn. rewrite Hr.
    destruct s' as [x y], (_goal g) as [gx gy].
    destruct (x =? gx) eqn:Hx; [|done]. destruct (y =? gy) eqn:Hy; [|done].
    apply Z.eqb_eq in Hx, Hy. by subst.
  - intros Hin. by rewrite Hrew, bool_decide_eq_false_2 by done.
  - intros calls Hin. apply play_unchecked in Hin. cbn in Hin. rewrite ?Hchk, Hgu in Hin.
    apply elem_of_difference in Hin as [_ Hin]. by apply Hin, elem_of_singleton.
Qed.

Lemma exploration_bonus_is_paid_once_witness :
  let g0 := state_of (__init__ 5 15 (Some (0, 0)) false None (Some 0.5%Q) false false false
                               (λ i, i) 0) in
  let g := state_of (step 2 g0) in
  let r1 := step 2 g in
  let g' := state_of r1 in
  let res := default ([], 0%Q, false, ∅) (value_of r1) in
  g.(new_state_r) = Some 0.5%Q ∧ r1 = Ok g' res ∧ g'.(_env_state) = (2, 0) ∧
  g'.(goals_unchecked) = g.(goals_unchecked) ∖ {[g'.(_env_state)]} ∧
  ∀ calls, g'.(_env_state) ∉ (play calls g').(goals_unchecked).
Proof.
  intros g0 g r1 g' res.
  assert (g.(new_state_r) = Some 0.5%Q) as Hr by (vm_compute; reflexivity).
  assert (r1 = Ok g' res) as H1 by (vm_compute; reflexivity).
  destruct (exploration_bonus_is_paid_once g g' 2 res 0.5%Q Hr H1) as (Hgu & _ & _ & Hnever).
  split_and!; [exact Hr | exact H1 | vm_compute; reflexivity | exact Hgu | exact Hnever].
Defined.

End GridEdgeFacts.

Module GridRaises.
Import GridNavi GridSpec GridFacts GridFrame GridLayout GridStepSpec GridStepFacts GridEdgeFacts.

Lemma moved_Inv (s : pos) (g : t) : Inv g → in_grid g.(num_cells) s → Inv (moved s g).
Proof. intros HI Hs. by apply (Inv_ext g). Qed.

Lemma update_belief_returns (state : pos) (action : Z) (g : t) :
  Inv g → in_grid g.(num_cells) state → (2 ≤ length g.(possible_goals))%nat →
  ∃ g' b, update_belief state action g = Ok g' b.
Proof.
  intros HI Hs Hlen2. pose proof HI as [Hgrid Hnd Hgoal Hst Hstart Hlen Hdist Hmass].
  destruct ((action =? 5) || ((state.1 =? g.(_goal).1) && (state.2 =? g.(_goal).2))) eqn:Hc.
  - destruct (list_remove g.(_goal) g.(possible_goals)) as [rest|] eqn:Hrm.
    + destruct (list_remove_Some _ _ _ Hrm) as (_ & Hl & _).
      assert (rest ≠ []) as Hne by (intros ->; simpl in Hl; lia).
      destruct (update_belief_hint_eq g state action rest Hc Hrm Hne Hgrid) as (w & Hw & Heq).
      by eexists _, _.
    + by apply list_remove_None in Hrm.
  - eexists _, _. by apply (update_belief_else_eq g state action Hc Hs).
Qed.

(** X5: When the task space has a single goal, the hint of [update_belief] has no
    wrong goal to draw: the step that brings the agent onto the goal raises
    [IndexError], after the agent has moved and the step has been counted. *)
Theorem reaching_the_only_goal_raises (g : t) (action : Z) :
  reachable g → length g.(possible_goals) = 1%nat →
  action_space_contains action = true →
  (state_of (state_transition action g)).(_env_state) = g.(_goal) →
  ∃ g', step action g = Raise g' IndexError ∧
        g'.(_env_state) = g.(_goal) ∧ g'.(step_count) = g.(step_count) + 1 ∧
        g'.(_belief_state) = g.(_belief_state).
Proof.
  intros [Hgrid Hnd Hgoal Hst Hstart Hlen Hdist Hmass]%reachable_Inv Hone Ha Hon.
  destruct (state_transition_total action g) as [s Hs]. rewrite Hs in Hon. simpl in Hon.
  subst s. rewrite (step_unfold action g _ Ha Hs).
  assert (update_belief (_goal g) action (moved (_goal g) g)
          = Raise (moved (_goal g) g) IndexError) as ->.
  { destruct (possible_goals g) as [|p [|]] eqn:Hp; [done| |done].
    apply list_elem_of_singleton in Hgoal.
    unfold update_belief, random_choice. py_simpl.
    change (_goal (moved _ g)) with (_goal g).
    rewrite !Z.eqb_refl, orb_true_r. py_simpl.
    change (possible_goals (moved _ g)) with (possible_goals g). rewrite Hp, Hgoal.
    cbn [list_remove]. rewrite decide_True by done. done. }
  by eexists.
Qed.

Lemma reaching_the_only_goal_raises_witness :
  let g0 := state_of (__init__ 5 15 (Some (0, 0)) false (Some 3) None false false false
                               (λ i, i) 0) in
  let g := state_of (step 2 (state_of (step 2 (state_of (step 2 g0))))) in
  reachable g ∧ g.(possible_goals) = [(3, 1)] ∧ g.(_env_state) = (3, 0) ∧
  ∃ g', step 1 g = Raise g' IndexError ∧
        g'.(_env_state) = g.(_goal) ∧ g'.(step_count) = g.(step_count) + 1 ∧
        g'.(_belief_state) = g.(_belief_state).
Proof.
  intros g0 g.
  assert (reachable g) as Hr.
  { do 3 apply reach_step.
    eapply (reach_init 5 15 (Some (0, 0)) false (Some 3) None false false false (λ i, i) 0%nat).
    - vm_compute. reflexivity.
    - intros s [= <-]. vm_compute. repeat split; discriminate. }
  split_and!; [exact Hr | vm_compute; reflexivity | vm_compute; reflexivity |].
  apply (reaching_the_only_goal_raises g 1 Hr); vm_compute; reflexivity.
Defined.

(** X6: [show_goal_at_start] needs a fixed start: with a random start the
    constructor accepts the option, but no [step] ever returns; a valid step
    fails on the assertion after the agent has moved, the step has been
    counted and the belief has been updated. *)
Theorem showing_the_goal_needs_a_fixed_start (g : t) (action : Z) :
  g.(show_goal_at_start) = true → g.(starting_state) = None →
  value_of (step action g) = None ∧
  (reachable g → (2 ≤ length g.(possible_goals))%nat →
   action_space_contains action = true →
   ∃ g', step action g = Raise g' AssertionError ∧
         g'.(step_count) = g.(step_count) + 1 ∧
         g'.(_env_state) = (state_of (state_transition action g)).(_env_state)).
Proof.
  intros Hshow Hstart.
  assert (∀ s, state_transition action g = Ok (set_env_state s g) s →
               ∀ g4 b, update_belief s action (moved s g) = Ok g4 b →
               g4.(show_goal_at_start) = true ∧ g4.(starting_state) = None ∧
               g4.(step_count) = g.(step_count) + 1 ∧ g4.(_env_state) = s) as Hg4.
  { intros s Hs g4 b Hub.
    pose proof (update_belief_only_belief s action (moved s g)) as Hob.
    rewrite Hub in Hob. simpl in Hob. destruct Hob as (k & b' & ->). by cbn. }
  split.
  - destruct (action_space_contains action) eqn:Ha; [|by rewrite step_invalid].
    destruct (state_transition_total action g) as [s Hs].
    rewrite (step_unfold action g s Ha Hs).
    destruct (update_belief s action (moved s g)) as [g4 b|] eqn:Hub; [|done].
    destruct (Hg4 s Hs g4 b Hub) as (-> & -> & _).
    by destruct (task_to_id _ g4).
  - intros HI%reachable_Inv Hlen2 Ha.
    pose proof HI as [Hgrid Hnd Hgoal Hst _ Hlen Hdist Hmass].
    destruct (state_transition_eq action g Hst Hgrid) as (s & Hs & Hsg).
    rewrite (step_unfold action g s Ha Hs), Hs.
    destruct (update_belief_returns s action (moved s g)) as (g4 & b & Hub);
      [by apply moved_Inv | done | done |].
    pose proof (update_belief_Inv s action (moved s g) (moved_Inv s g HI Hsg) Hsg) as HI4.
    rewrite Hub in HI4 |- *. simpl in HI4.
    destruct (Hg4 s Hs g4 b Hub) as (-> & -> & Hc & He).
    rewrite task_to_id_in_grid.
    2:{ destruct HI4 as [Hgrid4 _ Hgoal4 _ _ _ _ _]. by eapply Forall_forall in Hgrid4. }
    by eexists.
Qed.

Lemma showing_the_goal_needs_a_fixed_start_witness :
  let r := __init__ 5 15 None false None None false false true (λ i, i) 0 in
  let g := state_of r in
  r = Ok g tt ∧ value_of (step 2 g) = None.
Proof.
  intros r g.
  assert (r = Ok g tt) as Hinit by (vm_compute; reflexivity).
  assert (g.(show_goal_at_start) = true) as Hshow by (vm_compute; reflexivity).
  assert (g.(starting_state) = None) as Hstart by (vm_compute; reflexivity).
  split; [exact Hinit|].
  exact (proj1 (showing_the_goal_needs_a_fixed_start g 2 Hshow Hstart)).
Defined.

End GridRaises.

Module BeliefFacts.
Import GridNavi GridSpec GridFacts GridFrame GridLayout GridStepSpec GridStepFacts GridEdgeFacts.
Import BeliefSpec.

Lemma Qceiling_unit (x : Q) : (0 < x)%Q → (x <= 1)%Q → Qceiling x = 1.
Proof.
  intros Hpos Hle.
  pose proof (Qle_ceiling x) as Hup. pose proof (Qceiling_lt x) as Hlow.
  assert (0 < inject_Z (Qceiling x))%Q as H1 by (by eapply Qlt_le_trans).
  assert (inject_Z (Qceiling x - 1) < 1)%Q as H2 by (by eapply Qlt_le_trans).
  change 0%Q with (inject_Z 0) in H1. change 1%Q with (inject_Z 1) in H2.
  rewrite <- Zlt_Qlt in H1, H2. lia.
Qed.

Lemma ceil_of_probability (x : Q) :
  (0 <= x)%Q → (x <= 1)%Q → Py.ceil x = if Qle_bool x 0 then 0%Q else 1%Q.
Proof.
  intros H0 H1. unfold Py.ceil. destruct (Qle_bool x 0) eqn:Hx.
  - apply Qle_bool_iff in Hx. assert (x == 0)%Q as Heq by (by apply Qle_antisym).
    by rewrite (Qceiling_comp _ _ Heq).
  - rewrite Qceiling_unit; [done | | done].
    apply Qnot_le_lt. intros Hle. apply Qle_bool_iff in Hle. congruence.
Qed.

Lemma sum_indicator {X} (f : X → bool) (l : list X) :
  (Py.sum ((λ i, if f i then 1 else 0)%Q <$> l)
   == inject_Z (Z.of_nat (length (filter (λ i, f i = true) l))))%Q.
Proof.
  induction l as [|x l IH]; [done|]. rewrite fmap_cons, sum_cons, IH, filter_cons.
  destruct (decide (f x = true)) as [Hf|Hf].
  - rewrite Hf. cbn [length]. rewrite Nat2Z.inj_succ, <- Z.add_1_l, inject_Z_plus. reflexivity.
  - apply not_true_is_false in Hf. rewrite Hf. ring.
Qed.

(** The vector [update_belief] rounds up in its second branch. *)
Lemma rounded_belief (n : Z) (state : pos) (b : list Q) :
  in_grid n state → length b = Z.to_nat (n ^ 2) → is_distribution b →
  Py.ceil <$> <[cell_id n state := 0%Q]> b
  = (λ i, if still_possible (cell_id n state) b i then 1 else 0)%Q <$> seq 0 (length b).
Proof.
  intros Hs Hlen [Hnn Hsum]. apply list_eq. intros i.
  rewrite !list_lookup_fmap. destruct (decide (i < length b)%nat) as [Hi|Hi].
  - rewrite lookup_seq_lt by done. simpl. unfold still_possible.
    destruct (decide (i = cell_id n state)) as [->|Hne].
    + rewrite list_lookup_insert_eq by done.
      rewrite bool_decide_eq_false_2 by (by intros ?). done.
    + rewrite list_lookup_insert_ne by done.
      rewrite bool_decide_eq_true_2 by done.
      destruct (lookup_lt_is_Some_2 b i Hi) as [x Hx]. rewrite Hx. simpl.
      rewrite ceil_of_probability.
      * by destruct (Qle_bool x 0).
      * by eapply Forall_lookup_1 in Hnn.
      * rewrite <- Hsum. by eapply sum_ge_entry.
  - rewrite lookup_seq_ge by lia.
    rewrite lookup_ge_None_2; [done|]. rewrite length_insert. lia.
Qed.

(** X7: After a step that leaves the agent off the goal, the belief is uniform
    over the cells that were still possible, the agent's cell excluded: each
    of these [k] cells has probability [1/k], every other cell 0.  The goal's
    cell is always among them. *)
Theorem belief_is_uniform_over_the_candidates (g g' : t) (action : Z) (res : step_result) :
  reachable g → step action g = Ok g' res → g'.(_env_state) ≠ g.(_goal) →
  let here := cell_id g.(num_cells) g'.(_env_state) in
  let k := candidates here g.(_belief_state) in
  length g'.(_belief_state) = length g.(_belief_state) ∧
  still_possible here g.(_belief_state) (cell_id g.(num_cells) g.(_goal)) = true ∧
  (0 < k)%nat ∧
  ∀ (i : nat) y, g'.(_belief_state) !! i = Some y →
    (y == if still_possible here g.(_belief_state) i
          then 1 / inject_Z (Z.of_nat k) else 0)%Q.
Proof.
  intros HI%reachable_Inv Hstep Hoff here k.
  pose proof HI as [Hgrid Hnd Hgoal Hst Hstart Hlen Hdist [x [Hx Hpos]]].
  assert (in_grid g.(num_cells) g.(_goal)) as Hg by (by eapply Forall_forall in Hgrid).
  pose proof (step_valid _ _ _ _ Hstep) as Ha.
  destruct (step_inv action g g' res HI Hstep)
    as (s & chk & Hs & _ & He & _ & _ & _ & _ & _ & _ & _ & _ & _ & _ & _ & _ & _ & _ & Hb).
  destruct (state_transition_eq action g Hst Hgrid) as (s' & Hs' & Hsg).
  rewrite Hs' in Hs. injection Hs as _ ->. subst here k. rewrite He in *.
  assert ((action =? 5) = false) as Ha5.
  { unfold action_space_contains in Ha. apply andb_true_iff in Ha as [_ Ha%Z.ltb_lt]. lia. }
  assert ((s.1 =? (_goal g).1) && (s.2 =? (_goal g).2) = false) as Hon.
  { apply andb_false_iff. destruct s as [a b], (_goal g) as [c d]. simpl.
    destruct (decide (a = c)) as [->|]; [right | left]; apply Z.eqb_neq; congruence. }
  rewrite Ha5, Hon in Hb. simpl in Hb. rewrite Hb. unfold renormalised_belief.
  rewrite rounded_belief by done.
  set (here := cell_id (num_cells g) s).
  assert (still_possible here (_belief_state g) (cell_id (num_cells g) (_goal g)) = true) as Hsp.
  { unfold still_possible. rewrite Hx.
    rewrite bool_decide_eq_true_2 by (intros ?%cell_id_inj; done). simpl.
    apply negb_true_iff. apply not_true_iff_false. intros Hle%Qle_bool_iff.
    by apply Qle_not_lt in Hle. }
  assert (0 < candidates here (_belief_state g))%nat as Hk.
  { unfold candidates. apply Nat.neq_0_lt_0. intros Hz%length_zero_iff_nil.
    assert (cell_id (num_cells g) (_goal g)
            ∈ filter (λ i, still_possible here (_belief_state g) i = true)
                (seq 0 (length (_belief_state g)))) as Hin.
    { apply list_elem_of_filter. split; [done|]. apply elem_of_seq.
      rewrite Hlen. pose proof (cell_id_lt _ _ Hg). lia. }
    rewrite Hz in Hin. by apply elem_of_nil in Hin. }
  split_and!; [by rewrite !length_fmap, length_seq | done | done |].
  intros i y. rewrite !list_lookup_fmap.
  destruct (seq 0 (length (_belief_state g)) !! i) as [j|] eqn:Hj; [|done].
  apply lookup_seq in Hj as [-> _]. simpl. intros [= <-].
  rewrite sum_indicator. fold (candidates here (_belief_state g)).
  destruct (still_possible here (_belief_state g) i); [reflexivity|].
  unfold Qdiv. ring.
Qed.

Lemma belief_is_uniform_over_the_candidates_witness :
  let g := state_of (default_grid (λ i, i)) in
  let r := step 2 g in
  let g' := state_of r in
  let here := cell_id g.(num_cells) g'.(_env_state) in
  reachable g ∧ g'.(_env_state) = (1, 0) ∧
  ∀ (i : nat) y, g'.(_belief_state) !! i = Some y →
    (y == if still_possible here g.(_belief_state) i
          then 1 / inject_Z (Z.of_nat (candidates here g.(_belief_state))) else 0)%Q.
Proof.
  intros g r g' here.
  assert (reachable g) as Hr.
  { eapply (reach_init 5 15 (Some (0, 0)) false None None false false false (λ i, i) 0%nat).
    - vm_compute. reflexivity.
    - intros s [= <-]. vm_compute. repeat split; discriminate. }
  assert (r = Ok g' (default ([], 0%Q, false, ∅) (value_of r))) as Hstep
    by (vm_compute; reflexivity).
  assert (g'.(_env_state) ≠ g.(_goal)) as Hoff by (vm_compute; discriminate).
  split_and!; [exact Hr | vm_compute; reflexivity |].
  exact (proj2 (proj2 (proj2
    (belief_is_uniform_over_the_candidates g g' 2 _ Hr Hstep Hoff)))).
Defined.

(** X8: A reward of 1 identifies the goal: unless the exploration reward
    [new_state_r] is itself 1, a returning step pays exactly 1.0 when it
    leaves the agent on the goal and something else otherwise (the shaped
    distance reward is negative off the goal). *)
Theorem reward_one_marks_the_goal (g g' : t) (action : Z) (res : step_result) :
  reachable g → step action g = Ok g' res →
  (∀ r, g.(new_state_r) = Some r → ¬ (r == 1)%Q) →
  g'.(_goal) = g.(_goal) ∧
  (g'.(_env_state) = g.(_goal) → res.1.1.2 = 1%Q) ∧
  (g'.(_env_state) ≠ g.(_goal) → ¬ (res.1.1.2 == 1)%Q).
Proof.
  intros HI%reachable_Inv Hstep Hr.
  pose proof HI as [Hgrid _ Hgoal _ _ _ _ _].
  assert (in_grid g.(num_cells) g.(_goal)) as [Hgx _] by (by eapply Forall_forall in Hgrid).
  destruct (step_Ok_moved _ _ _ _ Hstep) as (s & k & b & _ & -> & Hrew & _). cbn.
  rewrite Hrew. unfold compute_reward. cbn.
  destruct s as [x y], (_goal g) as [gx gy]. simpl in Hgx. split_and!; [done|..].
  - intros [= -> ->]. by rewrite !Z.eqb_refl.
  - intros Hne.
    assert ((x =? gx) && (y =? gy) = false) as ->.
    { apply andb_false_iff.
      destruct (decide (x = gx)) as [->|]; [right | left]; apply Z.eqb_neq; congruence. }
    assert (¬ (inject_Z (- Z.abs (x - gx) - Z.abs (y - gy)) / inject_Z (num_cells g) == 1)%Q)
      as Hdist.
    { intros Heq.
      assert (inject_Z (- Z.abs (x - gx) - Z.abs (y - gy)) / inject_Z (num_cells g) < 0)%Q
        as Hneg; [|rewrite Heq in Hneg; done].
      assert (0 < inject_Z (num_cells g))%Q as Hn.
      { change 0%Q with (inject_Z 0). rewrite <- Zlt_Qlt. lia. }
      apply Qlt_shift_div_r; [done|]. rewrite Qmult_0_l.
      change 0%Q with (inject_Z 0). rewrite <- Zlt_Qlt.
      assert (x ≠ gx ∨ y ≠ gy) as [?|?] by (destruct (decide (x = gx)); [right | left]; congruence);
        lia. }
    destruct (new_state_r g) as [r|] eqn:Hnr.
    + destruct (checked_potential_goal _ _); [by apply Hr|].
      by destruct (distance_reward g).
    + by destruct (distance_reward g).
Qed.

Lemma reward_one_marks_the_goal_witness :
  let g := state_of (default_grid (λ i, i)) in
  let r := step 2 g in
  let g' := state_of r in
  let res := default ([], 0%Q, false, ∅) (value_of r) in
  reachable g ∧ r = Ok g' res ∧ ¬ (res.1.1.2 == 1)%Q.
Proof.
  intros g r g' res.
  assert (reachable g) as Hr.
  { eapply (reach_init 5 15 (Some (0, 0)) false None None false false false (λ i, i) 0%nat).
    - vm_compute. reflexivity.
    - intros s [= <-]. vm_compute. repeat split; discriminate. }
  assert (r = Ok g' res) as Hstep by (vm_compute; reflexivity).
  assert (∀ q, g.(new_state_r) = Some q → ¬ (q == 1)%Q) as Hnr by (vm_compute; discriminate).
  split_and!; [exact Hr | exact Hstep |].
  apply (proj2 (proj2 (reward_one_marks_the_goal g g' 2 res Hr Hstep Hnr))).
  vm_compute. discriminate.
Defined.

End BeliefFacts.

Module ConstructorFacts.
Import GridNavi GridSpec GridFacts.

Lemma range_length_Z (n : Z) : length (Py.range n) = Z.to_nat n.
Proof.
  unfold Py.range, Py.range3. simpl.
  by rewrite Z.sub_0_r, Z.add_simpl_r, Z.div_1_r, length_fmap, length_seq.
Qed.

Lemma bind_length_const {X Y} (f : X → list Y) (m : nat) (l : list X) :
  (∀ x, length (f x) = m) → length (l ≫= f) = (length l * m)%nat.
Proof.
  intros Hf. induction l as [|x l IH]; [done|].
  rewrite bind_cons, length_app, IH, Hf. simpl. lia.
Qed.

Lemma product2_length {X} (xs : list X) :
  length (Py.product2 xs) = (length xs * length xs)%nat.
Proof.
  unfold Py.product2. apply bind_length_const. intros x.
  rewrite (bind_length_const _ 1%nat); [lia | done].
Qed.

Lemma remove_around_length `{EqDecision X} (around l : list X) :
  (length l ≤ length (foldl (λ goals pos, default goals (list_remove pos goals)) l around)
             + length around)%nat.
Proof.
  revert l. induction around as [|p around IH]; intros l; simpl; [lia|].
  specialize (IH (default l (list_remove p l))).
  destruct (list_remove p l) as [l'|] eqn:Hrm; simpl in *; [|lia].
  apply list_remove_Some in Hrm as (_ & Hlen & _). lia.
Qed.

Lemma open_goals_nonempty (n : Z) (start : option pos) :
  4 ≤ n ∨ (start = None ∧ 1 ≤ n) → open_goals n start ≠ [].
Proof.
  intros Hn Hnil. apply (f_equal length) in Hnil. revert Hnil.
  unfold open_goals. destruct start as [[sx sy]|].
  - destruct Hn as [Hn|[[=] _]].
    set (around := x_offset ← [-1; 0; 1]; y_offset ← [-1; 0; 1];
                   [(sx + x_offset, sy + y_offset)]).
    pose proof (remove_around_length around (Py.product2 (Py.range n))) as Hlen.
    assert (length around = 9%nat) as Ha by reflexivity.
    rewrite product2_length, range_length_Z, Ha in Hlen.
    intros Hz. rewrite Hz in Hlen. change (length []) with 0%nat in Hlen. nia.
  - rewrite product2_length, range_length_Z. change (length []) with 0%nat. nia.
Qed.

(** The tail of the constructor returns once there is a goal to draw. *)
Lemma finish_returns (g0 : t) :
  Forall (in_grid g0.(num_cells)) g0.(possible_goals) → g0.(possible_goals) ≠ [] →
  ∃ g, (match g0.(starting_state) with
        | None => pgs ← gets possible_goals; s ← random_choice pgs; modify (set_env_state s)
        | Some s => modify (set_env_state s)
        end;; reset_task None;; _reset_belief;; mret tt) g0 = Ok g tt.
Proof.
  intros Hgrid Hne.
  assert (∀ g1, g1.(num_cells) = g0.(num_cells) → g1.(possible_goals) = g0.(possible_goals) →
                ∃ g, (reset_task None;; _reset_belief;; mret tt) g1 = Ok g tt) as Hrest.
  { intros g1 Hn Hp. py_simpl.
    destruct (reset_task_spec None g1)
      as (g2 & goal & -> & _ & _ & (Hn2 & _ & _ & _ & _ & _ & _ & _ & Hp2 & _) & _);
      [by rewrite Hn, Hp | by rewrite Hp |].
    cbv beta iota. rewrite reset_belief_eq by (by rewrite Hn2, Hp2, Hn, Hp).
    by eexists. }
  destruct (starting_state g0) as [s|]; py_simpl.
  - by apply Hrest.
  - simpl. destruct (random_choice_Some g0.(possible_goals) g0 Hne) as (x & _ & _ & ->).
    cbv beta iota. by apply Hrest.
Qed.

(** X9: The constructor needs room for a goal.  In the open layout the goals are
    the cells that are neither the start nor next to it: on a grid of 1 or 2
    cells per side with the start inside nothing is left and the constructor
    raises [IndexError] when it draws the first goal; from 4 cells per side on
    (or from 1 with a random start) it returns. *)
Theorem constructor_needs_room_for_a_goal (n steps : Z) (start : option pos)
    (r : option Q) (stk dr sg : bool) (rand : nat → nat) (consumed : nat) :
  (1 ≤ n ≤ 2 → (∃ s, start = Some s ∧ in_grid n s) →
   raised (__init__ n steps start false None r stk dr sg rand consumed) = Some IndexError) ∧
  (4 ≤ n ∨ (start = None ∧ 1 ≤ n) →
   ∃ g, __init__ n steps start false None r stk dr sg rand consumed = Ok g tt ∧
        g.(possible_goals) ≠ []).
Proof.
  split.
  - intros Hn (s & -> & [Hx Hy]).
    assert (open_goals n (Some s) = []) as Hopen.
    { destruct s as [x y]. simpl in Hx, Hy.
      assert (n = 1 ∨ n = 2) as [-> | ->] by lia.
      - assert (x = 0) as -> by lia. assert (y = 0) as -> by lia. by vm_compute.
      - assert (x = 0 ∨ x = 1) as [-> | ->] by lia;
          (assert (y = 0 ∨ y = 1) as [-> | ->] by lia); by vm_compute. }
    unfold __init__. rewrite bool_decide_eq_false_2 by done. cbn [andb].
    rewrite Hopen. unfold reset_task. py_simpl. cbn [possible_goals set_env_state].
    by rewrite random_choice_nil.
  - intros Hn. unfold __init__.
    match goal with
    | |- context [if ?c then Raise _ AssertionError else _] => assert (c = false) as ->
    end.
    { rewrite (bool_decide_eq_false_2 (None ≠ None)) by (by intros ?). apply andb_false_r. }
    cbv iota.
    destruct (finish_returns
                (mk n (n ^ 2) r dr sg steps 0 None stk 2 (n ^ 2) start
                    (open_goals n start) (list_to_set (open_goals n start)) (n ^ 2)
                    (0, 0) (0, 0) [] rand consumed)) as [g Hg].
    { apply open_goals_ok. }
    { by apply open_goals_nonempty. }
    exists g. split; [exact Hg|].
    apply GridLayout.finish_layout in Hg as [(_&_&_&_&_&_&_&_&Hp&_) _].
    rewrite Hp. by apply open_goals_nonempty.
Qed.

Lemma constructor_needs_room_for_a_goal_witness :
  raised (__init__ 2 15 (Some (0, 0)) false None None false false false (λ i, i) 0)
  = Some IndexError ∧
  ∃ g, __init__ 4 15 (Some (0, 0)) false None None false false false (λ i, i) 0 = Ok g tt ∧
       g.(possible_goals) ≠ [].
Proof.
  destruct (constructor_needs_room_for_a_goal 2 15 (Some (0, 0)) None false false false
              (λ i, i) 0) as [Hsmall _].
  destruct (constructor_needs_room_for_a_goal 4 15 (Some (0, 0)) None false false false
              (λ i, i) 0) as [_ Hlarge].
  split.
  - apply Hsmall; [lia|]. exists (0, 0). split; [done|]. vm_compute. repeat split; discriminate.
  - apply Hlarge. left. lia.
Defined.

End ConstructorFacts.

(** ** The grid world: task ids and one-hot codes *)

Module TensorFacts.
Import GridNavi GridSpec GridFacts GridNaviTensor TensorSpec.

Lemma long_inject_Z (z : Z) : long (inject_Z z) = z.
Proof. unfold long. simpl. apply Z.quot_1_r. Qed.

Lemma range_lookup_Z (n : Z) (k : nat) :
  (k < Z.to_nat n)%nat → Py.range n !! k = Some (Z.of_nat k).
Proof.
  intros Hk. unfold Py.range, Py.range3. simpl.
  rewrite Z.sub_0_r, Z.add_simpl_r, Z.div_1_r.
  rewrite list_lookup_fmap, lookup_seq_lt by done. simpl. f_equal. lia.
Qed.

Lemma range_lookup_Some (n : Z) (k : nat) (x : Z) :
  Py.range n !! k = Some x → x = Z.of_nat k ∧ (k < Z.to_nat n)%nat.
Proof.
  intros Hk. assert (k < Z.to_nat n)%nat as Hlt.
  { apply lookup_lt_Some in Hk. unfold Py.range, Py.range3 in Hk. simpl in Hk.
    by rewrite Z.sub_0_r, Z.add_simpl_r, Z.div_1_r, length_fmap, length_seq in Hk. }
  rewrite range_lookup_Z in Hk by done. by injection Hk as <-.
Qed.

Lemma mat_lookup (n : Z) (i j : nat) :
  (i < Z.to_nat n)%nat → (j < Z.to_nat n)%nat →
  mat n !! i ≫= (λ row, row !! j) = Some (Z.of_nat i * n + Z.of_nat j).
Proof.
  intros Hi Hj. unfold mat. rewrite list_lookup_fmap, range_lookup_Z by done. simpl.
  by rewrite list_lookup_fmap, range_lookup_Z.
Qed.

Lemma mat_lookup_Some (n : Z) (i j : nat) (c : Z) :
  mat n !! i ≫= (λ row, row !! j) = Some c →
  c = Z.of_nat i * n + Z.of_nat j ∧ (i < Z.to_nat n)%nat ∧ (j < Z.to_nat n)%nat.
Proof.
  unfold mat. rewrite list_lookup_fmap.
  destruct (Py.range n !! i) as [x|] eqn:Hx; [|done]. simpl.
  apply range_lookup_Some in Hx as [-> Hi]. rewrite list_lookup_fmap.
  destruct (Py.range n !! j) as [y|] eqn:Hy; [|done]. simpl.
  apply range_lookup_Some in Hy as [-> Hj]. by intros [= <-].
Qed.

Lemma elem_of_where_eq (c : Z) (m : list (list Z)) (i j : nat) :
  (i, j) ∈ where_eq c m ↔ m !! i ≫= (λ row, row !! j) = Some c.
Proof.
  unfold where_eq. rewrite list_elem_of_join. split.
  - intros (l & Hin & Hl). apply elem_of_lookup_imap in Hl as (i' & row & -> & Hrow).
    apply list_elem_of_join in Hin as (l' & Hin & Hl').
    apply elem_of_lookup_imap in Hl' as (j' & x & -> & Hx).
    destruct (decide (c = x)) as [->|]; [|by apply elem_of_nil in Hin].
    apply list_elem_of_singleton in Hin as [= -> ->]. by rewrite Hrow.
  - destruct (m !! i) as [row|] eqn:Hrow; [|done]. simpl. intros Hj.
    eexists. split; [|apply elem_of_lookup_imap; by eexists i, row].
    apply list_elem_of_join. eexists. split; [|apply elem_of_lookup_imap; by eexists j, c].
    rewrite decide_True by done. apply list_elem_of_here.
Qed.

(** Where [np.where] finds a class in [mat]: at most at one place. *)
Lemma head_where_eq (n c : Z) :
  0 ≤ n →
  head (where_eq c (mat n))
  = if (0 <=? c) && (c <? n ^ 2) then Some (Z.to_nat (c / n), Z.to_nat (c `mod` n)) else None.
Proof.
  intros Hn. destruct (head (where_eq c (mat n))) as [[i j]|] eqn:Hh.
  - assert ((i, j) ∈ where_eq c (mat n)) as Hin.
    { destruct (where_eq c (mat n)); [done|]. injection Hh as ->. left. }
    apply elem_of_where_eq, mat_lookup_Some in Hin as (-> & Hi & Hj).
    assert (0 < n) as Hpos by lia.
    rewrite (proj2 (andb_true_iff _ _)) by (split; [apply Z.leb_le | apply Z.ltb_lt]; nia).
    rewrite Z.div_add_l, Z.div_small, Z.add_0_r by lia.
    rewrite Z.add_comm, Z.mod_add, Z.mod_small by lia. by rewrite !Nat2Z.id.
  - destruct ((0 <=? c) && (c <? n ^ 2)) eqn:Hc; [|done]. exfalso.
    apply andb_true_iff in Hc as [H0%Z.leb_le H1%Z.ltb_lt].
    assert (0 < n) as Hpos by nia.
    assert ((Z.to_nat (c / n), Z.to_nat (c `mod` n)) ∈ where_eq c (mat n)) as Hin.
    { apply elem_of_where_eq. pose proof (Z.mod_pos_bound c n Hpos).
      assert (0 ≤ c / n < n) by (split; [apply Z.div_pos; lia | apply Z.div_lt_upper_bound; nia]).
      rewrite mat_lookup by lia. f_equal. rewrite !Z2Nat.id by lia.
      rewrite (Z.div_mod c n) at 3 by lia. lia. }
    destruct (where_eq c (mat n)); [by apply elem_of_nil in Hin | done].
Qed.


Lemma side_pos (n c : Z) : 0 ≤ n → 0 ≤ c < n ^ 2 → 0 < n.
Proof. rewrite Z.pow_2_r. nia. Qed.

Lemma task_to_id_batch (g : t) (ps : list pos) :
  0 ≤ g.(num_cells) → Forall (in_grid g.(num_cells)) ps →
  GridNaviTensor.task_to_id (to_float ps) g
  = Ok g ((λ p : pos, p.1 * g.(num_cells) + p.2) <$> ps).
Proof.
  intros Hn Hps. unfold GridNaviTensor.task_to_id. py_simpl.
  destruct (num_cells g <? 0) eqn:Hneg; [lia|].
  rewrite (mapM_Some_2 _ _ ((λ p : pos, p.1 * g.(num_cells) + p.2) <$> ps)); [done|].
  unfold to_float. apply Forall2_fmap, Forall_Forall2_diag.
  eapply Forall_impl; [exact Hps|]. intros [x y] [Hx Hy]. simpl in *.
  rewrite !long_inject_Z, !wrap_index_in_range by done. simpl.
  pose proof (mat_lookup g.(num_cells) (Z.to_nat x) (Z.to_nat y)) as Hm.
  rewrite !Z2Nat.id in Hm by lia. apply Hm; lia.
Qed.

Lemma id_to_task_batch (g : t) (classes : list Z) :
  0 ≤ g.(num_cells) → Forall (λ c, 0 ≤ c < g.(num_cells) ^ 2) classes →
  id_to_task classes g
  = Ok g (to_float ((λ c, (c / g.(num_cells), c `mod` g.(num_cells))) <$> classes)).
Proof.
  intros Hn Hcs. unfold id_to_task. py_simpl.
  destruct (num_cells g <? 0) eqn:Hneg; [lia|].
  rewrite (mapM_Some_2 _ _ ((λ c, (Z.to_nat (c / g.(num_cells)),
                                   Z.to_nat (c `mod` g.(num_cells)))) <$> classes)).
  - f_equal. unfold to_float. rewrite <- !list_fmap_compose.
    apply Forall_fmap_ext_1. eapply Forall_impl; [exact Hcs|]. intros c Hc. cbn.
    assert (0 < num_cells g) as Hpos by (by apply (side_pos _ c)).
    destruct Hc as [Hc0 _].
    pose proof (Z.mod_pos_bound c (num_cells g) Hpos) as [Hm _].
    pose proof (Z.div_pos c (num_cells g) Hc0 Hpos) as Hd.
    by rewrite !Z2Nat.id by done.
  - apply Forall2_fmap_r, Forall_Forall2_diag.
    eapply Forall_impl; [exact Hcs|]. intros c [Hc0 Hc1]. cbn beta.
    rewrite head_where_eq by done.
    by rewrite (proj2 (andb_true_iff _ _)) by (split; [apply Z.leb_le | apply Z.ltb_lt]; done).
Qed.

Lemma id_to_task_of_ids (g : t) (ps : list pos) :
  0 ≤ g.(num_cells) → Forall (in_grid g.(num_cells)) ps →
  id_to_task ((λ p : pos, p.1 * g.(num_cells) + p.2) <$> ps) g = Ok g (to_float ps).
Proof.
  intros Hn Hps. rewrite id_to_task_batch; [f_equal; f_equal|done|].
  - rewrite <- list_fmap_compose. rewrite <- (list_fmap_id ps) at 2.
    apply Forall_fmap_ext_1. eapply Forall_impl; [exact Hps|].
    intros [x y] [Hx Hy]. simpl in *.
    rewrite Z.div_add_l, Z.div_small, Z.add_0_r by lia.
    by rewrite Z.add_comm, Z.mod_add, Z.mod_small by lia.
  - apply Forall_fmap. eapply Forall_impl; [exact Hps|].
    intros [x y] [Hx Hy]. cbn in *. rewrite Z.pow_2_r. nia.
Qed.

(** X10: [task_to_id] and [id_to_task] are inverse to each other: positions inside
    the grid are numbered row by row, every class below [num_cells ** 2] is
    the class of exactly the position [id_to_task] returns for it, and a class
    outside this range is an [IndexError]. *)
Theorem task_ids_round_trip (g : t) :
  0 ≤ g.(num_cells) →
  (∀ ps, Forall (in_grid g.(num_cells)) ps →
     let ids := (λ p : pos, p.1 * g.(num_cells) + p.2) <$> ps in
     GridNaviTensor.task_to_id (to_float ps) g = Ok g ids ∧
     id_to_task ids g = Ok g (to_float ps)) ∧
  (∀ classes, Forall (λ c, 0 ≤ c < g.(num_cells) ^ 2) classes →
     ∃ ps, Forall (in_grid g.(num_cells)) ps ∧
           id_to_task classes g = Ok g (to_float ps) ∧
           GridNaviTensor.task_to_id (to_float ps) g = Ok g classes) ∧
  (∀ classes, ¬ Forall (λ c, 0 ≤ c < g.(num_cells) ^ 2) classes →
     id_to_task classes g = Raise g IndexError).
Proof.
  intros Hn. split_and!.
  - intros ps Hps ids. split; [by apply task_to_id_batch | by apply id_to_task_of_ids].
  - intros classes Hcs.
    exists ((λ c, (c / g.(num_cells), c `mod` g.(num_cells))) <$> classes).
    assert (Forall (in_grid (num_cells g))
              ((λ c, (c / g.(num_cells), c `mod` g.(num_cells))) <$> classes)) as Hps.
    { apply Forall_fmap. eapply Forall_impl; [exact Hcs|]. intros c Hc.
      assert (0 < num_cells g) as Hpos by (by apply (side_pos _ c)).
      destruct Hc as [Hc0 Hc1]. rewrite Z.pow_2_r in Hc1. split; cbn.
      - split; [by apply Z.div_pos | by apply Z.div_lt_upper_bound].
      - by apply Z.mod_pos_bound. }
    split_and!; [done | by apply id_to_task_batch |].
    rewrite task_to_id_batch by done. f_equal.
    rewrite <- list_fmap_compose. rewrite <- (list_fmap_id classes) at 2.
    apply Forall_fmap_ext_1. eapply Forall_impl; [exact Hcs|]. intros c Hc. cbn.
    assert (0 < num_cells g) as Hpos by (by apply (side_pos _ c)).
    rewrite (Z.div_mod c (num_cells g)) at 3 by lia. lia.
  - intros classes Hcs. unfold id_to_task. py_simpl.
    destruct (num_cells g <? 0) eqn:Hneg; [lia|].
    destruct (mapM _ classes) as [goals|] eqn:Hm; [|done]. exfalso. apply Hcs.
    apply mapM_Some_1 in Hm. eapply Forall2_Forall_l; [exact Hm|].
    apply Forall_true. intros p c. cbn beta. rewrite head_where_eq by done.
    destruct ((0 <=? c) && (c <? num_cells g ^ 2)) eqn:Hc; [|done].
    apply andb_true_iff in Hc as [?%Z.leb_le ?%Z.ltb_lt]. by intros _.
Qed.

Lemma task_ids_round_trip_witness :
  let g := state_of (default_grid (λ i, i)) in
  GridNaviTensor.task_to_id (to_float [(3, 3); (0, 4)]) g = Ok g [18; 4] ∧
  id_to_task [18; 4] g = Ok g (to_float [(3, 3); (0, 4)]).
Proof.
  intros g.
  assert (0 ≤ g.(num_cells)) as Hn by (vm_compute; discriminate).
  apply (proj1 (task_ids_round_trip g Hn) [(3, 3); (0, 4)]).
  repeat constructor; vm_compute; discriminate.
Defined.

End TensorFacts.

Module OneHotFacts.
Import GridNavi GridSpec GridFacts GridNaviTensor TensorSpec TensorFacts.

Lemma argmax_from_keeps (best : Q) (best_i i : nat) (row : list Q) :
  Forall (λ x, x <= best)%Q row → argmax_from best best_i i row = best_i.
Proof.
  intros Hrow. revert i. induction Hrow as [|x row Hx _ IH]; intros i; simpl; [done|].
  apply Qle_bool_iff in Hx. by rewrite Hx.
Qed.

Lemma argmax_from_peak (best x : Q) (best_i i : nat) (before after : list Q) :
  Forall (λ y, y <= best)%Q before → (best < x)%Q → Forall (λ y, y <= x)%Q after →
  argmax_from best best_i i (before ++ x :: after) = (i + length before)%nat.
Proof.
  intros Hb Hx Ha. revert i. induction Hb as [|y before Hy _ IH]; intros i; simpl.
  - assert (Qle_bool x best = false) as ->.
    { apply not_true_iff_false. intros Hle%Qle_bool_iff. by apply Qle_not_lt in Hle. }
    rewrite argmax_from_keeps by done. lia.
  - apply Qle_bool_iff in Hy. rewrite Hy, IH. lia.
Qed.

(** The row [scatter_] writes, and its [argmax]. *)
Lemma onehot_row (m k : nat) :
  (k < m)%nat →
  let row := <[k := 1%Q]> (replicate m 0%Q) in
  length row = m ∧ (Py.sum row == 1)%Q ∧ argmax row = Some k ∧
  ∀ i x, row !! i = Some x → x = if decide (i = k) then 1%Q else 0%Q.
Proof.
  intros Hk row. split_and!.
  - unfold row. by rewrite length_insert, length_replicate.
  - unfold row. rewrite (sum_insert _ _ 0%Q) by (by apply lookup_replicate_2).
    rewrite sum_replicate_0. ring.
  - assert (row = replicate k 0%Q ++ 1%Q :: replicate (m - S k) 0%Q) as ->.
    { unfold row. replace m with (k + S (m - S k))%nat at 1 by lia.
      rewrite replicate_add. cbn [replicate].
      rewrite insert_app_r_alt by (rewrite length_replicate; lia).
      by rewrite length_replicate, Nat.sub_diag. }
    destruct k as [|k]; cbn [replicate app argmax].
    + f_equal. apply argmax_from_keeps. by apply Forall_replicate.
    + f_equal. rewrite argmax_from_peak; [by rewrite length_replicate | | done |].
      * apply Forall_replicate. apply Qle_refl.
      * by apply Forall_replicate.
  - intros i x. unfold row. destruct (decide (i = k)) as [->|Hne].
    + rewrite list_lookup_insert_eq by (by rewrite length_replicate). by intros [= <-].
    + rewrite list_lookup_insert_ne by done. by intros [-> _]%lookup_replicate_1.
Qed.

(** X11: [goal_to_onehot_id] writes, for every position inside the grid, a row of
    [num_cells ** 2] entries with a single 1.0 in the column of the position's
    class; [onehot_id_to_goal] reads the positions back from these rows. *)
Theorem onehot_codes_round_trip (g : t) (ps : list pos) :
  0 ≤ g.(num_cells) → Forall (in_grid g.(num_cells)) ps →
  ∃ y_onehot,
    goal_to_onehot_id (to_float ps) g = Ok g y_onehot ∧
    Forall2 (λ (p : pos) row,
               length row = Z.to_nat (g.(num_cells) ^ 2) ∧ (Py.sum row == 1)%Q ∧
               ∀ i x, row !! i = Some x →
                      x = if decide (i = cell_id g.(num_cells) p) then 1%Q else 0%Q)
            ps y_onehot ∧
    onehot_id_to_goal (inr y_onehot) g = Ok g (inr (to_float ps)).
Proof.
  intros Hn Hps.
  set (row_of := λ p : pos, <[cell_id g.(num_cells) p := 1%Q]>
                            (replicate (Z.to_nat (g.(num_cells) ^ 2)) 0%Q)).
  exists (row_of <$> ps).
  pose proof (task_to_id_batch g ps Hn Hps) as Hids.
  pose proof (id_to_task_of_ids g ps Hn Hps) as Hback.
  assert (∀ p, p ∈ ps →
            scatter_one (g.(num_cells) ^ 2) (p.1 * g.(num_cells) + p.2) = Some (row_of p)) as Hsc.
  { intros [x y] Hp. eapply Forall_forall in Hps as [Hx Hy]; [|done]. cbn in Hx, Hy |- *.
    unfold scatter_one.
    rewrite (proj2 (andb_true_iff _ _))
      by (rewrite Z.pow_2_r; split; [apply Z.leb_le | apply Z.ltb_lt]; nia).
    done. }
  split_and!.
  - unfold goal_to_onehot_id. py_simpl. rewrite Hids. cbv beta iota.
    rewrite (mapM_Some_2 _ _ (row_of <$> ps)); [done|].
    apply Forall2_fmap, Forall_Forall2_diag, Forall_forall. intros p Hp. by apply Hsc.
  - apply Forall2_fmap_r, Forall_Forall2_diag, Forall_forall. intros p Hp.
    eapply Forall_forall in Hps; [|done].
    destruct (onehot_row (Z.to_nat (g.(num_cells) ^ 2)) (cell_id g.(num_cells) p))
      as (? & ? & _ & ?); [by apply cell_id_lt | done].
  - unfold onehot_id_to_goal, onehot_to_goal. py_simpl.
    rewrite (mapM_Some_2 _ _ (cell_id g.(num_cells) <$> ps)).
    2:{ apply Forall2_fmap, Forall_Forall2_diag, Forall_forall. intros p Hp.
        eapply Forall_forall in Hps; [|done].
        by destruct (onehot_row (Z.to_nat (g.(num_cells) ^ 2)) (cell_id g.(num_cells) p))
          as (_ & _ & ? & _); [by apply cell_id_lt |]. }
    assert (Z.of_nat <$> (cell_id (num_cells g) <$> ps)
            = (λ p : pos, p.1 * g.(num_cells) + p.2) <$> ps) as ->.
    { rewrite <- list_fmap_compose. apply Forall_fmap_ext_1.
      eapply Forall_impl; [exact Hps|]. intros [x y] [Hx Hy]. unfold cell_id.
      cbn in Hx, Hy |- *. nia. }
    by rewrite Hback.
Qed.

Lemma onehot_codes_round_trip_witness :
  let g := state_of (default_grid (λ i, i)) in
  ∃ y_onehot,
    goal_to_onehot_id (to_float [(3, 3); (0, 4)]) g = Ok g y_onehot ∧
    onehot_id_to_goal (inr y_onehot) g = Ok g (inr (to_float [(3, 3); (0, 4)])).
Proof.
  intros g.
  assert (0 ≤ g.(num_cells)) as Hn by (vm_compute; discriminate).
  destruct (onehot_codes_round_trip g [(3, 3); (0, 4)] Hn) as (y & Hy & _ & Hback).
  { repeat constructor; vm_compute; discriminate. }
  exists y. split; assumption.
Defined.

End OneHotFacts.

(** ** The BAMDP wrapper: observations, limits and whole episodes *)

Module WrapperObsFacts.
Import VariBadWrapper WrapperSpec WrapperFacts.

Section WrapperObsFacts.
Context {E A T : Type} (ops : Env.ops E A T).

Lemma set_last_snoc (x y : Q) (state : observation) :
  set_last x (state ++ [y]) = Some (state ++ [x]).
Proof.
  unfold set_last. destruct state as [|a state]; [done|].
  cbn [app length Nat.pred]. f_equal.
  replace (length (state ++ [y])) with (S (length state + 0))
    by (rewrite length_app; simpl; lia).
  cbn [insert list_insert]. f_equal. apply (insert_app_r state [y] 0 x).
Qed.

(** X13: With more than one episode per task every observation the wrapper hands
    out carries one extra last entry: 0.0 after a reset, and after a step the
    inner done flag of that step, the same flag the info dict records under
    ['done_mdp'] (also when the wrapper has already reset the environment for
    the next episode).  BAMDP-done implies that the flag is set. *)
Theorem done_flag_is_appended_to_the_observation (w : t E) :
  w.(add_done_info) = true →
  (∀ task w' o, reset ops task w = Ok w' o → ∃ state, o = state ++ [0%Q]) ∧
  (∀ w' o, reset_mdp ops w = Ok w' o → ∃ state, o = state ++ [0%Q]) ∧
  (∀ action w' res, step ops action w = Ok w' res →
     ∃ state (d : bool),
       res.1.1.1 = state ++ [float_of_bool d] ∧
       res.2 !! "done_mdp" = Some (VBool d) ∧
       (res.1.2 = true → d = true)).
Proof.
  intros Hadi. split_and!.
  - intros task w' o. unfold reset, Py.try_except, call_env, Py.lift. py_simpl.
    destruct w as [e ty adi sp K c n h dm cs]. simpl in *. subst adi.
    destruct (Env.reset_task ops (Env.Arg task) e) as [e1 []|e1 err]; simpl.
    + destruct (Env.reset ops e1) as [e2 o2|e2 err2]; simpl.
      * intros [= <- <-]. by eexists.
      * case_decide; [|done]. simpl.
        destruct (Env.unwrapped_reset ops e2); simpl; [|done]. intros [= <- <-]. by eexists.
    + case_decide; [|done]. simpl.
      destruct (Env.reset_task ops Env.NoArg e1) as [e1' []|]; simpl; [|done].
      destruct (Env.reset ops e1') as [e2 o2|e2 err2]; simpl.
      * intros [= <- <-]. by eexists.
      * case_decide; [|done]. simpl.
        destruct (Env.unwrapped_reset ops e2); simpl; [|done]. intros [= <- <-]. by eexists.
  - intros w' o. unfold reset_mdp, call_env, Py.lift. py_simpl.
    destruct w as [e ty adi sp K c n h dm cs]. simpl in *. subst adi.
    destruct (Env.reset ops e) as [e2 o2|]; simpl; [|done]. intros [= <- <-]. by eexists.
  - intros action w' res.
    unfold step, reset_mdp, call_env, env_attr, Py.lift, Env.getattr. py_simpl.
    destruct w as [e ty adi sp K c n h dm cs]. simpl in *. subst adi.
    destruct (Env.step ops action e) as [e1 [[[state reward] dn] info]|]; [|done].
    simpl.
    match goal with
    | |- match ?blk ?s0 with _ => _ end = _ → _ =>
        assert (∀ s' a, blk s0 = Ok s' a →
                  ∃ d, s' = mk e1 ty true sp K c n h d (cs ++ [CallStep])) as Hblk
    end.
    { intros s' a. destruct (bool_decide (ty = "metaworld")); [|intros [= <- <-]; by eexists].
      simpl. destruct (Env._max_episode_steps ops e1); [|done]. simpl.
      destruct (Env.curr_path_length ops e1); [|done]. simpl.
      destruct (_ =? _); intros [= <- <-]; by eexists. }
    match goal with
    | |- match ?blk ?s0 with _ => _ end = _ → _ =>
        destruct (blk s0) as [s' a|] eqn:Hb; [|done]
    end.
    destruct (Hblk s' a eq_refl) as [d ->]. clear Hblk Hb. simpl.
    intros Heq. revert Heq. destruct d; simpl.
    + destruct (bool_decide_reflect (c + 1 = K)) as [HK|HK]; simpl.
      * intros [= <- <-]. simpl. exists state, true. by rewrite lookup_insert_eq.
      * destruct (bool_decide (ty = "Maze")); simpl.
        -- destruct (Env.reset ops e1) as [e2 o|] eqn:Hreset; [|done]. simpl.
           unfold concatenate. rewrite set_last_snoc. simpl.
           intros [= <- <-]. simpl. exists o, true.
           by rewrite !lookup_insert_ne, lookup_insert_eq by done.
        -- destruct (Env.reset ops e1) as [e2 o|] eqn:Hreset; [|done]. simpl.
           intros [= <- <-]. simpl. exists state, true.
           by rewrite !lookup_insert_ne, lookup_insert_eq by done.
    + intros [= <- <-]. simpl. exists state, false. by rewrite lookup_insert_eq.
Qed.

(** X14: Once the episode counter has reached [episodes_per_task] (the state the
    BAMDP-done step leaves, or any state when [episodes_per_task <= 0]), no
    later step reports BAMDP-done: without a [reset] the wrapper goes on
    forever. *)
Theorem no_done_after_the_last_episode (w w' : t E) (actions : list A) (evs : list event) :
  w.(episodes_per_task) ≤ w.(episode_count) →
  run ops actions w = Ok w' evs →
  Forall (λ ev, ev.(done_bamdp) = false) evs ∧
  w.(episodes_per_task) ≤ w'.(episode_count).
Proof.
  intros HK Hrun. destruct (run_spec ops actions w w' evs Hrun) as (_ & Hc & Hevs). split.
  - apply Forall_lookup. intros i ev Hi. destruct (Hevs i ev Hi) as (Hd & _).
    rewrite Hd. destruct (inner_done ev) eqn:Hin; [|done]. simpl.
    apply bool_decide_eq_false. intros Heq.
    assert (1 ≤ inner_dones (take (S i) evs))%nat; [|lia].
    rewrite (take_S_r _ _ ev) by done. rewrite inner_dones_app, inner_dones_cons, Hin. lia.
  - lia.
Qed.

End WrapperObsFacts.
End WrapperObsFacts.

Module WrapperObsWitnesses.
Import VariBadWrapper WrapperSpec WrapperObsFacts.

Lemma done_flag_is_appended_to_the_observation_witness :
  let g := state_of (GridNavi.__init__ 5 1 (Some (0, 0)) false None None false false false
                                        (λ i, i) 0) in
  let w0 := state_of (VariBadWrapper.__init__ GridNavi_ops g 2 "gym") in
  let w := state_of (reset GridNavi_ops None w0) in
  let r := step GridNavi_ops 2 w in
  w.(add_done_info) = true ∧
  ∃ state (d : bool),
    (default ([], 0%Q, false, ∅) (value_of r)).1.1.1 = state ++ [float_of_bool d] ∧
    (default ([], 0%Q, false, ∅) (value_of r)).2 !! "done_mdp" = Some (VBool d).
Proof.
  intros g w0 w r.
  assert (w.(add_done_info) = true) as Hadi by (vm_compute; reflexivity).
  assert (r = Ok (state_of r) (default ([], 0%Q, false, ∅) (value_of r))) as Hstep
    by (vm_compute; reflexivity).
  split; [exact Hadi|].
  destruct (proj2 (proj2 (done_flag_is_appended_to_the_observation GridNavi_ops w Hadi))
              2 _ _ Hstep) as (state & d & Hobs & Hinfo & _).
  exists state, d. split; assumption.
Defined.

Lemma no_done_after_the_last_episode_witness :
  let g := state_of (GridNavi.__init__ 5 1 (Some (0, 0)) false None None false false false
                                        (λ i, i) 0) in
  let w0 := state_of (VariBadWrapper.__init__ GridNavi_ops g 1 "gym") in
  let w1 := state_of (step GridNavi_ops 0 (state_of (reset GridNavi_ops None w0))) in
  let rr := run GridNavi_ops [0; 0; 0] w1 in
  w1.(episodes_per_task) ≤ w1.(episode_count) ∧
  length (default [] (value_of rr)) = 3%nat ∧
  Forall (λ ev, ev.(done_bamdp) = false) (default [] (value_of rr)).
Proof.
  intros g w0 w1 rr.
  assert (w1.(episodes_per_task) ≤ w1.(episode_count)) as HK by (vm_compute; discriminate).
  assert (rr = Ok (state_of rr) (default [] (value_of rr))) as Hrun
    by (vm_compute; reflexivity).
  split_and!; [exact HK | vm_compute; reflexivity |].
  exact (proj1 (no_done_after_the_last_episode GridNavi_ops w1 _ [0; 0; 0] _ HK Hrun)).
Defined.

End WrapperObsWitnesses.

Module WrapperStepFacts.
Import VariBadWrapper WrapperSpec WrapperFacts.

Section WrapperStepFacts.
Context {E A T : Type} (ops : Env.ops E A T).

(** A returning [step] of the wrapper in terms of the inner environment's
    step: [dn] is the inner done flag, [d] the flag the wrapper records. *)
Lemma step_inner (action : A) (w w' : t E) (res : step_result) :
  step ops action w = Ok w' res →
  ∃ e1 state reward (dn d : bool) info,
    ops.(Env.step) action w.(env) = Ok e1 (state, reward, dn, info) ∧
    (if bool_decide (w.(env_type) = "metaworld")
     then ∃ m c, ops.(Env._max_episode_steps) e1 = Some m ∧
                 ops.(Env.curr_path_length) e1 = Some c ∧
                 d = dn || (m =? c) ∧
                 res.2 !! "bad_transition"
                 = (if m =? c then Some (VBool true) else info !! "bad_transition")
     else d = dn ∧ res.2 !! "bad_transition" = info !! "bad_transition") ∧
    res.1.1.2 = reward ∧
    res.2 !! "done_mdp" = Some (VBool d) ∧
    (∀ k, k ≠ "done_mdp" → k ≠ "bad_transition" → k ≠ "start_state" → k ≠ "term_state" →
          res.2 !! k = info !! k) ∧
    let final := bool_decide (w.(episode_count) + 1 = w.(episodes_per_task)) in
    res.1.2 = d && final ∧
    if d && negb final
    then ∃ o flag, ops.(Env.reset) e1 = Ok w'.(env) o ∧
                   res.2 !! "start_state"
                   = Some (VVec (if w.(add_done_info) then o ++ [flag] else o))
    else w'.(env) = e1.
Proof.
  unfold step, reset_mdp, call_env, env_attr, Py.lift, Env.getattr. py_simpl.
  destruct w as [e ty adi sp K c n h dm cs]. simpl.
  destruct (Env.step ops action e) as [e1 [[[state reward] dn] info]|]; [|done].
  simpl.
  match goal with
  | |- match ?blk ?s0 with _ => _ end = _ → _ =>
      assert (∀ s' info', blk s0 = Ok s' info' →
                ∃ d, s' = mk e1 ty adi sp K c n h d (cs ++ [CallStep]) ∧
                  (∀ k, k ≠ "bad_transition" → info' !! k = info !! k) ∧
                  if bool_decide (ty = "metaworld")
                  then ∃ m c, Env._max_episode_steps ops e1 = Some m ∧
                              Env.curr_path_length ops e1 = Some c ∧
                              d = dn || (m =? c) ∧
                              info' !! "bad_transition"
                              = (if m =? c then Some (VBool true)
                                 else info !! "bad_transition")
                  else d = dn ∧ info' !! "bad_transition" = info !! "bad_transition") as Hblk
  end.
  { intros s' info'. destruct (bool_decide (ty = "metaworld")); [|intros [= <- <-]; by eexists].
    simpl. destruct (Env._max_episode_steps ops e1) as [m|]; [|done]. simpl.
    destruct (Env.curr_path_length ops e1) as [cp|]; [|done]. simpl.
    destruct (m =? cp) eqn:Hm; intros [= <- <-]; eexists; (split; [done|]); split.
    - intros k Hk. by rewrite lookup_insert_ne.
    - exists m, cp. rewrite Hm, orb_true_r, lookup_insert_eq. done.
    - done.
    - exists m, cp. rewrite Hm, orb_false_r. done. }
  match goal with
  | |- match ?blk ?s0 with _ => _ end = _ → _ =>
      destruct (blk s0) as [s' info'|] eqn:Hb; [|done]
  end.
  destruct (Hblk s' info' eq_refl) as (d & -> & Hinfo & Hmw). clear Hblk Hb. simpl.
  intros Heq. exists e1, state, reward, dn, d, info. split; [done|].
  assert (∀ info'' : info_dict,
            (∀ k, k ≠ "done_mdp" → k ≠ "start_state" → k ≠ "term_state" →
                  info'' !! k = info' !! k) →
            (if bool_decide (ty = "metaworld")
             then ∃ m c, Env._max_episode_steps ops e1 = Some m ∧
                         Env.curr_path_length ops e1 = Some c ∧
                         d = dn || (m =? c) ∧
                         info'' !! "bad_transition"
                         = (if m =? c then Some (VBool true) else info !! "bad_transition")
             else d = dn ∧ info'' !! "bad_transition" = info !! "bad_transition") ∧
            (∀ k, k ≠ "done_mdp" → k ≠ "bad_transition" → k ≠ "start_state" →
                  k ≠ "term_state" → info'' !! k = info !! k)) as Hpass.
  { intros info'' Hsame. split.
    - destruct (bool_decide (ty = "metaworld")).
      + destruct Hmw as (m & cp & ? & ? & ? & ?). exists m, cp. by rewrite Hsame.
      + destruct Hmw. by rewrite Hsame.
    - intros k ? ? ? ?. rewrite Hsame by done. by apply Hinfo. }
  revert Heq. destruct d; simpl.
  - destruct (bool_decide_reflect (c + 1 = K)) as [HK|HK]; simpl.
    + intros [= <- <-]. simpl.
      destruct (Hpass (<["done_mdp" := VBool true]> info')) as [Hp1 Hp2];
        [by intros; rewrite lookup_insert_ne|].
      rewrite lookup_insert_eq. split_and!; done.
    + destruct (bool_decide (ty = "Maze")); simpl.
      * destruct (Env.reset ops e1) as [e2 o|] eqn:Hreset; [|done]. simpl.
        destruct adi; simpl.
        -- unfold concatenate. rewrite WrapperObsFacts.set_last_snoc. simpl.
           intros [= <- <-]. simpl.
           destruct (Hpass (<["start_state" := VVec (o ++ [1%Q])]>
                              (<["term_state" := VVec (state ++ [1%Q])]>
                                 (<["done_mdp" := VBool true]> info')))) as [Hp1 Hp2];
             [by intros; rewrite !lookup_insert_ne|].
           rewrite !lookup_insert_ne, lookup_insert_eq by done. rewrite lookup_insert_eq.
           split_and!; try done. by exists o, 1%Q.
        -- intros [= <- <-]. simpl.
           destruct (Hpass (<["start_state" := VVec o]>
                              (<["term_state" := VVec state]>
                                 (<["done_mdp" := VBool true]> info')))) as [Hp1 Hp2];
             [by intros; rewrite !lookup_insert_ne|].
           rewrite !lookup_insert_ne, lookup_insert_eq by done. rewrite lookup_insert_eq.
           split_and!; try done. by exists o, 0%Q.
      * destruct (Env.reset ops e1) as [e2 o|] eqn:Hreset; [|done]. simpl.
        intros [= <- <-]. simpl.
        destruct (Hpass (<["start_state" := VVec (if adi then concatenate o 0 else o)]>
                           (<["done_mdp" := VBool true]> info'))) as [Hp1 Hp2];
          [by intros; rewrite !lookup_insert_ne|].
        rewrite !lookup_insert_ne, lookup_insert_eq by done. rewrite lookup_insert_eq.
        split_and!; try done. exists o, 0%Q. by destruct adi.
  - intros [= <- <-]. simpl.
    destruct (Hpass (<["done_mdp" := VBool false]> info')) as [Hp1 Hp2];
      [by intros; rewrite lookup_insert_ne|].
    rewrite lookup_insert_eq. split_and!; done.
Qed.

(** X15: For Meta-World the wrapper itself ends the inner episode when the path
    length reaches [_max_episode_steps], whatever the environment reported,
    and marks the step with ['bad_transition'], so that the loop's bad mask is
    0; below the limit it hands the environment's done flag on. *)
Theorem metaworld_path_limit_ends_the_episode (action : A) (w w' : t E) (res : step_result) :
  w.(env_type) = "metaworld" →
  step ops action w = Ok w' res →
  ∃ e1 state reward (dn : bool) info (m c : Z),
    ops.(Env.step) action w.(env) = Ok e1 (state, reward, dn, info) ∧
    ops.(Env._max_episode_steps) e1 = Some m ∧ ops.(Env.curr_path_length) e1 = Some c ∧
    (m = c →
     res.2 !! "done_mdp" = Some (VBool true) ∧
     res.2 !! "bad_transition" = Some (VBool true) ∧
     MetaLearner.bad_masks [res.2] = [0%Q]) ∧
    (m ≠ c →
     res.2 !! "done_mdp" = Some (VBool dn) ∧
     res.2 !! "bad_transition" = info !! "bad_transition").
Proof.
  intros Hty Hstep.
  destruct (step_inner action w w' res Hstep)
    as (e1 & state & reward & dn & d & info & Hinner & Hmw & _ & Hdone & _).
  rewrite bool_decide_eq_true_2 in Hmw by done.
  destruct Hmw as (m & c & Hm & Hc & -> & Hbad).
  exists e1, state, reward, dn, info, m, c. split_and!; try done.
  - intros <-. rewrite Z.eqb_refl, ?orb_true_r in *. split_and!; try done.
    unfold MetaLearner.bad_masks. cbn [fmap list_fmap]. by rewrite Hbad.
  - intros Hne%Z.eqb_neq. rewrite Hne, ?orb_false_r in *. done.
Qed.

End WrapperStepFacts.
End WrapperStepFacts.

Module GridWrapperFacts.
Import VariBadWrapper WrapperSpec WrapperFacts WrapperStepFacts GridSpec GridFacts GridLayout.

(** One step of the wrapper around a grid environment. *)
Lemma grid_wrapper_step (action : Z) (w w' : t GridNavi.t) (res : step_result) :
  Inv w.(env) →
  step GridNavi_ops action w = Ok w' res →
  let g := w.(env) in
  let d := bool_decide (g.(GridNavi._max_episode_steps) ≤ g.(GridNavi.step_count) + 1) in
  let final := bool_decide (w.(episode_count) + 1 = w.(episodes_per_task)) in
  ∃ g1 r1,
    GridNavi.step action g = Ok g1 r1 ∧ Inv g1 ∧
    res.2 !! "done_mdp" = Some (VBool d) ∧ res.1.2 = d && final ∧
    res.2 !! "belief" = Some (VVec g1.(GridNavi._belief_state)) ∧
    w'.(episodes_per_task) = w.(episodes_per_task) ∧
    w'.(episode_count) = (if d then w.(episode_count) + 1 else w.(episode_count)) ∧
    w'.(step_count_bamdp) = w.(step_count_bamdp) + 1 ∧
    g1.(GridNavi.step_count) = g.(GridNavi.step_count) + 1 ∧
    g1.(GridNavi._max_episode_steps) = g.(GridNavi._max_episode_steps) ∧
    g1.(GridNavi._goal) = g.(GridNavi._goal) ∧
    if d && negb final
    then ∃ o flag, GridNavi.reset g1 = Ok w'.(env) o ∧
                   res.2 !! "start_state"
                   = Some (VVec (if w.(add_done_info) then o ++ [flag] else o))
    else w'.(env) = g1.
Proof.
  intros HI Hstep g d final.
  destruct (step_spec GridNavi_ops action w w' res Hstep)
    as (d' & Hd' & _ & HK & Hc & Hn & _).
  destruct (step_inner GridNavi_ops action w w' res Hstep)
    as (g1 & state & reward & dn & d'' & info & Hinner & Hmw & _ & Hdone & Hpass & Hbamdp & Hb).
  change (GridNavi.step action g = Ok g1 (state, reward, dn, info)) in Hinner.
  rewrite Hd' in Hdone. injection Hdone as <-.
  destruct (bool_decide (env_type w = "metaworld")).
  { by destruct Hmw as (m & c & _ & [=] & _). }
  destruct Hmw as [-> _].
  pose proof (step_Inv action g HI) as HI1. rewrite Hinner in HI1. cbn in HI1.
  destruct (step_inv action g g1 _ HI Hinner)
    as (s & chk & _ & _ & _ & _ & _ & Hgl & _ & _ & _ & Hm & Hsc & _ & _ & _ & _ & Hdn & Hbel & _).
  cbn in Hdn, Hbel. subst dn. fold d in Hc, Hbamdp, Hb |- *. fold final in Hbamdp, Hb.
  exists g1, (state, reward, d, info). split_and!; try done.
  rewrite Hpass by done. exact Hbel.
Qed.

(** [reset] of the wrapper around a grid environment, without a task. *)
Lemma grid_wrapper_reset (w0 w : t GridNavi.t) (o : observation) :
  Inv w0.(env) →
  reset GridNavi_ops None w0 = Ok w o →
  Inv w.(env) ∧ same_config w0.(env) w.(env) ∧ w.(env).(GridNavi.step_count) = 0 ∧
  w.(episode_count) = 0 ∧ w.(step_count_bamdp) = 0 ∧
  w.(episodes_per_task) = w0.(episodes_per_task) ∧
  w.(env).(GridNavi._belief_state)
  = fill w0.(env).(GridNavi.num_cells)
         (1 / inject_Z (Z.of_nat (length w0.(env).(GridNavi.possible_goals))))%Q
         (replicate (Z.to_nat (w0.(env).(GridNavi.num_cells) ^ 2)) 0%Q)
         w0.(env).(GridNavi.possible_goals).
Proof.
  intros HI Hreset.
  destruct (wrapper_reset_spec GridNavi_ops None w0 w o Hreset) as (Hc & Hn & _ & HK & _).
  revert Hreset. unfold reset, Py.try_except, call_env, Py.lift. py_simpl.
  destruct w0 as [e ty adi sp K c n h dm cs]. cbn [env] in *.
  change (Env.reset_task GridNavi_ops (Env.Arg None)) with
    (GridNavi.reset_task None;; mret tt : M GridNavi.t unit).
  change (Env.reset GridNavi_ops) with GridNavi.reset.
  pose proof HI as [Hgrid Hnd Hgoal Hst Hstart Hlen Hdist Hmass].
  assert (GridNavi.possible_goals e ≠ []) as Hne.
  { intros Hnil. rewrite Hnil in Hgoal. by apply elem_of_nil in Hgoal. }
  pose proof (reset_task_Inv' None e HI) as HI1.
  pose proof (reset_task_same_layout None e) as [Hcfg1 _].
  assert (∃ g1 goal, GridNavi.reset_task None e = Ok g1 goal ∧
            g1.(GridNavi._belief_state)
            = fill e.(GridNavi.num_cells)
                (1 / inject_Z (Z.of_nat (length e.(GridNavi.possible_goals))))%Q
                (replicate (Z.to_nat (e.(GridNavi.num_cells) ^ 2)) 0%Q)
                e.(GridNavi.possible_goals)) as (g1 & goal & Hrt & Hb1).
  { unfold GridNavi.reset_task. py_simpl. cbn.
    destruct (random_choice_Some e.(GridNavi.possible_goals) e Hne) as (x & _ & _ & ->).
    cbv beta iota. rewrite reset_belief_eq by done. cbv beta iota. by eexists _, _. }
  py_simpl. cbn [env log_call]. rewrite Hrt in HI1, Hcfg1 |- *. cbn in HI1, Hcfg1.
  cbv beta iota. cbn [env set_env log_call].
  destruct (grid_reset_spec g1) as (g2 & o2 & Hr2 & Hsc2 & Hcfg2 & _ & HI2); [by apply HI1|].
  pose proof (reset_same_config g1) as (_ & _ & Hb2 & _). rewrite Hr2 in Hb2. cbn in Hb2.
  rewrite Hr2. cbv beta iota. intros [= <- <-]. cbn.
  split_and!; try done.
  - destruct Hcfg1 as (?&?&?&?&?&?&?&?&?&?), Hcfg2 as (?&?&?&?&?&?&?&?&?&?).
    repeat split; congruence.
  - congruence.
Qed.

End GridWrapperFacts.

Module GridEpisodeFacts.
Import VariBadWrapper WrapperSpec WrapperFacts WrapperStepFacts GridSpec GridFacts GridLayout.
Import GridWrapperFacts.

Lemma run_step_count {E A T} (ops : Env.ops E A T) (actions : list A) (w w' : t E)
    (evs : list event) :
  WrapperSpec.run ops actions w = Ok w' evs →
  length evs = length actions ∧
  w'.(step_count_bamdp) = w.(step_count_bamdp) + Z.of_nat (length evs).
Proof.
  revert w evs. induction actions as [|a actions IH]; intros w evs; cbn [WrapperSpec.run].
  - intros [= <- <-]. cbn. split; [done | lia].
  - destruct (step ops a w) as [w1 res|] eqn:Hstep; [|done].
    destruct (WrapperSpec.run ops actions w1) as [w2 evs'|] eqn:Hrun; [|done]. intros [= <- <-].
    destruct (step_spec ops a w w1 res Hstep) as (_ & _ & _ & _ & _ & Hn & _).
    destruct (IH w1 evs' Hrun) as [Hlen Hn2]. cbn [length]. split; [by rewrite Hlen | lia].
Qed.

(** The events of a run of the wrapper around a grid, started [sc] steps into
    inner episode number [ec]. *)
Lemma grid_run_events (actions : list Z) (w w' : t GridNavi.t) (evs : list event) :
  Inv w.(env) →
  let T := w.(env).(GridNavi._max_episode_steps) in
  let K := w.(episodes_per_task) in
  let sc := w.(env).(GridNavi.step_count) in
  let ec := w.(episode_count) in
  0 ≤ sc < T → 0 ≤ ec < K →
  WrapperSpec.run GridNavi_ops actions w = Ok w' evs →
  ∀ (i : nat) ev, evs !! i = Some ev →
    let j := ec * T + sc + Z.of_nat i + 1 in
    j ≤ K * T →
    ev.(inner_done) = bool_decide (j `mod` T = 0) ∧
    ev.(done_bamdp) = bool_decide (j = K * T).
Proof.
  revert w evs. induction actions as [|a actions IH]; intros w evs HI T K sc ec Hsc Hec;
    cbn [WrapperSpec.run].
  - intros [= <- <-] i ev Hi. by rewrite lookup_nil in Hi.
  - destruct (step GridNavi_ops a w) as [w1 res|] eqn:Hstep; [|done].
    destruct (WrapperSpec.run GridNavi_ops actions w1) as [w2 evs'|] eqn:Hrun; [|done]. intros [= <- <-].
    destruct (grid_wrapper_step a w w1 res HI Hstep)
      as (g1 & r1 & Hinner & HI1 & Hdone & Hbamdp & _ & HK1 & Hc1 & _ & Hsc1 & HT1 & _ & Hb).
    fold T sc in Hdone, Hbamdp, Hc1, Hsc1, HT1, Hb.
    fold K ec in Hbamdp, HK1, Hc1, Hb.
    set (d := bool_decide (T ≤ sc + 1)) in *.
    set (final := bool_decide (ec + 1 = K)) in *.
    assert (d = bool_decide ((ec * T + sc + 1) `mod` T = 0)) as Hd.
    { unfold d. apply bool_decide_ext.
      replace (ec * T + sc + 1) with ((sc + 1) + ec * T) by lia.
      rewrite Z.mod_add by lia. split.
      - intros Hle. replace (sc + 1) with T by lia. apply Z.mod_same. lia.
      - intros Hmod. destruct (decide (sc + 1 = T)) as [|Hne]; [lia|].
        rewrite Z.mod_small in Hmod by lia. lia. }
    assert (d && final = bool_decide (ec * T + sc + 1 = K * T)) as Hdf.
    { unfold d, final. destruct (bool_decide_reflect (T ≤ sc + 1)) as [Hle|Hlt];
        destruct (bool_decide_reflect (ec + 1 = K)) as [HeK|HeK]; cbn; symmetry.
      - apply bool_decide_eq_true. nia.
      - apply bool_decide_eq_false. nia.
      - apply bool_decide_eq_false. nia.
      - apply bool_decide_eq_false. nia. }
    intros [|i] ev Hi Hj.
    + cbn in Hi. injection Hi as <-. unfold observe. cbn [inner_done done_bamdp].
      rewrite Hdone, Hbamdp. cbn [Z.of_nat] in *. rewrite Z.add_0_r. by rewrite <- Hd, <- Hdf.
    + change (evs' !! i = Some ev) in Hi.
      assert (d && final = false) as Hnf.
      { rewrite Hdf. apply bool_decide_eq_false. lia. }
      specialize (IH w1 evs'). cbv zeta in IH.
      destruct d eqn:Hdv.
      * (* an inner episode ended, not the last one *)
        cbn in Hnf. rewrite Hnf in Hb. cbn in Hb. destruct Hb as (o & flag & Hreset & _).
        destruct (grid_reset_spec g1 HI1)
          as (g2 & o2 & Hr2 & Hsc2 & (_ & _ & _ & _ & HT2 & _) & _ & HI2).
        rewrite Hr2 in Hreset. injection Hreset as Henv _.
        unfold d in Hdv. apply bool_decide_eq_true in Hdv.
        unfold final in Hnf. apply bool_decide_eq_false in Hnf.
        rewrite <- Henv, Hsc2, HT2, HT1, HK1, Hc1 in IH. fold T K ec in IH.
        destruct (IH HI2 ltac:(lia) ltac:(lia) Hrun i ev Hi ltac:(nia)) as [Hin Hdn].
        rewrite Hin, Hdn. split; apply bool_decide_ext.
        -- replace ((ec + 1) * T + 0 + Z.of_nat i + 1)
             with (ec * T + sc + Z.of_nat (S i) + 1) by nia. done.
        -- nia.
      * cbn in Hb. unfold d in Hdv. apply bool_decide_eq_false in Hdv.
        rewrite Hb, Hsc1, HT1, HK1, Hc1 in IH. fold T K ec sc in IH.
        destruct (IH HI1 ltac:(lia) ltac:(lia) Hrun i ev Hi ltac:(lia)) as [Hin Hdn].
        rewrite Hin, Hdn. split; apply bool_decide_ext.
        -- replace (ec * T + (sc + 1) + Z.of_nat i + 1)
             with (ec * T + sc + Z.of_nat (S i) + 1) by lia. done.
        -- lia.
Qed.

(** X16: Around a grid with [T]-step episodes, a BAMDP episode of the wrapper has
    exactly [K * T] steps: counting from the [reset], step [j] reports an inner
    done exactly when [T] divides [j], and BAMDP-done exactly when
    [j = K * T]; [step_count_bamdp] counts these steps, the inner resets take
    none. *)
Theorem grid_bamdp_episode_has_K_times_T_steps (w0 w w' : t GridNavi.t) (o : observation)
    (actions : list Z) (evs : list event) :
  reachable w0.(env) →
  reset GridNavi_ops None w0 = Ok w o →
  let K := w0.(episodes_per_task) in
  let T := w0.(env).(GridNavi._max_episode_steps) in
  1 ≤ K → 1 ≤ T →
  WrapperSpec.run GridNavi_ops actions w = Ok w' evs →
  (∀ (i : nat) ev, evs !! i = Some ev →
     let j := Z.of_nat i + 1 in
     j ≤ K * T →
     ev.(inner_done) = bool_decide (j `mod` T = 0) ∧
     ev.(done_bamdp) = bool_decide (j = K * T)) ∧
  w'.(step_count_bamdp) = Z.of_nat (length evs) ∧
  length evs = length actions.
Proof.
  intros HI%reachable_Inv Hreset K T HK HT Hrun.
  destruct (grid_wrapper_reset w0 w o HI Hreset)
    as (HIw & (_ & _ & _ & _ & HTw & _) & Hsc & Hec & Hn & HKw & _).
  destruct (run_step_count GridNavi_ops actions w w' evs Hrun) as [Hlen Hcount].
  split_and!; [|lia|done].
  intros i ev Hi j Hj.
  pose proof (grid_run_events actions w w' evs HIw) as Hev. cbv zeta in Hev.
  rewrite Hsc, Hec, HTw, HKw in Hev. fold T K in Hev.
  destruct (Hev ltac:(lia) ltac:(lia) Hrun i ev Hi) as [Hin Hdn]; [lia|].
  rewrite Hin, Hdn. split; apply bool_decide_ext; subst j.
  - by replace (0 * T + 0 + Z.of_nat i + 1) with (Z.of_nat i + 1) by lia.
  - lia.
Qed.

Lemma grid_bamdp_episode_has_K_times_T_steps_witness :
  let g := state_of (GridNavi.__init__ 5 2 (Some (0, 0)) false None None false false false
                                        (λ i, i) 0) in
  let w0 := state_of (VariBadWrapper.__init__ GridNavi_ops g 2 "gym") in
  let r := reset GridNavi_ops None w0 in
  let rr := WrapperSpec.run GridNavi_ops [2; 2; 1; 1] (state_of r) in
  let evs := default [] (value_of rr) in
  reachable w0.(env) ∧ length evs = 4%nat ∧
  ∀ (i : nat) ev, evs !! i = Some ev →
    Z.of_nat i + 1 ≤ 2 * 2 →
    ev.(inner_done) = bool_decide ((Z.of_nat i + 1) `mod` 2 = 0) ∧
    ev.(done_bamdp) = bool_decide (Z.of_nat i + 1 = 2 * 2).
Proof.
  intros g w0 r rr evs.
  assert (reachable w0.(env)) as Hr.
  { eapply (reach_init 5 2 (Some (0, 0)) false None None false false false (λ i, i) 0%nat).
    - vm_compute. reflexivity.
    - intros s [= <-]. vm_compute. repeat split; discriminate. }
  assert (r = Ok (state_of r) (default [] (value_of r))) as Hreset
    by (vm_compute; reflexivity).
  assert (rr = Ok (state_of rr) evs) as Hrun by (vm_compute; reflexivity).
  split_and!; [exact Hr | vm_compute; reflexivity |].
  refine (proj1 (grid_bamdp_episode_has_K_times_T_steps w0 _ _ _ [2; 2; 1; 1] evs
                   Hr Hreset _ _ Hrun)); vm_compute; discriminate.
Defined.

(** X17: The wrapper's reset between two episodes of a task leaves the task and
    the belief alone: after the step that ends a non-final inner episode of a
    grid, the environment is back at step 0 with the same goal, and its belief
    is the one that step reported.  Only the wrapper's [reset] draws a new
    task and starts from the uniform belief over the possible goals again. *)
Theorem belief_survives_the_inner_reset (w w' : t GridNavi.t) (action : Z)
    (res : step_result) :
  reachable w.(env) →
  step GridNavi_ops action w = Ok w' res →
  res.2 !! "done_mdp" = Some (VBool true) → res.1.2 = false →
  (w'.(env).(GridNavi._goal) = w.(env).(GridNavi._goal) ∧
   res.2 !! "belief" = Some (VVec w'.(env).(GridNavi._belief_state)) ∧
   w'.(env).(GridNavi.step_count) = 0 ∧
   is_Some (res.2 !! "start_state")) ∧
  (∀ w'' o, reset GridNavi_ops None w' = Ok w'' o →
     w''.(env).(GridNavi._belief_state)
     = fill w.(env).(GridNavi.num_cells)
            (1 / inject_Z (Z.of_nat (length w.(env).(GridNavi.possible_goals))))%Q
            (replicate (Z.to_nat (w.(env).(GridNavi.num_cells) ^ 2)) 0%Q)
            w.(env).(GridNavi.possible_goals)).
Proof.
  intros HI%reachable_Inv Hstep Hdone Hbamdp.
  destruct (grid_wrapper_step action w w' res HI Hstep)
    as (g1 & r1 & Hinner & HI1 & Hd & Hb & Hbel & _ & _ & _ & _ & _ & Hgoal & Hcase).
  rewrite Hd in Hdone. injection Hdone as Hdv. rewrite Hdv, Hbamdp in Hb.
  cbn in Hb. rewrite Hdv, <- Hb in Hcase. cbn in Hcase.
  destruct Hcase as (o & flag & Hreset & Hstart).
  destruct (grid_reset_spec g1 HI1) as (g2 & o2 & Hr2 & Hsc2 & Hcfg2 & Hg2 & HI2).
  pose proof (reset_same_config g1) as (_ & _ & Hb2 & _).
  rewrite Hr2 in Hreset, Hb2. injection Hreset as Henv _. cbn in Hb2. rewrite <- Henv.
  pose proof (GridFrame.step_same_task action w.(env)) as [Hcfg1 _ _].
  rewrite Hinner in Hcfg1. cbn in Hcfg1.
  split.
  - split_and!; [congruence | by rewrite Hbel, Hb2 | done | by rewrite Hstart].
  - intros w'' o'' Hreset.
    destruct (grid_wrapper_reset w' w'' o'') as (_ & _ & _ & _ & _ & _ & ->);
      [by rewrite <- Henv | done |].
    rewrite <- Henv.
    destruct Hcfg1 as (Hn1 & _ & _ & _ & _ & _ & _ & _ & Hp1 & _).
    destruct Hcfg2 as (Hn2 & _ & _ & _ & _ & _ & _ & _ & Hp2 & _).
    by rewrite Hn2, Hp2, Hn1, Hp1.
Qed.

Lemma belief_survives_the_inner_reset_witness :
  let g := state_of (GridNavi.__init__ 5 1 (Some (0, 0)) false None None false false false
                                        (λ i, i) 0) in
  let w0 := state_of (VariBadWrapper.__init__ GridNavi_ops g 2 "gym") in
  let w := state_of (reset GridNavi_ops None w0) in
  let r := step GridNavi_ops 2 w in
  let w' := state_of r in
  let res := default ([], 0%Q, false, ∅) (value_of r) in
  reachable w.(env) ∧ r = Ok w' res ∧
  res.2 !! "belief" = Some (VVec w'.(env).(GridNavi._belief_state)) ∧
  w'.(env).(GridNavi.step_count) = 0.
Proof.
  intros g w0 w r w' res.
  assert (reachable w.(env)) as Hr.
  { assert (w.(env) = state_of (GridNavi.reset (state_of (GridNavi.reset_task None g)))) as ->
      by (vm_compute; reflexivity).
    apply reach_reset, reach_reset_task; [|done].
    eapply (reach_init 5 1 (Some (0, 0)) false None None false false false (λ i, i) 0%nat).
    - vm_compute. reflexivity.
    - intros s [= <-]. vm_compute. repeat split; discriminate. }
  assert (r = Ok w' res) as Hstep by (vm_compute; reflexivity).
  assert (res.2 !! "done_mdp" = Some (VBool true)) as Hdone by (vm_compute; reflexivity).
  assert (res.1.2 = false) as Hbamdp by (vm_compute; reflexivity).
  destruct (belief_survives_the_inner_reset w w' 2 res Hr Hstep Hdone Hbamdp)
    as [(_ & Hbel & Hsc & _) _].
  split_and!; assumption.
Defined.

End GridEpisodeFacts.

Module WrapperSpaceFacts.
Import VariBadWrapper WrapperSpec WrapperFacts WrapperObsFacts.

Section WrapperSpaceFacts.
Context {E A T : Type} (ops : Env.ops E A T).

(** The observation a returning [step] hands out: the inner step's
    observation, or for a Maze the first observation of the next episode,
    with the done flag appended when [add_done_info] is set. *)
Lemma step_observation (action : A) (w w' : t E) (res : step_result) :
  step ops action w = Ok w' res →
  ∃ e1 inner core (d : bool),
    ops.(Env.step) action w.(env) = Ok e1 inner ∧
    w'.(observation_space) = w.(observation_space) ∧
    w'.(add_done_info) = w.(add_done_info) ∧
    res.1.1.1 = (if w.(add_done_info) then core ++ [float_of_bool d] else core) ∧
    ((core = inner.1.1.1 ∧ (w'.(env) = e1 ∨ ∃ o, ops.(Env.reset) e1 = Ok w'.(env) o)) ∨
     ops.(Env.reset) e1 = Ok w'.(env) core).
Proof.
  unfold step, reset_mdp, call_env, env_attr, Py.lift, Env.getattr. py_simpl.
  destruct w as [e ty adi sp K c n h dm cs]. simpl.
  destruct (Env.step ops action e) as [e1 [[[state reward] dn] info]|]; [|done].
  simpl.
  match goal with
  | |- match ?blk ?s0 with _ => _ end = _ → _ =>
      assert (∀ s' a, blk s0 = Ok s' a →
                ∃ d, s' = mk e1 ty adi sp K c n h d (cs ++ [CallStep])) as Hblk
  end.
  { intros s' a. destruct (bool_decide (ty = "metaworld")); [|intros [= <- <-]; by eexists].
    simpl. destruct (Env._max_episode_steps ops e1); [|done]. simpl.
    destruct (Env.curr_path_length ops e1); [|done]. simpl.
    destruct (_ =? _); intros [= <- <-]; by eexists. }
  match goal with
  | |- match ?blk ?s0 with _ => _ end = _ → _ =>
      destruct (blk s0) as [s' a|] eqn:Hb; [|done]
  end.
  destruct (Hblk s' a eq_refl) as [d ->]. clear Hblk Hb. simpl.
  intros Heq. exists e1, (state, reward, dn, info). revert Heq. destruct d; simpl.
  - destruct (bool_decide_reflect (c + 1 = K)) as [HK|HK]; simpl.
    + intros [= <- <-]. simpl. exists state, true. split_and!; try done. left. by split; [|left].
    + destruct (bool_decide (ty = "Maze")); simpl.
      * destruct (Env.reset ops e1) as [e2 o|] eqn:Hreset; [|done]. simpl.
        destruct adi; simpl.
        -- unfold concatenate. rewrite set_last_snoc. simpl.
           intros [= <- <-]. simpl. exists o, true. split_and!; try done. by right.
        -- intros [= <- <-]. simpl. exists o, true. split_and!; try done. by right.
      * destruct (Env.reset ops e1) as [e2 o|] eqn:Hreset; [|done]. simpl.
        intros [= <- <-]. simpl. exists state, true. split_and!; try done.
        left. split; [done|]. right. by exists o.
  - intros [= <- <-]. simpl. exists state, false. split_and!; try done. left. by split; [|left].
Qed.

Lemma reset_mdp_observation (w w' : t E) (o : observation) :
  reset_mdp ops w = Ok w' o →
  ∃ core, ops.(Env.reset) w.(env) = Ok w'.(env) core ∧
          w'.(observation_space) = w.(observation_space) ∧
          w'.(add_done_info) = w.(add_done_info) ∧
          o = (if w.(add_done_info) then core ++ [0%Q] else core).
Proof.
  unfold reset_mdp, call_env, Py.lift. py_simpl.
  destruct w as [e ty adi sp K c n h dm cs]. simpl.
  destruct (Env.reset ops e) as [e2 o2|]; simpl; [|done]. intros [= <- <-]. by exists o2.
Qed.

(** [reset], when neither the task reset raises [TypeError] nor the reset
    [AttributeError]. *)
Lemma reset_observation (task : option T) (w w' : t E) (o : observation) :
  reset ops task w = Ok w' o →
  raised (ops.(Env.reset_task) (Env.Arg task) w.(env)) ≠ Some TypeError →
  (∀ e, raised (ops.(Env.reset) e) ≠ Some AttributeError) →
  ∃ e1 core, ops.(Env.reset_task) (Env.Arg task) w.(env) = Ok e1 tt ∧
             ops.(Env.reset) e1 = Ok w'.(env) core ∧
             w'.(observation_space) = w.(observation_space) ∧
             w'.(add_done_info) = w.(add_done_info) ∧
             o = (if w.(add_done_info) then core ++ [0%Q] else core).
Proof.
  unfold reset, Py.try_except, call_env, Py.lift. py_simpl.
  destruct w as [e ty adi sp K c n h dm cs]. simpl. intros Hreset Hty Hattr. revert Hreset.
  destruct (Env.reset_task ops (Env.Arg task) e) as [e1 []|e1 err] eqn:Htask; simpl.
  - specialize (Hattr e1).
    destruct (Env.reset ops e1) as [e2 o2|e2 err2] eqn:Hres; simpl.
    + intros [= <- <-]. by exists e1, o2.
    + simpl in Hattr. case_decide as Herr; [|done]. subst. by destruct Hattr.
  - simpl in Hty. case_decide as Herr; [|done]. subst. by destruct Hty.
Qed.

End WrapperSpaceFacts.
End WrapperSpaceFacts.

Module GridSpaceFacts.
Import VariBadWrapper SpaceSpec WrapperSpaceFacts.
Import GridSpec GridFacts GridFrame GridLayout HallwayInvariant GridStepSpec GridStepFacts.

Lemma contains_grid_pos (g : GridNavi.t) (p : GridNavi.pos) :
  in_grid g.(GridNavi.num_cells) p →
  (g.(GridNavi.hall_with_door_every) ≠ None → p.2 ≤ 1) →
  contains (GridNavi_ops.(Env.observation_space) g) (GridNavi.pos_to_obs p).
Proof.
  intros [[Hx0 Hx1] [Hy0 Hy1]] Hhall. unfold GridNavi.pos_to_obs.
  assert (∀ a b : Z, a ≤ b → (inject_Z a <= inject_Z b)%Q) as Hle
    by (intros a b; by rewrite <- Zle_Qle).
  cbn. destruct (GridNavi.hall_with_door_every g) as [h|]; cbn.
  - specialize (Hhall ltac:(done)). split; [done|]. split.
    + constructor; [by apply (Hle 0)|].
      constructor; [by apply (Hle 0) | constructor].
    + constructor; [apply Hle; lia|].
      constructor; [by apply (Hle _ 1) | constructor].
  - split; [done|]. split.
    + constructor; [by apply (Hle 0)|].
      constructor; [by apply (Hle 0) | constructor].
    + constructor; [apply Hle; lia|].
      constructor; [apply Hle; lia | constructor].
Qed.

Lemma same_config_space (g g' : GridNavi.t) :
  same_config g g' →
  GridNavi_ops.(Env.observation_space) g' = GridNavi_ops.(Env.observation_space) g.
Proof. intros (Hn & _ & _ & _ & _ & Hh & _). cbn. by rewrite Hn, Hh. Qed.

(** What a reachable grid environment shows lies in its observation space. *)
Lemma reachable_contains (g : GridNavi.t) :
  reachable g →
  contains (GridNavi_ops.(Env.observation_space) g) (GridNavi.pos_to_obs g.(GridNavi._env_state)) ∧
  contains (GridNavi_ops.(Env.observation_space) g) (GridNavi.pos_to_obs g.(GridNavi._goal)).
Proof.
  intros Hr. pose proof (reachable_Inv g Hr) as [Hgrid _ Hgoal Hst _ _ _ _].
  split; apply contains_grid_pos; try done.
  - intros Hh. destruct (reachable_hall_inv g Hr Hh) as (Hd & _ & [->|Hin]); [lia|].
    rewrite (Hd _ Hin). lia.
  - by eapply Forall_forall in Hgrid.
  - intros Hh. destruct (reachable_hall_inv g Hr Hh) as (Hd & _ & _).
    rewrite (Hd _ Hgoal). lia.
Qed.

Lemma step_obs_form (action : Z) (g g1 : GridNavi.t) (r : step_result) :
  Inv g → GridNavi.step action g = Ok g1 r →
  r.1.1.1 = GridNavi.pos_to_obs g1.(GridNavi._env_state) ∨
  r.1.1.1 = GridNavi.pos_to_obs g1.(GridNavi._goal).
Proof.
  intros HI Hs. destruct (step_inv action g g1 r HI Hs) as (s & chk & Hst & Ha & _).
  rewrite (step_unfold action g s Ha Hst) in Hs. cbv zeta in Hs.
  destruct (GridNavi.update_belief s action (moved s g)) as [g4 b|]; [|done].
  destruct (GridNavi.task_to_id (GridNavi._goal g4) g4) as [g5 id|]; [|done].
  destruct (GridNavi.show_goal_at_start g4).
  - destruct (GridNavi.starting_state g4) as [st|]; [|done].
    injection Hs as <- <-. cbn. destruct (_ && _); auto.
  - injection Hs as <- <-. by left.
Qed.

Lemma reset_obs_form (g g1 : GridNavi.t) (o : observation) :
  GridNavi.reset g = Ok g1 o → o = GridNavi.pos_to_obs g1.(GridNavi._env_state).
Proof.
  unfold GridNavi.reset. py_simpl. cbn.
  destruct (GridNavi.starting_state g); py_simpl; cbn.
  - by intros [= <- <-].
  - destruct (GridNavi.random_choice _ _) as [g2 s|]; [|done]. cbn. by intros [= <- <-].
Qed.

Lemma contains_flag (shape : list Z) (low high : list Q) (core : observation) (d : bool) :
  contains (Env.Box shape low high) core →
  contains (Env.Box [Z.of_nat (length low) + 1] (low ++ [0%Q]) (high ++ [1%Q]))
           (core ++ [float_of_bool d]).
Proof.
  intros (_ & Hlo & Hhi). split.
  - rewrite length_app, (Forall2_length _ _ _ Hlo). simpl. f_equal. lia.
  - split; (apply Forall2_app; [done|]); repeat constructor; by destruct d.
Qed.

Lemma same_config_trans (g1 g2 g3 : GridNavi.t) :
  same_config g1 g2 → same_config g2 g3 → same_config g1 g3.
Proof.
  intros (?&?&?&?&?&?&?&?&?&?) (?&?&?&?&?&?&?&?&?&?). repeat split; congruence.
Qed.

Lemma same_config_refl (g : GridNavi.t) : same_config g g.
Proof. by repeat split. Qed.

(** The wrapper the constructor builds around a grid environment. *)
Lemma init_grid_wrapper (g : GridNavi.t) (K : Z) (ty : string) :
  ∃ w0, __init__ GridNavi_ops g K ty = Ok w0 tt ∧ w0.(env) = g ∧
        w0.(add_done_info) = bool_decide (1 < K) ∧
        ∀ core (d : bool),
          contains (GridNavi_ops.(Env.observation_space) g) core →
          contains w0.(observation_space)
                   (if w0.(add_done_info) then core ++ [float_of_bool d] else core).
Proof.
  unfold __init__. cbn.
  destruct (GridNavi.hall_with_door_every g) as [h|]; cbn;
    destruct (bool_decide (1 < K)); cbn;
    (eexists; split; [reflexivity|]; cbn; split; [done|]; split; [done|]);
    intros core d Hc; try done;
    exact (contains_flag [2] [0%Q; 0%Q] [_; _] core d Hc).
Qed.

(** X12: Every observation the wrapper around a grid environment returns, from
    [reset], [reset_mdp] and [step], lies in the observation space the
    wrapper declares: two grid coordinates within the bounds of the layout
    and, with more than one episode per task, the done flag between 0 and 1. *)
Theorem grid_observations_lie_in_the_declared_space (g : GridNavi.t) (K : Z) (ty : string) :
  reachable g →
  ∃ w0, __init__ GridNavi_ops g K ty = Ok w0 tt ∧ built_like w0 w0 ∧
    ∀ w, built_like w0 w →
      (∀ task w' o,
         (∀ p, task = Some p → p ∈ w.(env).(GridNavi.possible_goals)) →
         reset GridNavi_ops task w = Ok w' o →
         contains w0.(observation_space) o ∧ built_like w0 w') ∧
      (∀ w' o, reset_mdp GridNavi_ops w = Ok w' o →
               contains w0.(observation_space) o ∧ built_like w0 w') ∧
      (∀ action w' res,
         step GridNavi_ops action w = Ok w' res →
         contains w0.(observation_space) res.1.1.1 ∧ built_like w0 w').
Proof.
  intros Hg. destruct (init_grid_wrapper g K ty) as (w0 & Hinit & Henv & Hadi0 & Hcont).
  exists w0. split; [exact Hinit|].
  assert (built_like w0 w0) as Hb0.
  { split_and!; [done | done | apply same_config_refl | by rewrite Henv]. }
  split; [exact Hb0|].
  intros w (Hsp & Hadi & Hcfg & Hr). rewrite Henv in Hcfg.
  assert (∀ e (d : bool), reachable e → same_config w.(env) e →
            contains w0.(observation_space)
              (if w.(add_done_info) then GridNavi.pos_to_obs e.(GridNavi._env_state)
                                         ++ [float_of_bool d]
               else GridNavi.pos_to_obs e.(GridNavi._env_state)) ∧
            contains w0.(observation_space)
              (if w.(add_done_info) then GridNavi.pos_to_obs e.(GridNavi._goal)
                                         ++ [float_of_bool d]
               else GridNavi.pos_to_obs e.(GridNavi._goal))) as Hobs.
  { intros e d He Hce. rewrite Hadi.
    assert (same_config g e) as Hge by (by eapply same_config_trans).
    destruct (reachable_contains e He) as [H1 H2].
    rewrite (same_config_space g e Hge) in H1, H2. split; by apply Hcont. }
  assert (∀ w' e, reachable e → same_config w.(env) e → w'.(env) = e →
            w'.(observation_space) = w.(observation_space) →
            w'.(add_done_info) = w.(add_done_info) → built_like w0 w') as Hbuilt.
  { intros w' e He Hce Hw' Hsp' Hadi'. split_and!; try congruence.
    rewrite Henv, Hw'. by eapply same_config_trans. }
  pose proof (reachable_Inv _ Hr) as HI.
  split_and!.
  - intros task w' o Htask Hreset.
    pose proof HI as [Hgrid _ Hgoal _ _ _ _ _].
    destruct (reset_task_spec task w.(env) Hgrid) as (g1 & goal & Hrt & _ & _ & Hc1 & _).
    { intros Hnil. rewrite Hnil in Hgoal. by apply elem_of_nil in Hgoal. }
    assert (reachable g1) as Hr1.
    { replace g1 with (state_of (GridNavi.reset_task task w.(env))) by (by rewrite Hrt).
      by apply reach_reset_task. }
    destruct (reset_observation GridNavi_ops task w w' o Hreset) as
      (e1 & core & Htask' & Hres & Hsp' & Hadi' & ->).
    { change (Env.reset_task GridNavi_ops (Env.Arg task))
        with (GridNavi.reset_task task;; mret tt : M GridNavi.t unit).
      py_simpl. by rewrite Hrt. }
    { intros e. change (Env.reset GridNavi_ops) with GridNavi.reset.
      unfold GridNavi.reset. py_simpl. cbn.
      destruct (GridNavi.starting_state e); py_simpl; cbn; [done|].
      unfold GridNavi.random_choice. py_simpl.
      destruct (GridNavi.possible_goals e !! _); by py_simpl. }
    change (Env.reset_task GridNavi_ops (Env.Arg task))
      with (GridNavi.reset_task task;; mret tt : M GridNavi.t unit) in Htask'.
    revert Htask'. py_simpl. rewrite Hrt. intros [= <-].
    change (GridNavi.reset g1 = Ok w'.(env) core) in Hres.
    assert (reachable w'.(env)) as Hr2.
    { replace w'.(env) with (state_of (GridNavi.reset g1)) by (by rewrite Hres).
      by apply reach_reset. }
    assert (same_config w.(env) w'.(env)) as Hc2.
    { eapply same_config_trans; [exact Hc1|].
      pose proof (reset_same_config g1) as [Hc _]. by rewrite Hres in Hc. }
    rewrite (reset_obs_form _ _ _ Hres). split.
    + apply (Hobs _ false Hr2 Hc2).
    + by eapply Hbuilt.
  - intros w' o Hreset.
    destruct (reset_mdp_observation GridNavi_ops w w' o Hreset) as
      (core & Hres & Hsp' & Hadi' & ->).
    change (GridNavi.reset w.(env) = Ok w'.(env) core) in Hres.
    assert (reachable w'.(env)) as Hr2.
    { replace w'.(env) with (state_of (GridNavi.reset w.(env))) by (by rewrite Hres).
      by apply reach_reset. }
    assert (same_config w.(env) w'.(env)) as Hc2.
    { pose proof (reset_same_config w.(env)) as [Hc _]. by rewrite Hres in Hc. }
    rewrite (reset_obs_form _ _ _ Hres). split.
    + apply (Hobs _ false Hr2 Hc2).
    + by eapply Hbuilt.
  - intros action w' res Hstep.
    destruct (step_observation GridNavi_ops action w w' res Hstep) as
      (e1 & inner & core & d & Hinner & Hsp' & Hadi' & -> & Hcore).
    change (GridNavi.step action w.(env) = Ok e1 inner) in Hinner.
    assert (reachable e1) as Hr1.
    { replace e1 with (state_of (GridNavi.step action w.(env))) by (by rewrite Hinner).
      by apply reach_step. }
    assert (same_config w.(env) e1) as Hc1.
    { pose proof (step_same_task action w.(env)) as [Hc _ _]. by rewrite Hinner in Hc. }
    assert (∀ o, GridNavi.reset e1 = Ok w'.(env) o →
              reachable w'.(env) ∧ same_config w.(env) w'.(env)) as Hafter.
    { intros o Hres. split.
      - replace w'.(env) with (state_of (GridNavi.reset e1)) by (by rewrite Hres).
        by apply reach_reset.
      - eapply same_config_trans; [exact Hc1|].
        pose proof (reset_same_config e1) as [Hc _]. by rewrite Hres in Hc. }
    destruct Hcore as [[-> Henv']|Hres].
    + split.
      * destruct (step_obs_form action _ _ _ HI Hinner) as [->| ->];
          by apply (Hobs e1 d Hr1 Hc1).
      * destruct Henv' as [Heq|[o Hres]].
        -- by eapply (Hbuilt w' e1).
        -- destruct (Hafter o Hres). by eapply Hbuilt.
    + destruct (Hafter core Hres) as [Hr2 Hc2].
      rewrite (reset_obs_form _ _ _ Hres). split.
      * apply (Hobs _ d Hr2 Hc2).
      * by eapply Hbuilt.
Qed.

Lemma grid_observations_lie_in_the_declared_space_witness :
  let g := state_of (GridNavi.__init__ 5 2 (Some (0, 0)) false (Some 2) None false false false
                                        (λ i, i) 0) in
  ∃ w0, __init__ GridNavi_ops g 2 "gym" = Ok w0 tt ∧
        w0.(observation_space) = Env.Box [3] [0; 0; 0]%Q [4; 1; 1]%Q ∧
        ∀ w' res, step GridNavi_ops 2 w0 = Ok w' res →
                  contains w0.(observation_space) res.1.1.1.
Proof.
  intros g.
  assert (reachable g) as Hr.
  { eapply (reach_init 5 2 (Some (0, 0)) false (Some 2) None false false false (λ i, i) 0%nat).
    - vm_compute. reflexivity.
    - intros s [= <-]. vm_compute. repeat split; discriminate. }
  destruct (grid_observations_lie_in_the_declared_space g 2 "gym" Hr)
    as (w0 & Hinit & Hb0 & Hall).
  exists w0. split; [exact Hinit|]. split.
  - vm_compute in Hinit. by injection Hinit as <-.
  - intros w' res Hstep. by destruct (proj2 (proj2 (Hall w0 Hb0)) 2 w' res Hstep).
Defined.

End GridSpaceFacts.

Module MetaWorldWitnesses.
Import VariBadWrapper WrapperSpec WrapperStepFacts MetaWorldSpec.

Lemma metaworld_path_limit_ends_the_episode_witness :
  let ops := path_counter_ops 2 in
  let w0 := state_of (__init__ ops 0 1 "metaworld") in
  let w1 := state_of (step ops tt (state_of (reset ops None w0))) in
  let r := step ops tt w1 in
  let res := default ([], 0%Q, false, ∅) (value_of r) in
  w1.(env_type) = "metaworld" ∧ r = Ok (state_of r) res ∧
  ops.(Env.step) tt w1.(env) = Ok 2 ([2%Q], 0%Q, false, ∅) ∧
  res.2 !! "done_mdp" = Some (VBool true) ∧
  MetaLearner.bad_masks [res.2] = [0%Q].
Proof.
  intros ops w0 w1 r res.
  assert (w1.(env_type) = "metaworld") as Hty by (vm_compute; reflexivity).
  assert (r = Ok (state_of r) res) as Hstep by (vm_compute; reflexivity).
  split; [exact Hty|]. split; [exact Hstep|]. split; [vm_compute; reflexivity|].
  destruct (metaworld_path_limit_ends_the_episode ops tt w1 (state_of r) res Hty Hstep)
    as (e1 & state & reward & dn & info & m & c & Hinner & Hm & Hc & Hlimit & _).
  assert (e1 = 2) as -> by (vm_compute in Hinner; by injection Hinner as <-).
  assert (m = 2) as -> by (vm_compute in Hm; by injection Hm as <-).
  assert (c = 2) as -> by (vm_compute in Hc; by injection Hc as <-).
  destruct (Hlimit eq_refl) as (Hdone & _ & Hmask). split; [exact Hdone | exact Hmask].
Defined.

End MetaWorldWitnesses.

(** ** The helpers: running statistics, clipping, schedule and latent *)

Module MomentsFacts.
Import RunningMeanStd MomentsSpec.

Lemma sum_app (l k : list Q) : (Py.sum (l ++ k) == Py.sum l + Py.sum k)%Q.
Proof.
  induction l as [|x l IH]; simpl.
  - rewrite sum_nil. ring.
  - rewrite !sum_cons, IH. ring.
Qed.

Lemma rows_app (l k : list Q) : (rows (l ++ k) == rows l + rows k)%Q.
Proof.
  unfold rows. rewrite length_app, Nat2Z.inj_add, inject_Z_plus. reflexivity.
Qed.

Lemma rows_cons (x : Q) (l : list Q) : (rows (x :: l) == 1 + rows l)%Q.
Proof. apply (rows_app [x] l). Qed.

Lemma rows_nonneg (l : list Q) : (0 <= rows l)%Q.
Proof. unfold rows. change 0%Q with (inject_Z 0). rewrite <- Zle_Qle. lia. Qed.

Lemma rows_pos (l : list Q) : l ≠ [] → (0 < rows l)%Q.
Proof.
  intros Hl. unfold rows. change 0%Q with (inject_Z 0). rewrite <- Zlt_Qlt.
  destruct l; [done|]. simpl. lia.
Qed.

(** The sum of the squared deviations from any centre [c]. *)
Lemma sum_sq_dev (l : list Q) (c : Q) :
  (Py.sum ((λ v, (v - c) ^ 2) <$> l)
   == Py.sum ((λ v, v ^ 2) <$> l) - 2 * c * Py.sum l + rows l * c ^ 2)%Q.
Proof.
  induction l as [|x l IH]; cbn [fmap list_fmap].
  - rewrite !sum_nil. unfold rows. cbn [length Z.of_nat]. ring.
  - rewrite !sum_cons, IH, rows_cons. ring.
Qed.

Lemma sum_sq_nonneg (l : list Q) (c : Q) : (0 <= Py.sum ((λ v, (v - c) ^ 2) <$> l))%Q.
Proof.
  apply sum_nonneg. apply Forall_fmap, Forall_true. intros x.
  change (0 <= (x - c) * (x - c))%Q. generalize (x - c)%Q. intros y. nra.
Qed.

Lemma merged (sa qa a sb qb b : Q) :
  ¬ (a == 0)%Q → ¬ (b == 0)%Q → ¬ (a + b == 0)%Q →
  let ma := (sa / a)%Q in
  let mb := (sb / b)%Q in
  let va := ((qa - 2 * ma * sa + a * ma ^ 2) / a)%Q in
  let vb := ((qb - 2 * mb * sb + b * mb ^ 2) / b)%Q in
  let m := ((sa + sb) / (a + b))%Q in
  (ma + (mb - ma) * b / (a + b) == m)%Q ∧
  ((va * a + vb * b + (mb - ma) ^ 2 * a * b / (a + b)) / (a + b)
   == (qa + qb - 2 * m * (sa + sb) + (a + b) * m ^ 2) / (a + b))%Q.
Proof.
  intros Ha Hb Hab. cbv zeta. split; field; auto.
Qed.

(** X18: Merging the moments of two samples gives the moments of the joined
    sample: the running statistics are exact, not an approximation. *)
Theorem merged_moments_are_those_of_the_joined_sample (xs ys : list Q) :
  xs ≠ [] → ys ≠ [] →
  ∃ m v c,
    update_mean_var_count_from_moments (average xs) (variance xs) (rows xs)
                                       (average ys) (variance ys) (rows ys)
    = Some (m, v, c) ∧
    (m == average (xs ++ ys))%Q ∧ (v == variance (xs ++ ys))%Q ∧
    (c == rows (xs ++ ys))%Q.
Proof.
  intros Hx Hy.
  pose proof (rows_pos xs Hx) as Ha. pose proof (rows_pos ys Hy) as Hb.
  assert (¬ (rows xs == 0)%Q) as Ha0 by (intros E; rewrite E in Ha; by apply Qlt_irrefl in Ha).
  assert (¬ (rows ys == 0)%Q) as Hb0 by (intros E; rewrite E in Hb; by apply Qlt_irrefl in Hb).
  assert (¬ (rows xs + rows ys == 0)%Q) as Hab0.
  { intros E. assert (0 < rows xs + rows ys)%Q as Hlt by lra.
    rewrite E in Hlt. by apply Qlt_irrefl in Hlt. }
  unfold update_mean_var_count_from_moments.
  destruct (Qeq_bool (rows xs + rows ys) 0) eqn:Hz; [by apply Qeq_bool_iff in Hz|].
  eexists _, _, _. split; [reflexivity|].
  destruct (merged (Py.sum xs) (Py.sum ((λ v, v ^ 2)%Q <$> xs)) (rows xs)
                   (Py.sum ys) (Py.sum ((λ v, v ^ 2)%Q <$> ys)) (rows ys) Ha0 Hb0 Hab0)
    as [Hm Hv].
  cbv zeta in Hm, Hv.
  split_and!.
  - unfold average. rewrite sum_app, rows_app. exact Hm.
  - unfold variance. rewrite !sum_sq_dev. unfold average.
    rewrite !fmap_app, !sum_app, !rows_app. exact Hv.
  - by rewrite rows_app.
Qed.

Lemma merged_moments_are_those_of_the_joined_sample_witness :
  ∃ m v c,
    update_mean_var_count_from_moments (average [1; 3]%Q) (variance [1; 3]%Q) (rows [1; 3]%Q)
                                       (average [5]%Q) (variance [5]%Q) (rows [5]%Q)
    = Some (m, v, c) ∧
    (m == 3)%Q ∧ (v == 8 / 3)%Q ∧ (c == 3)%Q.
Proof.
  destruct (merged_moments_are_those_of_the_joined_sample [1; 3]%Q [5]%Q) as
    (m & v & c & Heq & Hm & Hv & Hc); [done | done |].
  exists m, v, c. split; [exact Heq|].
  split_and!; [by rewrite Hm | by rewrite Hv | by rewrite Hc].
Defined.

End MomentsFacts.

Module RunningFacts.
Import RunningMeanStd MomentsSpec MomentsFacts.

Lemma sum_bounds (l : list Q) (lo hi : Q) :
  Forall (λ v, lo <= v ∧ v <= hi)%Q l →
  (lo * rows l <= Py.sum l ∧ Py.sum l <= hi * rows l)%Q.
Proof.
  induction 1 as [|x l [Hlo Hhi] _ [IHlo IHhi]].
  - rewrite sum_nil. change (rows []) with 0%Q. lra.
  - rewrite sum_cons, rows_cons. lra.
Qed.

Lemma div_nonneg (a b : Q) : (0 <= a → 0 < b → 0 <= a / b)%Q.
Proof. intros Ha Hb. apply Qle_shift_div_l; [done | lra]. Qed.

Lemma sq_nonneg (y : Q) : (0 <= y ^ 2)%Q.
Proof. change (0 <= y * y)%Q. nra. Qed.

(** One merge keeps the count positive, the variance non-negative and the
    mean between the old mean and the batch mean. *)
Lemma merge_valid (m v c bm bv bc lo hi : Q) :
  (0 < c → 0 <= bc → 0 <= v → 0 <= bv →
   lo <= m ∧ m <= hi → lo <= bm ∧ bm <= hi →
   ∃ m' v', update_mean_var_count_from_moments m v c bm bv bc = Some (m', v', c + bc) ∧
            0 <= v' ∧ lo <= m' ∧ m' <= hi)%Q.
Proof.
  intros Hc Hbc Hv Hbv [Hlo Hhi] [Hblo Hbhi].
  assert (0 < c + bc)%Q as Htot by lra.
  unfold update_mean_var_count_from_moments.
  destruct (Qeq_bool (c + bc) 0) eqn:Hz.
  { apply Qeq_bool_iff in Hz. rewrite Hz in Htot. by apply Qlt_irrefl in Htot. }
  eexists _, _. split; [reflexivity|].
  assert (¬ (c + bc == 0)%Q) as Hne by (by apply Qeq_bool_neq).
  split_and!.
  - apply div_nonneg; [|done].
    assert (0 <= (bm - m) ^ 2 * c * bc / (c + bc))%Q as Hq.
    { apply div_nonneg; [|done]. pose proof (sq_nonneg (bm - m)) as Hs.
      generalize dependent ((bm - m) ^ 2)%Q. intros q Hq. 
      assert (0 <= q * c)%Q by nra. generalize dependent (q * c)%Q. intros. nra. }
    assert (0 <= v * c)%Q by nra. assert (0 <= bv * bc)%Q by nra. lra.
  - assert (m + (bm - m) * bc / (c + bc)
            == lo + ((m - lo) * c + (bm - lo) * bc) / (c + bc))%Q as -> by (field; done).
    assert (0 <= ((m - lo) * c + (bm - lo) * bc) / (c + bc))%Q; [|lra].
    apply div_nonneg; [|done].
    assert (0 <= (m - lo) * c)%Q by nra. assert (0 <= (bm - lo) * bc)%Q by nra. lra.
  - assert (m + (bm - m) * bc / (c + bc)
            == hi - ((hi - m) * c + (hi - bm) * bc) / (c + bc))%Q as -> by (field; done).
    assert (0 <= ((hi - m) * c + (hi - bm) * bc) / (c + bc))%Q; [|lra].
    apply div_nonneg; [|done].
    assert (0 <= (hi - m) * c)%Q by nra. assert (0 <= (hi - bm) * bc)%Q by nra. lra.
Qed.

Lemma update_valid (x : list Q) (s : t) (lo hi : Q) :
  (2 ≤ length x)%nat → Forall (λ v, lo <= v ∧ v <= hi)%Q x →
  (0 < s.(count))%Q → (0 <= s.(var))%Q → (lo <= s.(mean) ∧ s.(mean) <= hi)%Q →
  ∃ s', update x s = Some s' ∧ s'.(count) = (s.(count) + rows x)%Q ∧
        (0 <= s'.(var))%Q ∧ (lo <= s'.(mean) ∧ s'.(mean) <= hi)%Q.
Proof.
  intros Hlen Hx Hc Hv Hm.
  assert (x ≠ []) as Hne by (intros ->; simpl in Hlen; lia).
  assert (2 <= rows x)%Q as Hrows.
  { unfold rows. change 2%Q with (inject_Z 2). rewrite <- Zle_Qle. lia. }
  assert (tensor_mean x = Some (Py.sum x / rows x)%Q) as Hmean.
  { unfold tensor_mean. by rewrite bool_decide_eq_false_2. }
  assert (tensor_var x
          = Some (Py.sum ((λ v, (v - Py.sum x / rows x) ^ 2)%Q <$> x) / (rows x - 1))%Q)
    as Hvar.
  { unfold tensor_var. rewrite Hmean. cbn [mbind option_bind].
    by rewrite bool_decide_eq_false_2 by lia. }
  destruct (sum_bounds x lo hi Hx) as [Hslo Hshi].
  destruct (merge_valid s.(mean) s.(var) s.(count) (Py.sum x / rows x)
              (Py.sum ((λ v, (v - Py.sum x / rows x) ^ 2)%Q <$> x) / (rows x - 1))
              (rows x) lo hi) as (m' & v' & Heq & Hv' & Hm'); try done.
  - lra.
  - apply div_nonneg; [apply sum_sq_nonneg | lra].
  - split.
    + apply Qle_shift_div_l; lra.
    + apply Qle_shift_div_r; lra.
  - exists (mk m' v' (s.(count) + rows x)). split; [|done].
    unfold update. rewrite Hmean, Hvar. cbn [mbind option_bind].
    unfold update_from_moments. by rewrite Heq.
Qed.

(** X19: However many batches are fed to a fresh [RunningMeanStd], as long as each
    has at least two rows the statistics stay numbers: the count is epsilon
    plus the number of rows seen, the variance is never negative and the mean
    stays within the bounds of the data (and of its initial value 0).  A batch
    with fewer than two rows has no unbiased variance, and from then on the
    statistics are not numbers any more. *)
Theorem running_statistics_stay_valid (epsilon lo hi : Q) (batches : list (list Q)) :
  (0 < epsilon)%Q → (lo <= 0 ∧ 0 <= hi)%Q →
  Forall (Forall (λ v, lo <= v ∧ v <= hi)%Q) batches →
  (Forall (λ x, 2 ≤ length x)%nat batches →
   ∃ s, updates batches (__init__ epsilon) = Some s ∧
        (s.(count) == epsilon + rows (concat batches))%Q ∧
        (0 <= s.(var))%Q ∧ (lo <= s.(mean) ∧ s.(mean) <= hi)%Q) ∧
  (Exists (λ x, length x < 2)%nat batches → updates batches (__init__ epsilon) = None).
Proof.
  intros Heps Hz Hdata. split.
  - intros Hlen.
    assert (∀ s, (0 < s.(count))%Q → (0 <= s.(var))%Q → (lo <= s.(mean) ∧ s.(mean) <= hi)%Q →
              ∃ s', updates batches s = Some s' ∧
                    (s'.(count) == s.(count) + rows (concat batches))%Q ∧
                    (0 <= s'.(var))%Q ∧ (lo <= s'.(mean) ∧ s'.(mean) <= hi)%Q) as Hgen.
    { clear Heps Hz. induction batches as [|x batches IH]; intros s Hc Hv Hm.
      - exists s. split; [done|]. split; [|done]. change (rows (concat [])) with 0%Q. ring.
      - apply Forall_cons in Hdata as [Hx Hdata]. apply Forall_cons in Hlen as [Hl Hlen].
        destruct (update_valid x s lo hi Hl Hx Hc Hv Hm) as (s1 & Hu & Hc1 & Hv1 & Hm1).
        assert (0 < count s1)%Q as Hpos.
        { rewrite Hc1. pose proof (rows_nonneg x). lra. }
        destruct (IH Hdata Hlen s1 Hpos Hv1 Hm1) as (s' & Hus & Hc' & Hv' & Hm').
        exists s'. cbn [updates]. rewrite Hu. cbn [mbind option_bind]. split; [done|].
        split; [|done]. rewrite Hc', Hc1. cbn [concat]. rewrite rows_app. ring. }
    apply Hgen; simpl; lra.
  - intros Hex. generalize (__init__ epsilon). clear Heps Hz Hdata.
    induction Hex as [x batches Hx|x batches _ IH]; intros s; cbn [updates].
    + unfold update, tensor_var, tensor_mean.
      destruct x as [|a [|b x]]; [done | done | simpl in Hx; lia].
    + destruct (update x s); [apply IH | done].
Qed.

Lemma running_statistics_stay_valid_witness :
  ∃ s, updates [[1; 3]; [2; 2; 5]]%Q (__init__ (1 / 10000)) = Some s ∧
       (s.(count) == 1 / 10000 + 5)%Q ∧ (0 <= s.(var))%Q ∧ (0 <= s.(mean) ∧ s.(mean) <= 5)%Q.
Proof.
  destruct (running_statistics_stay_valid (1 / 10000) 0 5 [[1; 3]; [2; 2; 5]]%Q)
    as [Hok _].
  - reflexivity.
  - split; discriminate.
  - repeat constructor; discriminate.
  - destruct Hok as (s & Hs & Hc & Hv & Hm).
    + repeat constructor.
    + exists s. split; [exact Hs|]. split; [rewrite Hc; reflexivity|].
      split; [exact Hv | exact Hm].
Defined.

End RunningFacts.

Module ClipFacts.
Import Clip ClipSpec.

Lemma broadcast_vector {X} (f : Q → Q → X) (v : list Q) (b : tensor Q) :
  regular (length v) b →
  ∃ w, broadcast f (Vector v) b = Some (Vector w) ∧ length w = length v ∧
       ∀ i x, v !! i = Some x → ∃ y, entry b i = Some y ∧ w !! i = Some (f x y).
Proof.
  destruct b as [y|ys]; simpl; intros Hr.
  - eexists. split; [done|]. split; [by rewrite length_fmap|].
    intros i x Hi. exists y. split; [done|]. by rewrite list_lookup_fmap, Hi.
  - rewrite bool_decide_eq_true_2 by done. eexists. split; [done|].
    split; [rewrite length_zip_with; lia|].
    intros i x Hi. destruct (lookup_lt_is_Some_2 ys i) as [y Hy].
    { apply lookup_lt_Some in Hi. lia. }
    exists y. split; [done|]. by rewrite lookup_zip_with, Hi; simpl; rewrite Hy.
Qed.

Lemma forallb_lookup {X} (f : X → bool) (l : list X) :
  forallb f l = true ↔ ∀ i x, l !! i = Some x → f x = true.
Proof.
  rewrite forallb_forall. split.
  - intros H i x Hi. apply H. apply list_elem_of_In. by eapply list_elem_of_lookup_2.
  - intros H x Hx. apply list_elem_of_In, list_elem_of_lookup_1 in Hx as [i Hi]. by eapply H.
Qed.

(** The assertion of [clip] on regular bounds. *)
Lemma bounds_checked (n : nat) (low high : tensor Q) :
  regular n low → regular n high →
  ∃ c, broadcast Qle_bool low high = Some c ∧
       (all c = true ↔
        ∀ i lo hi, entry low i = Some lo → entry high i = Some hi → (lo <= hi)%Q).
Proof.
  destruct low as [lo|los], high as [hi|his]; simpl; intros Hl Hh.
  - eexists. split; [done|]. simpl. rewrite Qle_bool_iff. split.
    + by intros H i ? ? [= <-] [= <-].
    + intros H. by apply (H 0%nat).
  - eexists. split; [done|]. simpl. rewrite forallb_lookup. split.
    + intros H i ? h [= <-] Hi. apply Qle_bool_iff.
      apply (H i). by rewrite list_lookup_fmap, Hi.
    + intros H i b. rewrite list_lookup_fmap.
      destruct (his !! i) as [h|] eqn:Hi; [|done]. intros [= <-].
      apply Qle_bool_iff. by eapply H.
  - eexists. split; [done|]. simpl. rewrite forallb_lookup. split.
    + intros H i l ? Hi [= <-]. apply Qle_bool_iff.
      apply (H i). by rewrite list_lookup_fmap, Hi.
    + intros H i b. rewrite list_lookup_fmap.
      destruct (los !! i) as [l|] eqn:Hi; [|done]. intros [= <-].
      apply Qle_bool_iff. by eapply H.
  - rewrite bool_decide_eq_true_2 by congruence. eexists. split; [done|]. simpl.
    rewrite forallb_lookup. split.
    + intros H i l h Hl' Hh'. apply Qle_bool_iff.
      apply (H i). by rewrite lookup_zip_with, Hl'; simpl; rewrite Hh'.
    + intros H i b. rewrite lookup_zip_with.
      destruct (los !! i) as [l|] eqn:Hl'; [|done]. simpl.
      destruct (his !! i) as [h|] eqn:Hh'; [|done]. intros [= <-].
      apply Qle_bool_iff. by eapply H.
Qed.

Lemma clamp_spec (x lo hi : Q) :
  (lo <= hi →
   let y := max (min x hi) lo in
   lo <= y ∧ y <= hi ∧ (lo <= x → x <= hi → y == x) ∧ (x < lo → y == lo) ∧
   (hi < x → y == hi))%Q.
Proof.
  intros Hb. unfold max, min.
  destruct (Qle_bool x hi) eqn:H1.
  - apply Qle_bool_iff in H1. destruct (Qle_bool x lo) eqn:H2.
    + apply Qle_bool_iff in H2. split_and!; intros; lra.
    + assert (¬ (x <= lo)%Q) by (rewrite <- Qle_bool_iff; congruence).
      split_and!; intros; lra.
  - assert (¬ (x <= hi)%Q) by (rewrite <- Qle_bool_iff; congruence).
    destruct (Qle_bool hi lo) eqn:H2.
    + apply Qle_bool_iff in H2. split_and!; intros; lra.
    + split_and!; intros; lra.
Qed.

(** X20: In the regular cases [clip] returns a tensor of the value's shape whose
    every entry lies between its bounds; entries already within the bounds
    are kept, the others are moved to the bound they violate.  When some lower
    bound exceeds its upper bound the call raises [AssertionError] instead. *)
Theorem clip_moves_values_into_the_bounds (value : list Q) (low high : tensor Q) :
  regular (length value) low → regular (length value) high →
  ((∀ i lo hi, entry low i = Some lo → entry high i = Some hi → (lo <= hi)%Q) →
   ∃ clipped, clip (Vector value) low high = inr (Vector clipped) ∧
     length clipped = length value ∧
     ∀ i x, value !! i = Some x →
       ∃ lo hi y, entry low i = Some lo ∧ entry high i = Some hi ∧
                  clipped !! i = Some y ∧
                  (lo <= y ∧ y <= hi ∧ (lo <= x → x <= hi → y == x) ∧
                   (x < lo → y == lo) ∧ (hi < x → y == hi))%Q) ∧
  (∀ i lo hi, entry low i = Some lo → entry high i = Some hi → (hi < lo)%Q →
              clip (Vector value) low high = inl AssertionError).
Proof.
  intros Hl Hh.
  destruct (bounds_checked _ low high Hl Hh) as (c & Hc & Hall).
  unfold clip. rewrite Hc. split.
  - intros Hb. rewrite (proj2 Hall Hb).
    destruct (broadcast_vector min value high Hh) as (m & -> & Hlen & Hm).
    rewrite <- Hlen in Hl.
    destruct (broadcast_vector max m low Hl) as (r & -> & Hlen' & Hr).
    exists r. split; [done|]. split; [congruence|].
    intros i x Hi. destruct (Hm i x Hi) as (hi & Hhi & Hmi).
    destruct (Hr i _ Hmi) as (lo & Hlo & Hri).
    exists lo, hi, (max (min x hi) lo). split_and!; try done; by apply clamp_spec, (Hb i).
  - intros i lo hi Hlo Hhi Hlt. destruct (all c) eqn:Ha; [|done].
    destruct Hall as [Hall _]. specialize (Hall eq_refl i lo hi Hlo Hhi). lra.
Qed.

Lemma clip_moves_values_into_the_bounds_witness :
  ∃ clipped, clip (Vector [-3; 1 # 2; 7]%Q) (Scalar 0%Q) (Vector [1; 1; 5]%Q)
             = inr (Vector clipped) ∧
    ∃ lo hi y, entry (Scalar 0%Q) 2 = Some lo ∧ entry (Vector [1; 1; 5]%Q) 2 = Some hi ∧
               clipped !! 2%nat = Some y ∧ (y == 5)%Q.
Proof.
  destruct (clip_moves_values_into_the_bounds [-3; 1 # 2; 7]%Q (Scalar 0%Q)
              (Vector [1; 1; 5]%Q)) as [Hok _]; [done | done |].
  destruct Hok as (clipped & Hclip & _ & Hentries).
  - intros [|[|[|i]]] lo hi [= <-] [= <-]; discriminate.
  - exists clipped. split; [exact Hclip|].
    destruct (Hentries 2%nat 7%Q eq_refl) as (lo & hi & y & Hlo & Hhi & Hy & _ & _ & _ & _ & Hup).
    exists lo, hi, y. split_and!; try done.
    injection Hhi as <-. by apply Hup.
Defined.

End ClipFacts.

Module ScheduleFacts.
Import Schedule.

(** X21: The schedule writes the same learning rate into every parameter group and
    touches no other entry.  The rate falls linearly from the initial rate at
    epoch 0 to zero at the last epoch; it is not clamped, so an epoch beyond
    the last one gives a negative rate, and a schedule of zero epochs raises
    [ZeroDivisionError] before any group is changed. *)
Theorem learning_rate_falls_linearly_to_zero (optimizer : list param_group)
    (epoch total_num_epochs : Z) (initial_lr : Q) :
  (total_num_epochs = 0 →
   update_linear_schedule optimizer epoch total_num_epochs initial_lr
   = inl ZeroDivisionError) ∧
  (total_num_epochs ≠ 0 →
   ∃ lr, update_linear_schedule optimizer epoch total_num_epochs initial_lr
         = inr ((λ g : param_group, <["lr" := lr]> g) <$> optimizer) ∧
     (lr == initial_lr * inject_Z (total_num_epochs - epoch) / inject_Z total_num_epochs)%Q ∧
     (epoch = 0 → (lr == initial_lr)%Q) ∧
     (epoch = total_num_epochs → (lr == 0)%Q) ∧
     (0 < total_num_epochs → (0 <= initial_lr)%Q →
      (0 ≤ epoch ≤ total_num_epochs → (0 <= lr)%Q ∧ (lr <= initial_lr)%Q) ∧
      (total_num_epochs < epoch → (0 < initial_lr)%Q → (lr < 0)%Q))).
Proof.
  unfold update_linear_schedule. split.
  - by intros ->.
  - intros Hne. rewrite (proj2 (Z.eqb_neq _ _) Hne). eexists. split; [reflexivity|].
    assert (¬ (inject_Z total_num_epochs == 0)%Q) as Hq.
    { change 0%Q with (inject_Z 0). by rewrite inject_Z_injective. }
    assert (initial_lr - initial_lr * (inject_Z epoch / inject_Z total_num_epochs)
            == initial_lr * inject_Z (total_num_epochs - epoch) / inject_Z total_num_epochs)%Q
      as Hlr.
    { unfold Z.sub. rewrite inject_Z_plus, inject_Z_opp. by field. }
    split_and!.
    + exact Hlr.
    + intros ->. change (inject_Z 0) with 0%Q. by field.
    + intros ->. by field.
    + intros Htot Hinit.
      assert (0 < inject_Z total_num_epochs)%Q as Hpos.
      { change 0%Q with (inject_Z 0). by rewrite <- Zlt_Qlt. }
      split.
      * intros [He0 Het]. rewrite Hlr.
        assert (0 <= inject_Z (total_num_epochs - epoch))%Q as Hd0.
        { change 0%Q with (inject_Z 0). rewrite <- Zle_Qle. lia. }
        assert (inject_Z (total_num_epochs - epoch) <= inject_Z total_num_epochs)%Q as Hd1.
        { rewrite <- Zle_Qle. lia. }
        split.
        -- apply Qle_shift_div_l; [done|]. nra.
        -- apply Qle_shift_div_r; [done|]. nra.
      * intros Hlate Hinit'. rewrite Hlr.
        assert (inject_Z (total_num_epochs - epoch) < 0)%Q as Hd0.
        { change 0%Q with (inject_Z 0). rewrite <- Zlt_Qlt. lia. }
        apply Qlt_shift_div_r; [done|]. nra.
Qed.

Lemma learning_rate_falls_linearly_to_zero_witness :
  ∃ lr, update_linear_schedule [{["lr" := 1%Q; "eps" := 2%Q]}] 15 10 (1 # 2)
        = inr [{["lr" := lr; "eps" := 2%Q]}] ∧ (lr < 0)%Q.
Proof.
  destruct (proj2 (learning_rate_falls_linearly_to_zero [{["lr" := 1%Q; "eps" := 2%Q]}]
                     15 10 (1 # 2))) as (lr & Heq & _ & _ & _ & Hb); [discriminate|].
  exists lr. split.
  - rewrite Heq. cbn [fmap list_fmap]. by rewrite insert_insert_eq.
  - apply Hb; [lia | discriminate | lia | reflexivity].
Defined.

End ScheduleFacts.

Module LatentFacts.
Import Latent LatentSpec.

Lemma relu_nonneg (x : Q) : (0 <= relu x)%Q.
Proof.
  unfold relu. destruct (Qle_bool x 0) eqn:Hx; [apply Qle_refl|].
  assert (¬ (x <= 0)%Q) by (rewrite <- Qle_bool_iff; congruence). lra.
Qed.

Lemma squeeze_rows (x : list (list Q)) :
  rows_of (squeeze x) = x.
Proof. by destruct x as [|? [|? ?]]. Qed.

Lemma squeeze_single (x : list (list Q)) :
  (∃ row, squeeze x = Single row) ↔ length x = 1%nat.
Proof.
  destruct x as [|? [|? ?]]; simpl; split; try done; try (intros [? [=]]). by eexists.
Qed.

Lemma cat_shape (n d : nat) (a b : list (list Q)) :
  has_shape n d a → has_shape n d b → has_shape n (d + d) (zip_with app a b).
Proof.
  intros [Ha Hwa] [Hb Hwb]. split; [rewrite length_zip_with; lia|].
  apply Forall_lookup. intros i row. rewrite lookup_zip_with.
  destruct (a !! i) as [ra|] eqn:Hra; [|done]. simpl.
  destruct (b !! i) as [rb|] eqn:Hrb; [|done]. intros [= <-].
  rewrite length_app.
  rewrite (Forall_lookup_1 _ _ _ _ Hwa Hra), (Forall_lookup_1 _ _ _ _ Hwb Hrb). done.
Qed.

Lemma relu_shape (n d : nat) (a : list (list Q)) :
  has_shape n d a → has_shape n d ((λ row : list Q, relu <$> row) <$> a).
Proof.
  intros [Ha Hwa]. split; [by rewrite length_fmap|].
  apply Forall_fmap. eapply Forall_impl; [exact Hwa|]. intros row Hrow. simpl.
  by rewrite length_fmap.
Qed.

(** X22: What the policy is given as latent.  Without any latent it is [None].
    With a sample, mean and log-variance of shape (n, d) it is the sample
    (width d) when embeddings are sampled, and otherwise mean and
    log-variance side by side (width 2d); a batch of one row loses its batch
    dimension; with the non-linearity no entry is negative.  Asking for the
    non-linearity when only some of the three are given raises [TypeError]. *)
Theorem latent_for_policy_has_the_expected_shape
    (add_nonlinearity_to_latent sample_embeddings : bool) :
  get_latent_for_policy add_nonlinearity_to_latent sample_embeddings None None None
  = inr None ∧
  (∀ (n d : nat) latent_sample latent_mean latent_logvar,
     has_shape n d latent_sample → has_shape n d latent_mean →
     has_shape n d latent_logvar →
     ∃ latent,
       get_latent_for_policy add_nonlinearity_to_latent sample_embeddings
         (Some latent_sample) (Some latent_mean) (Some latent_logvar) = inr (Some latent) ∧
       has_shape n (if sample_embeddings then d else d + d) (rows_of latent) ∧
       ((∃ row, latent = Single row) ↔ n = 1%nat) ∧
       (add_nonlinearity_to_latent = true →
        Forall (Forall (λ x, 0 <= x)%Q) (rows_of latent)) ∧
       (add_nonlinearity_to_latent = false →
        rows_of latent = if sample_embeddings then latent_sample
                         else zip_with app latent_mean latent_logvar)) ∧
  (∀ latent_sample latent_mean latent_logvar,
     add_nonlinearity_to_latent = true →
     latent_sample = None ∨ latent_mean = None ∨ latent_logvar = None →
     ¬ (latent_sample = None ∧ latent_mean = None ∧ latent_logvar = None) →
     get_latent_for_policy add_nonlinearity_to_latent sample_embeddings
       latent_sample latent_mean latent_logvar = inl TypeError).
Proof.
  split_and!.
  - done.
  - intros n d s m l Hs Hm Hl. unfold get_latent_for_policy.
    destruct add_nonlinearity_to_latent; cbn [F_relu].
    + destruct sample_embeddings.
      * eexists. split; [reflexivity|]. rewrite squeeze_rows, squeeze_single.
        split_and!.
        -- by apply relu_shape.
        -- rewrite length_fmap. by destruct Hs as [-> _].
        -- intros _. apply Forall_fmap, Forall_true. intros row. simpl.
           apply Forall_fmap, Forall_true. intros x. apply relu_nonneg.
        -- done.
      * unfold cat_last. rewrite bool_decide_eq_true_2
          by (rewrite !length_fmap; destruct Hm as [-> _], Hl as [-> _]; done).
        eexists. split; [reflexivity|]. rewrite squeeze_rows, squeeze_single.
        split_and!.
        -- apply cat_shape; by apply relu_shape.
        -- rewrite length_zip_with, !length_fmap. destruct Hm as [-> _], Hl as [-> _].
           by rewrite Nat.min_id.
        -- intros _. apply Forall_lookup. intros i row. rewrite lookup_zip_with.
           rewrite !list_lookup_fmap.
           destruct (m !! i) as [rm|]; [|done]. simpl.
           destruct (l !! i) as [rl|]; [|done]. simpl. intros [= <-].
           apply Forall_app. split; apply Forall_fmap, Forall_true; intros x; apply relu_nonneg.
        -- done.
    + destruct sample_embeddings.
      * eexists. split; [reflexivity|]. rewrite squeeze_rows, squeeze_single.
        split_and!; try done. by destruct Hs as [-> _].
      * unfold cat_last. rewrite bool_decide_eq_true_2
          by (destruct Hm as [-> _], Hl as [-> _]; done).
        eexists. split; [reflexivity|]. rewrite squeeze_rows, squeeze_single.
        split_and!; try done.
        -- by apply cat_shape.
        -- rewrite length_zip_with. destruct Hm as [-> _], Hl as [-> _].
           by rewrite Nat.min_id.
  - intros s m l -> Hsome Hnot. unfold get_latent_for_policy.
    destruct s as [s|], m as [m|], l as [l|]; cbn [F_relu]; try done.
    + by destruct Hsome as [?|[?|?]].
    + exfalso. by apply Hnot.
Qed.

Lemma latent_for_policy_has_the_expected_shape_witness :
  ∃ latent,
    get_latent_for_policy true false (Some [[1; -2]%Q]) (Some [[-1; 3]%Q]) (Some [[0; -5]%Q])
    = inr (Some latent) ∧
    has_shape 1 4 (rows_of latent) ∧ latent = Single [0; 3; 0; 0]%Q.
Proof.
  destruct (proj1 (proj2 (latent_for_policy_has_the_expected_shape true false))
              1%nat 2%nat [[1; -2]%Q] [[-1; 3]%Q] [[0; -5]%Q])
    as (latent & Heq & Hshape & _); [by repeat constructor..|].
  exists latent. split; [exact Heq|]. split; [exact Hshape|].
  vm_compute in Heq. by injection Heq as <-.
Defined.

End LatentFacts.

Module RecomputeLayout.
Import Helpers.

Section RecomputeLayout.
Context {H A : Type} (encoder : Encoder.t H A).

(** The loop does not touch the process; it appends one entry per step to
    each of the three lists, and the only exception it raises is the
    [IndexError] of [done[i + 1]]. *)
Lemma recompute_loop_spec (sample : bool) (st : OnlineStorage H A) (steps : list nat)
    (h : list H)
    (acc : list (list (list Q)) * list (list (list Q)) * list (list (list Q)))
    (p : proc H A) :
  match recompute_loop encoder sample st steps h acc p with
  | Ok p' out =>
      p' = p ∧ Forall (λ i, is_Some (st.(done) !! (i + 1)%nat)) steps ∧
      ∃ ts tm tl, out = (acc.1.1 ++ ts, acc.1.2 ++ tm, acc.2 ++ tl) ∧
                  length ts = length steps ∧ length tm = length steps ∧
                  length tl = length steps
  | Raise p' e =>
      p' = p ∧ e = IndexError ∧ Exists (λ i, st.(done) !! (i + 1)%nat = None) steps
  end.
Proof.
  revert h acc. induction steps as [|i steps IH]; intros h [[a1 a2] a3]; cbn [recompute_loop].
  - py_simpl. split; [done|]. split; [done|]. exists [], [], []. by rewrite !app_nil_r.
  - py_simpl. unfold index. destruct (done st !! (i + 1)%nat) as [d|] eqn:Hd; py_simpl.
    + destruct (Encoder.forward encoder _ _ _ _ _ _) as [[[ts tm] tl] h'].
      specialize (IH h' (a1 ++ [ts], a2 ++ [tm], a3 ++ [tl])).
      destruct (recompute_loop _ _ _ _ _ _ p) as [p' out|p' e].
      * destruct IH as (-> & Hall & ts' & tm' & tl' & -> & ? & ? & ?).
        split; [done|]. split; [constructor; [by rewrite Hd | done]|].
        exists (ts :: ts'), (tm :: tm'), (tl :: tl'). cbn [fst snd length].
        rewrite <- !app_assoc. split_and!; try done; lia.
      * destruct IH as (-> & -> & Hex). split_and!; try done. by apply Exists_cons_tl.
    + split_and!; try done. by apply Exists_cons_hd.
Qed.

(** The comparison reads only its arguments: it returns a number or raises
    [RuntimeError], and leaves the state alone. *)
Lemma cat_diff_sum_pure {S} (a b : list (list (list Q))) (s : S) :
  (∃ q, cat_diff_sum a b s = Ok s q) ∨ cat_diff_sum a b s = Raise s RuntimeError.
Proof.
  unfold cat_diff_sum, cat. py_simpl.
  destruct (bool_decide (a = [])); py_simpl; [by right|].
  destruct (same_width (concat a)); py_simpl; [|by right].
  destruct (bool_decide (b = [])); py_simpl; [by right|].
  destruct (same_width (concat b)); py_simpl; [|by right].
  destruct (sub (concat a) (concat b)); py_simpl; [left; by eexists | by right].
Qed.

(** The self-check of the first update: it passes silently, or warns and
    breaks into the debugger once, or lets the [RuntimeError] of the
    comparison through; the storage is not touched. *)
Lemma self_check_outcome (a a' b b' : list (list (list Q))) (p : proc H A) :
  match Py.try_except
          (dm ← cat_diff_sum a a';
           Py.assert (Qeq_bool dm 0);;
           dl ← cat_diff_sum b b';
           Py.assert (Qeq_bool dl 0))
          AssertionError
          (emit (Warn "You are not recomputing the embeddings correctly!");;
           emit PdbSetTrace) p
  with
  | Ok p' _ =>
      p' = p ∨
      p' = mk_proc p.(policy_storage)
                   (p.(emitted) ++ [Warn "You are not recomputing the embeddings correctly!";
                                    PdbSetTrace])
  | Raise p' e => p' = p ∧ e = RuntimeError
  end.
Proof.
  unfold try_except, emit. py_simpl.
  destruct (cat_diff_sum_pure a a' p) as [[dm ->]| ->]; cbv beta iota; [|done].
  destruct (Qeq_bool dm 0); cbv beta iota.
  - destruct (cat_diff_sum_pure b b' p) as [[dl ->]| ->]; cbv beta iota; [|done].
    destruct (Qeq_bool dl 0); cbv beta iota; [by left|].
    cbn. right. by rewrite <- app_assoc.
  - cbn. right. by rewrite <- app_assoc.
Qed.

(** X23: A returning [recompute_embeddings] leaves the prior entries at index 0
    where they were, stores exactly one recomputed entry per rollout step
    behind them and writes no other field of the storage; it warns at most
    once and only in the first update.  A call that raises leaves the process
    as it was: the only exceptions are the [IndexError] of a missing prior or
    [done] row and, in the first update, the [RuntimeError] of a comparison
    between tensors that can be neither concatenated nor broadcast.  A
    storage whose [done] has no row [i + 1] for some step [i] makes the call
    raise [IndexError]. *)
Theorem recompute_keeps_the_prior_and_the_layout (sample : bool) (update_idx : Z)
    (detach_every : option Z) (p : proc H A) :
  let st := p.(policy_storage) in
  (∀ p', recompute_embeddings encoder sample update_idx detach_every p = Ok p' tt →
     let st' := p'.(policy_storage) in
     length st'.(latent_samples) = S (length st.(actions)) ∧
     length st'.(latent_mean) = S (length st.(actions)) ∧
     length st'.(latent_logvar) = S (length st.(actions)) ∧
     is_Some (st.(latent_samples) !! 0%nat) ∧
     st'.(latent_samples) !! 0%nat = st.(latent_samples) !! 0%nat ∧
     st'.(latent_mean) !! 0%nat = st.(latent_mean) !! 0%nat ∧
     st'.(latent_logvar) !! 0%nat = st.(latent_logvar) !! 0%nat ∧
     st'.(hidden_states) = st.(hidden_states) ∧ st'.(actions) = st.(actions) ∧
     st'.(next_state) = st.(next_state) ∧ st'.(rewards_raw) = st.(rewards_raw) ∧
     st'.(prev_state) = st.(prev_state) ∧ st'.(done) = st.(done) ∧
     (p'.(emitted) = p.(emitted) ∨
      update_idx = 0 ∧
      p'.(emitted) = p.(emitted)
                     ++ [Warn "You are not recomputing the embeddings correctly!";
                         PdbSetTrace])) ∧
  (∀ p' e, recompute_embeddings encoder sample update_idx detach_every p = Raise p' e →
     p' = p ∧ (e = IndexError ∨ e = RuntimeError ∧ update_idx = 0)) ∧
  (is_Some (st.(latent_samples) !! 0%nat) → is_Some (st.(latent_mean) !! 0%nat) →
   is_Some (st.(latent_logvar) !! 0%nat) → is_Some (st.(hidden_states) !! 0%nat) →
   (length st.(done) ≤ length st.(actions))%nat → st.(actions) ≠ [] →
   recompute_embeddings encoder sample update_idx detach_every p = Raise p IndexError).
Proof.
  intros st. unfold recompute_embeddings. py_simpl. fold st. unfold index.
  assert (∀ s0 m0 l0 h0,
            match recompute_loop encoder sample st (seq 0 (length (actions st))) h0
                                 ([s0], [m0], [l0]) p with
            | Ok p1 out =>
                p1 = p ∧
                ∃ ts tm tl, out = (s0 :: ts, m0 :: tm, l0 :: tl) ∧
                            length ts = length (actions st) ∧
                            length tm = length (actions st) ∧
                            length tl = length (actions st)
            | Raise p1 e => p1 = p ∧ e = IndexError
            end) as Hloop.
  { intros s0 m0 l0 h0.
    pose proof (recompute_loop_spec sample st (seq 0 (length (actions st))) h0
                  ([s0], [m0], [l0]) p) as Hl.
    destruct (recompute_loop _ _ _ _ _ _ p) as [p1 out|p1 e].
    - destruct Hl as (-> & _ & ts & tm & tl & -> & Hts & Htm & Htl).
      rewrite length_seq in Hts, Htm, Htl. split; [done|]. by exists ts, tm, tl.
    - by destruct Hl as (-> & -> & _). }
  split_and!.
  - intros p'.
    destruct (latent_samples st !! 0%nat) as [s0|] eqn:Hs0; py_simpl; [|done].
    destruct (latent_mean st !! 0%nat) as [m0|] eqn:Hm0; py_simpl; [|done].
    destruct (latent_logvar st !! 0%nat) as [l0|] eqn:Hl0; py_simpl; [|done].
    destruct (hidden_states st !! 0%nat) as [h0|] eqn:Hh0; py_simpl; [|done].
    specialize (Hloop s0 m0 l0 h0).
    destruct (recompute_loop _ _ _ _ _ _ p) as [p1 out|]; [|done].
    destruct Hloop as (-> & ts & tm & tl & -> & Hts & Htm & Htl). cbv beta iota.
    destruct (update_idx =? 0) eqn:Hu.
    + apply Z.eqb_eq in Hu.
      pose proof (self_check_outcome (latent_mean st) (m0 :: tm) (latent_logvar st)
                    (l0 :: tl) p) as Hcheck.
      match goal with
      | |- match ?c with _ => _ end = _ → _ =>
          match type of Hcheck with
          | match ?c0 with _ => _ end => change c0 with c in Hcheck
          end;
          destruct c as [p2 []|p2 e]; [|done]
      end.
      cbv beta iota. intros [= <-]. cbn. rewrite Hts, Htm, Htl.
      destruct Hcheck as [->| ->]; cbn;
        split_and!; try done; try (by eexists); try (by left); by right.
    + intros [= <-]. cbn. rewrite Hts, Htm, Htl.
      split_and!; try done; try (by eexists); by left.
  - intros p' e.
    destruct (latent_samples st !! 0%nat) as [s0|] eqn:Hs0; py_simpl;
      [|intros [= <- <-]; split; [done | by left]].
    destruct (latent_mean st !! 0%nat) as [m0|] eqn:Hm0; py_simpl;
      [|intros [= <- <-]; split; [done | by left]].
    destruct (latent_logvar st !! 0%nat) as [l0|] eqn:Hl0; py_simpl;
      [|intros [= <- <-]; split; [done | by left]].
    destruct (hidden_states st !! 0%nat) as [h0|] eqn:Hh0; py_simpl;
      [|intros [= <- <-]; split; [done | by left]].
    specialize (Hloop s0 m0 l0 h0).
    destruct (recompute_loop _ _ _ _ _ _ p) as [p1 out|p1 e1].
    + destruct Hloop as (-> & ts & tm & tl & -> & Hts & Htm & Htl). cbv beta iota.
      destruct (update_idx =? 0) eqn:Hu; [|done].
      apply Z.eqb_eq in Hu.
      pose proof (self_check_outcome (latent_mean st) (m0 :: tm) (latent_logvar st)
                    (l0 :: tl) p) as Hcheck.
      match goal with
      | |- match ?c with _ => _ end = _ → _ =>
          match type of Hcheck with
          | match ?c0 with _ => _ end => change c0 with c in Hcheck
          end;
          destruct c as [p2 []|p2 e2]; [done|]
      end.
      destruct Hcheck as [-> ->]. intros [= <- <-]. split; [done|]. by right.
    + destruct Hloop as [-> ->]. intros [= <- <-]. split; [done | by left].
  - intros [s0 ->] [m0 ->] [l0 ->] [h0 ->] Hlen Hne. py_simpl.
    pose proof (recompute_loop_spec sample st (seq 0 (length (actions st))) h0
                  ([s0], [m0], [l0]) p) as Hl.
    destruct (recompute_loop _ _ _ _ _ _ p) as [p1 [[a1 a2] a3]|p1 e].
    + destruct Hl as (_ & Hall & _). exfalso.
      destruct (actions st) as [|a acts] eqn:Ha; [done|].
      rewrite Forall_forall in Hall.
      destruct (Hall (length acts)) as [d Hd].
      { apply elem_of_seq. simpl. lia. }
      apply lookup_lt_Some in Hd. simpl in Hlen. lia.
    + by destruct Hl as (-> & -> & _).
Qed.

End RecomputeLayout.
End RecomputeLayout.

Module RecomputeLayoutWitnesses.
Import Helpers RecomputeSpec RecomputeLayout.

Lemma recompute_keeps_the_prior_and_the_layout_witness :
  let p := Helpers.mk_proc prior_only_storage [] in
  let r := Helpers.recompute_embeddings swapping_encoder false 0 None p in
  r = Ok (state_of r) tt ∧
  length (state_of r).(policy_storage).(latent_mean) = 2%nat ∧
  (state_of r).(policy_storage).(latent_mean) !! 0%nat
  = p.(policy_storage).(latent_mean) !! 0%nat.
Proof.
  intros p r.
  assert (r = Ok (state_of r) tt) as Hr by (vm_compute; reflexivity).
  destruct (proj1 (recompute_keeps_the_prior_and_the_layout swapping_encoder false 0 None p)
              (state_of r) Hr) as (_ & Hlen & _ & _ & _ & Hprior & _).
  split; [exact Hr|]. split; [exact Hlen | exact Hprior].
Defined.

End RecomputeLayoutWitnesses.
